(** * The CD-ROM drive controller (src/core/cdrom.cpp)

    A shallow embedding of the controller: the register window, the four
    FIFOs, the interrupt arbiter, the command dispatcher, the drive state
    machine, the sector processor and the XA-ADPCM resampler, followed by
    the properties of the specification that were checked against it.

    Bytes, ticks and samples are [Z] with the C++ truncations written out;
    the controller's members are the fields of [State]; a failed [Assert],
    a [Panic] and behaviour the sources do not determine are faults of the
    result type [res]. *)

From Stdlib Require Import String ZArith List Bool Lia.
Import ListNotations.
Local Open Scope string_scope.
Local Open Scope list_scope.
Local Open Scope Z_scope.

(** ** Results and faults *)

Inductive Fault : Type :=
| AssertionFailed (condition : string)
| Panicked (message : string)
| Unspecified (what : string).

Inductive res (A : Type) : Type :=
| Ok (a : A)
| Err (f : Fault).
Arguments Ok {A} a.
Arguments Err {A} f.

Definition bind {A B : Type} (m : res A) (k : A -> res B) : res B :=
  match m with
  | Ok a => k a
  | Err f => Err f
  end.

Notation "'do' x <- m ; k" := (bind m (fun x => k))
  (at level 10, x pattern, m at level 100, k at level 200).

Definition Assert {A : Type} (c : bool) (condition : string) (k : res A) : res A :=
  if c then k else Err (AssertionFailed condition).

Definition is_ok {A : Type} (m : res A) : bool :=
  match m with Ok _ => true | Err _ => false end.

(** ** Fixed-width integers *)

Definition u8 (x : Z) : Z := x mod 256.
Definition u32 (x : Z) : Z := x mod 4294967296.
Definition s16 (x : Z) : Z := (x + 32768) mod 65536 - 32768.
Definition s32 (x : Z) : Z := (x + 2147483648) mod 4294967296 - 2147483648.

Definition Truncate8 (x : Z) : Z := u8 x.

(** std::clamp<s32>(v, lo, hi) *)
Definition clamp (v lo hi : Z) : Z :=
  if v <? lo then lo else if hi <? v then hi else v.

(** A one-bit member of a bitfield union: write bit [n] of [x]. *)
Definition bitfield_set (n : Z) (b : bool) (x : Z) : Z :=
  if b then Z.setbit x n else Z.clearbit x n.

(** Modelled from the spec: BCDToDecimal and DecimalToBCD are declared in a
    header that is not among the sources; each nibble of a BCD byte is one
    decimal digit, and the results are bytes. *)
Definition BCDToDecimal (x : Z) : Z := u8 (Z.shiftr x 4 * 10 + Z.land x 15).
Definition DecimalToBCD (x : Z) : Z := u8 (Z.shiftl (x / 10) 4 + x mod 10).

(** ** FIFO queues

    Modelled from the spec: the FIFO container class is not among the
    sources.  A queue is the list of its bytes, oldest first, with a fixed
    capacity.  Pushing into a full queue and popping or peeking past the
    end are not described by the specification and are faults here. *)
Module FIFO.

Definition IsEmpty (q : list Z) : bool :=
  match q with [] => true | _ => false end.

Definition GetSize (q : list Z) : Z := Z.of_nat (length q).

Definition IsFull (capacity : Z) (q : list Z) : bool := capacity <=? GetSize q.

Definition Push (capacity : Z) (v : Z) (q : list Z) : res (list Z) :=
  if IsFull capacity q then Err (Panicked "push to a full FIFO") else Ok (q ++ [v]).

Fixpoint PushRange (capacity : Z) (vs : list Z) (q : list Z) : res (list Z) :=
  match vs with
  | [] => Ok q
  | v :: vs' => do q' <- Push capacity v q; PushRange capacity vs' q'
  end.

Definition Pop (q : list Z) : res (Z * list Z) :=
  match q with
  | [] => Err (Panicked "pop from an empty FIFO")
  | v :: q' => Ok (v, q')
  end.

Definition RemoveOne (q : list Z) : res (list Z) :=
  match q with
  | [] => Err (Panicked "remove from an empty FIFO")
  | _ :: q' => Ok q'
  end.

Definition Peek (i : nat) (q : list Z) : res Z :=
  match nth_error q i with
  | Some v => Ok v
  | None => Err (Unspecified "peek past the end of a FIFO")
  end.

Definition PopRange (count : Z) (q : list Z) : res (list Z * list Z) :=
  if GetSize q <? count then Err (Panicked "pop range past the end of a FIFO")
  else Ok (firstn (Z.to_nat count) q, skipn (Z.to_nat count) q).

(** PushFromQueue: move bytes from [src] to [dst] while [src] has bytes and
    [dst] has room; returns the new [dst] and what is left in [src]. *)
Definition PushFromQueue (capacity : Z) (dst src : list Z) : list Z * list Z :=
  let room := Z.to_nat (capacity - GetSize dst) in
  (dst ++ firstn room src, skipn room src).

End FIFO.

(** Modelled from the spec: the sizes are constants of absent headers.
    The parameter FIFO holds 16 bytes and the data FIFO one raw sector less
    its sync field; the response FIFOs are taken to hold 16 bytes as well;
    the interrupt registers have five bits and a resampler ring 32
    samples. *)
Definition PARAM_FIFO_SIZE : Z := 16.
Definition RESPONSE_FIFO_SIZE : Z := 16.
Definition RAW_SECTOR_SIZE : Z := 2352.
Definition SECTOR_SYNC_SIZE : Z := 12.
Definition DATA_SECTOR_SIZE : Z := 2048.
Definition DATA_FIFO_SIZE : Z := RAW_SECTOR_SIZE - SECTOR_SYNC_SIZE.
Definition INTERRUPT_REGISTER_MASK : Z := 31.
Definition XA_RESAMPLE_RING_BUFFER_SIZE : Z := 32.

(** Modelled from the spec: MASTER_CLOCK is declared outside the sources;
    it is the console's master clock, 44100 Hz times 0x300. *)
Definition MASTER_CLOCK : Z := 33868800.

(** ** Disc positions and the disc image *)

Record Position : Type := mkPosition {
  minute : Z;
  second : Z;
  frame : Z
}.

Definition Position_eqb (a b : Position) : bool :=
  (minute a =? minute b) && (second a =? second b) && (frame a =? frame b).

Definition FRAMES_PER_SECOND : Z := 75.
Definition SECONDS_PER_MINUTE : Z := 60.
Definition FRAMES_PER_MINUTE : Z := FRAMES_PER_SECOND * SECONDS_PER_MINUTE.

(** Modelled from the spec: the position type of the disc-image layer is
    not among the sources; a second is 75 frames and a minute 60 seconds. *)
Definition ToLBA (p : Position) : Z :=
  u32 (minute p * FRAMES_PER_MINUTE + second p * FRAMES_PER_SECOND + frame p).

Definition FromLBA (lba : Z) : Position :=
  {| minute := Truncate8 (lba / FRAMES_PER_SECOND / SECONDS_PER_MINUTE);
     second := Truncate8 (lba / FRAMES_PER_SECOND mod SECONDS_PER_MINUTE);
     frame := Truncate8 (lba mod FRAMES_PER_SECOND) |}.

(** Modelled from the spec: the disc image is an external collaborator
    (section 6, disc image interface).  An image is its current position
    and the answers it gives to the controller's queries. *)
Record CDImage : Type := mkCDImage {
  file_name : string;
  position_on_disc : Z;
  lba_count : Z;
  track_count : Z;
  track_number_at : Z -> Z;
  track_start_msf : Z -> Position;
  seekable : Z -> bool;
  raw_sector : Z -> list Z
}.

(** std::vector::resize(n) on a byte buffer: cut, or fill with zeros. *)
Definition resize (n : Z) (l : list Z) : list Z :=
  firstn (Z.to_nat n) (l ++ repeat 0 (Z.to_nat n - length l)).

Module Image.

Definition set_position (lba : Z) (m : CDImage) : CDImage :=
  {| file_name := file_name m; position_on_disc := lba; lba_count := lba_count m;
     track_count := track_count m; track_number_at := track_number_at m;
     track_start_msf := track_start_msf m; seekable := seekable m;
     raw_sector := raw_sector m |}.

Definition GetPositionOnDisc (m : CDImage) : Z := position_on_disc m.
Definition GetMSFPositionOnDisc (m : CDImage) : Position := FromLBA (position_on_disc m).
Definition GetTrackNumber (m : CDImage) : Z := track_number_at m (position_on_disc m).
Definition GetTrackCount (m : CDImage) : Z := track_count m.
Definition GetTrackStartMSFPosition (m : CDImage) (track : Z) : Position :=
  track_start_msf m track.
Definition GetLBACount (m : CDImage) : Z := lba_count m.

(** Seek(lba): the image accepts or refuses the target. *)
Definition Seek (lba : Z) (m : CDImage) : bool * CDImage :=
  if seekable m lba then (true, set_position lba m) else (false, m).

Definition SeekMSF (p : Position) (m : CDImage) : bool * CDImage := Seek (ToLBA p) m.

(** Read(RawSector, 1, buffer): the sector under the head, which then
    moves on by one. *)
Definition Read (m : CDImage) : list Z * CDImage :=
  (resize RAW_SECTOR_SIZE (raw_sector m (position_on_disc m)),
   set_position (position_on_disc m + 1) m).

End Image.

(** ** The controller's state *)

Inductive CommandState : Type := Idle | WaitForExecute | WaitForIRQClear.

Definition CommandState_eqb (a b : CommandState) : bool :=
  match a, b with
  | Idle, Idle | WaitForExecute, WaitForExecute | WaitForIRQClear, WaitForIRQClear => true
  | _, _ => false
  end.

(** Modelled from the spec: the interrupt codes are an enumeration of the
    absent header; the glossary gives ACK = 3, INT1 = 1, INT2 = 2, INT5 = 5. *)
Definition INT1 : Z := 1.
Definition INT2 : Z := 2.
Definition ACK : Z := 3.
Definition INT5 : Z := 5.

(** std::array<std::array<u8, 2>, 2>: [mRC] is the entry [R][C]. *)
Record VolumeMatrix : Type := mkVolumeMatrix {
  m00 : Z; m01 : Z;
  m10 : Z; m11 : Z
}.

(** The two resampler rings, [0] for the left and [1] for the right channel. *)
Record RingBuffers : Type := mkRingBuffers {
  left_ringbuf : list Z;
  right_ringbuf : list Z
}.

(** Calls made on the audio mixer, in the order they are made. *)
Inductive SPUCall : Type :=
| EnsureCDAudioSpace (num_samples : Z)
| AddCDAudioSample (left right : Z).

(** The members of the controller, followed by what it shows to its
    collaborators: the level of the DMA request line, the number of
    interrupt requests made, the calls made on the mixer, the downcount
    programmed into the scheduler and the ticks the scheduler has not yet
    passed on. *)
Record State : Type := mkState {
  command_state : CommandState;
  command : Z;
  command_stage : Z;
  command_remaining_ticks : Z;
  read_or_seek_remaining_ticks : Z;
  status : Z;
  secondary_status : Z;
  mode : Z;
  interrupt_enable_register : Z;
  interrupt_flag_register : Z;
  pending_async_interrupt : Z;
  setloc_position : Position;
  seek_position : Position;
  setloc_pending : bool;
  read_after_seek : bool;
  play_after_seek : bool;
  muted : bool;
  adpcm_muted : bool;
  filter_file_number : Z;
  filter_channel_number : Z;
  last_sector_header : list Z;
  last_sector_subheader : list Z;
  cd_audio_volume_matrix : VolumeMatrix;
  next_cd_audio_volume_matrix : VolumeMatrix;
  xa_last_samples : list Z;
  xa_resample_ring_buffer : RingBuffers;
  xa_resample_p : Z;
  xa_resample_sixstep : Z;
  param_fifo : list Z;
  response_fifo : list Z;
  async_response_fifo : list Z;
  data_fifo : list Z;
  sector_buffer : list Z;
  media : option CDImage;
  dma_request : bool;
  irq_requests : nat;
  spu : list SPUCall;
  downcount : Z;
  pending_ticks : Z
}.

Definition set_command_state (v : CommandState) (s : State) : State :=
  {| command_state := v; command := command s; command_stage := command_stage s;
     command_remaining_ticks := command_remaining_ticks s;
     read_or_seek_remaining_ticks := read_or_seek_remaining_ticks s; status := status s;
     secondary_status := secondary_status s; mode := mode s;
     interrupt_enable_register := interrupt_enable_register s;
     interrupt_flag_register := interrupt_flag_register s;
     pending_async_interrupt := pending_async_interrupt s; setloc_position := setloc_position s;
     seek_position := seek_position s; setloc_pending := setloc_pending s;
     read_after_seek := read_after_seek s; play_after_seek := play_after_seek s;
     muted := muted s; adpcm_muted := adpcm_muted s; filter_file_number := filter_file_number s;
     filter_channel_number := filter_channel_number s;
     last_sector_header := last_sector_header s;
     last_sector_subheader := last_sector_subheader s;
     cd_audio_volume_matrix := cd_audio_volume_matrix s;
     next_cd_audio_volume_matrix := next_cd_audio_volume_matrix s;
     xa_last_samples := xa_last_samples s; xa_resample_ring_buffer := xa_resample_ring_buffer s;
     xa_resample_p := xa_resample_p s; xa_resample_sixstep := xa_resample_sixstep s;
     param_fifo := param_fifo s; response_fifo := response_fifo s;
     async_response_fifo := async_response_fifo s; data_fifo := data_fifo s;
     sector_buffer := sector_buffer s; media := media s; dma_request := dma_request s;
     irq_requests := irq_requests s; spu := spu s; downcount := downcount s;
     pending_ticks := pending_ticks s |}.

Definition set_command (v : Z) (s : State) : State :=
  {| command_state := command_state s; command := v; command_stage := command_stage s;
     command_remaining_ticks := command_remaining_ticks s;
     read_or_seek_remaining_ticks := read_or_seek_remaining_ticks s; status := status s;
     secondary_status := secondary_status s; mode := mode s;
     interrupt_enable_register := interrupt_enable_register s;
     interrupt_flag_register := interrupt_flag_register s;
     pending_async_interrupt := pending_async_interrupt s; setloc_position := setloc_position s;
     seek_position := seek_position s; setloc_pending := setloc_pending s;
     read_after_seek := read_after_seek s; play_after_seek := play_after_seek s;
     muted := muted s; adpcm_muted := adpcm_muted s; filter_file_number := filter_file_number s;
     filter_channel_number := filter_channel_number s;
     last_sector_header := last_sector_header s;
     last_sector_subheader := last_sector_subheader s;
     cd_audio_volume_matrix := cd_audio_volume_matrix s;
     next_cd_audio_volume_matrix := next_cd_audio_volume_matrix s;
     xa_last_samples := xa_last_samples s; xa_resample_ring_buffer := xa_resample_ring_buffer s;
     xa_resample_p := xa_resample_p s; xa_resample_sixstep := xa_resample_sixstep s;
     param_fifo := param_fifo s; response_fifo := response_fifo s;
     async_response_fifo := async_response_fifo s; data_fifo := data_fifo s;
     sector_buffer := sector_buffer s; media := media s; dma_request := dma_request s;
     irq_requests := irq_requests s; spu := spu s; downcount := downcount s;
     pending_ticks := pending_ticks s |}.

Definition set_command_stage (v : Z) (s : State) : State :=
  {| command_state := command_state s; command := command s; command_stage := v;
     command_remaining_ticks := command_remaining_ticks s;
     read_or_seek_remaining_ticks := read_or_seek_remaining_ticks s; status := status s;
     secondary_status := secondary_status s; mode := mode s;
     interrupt_enable_register := interrupt_enable_register s;
     interrupt_flag_register := interrupt_flag_register s;
     pending_async_interrupt := pending_async_interrupt s; setloc_position := setloc_position s;
     seek_position := seek_position s; setloc_pending := setloc_pending s;
     read_after_seek := read_after_seek s; play_after_seek := play_after_seek s;
     muted := muted s; adpcm_muted := adpcm_muted s; filter_file_number := filter_file_number s;
     filter_channel_number := filter_channel_number s;
     last_sector_header := last_sector_header s;
     last_sector_subheader := last_sector_subheader s;
     cd_audio_volume_matrix := cd_audio_volume_matrix s;
     next_cd_audio_volume_matrix := next_cd_audio_volume_matrix s;
     xa_last_samples := xa_last_samples s; xa_resample_ring_buffer := xa_resample_ring_buffer s;
     xa_resample_p := xa_resample_p s; xa_resample_sixstep := xa_resample_sixstep s;
     param_fifo := param_fifo s; response_fifo := response_fifo s;
     async_response_fifo := async_response_fifo s; data_fifo := data_fifo s;
     sector_buffer := sector_buffer s; media := media s; dma_request := dma_request s;
     irq_requests := irq_requests s; spu := spu s; downcount := downcount s;
     pending_ticks := pending_ticks s |}.

Definition set_command_remaining_ticks (v : Z) (s : State) : State :=
  {| command_state := command_state s; command := command s; command_stage := command_stage s;
     command_remaining_ticks := v;
     read_or_seek_remaining_ticks := read_or_seek_remaining_ticks s; status := status s;
     secondary_status := secondary_status s; mode := mode s;
     interrupt_enable_register := interrupt_enable_register s;
     interrupt_flag_register := interrupt_flag_register s;
     pending_async_interrupt := pending_async_interrupt s; setloc_position := setloc_position s;
     seek_position := seek_position s; setloc_pending := setloc_pending s;
     read_after_seek := read_after_seek s; play_after_seek := play_after_seek s;
     muted := muted s; adpcm_muted := adpcm_muted s; filter_file_number := filter_file_number s;
     filter_channel_number := filter_channel_number s;
     last_sector_header := last_sector_header s;
     last_sector_subheader := last_sector_subheader s;
     cd_audio_volume_matrix := cd_audio_volume_matrix s;
     next_cd_audio_volume_matrix := next_cd_audio_volume_matrix s;
     xa_last_samples := xa_last_samples s; xa_resample_ring_buffer := xa_resample_ring_buffer s;
     xa_resample_p := xa_resample_p s; xa_resample_sixstep := xa_resample_sixstep s;
     param_fifo := param_fifo s; response_fifo := response_fifo s;
     async_response_fifo := async_response_fifo s; data_fifo := data_fifo s;
     sector_buffer := sector_buffer s; media := media s; dma_request := dma_request s;
     irq_requests := irq_requests s; spu := spu s; downcount := downcount s;
     pending_ticks := pending_ticks s |}.

Definition set_read_or_seek_remaining_ticks (v : Z) (s : State) : State :=
  {| command_state := command_state s; command := command s; command_stage := command_stage s;
     command_remaining_ticks := command_remaining_ticks s; read_or_seek_remaining_ticks := v;
     status := status s; secondary_status := secondary_status s; mode := mode s;
     interrupt_enable_register := interrupt_enable_register s;
     interrupt_flag_register := interrupt_flag_register s;
     pending_async_interrupt := pending_async_interrupt s; setloc_position := setloc_position s;
     seek_position := seek_position s; setloc_pending := setloc_pending s;
     read_after_seek := read_after_seek s; play_after_seek := play_after_seek s;
     muted := muted s; adpcm_muted := adpcm_muted s; filter_file_number := filter_file_number s;
     filter_channel_number := filter_channel_number s;
     last_sector_header := last_sector_header s;
     last_sector_subheader := last_sector_subheader s;
     cd_audio_volume_matrix := cd_audio_volume_matrix s;
     next_cd_audio_volume_matrix := next_cd_audio_volume_matrix s;
     xa_last_samples := xa_last_samples s; xa_resample_ring_buffer := xa_resample_ring_buffer s;
     xa_resample_p := xa_resample_p s; xa_resample_sixstep := xa_resample_sixstep s;
     param_fifo := param_fifo s; response_fifo := response_fifo s;
     async_response_fifo := async_response_fifo s; data_fifo := data_fifo s;
     sector_buffer := sector_buffer s; media := media s; dma_request := dma_request s;
     irq_requests := irq_requests s; spu := spu s; downcount := downcount s;
     pending_ticks := pending_ticks s |}.

Definition set_status (v : Z) (s : State) : State :=
  {| command_state := command_state s; command := command s; command_stage := command_stage s;
     command_remaining_ticks := command_remaining_ticks s;
     read_or_seek_remaining_ticks := read_or_seek_remaining_ticks s; status := v;
     secondary_status := secondary_status s; mode := mode s;
     interrupt_enable_register := interrupt_enable_register s;
     interrupt_flag_register := interrupt_flag_register s;
     pending_async_interrupt := pending_async_interrupt s; setloc_position := setloc_position s;
     seek_position := seek_position s; setloc_pending := setloc_pending s;
     read_after_seek := read_after_seek s; play_after_seek := play_after_seek s;
     muted := muted s; adpcm_muted := adpcm_muted s; filter_file_number := filter_file_number s;
     filter_channel_number := filter_channel_number s;
     last_sector_header := last_sector_header s;
     last_sector_subheader := last_sector_subheader s;
     cd_audio_volume_matrix := cd_audio_volume_matrix s;
     next_cd_audio_volume_matrix := next_cd_audio_volume_matrix s;
     xa_last_samples := xa_last_samples s; xa_resample_ring_buffer := xa_resample_ring_buffer s;
     xa_resample_p := xa_resample_p s; xa_resample_sixstep := xa_resample_sixstep s;
     param_fifo := param_fifo s; response_fifo := response_fifo s;
     async_response_fifo := async_response_fifo s; data_fifo := data_fifo s;
     sector_buffer := sector_buffer s; media := media s; dma_request := dma_request s;
     irq_requests := irq_requests s; spu := spu s; downcount := downcount s;
     pending_ticks := pending_ticks s |}.

Definition set_secondary_status (v : Z) (s : State) : State :=
  {| command_state := command_state s; command := command s; command_stage := command_stage s;
     command_remaining_ticks := command_remaining_ticks s;
     read_or_seek_remaining_ticks := read_or_seek_remaining_ticks s; status := status s;
     secondary_status := v; mode := mode s;
     interrupt_enable_register := interrupt_enable_register s;
     interrupt_flag_register := interrupt_flag_register s;
     pending_async_interrupt := pending_async_interrupt s; setloc_position := setloc_position s;
     seek_position := seek_position s; setloc_pending := setloc_pending s;
     read_after_seek := read_after_seek s; play_after_seek := play_after_seek s;
     muted := muted s; adpcm_muted := adpcm_muted s; filter_file_number := filter_file_number s;
     filter_channel_number := filter_channel_number s;
     last_sector_header := last_sector_header s;
     last_sector_subheader := last_sector_subheader s;
     cd_audio_volume_matrix := cd_audio_volume_matrix s;
     next_cd_audio_volume_matrix := next_cd_audio_volume_matrix s;
     xa_last_samples := xa_last_samples s; xa_resample_ring_buffer := xa_resample_ring_buffer s;
     xa_resample_p := xa_resample_p s; xa_resample_sixstep := xa_resample_sixstep s;
     param_fifo := param_fifo s; response_fifo := response_fifo s;
     async_response_fifo := async_response_fifo s; data_fifo := data_fifo s;
     sector_buffer := sector_buffer s; media := media s; dma_request := dma_request s;
     irq_requests := irq_requests s; spu := spu s; downcount := downcount s;
     pending_ticks := pending_ticks s |}.

Definition set_mode (v : Z) (s : State) : State :=
  {| command_state := command_state s; command := command s; command_stage := command_stage s;
     command_remaining_ticks := command_remaining_ticks s;
     read_or_seek_remaining_ticks := read_or_seek_remaining_ticks s; status := status s;
     secondary_status := secondary_status s; mode := v;
     interrupt_enable_register := interrupt_enable_register s;
     interrupt_flag_register := interrupt_flag_register s;
     pending_async_interrupt := pending_async_interrupt s; setloc_position := setloc_position s;
     seek_position := seek_position s; setloc_pending := setloc_pending s;
     read_after_seek := read_after_seek s; play_after_seek := play_after_seek s;
     muted := muted s; adpcm_muted := adpcm_muted s; filter_file_number := filter_file_number s;
     filter_channel_number := filter_channel_number s;
     last_sector_header := last_sector_header s;
     last_sector_subheader := last_sector_subheader s;
     cd_audio_volume_matrix := cd_audio_volume_matrix s;
     next_cd_audio_volume_matrix := next_cd_audio_volume_matrix s;
     xa_last_samples := xa_last_samples s; xa_resample_ring_buffer := xa_resample_ring_buffer s;
     xa_resample_p := xa_resample_p s; xa_resample_sixstep := xa_resample_sixstep s;
     param_fifo := param_fifo s; response_fifo := response_fifo s;
     async_response_fifo := async_response_fifo s; data_fifo := data_fifo s;
     sector_buffer := sector_buffer s; media := media s; dma_request := dma_request s;
     irq_requests := irq_requests s; spu := spu s; downcount := downcount s;
     pending_ticks := pending_ticks s |}.

Definition set_interrupt_enable_register (v : Z) (s : State) : State :=
  {| command_state := command_state s; command := command s; command_stage := command_stage s;
     command_remaining_ticks := command_remaining_ticks s;
     read_or_seek_remaining_ticks := read_or_seek_remaining_ticks s; status := status s;
     secondary_status := secondary_status s; mode := mode s; interrupt_enable_register := v;
     interrupt_flag_register := interrupt_flag_register s;
     pending_async_interrupt := pending_async_interrupt s; setloc_position := setloc_position s;
     seek_position := seek_position s; setloc_pending := setloc_pending s;
     read_after_seek := read_after_seek s; play_after_seek := play_after_seek s;
     muted := muted s; adpcm_muted := adpcm_muted s; filter_file_number := filter_file_number s;
     filter_channel_number := filter_channel_number s;
     last_sector_header := last_sector_header s;
     last_sector_subheader := last_sector_subheader s;
     cd_audio_volume_matrix := cd_audio_volume_matrix s;
     next_cd_audio_volume_matrix := next_cd_audio_volume_matrix s;
     xa_last_samples := xa_last_samples s; xa_resample_ring_buffer := xa_resample_ring_buffer s;
     xa_resample_p := xa_resample_p s; xa_resample_sixstep := xa_resample_sixstep s;
     param_fifo := param_fifo s; response_fifo := response_fifo s;
     async_response_fifo := async_response_fifo s; data_fifo := data_fifo s;
     sector_buffer := sector_buffer s; media := media s; dma_request := dma_request s;
     irq_requests := irq_requests s; spu := spu s; downcount := downcount s;
     pending_ticks := pending_ticks s |}.

Definition set_interrupt_flag_register (v : Z) (s : State) : State :=
  {| command_state := command_state s; command := command s; command_stage := command_stage s;
     command_remaining_ticks := command_remaining_ticks s;
     read_or_seek_remaining_ticks := read_or_seek_remaining_ticks s; status := status s;
     secondary_status := secondary_status s; mode := mode s;
     interrupt_enable_register := interrupt_enable_register s; interrupt_flag_register := v;
     pending_async_interrupt := pending_async_interrupt s; setloc_position := setloc_position s;
     seek_position := seek_position s; setloc_pending := setloc_pending s;
     read_after_seek := read_after_seek s; play_after_seek := play_after_seek s;
     muted := muted s; adpcm_muted := adpcm_muted s; filter_file_number := filter_file_number s;
     filter_channel_number := filter_channel_number s;
     last_sector_header := last_sector_header s;
     last_sector_subheader := last_sector_subheader s;
     cd_audio_volume_matrix := cd_audio_volume_matrix s;
     next_cd_audio_volume_matrix := next_cd_audio_volume_matrix s;
     xa_last_samples := xa_last_samples s; xa_resample_ring_buffer := xa_resample_ring_buffer s;
     xa_resample_p := xa_resample_p s; xa_resample_sixstep := xa_resample_sixstep s;
     param_fifo := param_fifo s; response_fifo := response_fifo s;
     async_response_fifo := async_response_fifo s; data_fifo := data_fifo s;
     sector_buffer := sector_buffer s; media := media s; dma_request := dma_request s;
     irq_requests := irq_requests s; spu := spu s; downcount := downcount s;
     pending_ticks := pending_ticks s |}.

Definition set_pending_async_interrupt (v : Z) (s : State) : State :=
  {| command_state := command_state s; command := command s; command_stage := command_stage s;
     command_remaining_ticks := command_remaining_ticks s;
     read_or_seek_remaining_ticks := read_or_seek_remaining_ticks s; status := status s;
     secondary_status := secondary_status s; mode := mode s;
     interrupt_enable_register := interrupt_enable_register s;
     interrupt_flag_register := interrupt_flag_register s; pending_async_interrupt := v;
     setloc_position := setloc_position s; seek_position := seek_position s;
     setloc_pending := setloc_pending s; read_after_seek := read_after_seek s;
     play_after_seek := play_after_seek s; muted := muted s; adpcm_muted := adpcm_muted s;
     filter_file_number := filter_file_number s;
     filter_channel_number := filter_channel_number s;
     last_sector_header := last_sector_header s;
     last_sector_subheader := last_sector_subheader s;
     cd_audio_volume_matrix := cd_audio_volume_matrix s;
     next_cd_audio_volume_matrix := next_cd_audio_volume_matrix s;
     xa_last_samples := xa_last_samples s; xa_resample_ring_buffer := xa_resample_ring_buffer s;
     xa_resample_p := xa_resample_p s; xa_resample_sixstep := xa_resample_sixstep s;
     param_fifo := param_fifo s; response_fifo := response_fifo s;
     async_response_fifo := async_response_fifo s; data_fifo := data_fifo s;
     sector_buffer := sector_buffer s; media := media s; dma_request := dma_request s;
     irq_requests := irq_requests s; spu := spu s; downcount := downcount s;
     pending_ticks := pending_ticks s |}.

Definition set_setloc_position (v : Position) (s : State) : State :=
  {| command_state := command_state s; command := command s; command_stage := command_stage s;
     command_remaining_ticks := command_remaining_ticks s;
     read_or_seek_remaining_ticks := read_or_seek_remaining_ticks s; status := status s;
     secondary_status := secondary_status s; mode := mode s;
     interrupt_enable_register := interrupt_enable_register s;
     interrupt_flag_register := interrupt_flag_register s;
     pending_async_interrupt := pending_async_interrupt s; setloc_position := v;
     seek_position := seek_position s; setloc_pending := setloc_pending s;
     read_after_seek := read_after_seek s; play_after_seek := play_after_seek s;
     muted := muted s; adpcm_muted := adpcm_muted s; filter_file_number := filter_file_number s;
     filter_channel_number := filter_channel_number s;
     last_sector_header := last_sector_header s;
     last_sector_subheader := last_sector_subheader s;
     cd_audio_volume_matrix := cd_audio_volume_matrix s;
     next_cd_audio_volume_matrix := next_cd_audio_volume_matrix s;
     xa_last_samples := xa_last_samples s; xa_resample_ring_buffer := xa_resample_ring_buffer s;
     xa_resample_p := xa_resample_p s; xa_resample_sixstep := xa_resample_sixstep s;
     param_fifo := param_fifo s; response_fifo := response_fifo s;
     async_response_fifo := async_response_fifo s; data_fifo := data_fifo s;
     sector_buffer := sector_buffer s; media := media s; dma_request := dma_request s;
     irq_requests := irq_requests s; spu := spu s; downcount := downcount s;
     pending_ticks := pending_ticks s |}.

Definition set_seek_position (v : Position) (s : State) : State :=
  {| command_state := command_state s; command := command s; command_stage := command_stage s;
     command_remaining_ticks := command_remaining_ticks s;
     read_or_seek_remaining_ticks := read_or_seek_remaining_ticks s; status := status s;
     secondary_status := secondary_status s; mode := mode s;
     interrupt_enable_register := interrupt_enable_register s;
     interrupt_flag_register := interrupt_flag_register s;
     pending_async_interrupt := pending_async_interrupt s; setloc_position := setloc_position s;
     seek_position := v; setloc_pending := setloc_pending s;
     read_after_seek := read_after_seek s; play_after_seek := play_after_seek s;
     muted := muted s; adpcm_muted := adpcm_muted s; filter_file_number := filter_file_number s;
     filter_channel_number := filter_channel_number s;
     last_sector_header := last_sector_header s;
     last_sector_subheader := last_sector_subheader s;
     cd_audio_volume_matrix := cd_audio_volume_matrix s;
     next_cd_audio_volume_matrix := next_cd_audio_volume_matrix s;
     xa_last_samples := xa_last_samples s; xa_resample_ring_buffer := xa_resample_ring_buffer s;
     xa_resample_p := xa_resample_p s; xa_resample_sixstep := xa_resample_sixstep s;
     param_fifo := param_fifo s; response_fifo := response_fifo s;
     async_response_fifo := async_response_fifo s; data_fifo := data_fifo s;
     sector_buffer := sector_buffer s; media := media s; dma_request := dma_request s;
     irq_requests := irq_requests s; spu := spu s; downcount := downcount s;
     pending_ticks := pending_ticks s |}.

Definition set_setloc_pending (v : bool) (s : State) : State :=
  {| command_state := command_state s; command := command s; command_stage := command_stage s;
     command_remaining_ticks := command_remaining_ticks s;
     read_or_seek_remaining_ticks := read_or_seek_remaining_ticks s; status := status s;
     secondary_status := secondary_status s; mode := mode s;
     interrupt_enable_register := interrupt_enable_register s;
     interrupt_flag_register := interrupt_flag_register s;
     pending_async_interrupt := pending_async_interrupt s; setloc_position := setloc_position s;
     seek_position := seek_position s; setloc_pending := v; read_after_seek := read_after_seek s;
     play_after_seek := play_after_seek s; muted := muted s; adpcm_muted := adpcm_muted s;
     filter_file_number := filter_file_number s;
     filter_channel_number := filter_channel_number s;
     last_sector_header := last_sector_header s;
     last_sector_subheader := last_sector_subheader s;
     cd_audio_volume_matrix := cd_audio_volume_matrix s;
     next_cd_audio_volume_matrix := next_cd_audio_volume_matrix s;
     xa_last_samples := xa_last_samples s; xa_resample_ring_buffer := xa_resample_ring_buffer s;
     xa_resample_p := xa_resample_p s; xa_resample_sixstep := xa_resample_sixstep s;
     param_fifo := param_fifo s; response_fifo := response_fifo s;
     async_response_fifo := async_response_fifo s; data_fifo := data_fifo s;
     sector_buffer := sector_buffer s; media := media s; dma_request := dma_request s;
     irq_requests := irq_requests s; spu := spu s; downcount := downcount s;
     pending_ticks := pending_ticks s |}.

Definition set_read_after_seek (v : bool) (s : State) : State :=
  {| command_state := command_state s; command := command s; command_stage := command_stage s;
     command_remaining_ticks := command_remaining_ticks s;
     read_or_seek_remaining_ticks := read_or_seek_remaining_ticks s; status := status s;
     secondary_status := secondary_status s; mode := mode s;
     interrupt_enable_register := interrupt_enable_register s;
     interrupt_flag_register := interrupt_flag_register s;
     pending_async_interrupt := pending_async_interrupt s; setloc_position := setloc_position s;
     seek_position := seek_position s; setloc_pending := setloc_pending s; read_after_seek := v;
     play_after_seek := play_after_seek s; muted := muted s; adpcm_muted := adpcm_muted s;
     filter_file_number := filter_file_number s;
     filter_channel_number := filter_channel_number s;
     last_sector_header := last_sector_header s;
     last_sector_subheader := last_sector_subheader s;
     cd_audio_volume_matrix := cd_audio_volume_matrix s;
     next_cd_audio_volume_matrix := next_cd_audio_volume_matrix s;
     xa_last_samples := xa_last_samples s; xa_resample_ring_buffer := xa_resample_ring_buffer s;
     xa_resample_p := xa_resample_p s; xa_resample_sixstep := xa_resample_sixstep s;
     param_fifo := param_fifo s; response_fifo := response_fifo s;
     async_response_fifo := async_response_fifo s; data_fifo := data_fifo s;
     sector_buffer := sector_buffer s; media := media s; dma_request := dma_request s;
     irq_requests := irq_requests s; spu := spu s; downcount := downcount s;
     pending_ticks := pending_ticks s |}.

Definition set_play_after_seek (v : bool) (s : State) : State :=
  {| command_state := command_state s; command := command s; command_stage := command_stage s;
     command_remaining_ticks := command_remaining_ticks s;
     read_or_seek_remaining_ticks := read_or_seek_remaining_ticks s; status := status s;
     secondary_status := secondary_status s; mode := mode s;
     interrupt_enable_register := interrupt_enable_register s;
     interrupt_flag_register := interrupt_flag_register s;
     pending_async_interrupt := pending_async_interrupt s; setloc_position := setloc_position s;
     seek_position := seek_position s; setloc_pending := setloc_pending s;
     read_after_seek := read_after_seek s; play_after_seek := v; muted := muted s;
     adpcm_muted := adpcm_muted s; filter_file_number := filter_file_number s;
     filter_channel_number := filter_channel_number s;
     last_sector_header := last_sector_header s;
     last_sector_subheader := last_sector_subheader s;
     cd_audio_volume_matrix := cd_audio_volume_matrix s;
     next_cd_audio_volume_matrix := next_cd_audio_volume_matrix s;
     xa_last_samples := xa_last_samples s; xa_resample_ring_buffer := xa_resample_ring_buffer s;
     xa_resample_p := xa_resample_p s; xa_resample_sixstep := xa_resample_sixstep s;
     param_fifo := param_fifo s; response_fifo := response_fifo s;
     async_response_fifo := async_response_fifo s; data_fifo := data_fifo s;
     sector_buffer := sector_buffer s; media := media s; dma_request := dma_request s;
     irq_requests := irq_requests s; spu := spu s; downcount := downcount s;
     pending_ticks := pending_ticks s |}.

Definition set_muted (v : bool) (s : State) : State :=
  {| command_state := command_state s; command := command s; command_stage := command_stage s;
     command_remaining_ticks := command_remaining_ticks s;
     read_or_seek_remaining_ticks := read_or_seek_remaining_ticks s; status := status s;
     secondary_status := secondary_status s; mode := mode s;
     interrupt_enable_register := interrupt_enable_register s;
     interrupt_flag_register := interrupt_flag_register s;
     pending_async_interrupt := pending_async_interrupt s; setloc_position := setloc_position s;
     seek_position := seek_position s; setloc_pending := setloc_pending s;
     read_after_seek := read_after_seek s; play_after_seek := play_after_seek s; muted := v;
     adpcm_muted := adpcm_muted s; filter_file_number := filter_file_number s;
     filter_channel_number := filter_channel_number s;
     last_sector_header := last_sector_header s;
     last_sector_subheader := last_sector_subheader s;
     cd_audio_volume_matrix := cd_audio_volume_matrix s;
     next_cd_audio_volume_matrix := next_cd_audio_volume_matrix s;
     xa_last_samples := xa_last_samples s; xa_resample_ring_buffer := xa_resample_ring_buffer s;
     xa_resample_p := xa_resample_p s; xa_resample_sixstep := xa_resample_sixstep s;
     param_fifo := param_fifo s; response_fifo := response_fifo s;
     async_response_fifo := async_response_fifo s; data_fifo := data_fifo s;
     sector_buffer := sector_buffer s; media := media s; dma_request := dma_request s;
     irq_requests := irq_requests s; spu := spu s; downcount := downcount s;
     pending_ticks := pending_ticks s |}.

Definition set_adpcm_muted (v : bool) (s : State) : State :=
  {| command_state := command_state s; command := command s; command_stage := command_stage s;
     command_remaining_ticks := command_remaining_ticks s;
     read_or_seek_remaining_ticks := read_or_seek_remaining_ticks s; status := status s;
     secondary_status := secondary_status s; mode := mode s;
     interrupt_enable_register := interrupt_enable_register s;
     interrupt_flag_register := interrupt_flag_register s;
     pending_async_interrupt := pending_async_interrupt s; setloc_position := setloc_position s;
     seek_position := seek_position s; setloc_pending := setloc_pending s;
     read_after_seek := read_after_seek s; play_after_seek := play_after_seek s;
     muted := muted s; adpcm_muted := v; filter_file_number := filter_file_number s;
     filter_channel_number := filter_channel_number s;
     last_sector_header := last_sector_header s;
     last_sector_subheader := last_sector_subheader s;
     cd_audio_volume_matrix := cd_audio_volume_matrix s;
     next_cd_audio_volume_matrix := next_cd_audio_volume_matrix s;
     xa_last_samples := xa_last_samples s; xa_resample_ring_buffer := xa_resample_ring_buffer s;
     xa_resample_p := xa_resample_p s; xa_resample_sixstep := xa_resample_sixstep s;
     param_fifo := param_fifo s; response_fifo := response_fifo s;
     async_response_fifo := async_response_fifo s; data_fifo := data_fifo s;
     sector_buffer := sector_buffer s; media := media s; dma_request := dma_request s;
     irq_requests := irq_requests s; spu := spu s; downcount := downcount s;
     pending_ticks := pending_ticks s |}.

Definition set_filter_file_number (v : Z) (s : State) : State :=
  {| command_state := command_state s; command := command s; command_stage := command_stage s;
     command_remaining_ticks := command_remaining_ticks s;
     read_or_seek_remaining_ticks := read_or_seek_remaining_ticks s; status := status s;
     secondary_status := secondary_status s; mode := mode s;
     interrupt_enable_register := interrupt_enable_register s;
     interrupt_flag_register := interrupt_flag_register s;
     pending_async_interrupt := pending_async_interrupt s; setloc_position := setloc_position s;
     seek_position := seek_position s; setloc_pending := setloc_pending s;
     read_after_seek := read_after_seek s; play_after_seek := play_after_seek s;
     muted := muted s; adpcm_muted := adpcm_muted s; filter_file_number := v;
     filter_channel_number := filter_channel_number s;
     last_sector_header := last_sector_header s;
     last_sector_subheader := last_sector_subheader s;
     cd_audio_volume_matrix := cd_audio_volume_matrix s;
     next_cd_audio_volume_matrix := next_cd_audio_volume_matrix s;
     xa_last_samples := xa_last_samples s; xa_resample_ring_buffer := xa_resample_ring_buffer s;
     xa_resample_p := xa_resample_p s; xa_resample_sixstep := xa_resample_sixstep s;
     param_fifo := param_fifo s; response_fifo := response_fifo s;
     async_response_fifo := async_response_fifo s; data_fifo := data_fifo s;
     sector_buffer := sector_buffer s; media := media s; dma_request := dma_request s;
     irq_requests := irq_requests s; spu := spu s; downcount := downcount s;
     pending_ticks := pending_ticks s |}.

Definition set_filter_channel_number (v : Z) (s : State) : State :=
  {| command_state := command_state s; command := command s; command_stage := command_stage s;
     command_remaining_ticks := command_remaining_ticks s;
     read_or_seek_remaining_ticks := read_or_seek_remaining_ticks s; status := status s;
     secondary_status := secondary_status s; mode := mode s;
     interrupt_enable_register := interrupt_enable_register s;
     interrupt_flag_register := interrupt_flag_register s;
     pending_async_interrupt := pending_async_interrupt s; setloc_position := setloc_position s;
     seek_position := seek_position s; setloc_pending := setloc_pending s;
     read_after_seek := read_after_seek s; play_after_seek := play_after_seek s;
     muted := muted s; adpcm_muted := adpcm_muted s; filter_file_number := filter_file_number s;
     filter_channel_number := v; last_sector_header := last_sector_header s;
     last_sector_subheader := last_sector_subheader s;
     cd_audio_volume_matrix := cd_audio_volume_matrix s;
     next_cd_audio_volume_matrix := next_cd_audio_volume_matrix s;
     xa_last_samples := xa_last_samples s; xa_resample_ring_buffer := xa_resample_ring_buffer s;
     xa_resample_p := xa_resample_p s; xa_resample_sixstep := xa_resample_sixstep s;
     param_fifo := param_fifo s; response_fifo := response_fifo s;
     async_response_fifo := async_response_fifo s; data_fifo := data_fifo s;
     sector_buffer := sector_buffer s; media := media s; dma_request := dma_request s;
     irq_requests := irq_requests s; spu := spu s; downcount := downcount s;
     pending_ticks := pending_ticks s |}.

Definition set_last_sector_header (v : list Z) (s : State) : State :=
  {| command_state := command_state s; command := command s; command_stage := command_stage s;
     command_remaining_ticks := command_remaining_ticks s;
     read_or_seek_remaining_ticks := read_or_seek_remaining_ticks s; status := status s;
     secondary_status := secondary_status s; mode := mode s;
     interrupt_enable_register := interrupt_enable_register s;
     interrupt_flag_register := interrupt_flag_register s;
     pending_async_interrupt := pending_async_interrupt s; setloc_position := setloc_position s;
     seek_position := seek_position s; setloc_pending := setloc_pending s;
     read_after_seek := read_after_seek s; play_after_seek := play_after_seek s;
     muted := muted s; adpcm_muted := adpcm_muted s; filter_file_number := filter_file_number s;
     filter_channel_number := filter_channel_number s; last_sector_header := v;
     last_sector_subheader := last_sector_subheader s;
     cd_audio_volume_matrix := cd_audio_volume_matrix s;
     next_cd_audio_volume_matrix := next_cd_audio_volume_matrix s;
     xa_last_samples := xa_last_samples s; xa_resample_ring_buffer := xa_resample_ring_buffer s;
     xa_resample_p := xa_resample_p s; xa_resample_sixstep := xa_resample_sixstep s;
     param_fifo := param_fifo s; response_fifo := response_fifo s;
     async_response_fifo := async_response_fifo s; data_fifo := data_fifo s;
     sector_buffer := sector_buffer s; media := media s; dma_request := dma_request s;
     irq_requests := irq_requests s; spu := spu s; downcount := downcount s;
     pending_ticks := pending_ticks s |}.

Definition set_last_sector_subheader (v : list Z) (s : State) : State :=
  {| command_state := command_state s; command := command s; command_stage := command_stage s;
     command_remaining_ticks := command_remaining_ticks s;
     read_or_seek_remaining_ticks := read_or_seek_remaining_ticks s; status := status s;
     secondary_status := secondary_status s; mode := mode s;
     interrupt_enable_register := interrupt_enable_register s;
     interrupt_flag_register := interrupt_flag_register s;
     pending_async_interrupt := pending_async_interrupt s; setloc_position := setloc_position s;
     seek_position := seek_position s; setloc_pending := setloc_pending s;
     read_after_seek := read_after_seek s; play_after_seek := play_after_seek s;
     muted := muted s; adpcm_muted := adpcm_muted s; filter_file_number := filter_file_number s;
     filter_channel_number := filter_channel_number s;
     last_sector_header := last_sector_header s; last_sector_subheader := v;
     cd_audio_volume_matrix := cd_audio_volume_matrix s;
     next_cd_audio_volume_matrix := next_cd_audio_volume_matrix s;
     xa_last_samples := xa_last_samples s; xa_resample_ring_buffer := xa_resample_ring_buffer s;
     xa_resample_p := xa_resample_p s; xa_resample_sixstep := xa_resample_sixstep s;
     param_fifo := param_fifo s; response_fifo := response_fifo s;
     async_response_fifo := async_response_fifo s; data_fifo := data_fifo s;
     sector_buffer := sector_buffer s; media := media s; dma_request := dma_request s;
     irq_requests := irq_requests s; spu := spu s; downcount := downcount s;
     pending_ticks := pending_ticks s |}.

Definition set_cd_audio_volume_matrix (v : VolumeMatrix) (s : State) : State :=
  {| command_state := command_state s; command := command s; command_stage := command_stage s;
     command_remaining_ticks := command_remaining_ticks s;
     read_or_seek_remaining_ticks := read_or_seek_remaining_ticks s; status := status s;
     secondary_status := secondary_status s; mode := mode s;
     interrupt_enable_register := interrupt_enable_register s;
     interrupt_flag_register := interrupt_flag_register s;
     pending_async_interrupt := pending_async_interrupt s; setloc_position := setloc_position s;
     seek_position := seek_position s; setloc_pending := setloc_pending s;
     read_after_seek := read_after_seek s; play_after_seek := play_after_seek s;
     muted := muted s; adpcm_muted := adpcm_muted s; filter_file_number := filter_file_number s;
     filter_channel_number := filter_channel_number s;
     last_sector_header := last_sector_header s;
     last_sector_subheader := last_sector_subheader s; cd_audio_volume_matrix := v;
     next_cd_audio_volume_matrix := next_cd_audio_volume_matrix s;
     xa_last_samples := xa_last_samples s; xa_resample_ring_buffer := xa_resample_ring_buffer s;
     xa_resample_p := xa_resample_p s; xa_resample_sixstep := xa_resample_sixstep s;
     param_fifo := param_fifo s; response_fifo := response_fifo s;
     async_response_fifo := async_response_fifo s; data_fifo := data_fifo s;
     sector_buffer := sector_buffer s; media := media s; dma_request := dma_request s;
     irq_requests := irq_requests s; spu := spu s; downcount := downcount s;
     pending_ticks := pending_ticks s |}.

Definition set_next_cd_audio_volume_matrix (v : VolumeMatrix) (s : State) : State :=
  {| command_state := command_state s; command := command s; command_stage := command_stage s;
     command_remaining_ticks := command_remaining_ticks s;
     read_or_seek_remaining_ticks := read_or_seek_remaining_ticks s; status := status s;
     secondary_status := secondary_status s; mode := mode s;
     interrupt_enable_register := interrupt_enable_register s;
     interrupt_flag_register := interrupt_flag_register s;
     pending_async_interrupt := pending_async_interrupt s; setloc_position := setloc_position s;
     seek_position := seek_position s; setloc_pending := setloc_pending s;
     read_after_seek := read_after_seek s; play_after_seek := play_after_seek s;
     muted := muted s; adpcm_muted := adpcm_muted s; filter_file_number := filter_file_number s;
     filter_channel_number := filter_channel_number s;
     last_sector_header := last_sector_header s;
     last_sector_subheader := last_sector_subheader s;
     cd_audio_volume_matrix := cd_audio_volume_matrix s; next_cd_audio_volume_matrix := v;
     xa_last_samples := xa_last_samples s; xa_resample_ring_buffer := xa_resample_ring_buffer s;
     xa_resample_p := xa_resample_p s; xa_resample_sixstep := xa_resample_sixstep s;
     param_fifo := param_fifo s; response_fifo := response_fifo s;
     async_response_fifo := async_response_fifo s; data_fifo := data_fifo s;
     sector_buffer := sector_buffer s; media := media s; dma_request := dma_request s;
     irq_requests := irq_requests s; spu := spu s; downcount := downcount s;
     pending_ticks := pending_ticks s |}.

Definition set_xa_last_samples (v : list Z) (s : State) : State :=
  {| command_state := command_state s; command := command s; command_stage := command_stage s;
     command_remaining_ticks := command_remaining_ticks s;
     read_or_seek_remaining_ticks := read_or_seek_remaining_ticks s; status := status s;
     secondary_status := secondary_status s; mode := mode s;
     interrupt_enable_register := interrupt_enable_register s;
     interrupt_flag_register := interrupt_flag_register s;
     pending_async_interrupt := pending_async_interrupt s; setloc_position := setloc_position s;
     seek_position := seek_position s; setloc_pending := setloc_pending s;
     read_after_seek := read_after_seek s; play_after_seek := play_after_seek s;
     muted := muted s; adpcm_muted := adpcm_muted s; filter_file_number := filter_file_number s;
     filter_channel_number := filter_channel_number s;
     last_sector_header := last_sector_header s;
     last_sector_subheader := last_sector_subheader s;
     cd_audio_volume_matrix := cd_audio_volume_matrix s;
     next_cd_audio_volume_matrix := next_cd_audio_volume_matrix s; xa_last_samples := v;
     xa_resample_ring_buffer := xa_resample_ring_buffer s; xa_resample_p := xa_resample_p s;
     xa_resample_sixstep := xa_resample_sixstep s; param_fifo := param_fifo s;
     response_fifo := response_fifo s; async_response_fifo := async_response_fifo s;
     data_fifo := data_fifo s; sector_buffer := sector_buffer s; media := media s;
     dma_request := dma_request s; irq_requests := irq_requests s; spu := spu s;
     downcount := downcount s; pending_ticks := pending_ticks s |}.

Definition set_xa_resample_ring_buffer (v : RingBuffers) (s : State) : State :=
  {| command_state := command_state s; command := command s; command_stage := command_stage s;
     command_remaining_ticks := command_remaining_ticks s;
     read_or_seek_remaining_ticks := read_or_seek_remaining_ticks s; status := status s;
     secondary_status := secondary_status s; mode := mode s;
     interrupt_enable_register := interrupt_enable_register s;
     interrupt_flag_register := interrupt_flag_register s;
     pending_async_interrupt := pending_async_interrupt s; setloc_position := setloc_position s;
     seek_position := seek_position s; setloc_pending := setloc_pending s;
     read_after_seek := read_after_seek s; play_after_seek := play_after_seek s;
     muted := muted s; adpcm_muted := adpcm_muted s; filter_file_number := filter_file_number s;
     filter_channel_number := filter_channel_number s;
     last_sector_header := last_sector_header s;
     last_sector_subheader := last_sector_subheader s;
     cd_audio_volume_matrix := cd_audio_volume_matrix s;
     next_cd_audio_volume_matrix := next_cd_audio_volume_matrix s;
     xa_last_samples := xa_last_samples s; xa_resample_ring_buffer := v;
     xa_resample_p := xa_resample_p s; xa_resample_sixstep := xa_resample_sixstep s;
     param_fifo := param_fifo s; response_fifo := response_fifo s;
     async_response_fifo := async_response_fifo s; data_fifo := data_fifo s;
     sector_buffer := sector_buffer s; media := media s; dma_request := dma_request s;
     irq_requests := irq_requests s; spu := spu s; downcount := downcount s;
     pending_ticks := pending_ticks s |}.

Definition set_xa_resample_p (v : Z) (s : State) : State :=
  {| command_state := command_state s; command := command s; command_stage := command_stage s;
     command_remaining_ticks := command_remaining_ticks s;
     read_or_seek_remaining_ticks := read_or_seek_remaining_ticks s; status := status s;
     secondary_status := secondary_status s; mode := mode s;
     interrupt_enable_register := interrupt_enable_register s;
     interrupt_flag_register := interrupt_flag_register s;
     pending_async_interrupt := pending_async_interrupt s; setloc_position := setloc_position s;
     seek_position := seek_position s; setloc_pending := setloc_pending s;
     read_after_seek := read_after_seek s; play_after_seek := play_after_seek s;
     muted := muted s; adpcm_muted := adpcm_muted s; filter_file_number := filter_file_number s;
     filter_channel_number := filter_channel_number s;
     last_sector_header := last_sector_header s;
     last_sector_subheader := last_sector_subheader s;
     cd_audio_volume_matrix := cd_audio_volume_matrix s;
     next_cd_audio_volume_matrix := next_cd_audio_volume_matrix s;
     xa_last_samples := xa_last_samples s; xa_resample_ring_buffer := xa_resample_ring_buffer s;
     xa_resample_p := v; xa_resample_sixstep := xa_resample_sixstep s;
     param_fifo := param_fifo s; response_fifo := response_fifo s;
     async_response_fifo := async_response_fifo s; data_fifo := data_fifo s;
     sector_buffer := sector_buffer s; media := media s; dma_request := dma_request s;
     irq_requests := irq_requests s; spu := spu s; downcount := downcount s;
     pending_ticks := pending_ticks s |}.

Definition set_xa_resample_sixstep (v : Z) (s : State) : State :=
  {| command_state := command_state s; command := command s; command_stage := command_stage s;
     command_remaining_ticks := command_remaining_ticks s;
     read_or_seek_remaining_ticks := read_or_seek_remaining_ticks s; status := status s;
     secondary_status := secondary_status s; mode := mode s;
     interrupt_enable_register := interrupt_enable_register s;
     interrupt_flag_register := interrupt_flag_register s;
     pending_async_interrupt := pending_async_interrupt s; setloc_position := setloc_position s;
     seek_position := seek_position s; setloc_pending := setloc_pending s;
     read_after_seek := read_after_seek s; play_after_seek := play_after_seek s;
     muted := muted s; adpcm_muted := adpcm_muted s; filter_file_number := filter_file_number s;
     filter_channel_number := filter_channel_number s;
     last_sector_header := last_sector_header s;
     last_sector_subheader := last_sector_subheader s;
     cd_audio_volume_matrix := cd_audio_volume_matrix s;
     next_cd_audio_volume_matrix := next_cd_audio_volume_matrix s;
     xa_last_samples := xa_last_samples s; xa_resample_ring_buffer := xa_resample_ring_buffer s;
     xa_resample_p := xa_resample_p s; xa_resample_sixstep := v; param_fifo := param_fifo s;
     response_fifo := response_fifo s; async_response_fifo := async_response_fifo s;
     data_fifo := data_fifo s; sector_buffer := sector_buffer s; media := media s;
     dma_request := dma_request s; irq_requests := irq_requests s; spu := spu s;
     downcount := downcount s; pending_ticks := pending_ticks s |}.

Definition set_param_fifo (v : list Z) (s : State) : State :=
  {| command_state := command_state s; command := command s; command_stage := command_stage s;
     command_remaining_ticks := command_remaining_ticks s;
     read_or_seek_remaining_ticks := read_or_seek_remaining_ticks s; status := status s;
     secondary_status := secondary_status s; mode := mode s;
     interrupt_enable_register := interrupt_enable_register s;
     interrupt_flag_register := interrupt_flag_register s;
     pending_async_interrupt := pending_async_interrupt s; setloc_position := setloc_position s;
     seek_position := seek_position s; setloc_pending := setloc_pending s;
     read_after_seek := read_after_seek s; play_after_seek := play_after_seek s;
     muted := muted s; adpcm_muted := adpcm_muted s; filter_file_number := filter_file_number s;
     filter_channel_number := filter_channel_number s;
     last_sector_header := last_sector_header s;
     last_sector_subheader := last_sector_subheader s;
     cd_audio_volume_matrix := cd_audio_volume_matrix s;
     next_cd_audio_volume_matrix := next_cd_audio_volume_matrix s;
     xa_last_samples := xa_last_samples s; xa_resample_ring_buffer := xa_resample_ring_buffer s;
     xa_resample_p := xa_resample_p s; xa_resample_sixstep := xa_resample_sixstep s;
     param_fifo := v; response_fifo := response_fifo s;
     async_response_fifo := async_response_fifo s; data_fifo := data_fifo s;
     sector_buffer := sector_buffer s; media := media s; dma_request := dma_request s;
     irq_requests := irq_requests s; spu := spu s; downcount := downcount s;
     pending_ticks := pending_ticks s |}.

Definition set_response_fifo (v : list Z) (s : State) : State :=
  {| command_state := command_state s; command := command s; command_stage := command_stage s;
     command_remaining_ticks := command_remaining_ticks s;
     read_or_seek_remaining_ticks := read_or_seek_remaining_ticks s; status := status s;
     secondary_status := secondary_status s; mode := mode s;
     interrupt_enable_register := interrupt_enable_register s;
     interrupt_flag_register := interrupt_flag_register s;
     pending_async_interrupt := pending_async_interrupt s; setloc_position := setloc_position s;
     seek_position := seek_position s; setloc_pending := setloc_pending s;
     read_after_seek := read_after_seek s; play_after_seek := play_after_seek s;
     muted := muted s; adpcm_muted := adpcm_muted s; filter_file_number := filter_file_number s;
     filter_channel_number := filter_channel_number s;
     last_sector_header := last_sector_header s;
     last_sector_subheader := last_sector_subheader s;
     cd_audio_volume_matrix := cd_audio_volume_matrix s;
     next_cd_audio_volume_matrix := next_cd_audio_volume_matrix s;
     xa_last_samples := xa_last_samples s; xa_resample_ring_buffer := xa_resample_ring_buffer s;
     xa_resample_p := xa_resample_p s; xa_resample_sixstep := xa_resample_sixstep s;
     param_fifo := param_fifo s; response_fifo := v;
     async_response_fifo := async_response_fifo s; data_fifo := data_fifo s;
     sector_buffer := sector_buffer s; media := media s; dma_request := dma_request s;
     irq_requests := irq_requests s; spu := spu s; downcount := downcount s;
     pending_ticks := pending_ticks s |}.

Definition set_async_response_fifo (v : list Z) (s : State) : State :=
  {| command_state := command_state s; command := command s; command_stage := command_stage s;
     command_remaining_ticks := command_remaining_ticks s;
     read_or_seek_remaining_ticks := read_or_seek_remaining_ticks s; status := status s;
     secondary_status := secondary_status s; mode := mode s;
     interrupt_enable_register := interrupt_enable_register s;
     interrupt_flag_register := interrupt_flag_register s;
     pending_async_interrupt := pending_async_interrupt s; setloc_position := setloc_position s;
     seek_position := seek_position s; setloc_pending := setloc_pending s;
     read_after_seek := read_after_seek s; play_after_seek := play_after_seek s;
     muted := muted s; adpcm_muted := adpcm_muted s; filter_file_number := filter_file_number s;
     filter_channel_number := filter_channel_number s;
     last_sector_header := last_sector_header s;
     last_sector_subheader := last_sector_subheader s;
     cd_audio_volume_matrix := cd_audio_volume_matrix s;
     next_cd_audio_volume_matrix := next_cd_audio_volume_matrix s;
     xa_last_samples := xa_last_samples s; xa_resample_ring_buffer := xa_resample_ring_buffer s;
     xa_resample_p := xa_resample_p s; xa_resample_sixstep := xa_resample_sixstep s;
     param_fifo := param_fifo s; response_fifo := response_fifo s; async_response_fifo := v;
     data_fifo := data_fifo s; sector_buffer := sector_buffer s; media := media s;
     dma_request := dma_request s; irq_requests := irq_requests s; spu := spu s;
     downcount := downcount s; pending_ticks := pending_ticks s |}.

Definition set_data_fifo (v : list Z) (s : State) : State :=
  {| command_state := command_state s; command := command s; command_stage := command_stage s;
     command_remaining_ticks := command_remaining_ticks s;
     read_or_seek_remaining_ticks := read_or_seek_remaining_ticks s; status := status s;
     secondary_status := secondary_status s; mode := mode s;
     interrupt_enable_register := interrupt_enable_register s;
     interrupt_flag_register := interrupt_flag_register s;
     pending_async_interrupt := pending_async_interrupt s; setloc_position := setloc_position s;
     seek_position := seek_position s; setloc_pending := setloc_pending s;
     read_after_seek := read_after_seek s; play_after_seek := play_after_seek s;
     muted := muted s; adpcm_muted := adpcm_muted s; filter_file_number := filter_file_number s;
     filter_channel_number := filter_channel_number s;
     last_sector_header := last_sector_header s;
     last_sector_subheader := last_sector_subheader s;
     cd_audio_volume_matrix := cd_audio_volume_matrix s;
     next_cd_audio_volume_matrix := next_cd_audio_volume_matrix s;
     xa_last_samples := xa_last_samples s; xa_resample_ring_buffer := xa_resample_ring_buffer s;
     xa_resample_p := xa_resample_p s; xa_resample_sixstep := xa_resample_sixstep s;
     param_fifo := param_fifo s; response_fifo := response_fifo s;
     async_response_fifo := async_response_fifo s; data_fifo := v;
     sector_buffer := sector_buffer s; media := media s; dma_request := dma_request s;
     irq_requests := irq_requests s; spu := spu s; downcount := downcount s;
     pending_ticks := pending_ticks s |}.

Definition set_sector_buffer (v : list Z) (s : State) : State :=
  {| command_state := command_state s; command := command s; command_stage := command_stage s;
     command_remaining_ticks := command_remaining_ticks s;
     read_or_seek_remaining_ticks := read_or_seek_remaining_ticks s; status := status s;
     secondary_status := secondary_status s; mode := mode s;
     interrupt_enable_register := interrupt_enable_register s;
     interrupt_flag_register := interrupt_flag_register s;
     pending_async_interrupt := pending_async_interrupt s; setloc_position := setloc_position s;
     seek_position := seek_position s; setloc_pending := setloc_pending s;
     read_after_seek := read_after_seek s; play_after_seek := play_after_seek s;
     muted := muted s; adpcm_muted := adpcm_muted s; filter_file_number := filter_file_number s;
     filter_channel_number := filter_channel_number s;
     last_sector_header := last_sector_header s;
     last_sector_subheader := last_sector_subheader s;
     cd_audio_volume_matrix := cd_audio_volume_matrix s;
     next_cd_audio_volume_matrix := next_cd_audio_volume_matrix s;
     xa_last_samples := xa_last_samples s; xa_resample_ring_buffer := xa_resample_ring_buffer s;
     xa_resample_p := xa_resample_p s; xa_resample_sixstep := xa_resample_sixstep s;
     param_fifo := param_fifo s; response_fifo := response_fifo s;
     async_response_fifo := async_response_fifo s; data_fifo := data_fifo s; sector_buffer := v;
     media := media s; dma_request := dma_request s; irq_requests := irq_requests s;
     spu := spu s; downcount := downcount s; pending_ticks := pending_ticks s |}.

Definition set_media (v : option CDImage) (s : State) : State :=
  {| command_state := command_state s; command := command s; command_stage := command_stage s;
     command_remaining_ticks := command_remaining_ticks s;
     read_or_seek_remaining_ticks := read_or_seek_remaining_ticks s; status := status s;
     secondary_status := secondary_status s; mode := mode s;
     interrupt_enable_register := interrupt_enable_register s;
     interrupt_flag_register := interrupt_flag_register s;
     pending_async_interrupt := pending_async_interrupt s; setloc_position := setloc_position s;
     seek_position := seek_position s; setloc_pending := setloc_pending s;
     read_after_seek := read_after_seek s; play_after_seek := play_after_seek s;
     muted := muted s; adpcm_muted := adpcm_muted s; filter_file_number := filter_file_number s;
     filter_channel_number := filter_channel_number s;
     last_sector_header := last_sector_header s;
     last_sector_subheader := last_sector_subheader s;
     cd_audio_volume_matrix := cd_audio_volume_matrix s;
     next_cd_audio_volume_matrix := next_cd_audio_volume_matrix s;
     xa_last_samples := xa_last_samples s; xa_resample_ring_buffer := xa_resample_ring_buffer s;
     xa_resample_p := xa_resample_p s; xa_resample_sixstep := xa_resample_sixstep s;
     param_fifo := param_fifo s; response_fifo := response_fifo s;
     async_response_fifo := async_response_fifo s; data_fifo := data_fifo s;
     sector_buffer := sector_buffer s; media := v; dma_request := dma_request s;
     irq_requests := irq_requests s; spu := spu s; downcount := downcount s;
     pending_ticks := pending_ticks s |}.

Definition set_dma_request (v : bool) (s : State) : State :=
  {| command_state := command_state s; command := command s; command_stage := command_stage s;
     command_remaining_ticks := command_remaining_ticks s;
     read_or_seek_remaining_ticks := read_or_seek_remaining_ticks s; status := status s;
     secondary_status := secondary_status s; mode := mode s;
     interrupt_enable_register := interrupt_enable_register s;
     interrupt_flag_register := interrupt_flag_register s;
     pending_async_interrupt := pending_async_interrupt s; setloc_position := setloc_position s;
     seek_position := seek_position s; setloc_pending := setloc_pending s;
     read_after_seek := read_after_seek s; play_after_seek := play_after_seek s;
     muted := muted s; adpcm_muted := adpcm_muted s; filter_file_number := filter_file_number s;
     filter_channel_number := filter_channel_number s;
     last_sector_header := last_sector_header s;
     last_sector_subheader := last_sector_subheader s;
     cd_audio_volume_matrix := cd_audio_volume_matrix s;
     next_cd_audio_volume_matrix := next_cd_audio_volume_matrix s;
     xa_last_samples := xa_last_samples s; xa_resample_ring_buffer := xa_resample_ring_buffer s;
     xa_resample_p := xa_resample_p s; xa_resample_sixstep := xa_resample_sixstep s;
     param_fifo := param_fifo s; response_fifo := response_fifo s;
     async_response_fifo := async_response_fifo s; data_fifo := data_fifo s;
     sector_buffer := sector_buffer s; media := media s; dma_request := v;
     irq_requests := irq_requests s; spu := spu s; downcount := downcount s;
     pending_ticks := pending_ticks s |}.

Definition set_irq_requests (v : nat) (s : State) : State :=
  {| command_state := command_state s; command := command s; command_stage := command_stage s;
     command_remaining_ticks := command_remaining_ticks s;
     read_or_seek_remaining_ticks := read_or_seek_remaining_ticks s; status := status s;
     secondary_status := secondary_status s; mode := mode s;
     interrupt_enable_register := interrupt_enable_register s;
     interrupt_flag_register := interrupt_flag_register s;
     pending_async_interrupt := pending_async_interrupt s; setloc_position := setloc_position s;
     seek_position := seek_position s; setloc_pending := setloc_pending s;
     read_after_seek := read_after_seek s; play_after_seek := play_after_seek s;
     muted := muted s; adpcm_muted := adpcm_muted s; filter_file_number := filter_file_number s;
     filter_channel_number := filter_channel_number s;
     last_sector_header := last_sector_header s;
     last_sector_subheader := last_sector_subheader s;
     cd_audio_volume_matrix := cd_audio_volume_matrix s;
     next_cd_audio_volume_matrix := next_cd_audio_volume_matrix s;
     xa_last_samples := xa_last_samples s; xa_resample_ring_buffer := xa_resample_ring_buffer s;
     xa_resample_p := xa_resample_p s; xa_resample_sixstep := xa_resample_sixstep s;
     param_fifo := param_fifo s; response_fifo := response_fifo s;
     async_response_fifo := async_response_fifo s; data_fifo := data_fifo s;
     sector_buffer := sector_buffer s; media := media s; dma_request := dma_request s;
     irq_requests := v; spu := spu s; downcount := downcount s;
     pending_ticks := pending_ticks s |}.

Definition set_spu (v : list SPUCall) (s : State) : State :=
  {| command_state := command_state s; command := command s; command_stage := command_stage s;
     command_remaining_ticks := command_remaining_ticks s;
     read_or_seek_remaining_ticks := read_or_seek_remaining_ticks s; status := status s;
     secondary_status := secondary_status s; mode := mode s;
     interrupt_enable_register := interrupt_enable_register s;
     interrupt_flag_register := interrupt_flag_register s;
     pending_async_interrupt := pending_async_interrupt s; setloc_position := setloc_position s;
     seek_position := seek_position s; setloc_pending := setloc_pending s;
     read_after_seek := read_after_seek s; play_after_seek := play_after_seek s;
     muted := muted s; adpcm_muted := adpcm_muted s; filter_file_number := filter_file_number s;
     filter_channel_number := filter_channel_number s;
     last_sector_header := last_sector_header s;
     last_sector_subheader := last_sector_subheader s;
     cd_audio_volume_matrix := cd_audio_volume_matrix s;
     next_cd_audio_volume_matrix := next_cd_audio_volume_matrix s;
     xa_last_samples := xa_last_samples s; xa_resample_ring_buffer := xa_resample_ring_buffer s;
     xa_resample_p := xa_resample_p s; xa_resample_sixstep := xa_resample_sixstep s;
     param_fifo := param_fifo s; response_fifo := response_fifo s;
     async_response_fifo := async_response_fifo s; data_fifo := data_fifo s;
     sector_buffer := sector_buffer s; media := media s; dma_request := dma_request s;
     irq_requests := irq_requests s; spu := v; downcount := downcount s;
     pending_ticks := pending_ticks s |}.

Definition set_downcount (v : Z) (s : State) : State :=
  {| command_state := command_state s; command := command s; command_stage := command_stage s;
     command_remaining_ticks := command_remaining_ticks s;
     read_or_seek_remaining_ticks := read_or_seek_remaining_ticks s; status := status s;
     secondary_status := secondary_status s; mode := mode s;
     interrupt_enable_register := interrupt_enable_register s;
     interrupt_flag_register := interrupt_flag_register s;
     pending_async_interrupt := pending_async_interrupt s; setloc_position := setloc_position s;
     seek_position := seek_position s; setloc_pending := setloc_pending s;
     read_after_seek := read_after_seek s; play_after_seek := play_after_seek s;
     muted := muted s; adpcm_muted := adpcm_muted s; filter_file_number := filter_file_number s;
     filter_channel_number := filter_channel_number s;
     last_sector_header := last_sector_header s;
     last_sector_subheader := last_sector_subheader s;
     cd_audio_volume_matrix := cd_audio_volume_matrix s;
     next_cd_audio_volume_matrix := next_cd_audio_volume_matrix s;
     xa_last_samples := xa_last_samples s; xa_resample_ring_buffer := xa_resample_ring_buffer s;
     xa_resample_p := xa_resample_p s; xa_resample_sixstep := xa_resample_sixstep s;
     param_fifo := param_fifo s; response_fifo := response_fifo s;
     async_response_fifo := async_response_fifo s; data_fifo := data_fifo s;
     sector_buffer := sector_buffer s; media := media s; dma_request := dma_request s;
     irq_requests := irq_requests s; spu := spu s; downcount := v;
     pending_ticks := pending_ticks s |}.

Definition set_pending_ticks (v : Z) (s : State) : State :=
  {| command_state := command_state s; command := command s; command_stage := command_stage s;
     command_remaining_ticks := command_remaining_ticks s;
     read_or_seek_remaining_ticks := read_or_seek_remaining_ticks s; status := status s;
     secondary_status := secondary_status s; mode := mode s;
     interrupt_enable_register := interrupt_enable_register s;
     interrupt_flag_register := interrupt_flag_register s;
     pending_async_interrupt := pending_async_interrupt s; setloc_position := setloc_position s;
     seek_position := seek_position s; setloc_pending := setloc_pending s;
     read_after_seek := read_after_seek s; play_after_seek := play_after_seek s;
     muted := muted s; adpcm_muted := adpcm_muted s; filter_file_number := filter_file_number s;
     filter_channel_number := filter_channel_number s;
     last_sector_header := last_sector_header s;
     last_sector_subheader := last_sector_subheader s;
     cd_audio_volume_matrix := cd_audio_volume_matrix s;
     next_cd_audio_volume_matrix := next_cd_audio_volume_matrix s;
     xa_last_samples := xa_last_samples s; xa_resample_ring_buffer := xa_resample_ring_buffer s;
     xa_resample_p := xa_resample_p s; xa_resample_sixstep := xa_resample_sixstep s;
     param_fifo := param_fifo s; response_fifo := response_fifo s;
     async_response_fifo := async_response_fifo s; data_fifo := data_fifo s;
     sector_buffer := sector_buffer s; media := media s; dma_request := dma_request s;
     irq_requests := irq_requests s; spu := spu s; downcount := downcount s;
     pending_ticks := v |}.
(** ** Bitfields of the registers

    Modelled from the spec: the unions that declare the bitfields of the
    status, secondary status, mode, request and submode bytes are in the
    header, which is not among the sources.  The bit numbers are those of
    the hardware registers the controller emulates; the low two bits of the
    status byte are the index. *)
Module StatusBit.
Definition ADPBUSY : Z := 2.
Definition PRMEMPTY : Z := 3.
Definition PRMWRDY : Z := 4.
Definition RSLRRDY : Z := 5.
Definition DRQSTS : Z := 6.
Definition BUSYSTS : Z := 7.
End StatusBit.

Module SecondaryBit.
Definition error : Z := 0.
Definition motor_on : Z := 1.
Definition seek_error : Z := 2.
Definition id_error : Z := 3.
Definition shell_open : Z := 4.
Definition reading : Z := 5.
Definition seeking : Z := 6.
Definition playing_cdda : Z := 7.
End SecondaryBit.

Module ModeBit.
Definition cdda : Z := 0.
Definition auto_pause : Z := 1.
Definition report_audio : Z := 2.
Definition xa_filter : Z := 3.
Definition ignore_bit : Z := 4.
Definition read_raw_sector : Z := 5.
Definition xa_enable : Z := 6.
Definition double_speed : Z := 7.
End ModeBit.

Module RequestBit.
Definition SMEN : Z := 5.
Definition BFWR : Z := 6.
Definition BFRD : Z := 7.
End RequestBit.

Module SubmodeBit.
Definition eor : Z := 0.
Definition video : Z := 1.
Definition audio : Z := 2.
Definition data : Z := 3.
Definition trigger : Z := 4.
Definition form : Z := 5.
Definition realtime : Z := 6.
Definition eof : Z := 7.
End SubmodeBit.

(** Modelled from the spec: the opcodes are an enumeration of the absent
    header; the specification fixes Setloc (0x02), ReadN (0x06), SeekL
    (0x15) and GetID (0x1A), and the others are the opcodes of the same
    command set. *)
Module Command.
Definition Sync : Z := 0.
Definition Getstat : Z := 1.
Definition Setloc : Z := 2.
Definition Play : Z := 3.
Definition ReadN : Z := 6.
Definition Pause : Z := 9.
Definition Init : Z := 10.
Definition Mute : Z := 11.
Definition Demute : Z := 12.
Definition Setfilter : Z := 13.
Definition Setmode : Z := 14.
Definition GetlocL : Z := 16.
Definition GetlocP : Z := 17.
Definition GetTN : Z := 19.
Definition GetTD : Z := 20.
Definition SeekL : Z := 21.
Definition SeekP : Z := 22.
Definition Test : Z := 25.
Definition GetID : Z := 26.
Definition ReadS : Z := 27.
End Command.

Definition status_index (s : State) : Z := Z.land (status s) 3.
Definition status_DRQSTS (s : State) : bool := Z.testbit (status s) StatusBit.DRQSTS.
Definition status_BUSYSTS (s : State) : bool := Z.testbit (status s) StatusBit.BUSYSTS.

Definition secondary (bit : Z) (s : State) : bool := Z.testbit (secondary_status s) bit.
Definition set_secondary (bit : Z) (b : bool) (s : State) : State :=
  set_secondary_status (bitfield_set bit b (secondary_status s)) s.
Definition mode_bit (bit : Z) (s : State) : bool := Z.testbit (mode s) bit.

(** Modelled from the spec: IsReadingOrPlaying and IsActive are members of
    the secondary status union of the absent header; the drive is active
    when it seeks, reads or plays. *)
Definition IsReadingOrPlaying (s : State) : bool :=
  secondary SecondaryBit.reading s || secondary SecondaryBit.playing_cdda s.
Definition IsActive (s : State) : bool :=
  secondary SecondaryBit.seeking s || secondary SecondaryBit.reading s
  || secondary SecondaryBit.playing_cdda s.

(** Modelled from the spec: the header and subheader types are declared
    outside the sources.  They are kept as the bytes copied out of the
    sector: bytes 12 to 16 (minute, second, frame, mode) and bytes 16 to 24
    (file, channel, submode, coding info, and their repetition). *)
Definition SECTOR_HEADER_SIZE : Z := 4.
Definition SECTOR_SUBHEADER_SIZE : Z := 8.

Definition byte_at (i : nat) (l : list Z) : Z := nth i l 0.
Definition header_minute (s : State) : Z := byte_at 0 (last_sector_header s).
Definition header_second (s : State) : Z := byte_at 1 (last_sector_header s).
Definition header_frame (s : State) : Z := byte_at 2 (last_sector_header s).
Definition header_sector_mode (s : State) : Z := byte_at 3 (last_sector_header s).
Definition subheader_file_number (s : State) : Z := byte_at 0 (last_sector_subheader s).
Definition subheader_channel_number (s : State) : Z := byte_at 1 (last_sector_subheader s).
Definition subheader_submode (s : State) : Z := byte_at 2 (last_sector_subheader s).
Definition subheader_codinginfo (s : State) : Z := byte_at 3 (last_sector_subheader s).

(** Modelled from the spec: these three predicates are inline members of
    the absent header.  A flag is outstanding when the interrupt-flag
    register is not zero; an asynchronous interrupt is pending when its
    code is not zero; media is present when the controller holds an image. *)
Definition HasPendingInterrupt (s : State) : bool := negb (interrupt_flag_register s =? 0).
Definition HasPendingAsyncInterrupt (s : State) : bool := negb (pending_async_interrupt s =? 0).
Definition HasMedia (s : State) : bool :=
  match media s with Some _ => true | None => false end.

(** ** Collaborators

    Modelled from the spec: the interrupt controller, the scheduler, the
    DMA engine and the mixer are external (section 6); the state records
    what the controller asks of them. *)

(** m_interrupt_controller->InterruptRequest(IRQ::CDROM) *)
Definition InterruptRequest (s : State) : State := set_irq_requests (S (irq_requests s)) s.

(** m_system->SetDowncount(ticks) *)
Definition SetDowncount (ticks : Z) (s : State) : State := set_downcount ticks s.

(** m_spu->EnsureCDAudioSpace(n) and m_spu->AddCDAudioSample(l, r) *)
Definition spu_call (c : SPUCall) (s : State) : State := set_spu (spu s ++ [c]) s.
Definition spu_calls (cs : list SPUCall) (s : State) : State := set_spu (spu s ++ cs) s.

(** ** Status register and interrupts *)

Definition UpdateStatusRegister (s : State) : State :=
  let st := status s in
  let st := bitfield_set StatusBit.ADPBUSY false st in
  let st := bitfield_set StatusBit.PRMEMPTY (FIFO.IsEmpty (param_fifo s)) st in
  let st := bitfield_set StatusBit.PRMWRDY (negb (FIFO.IsFull PARAM_FIFO_SIZE (param_fifo s))) st in
  let st := bitfield_set StatusBit.RSLRRDY (negb (FIFO.IsEmpty (response_fifo s))) st in
  let st := bitfield_set StatusBit.DRQSTS (negb (FIFO.IsEmpty (data_fifo s))) st in
  let st :=
    bitfield_set StatusBit.BUSYSTS (CommandState_eqb (command_state s) WaitForExecute) st in
  set_dma_request (Z.testbit st StatusBit.DRQSTS) (set_status st s).

Definition SetInterrupt (interrupt : Z) (s : State) : State :=
  let s := set_interrupt_flag_register (u8 interrupt) s in
  if HasPendingInterrupt s then InterruptRequest s else s.

Definition DeliverAsyncInterrupt (s : State) : res State :=
  Assert (negb (pending_async_interrupt s =? 0) && negb (HasPendingInterrupt s))
    "m_pending_async_interrupt != 0 && !HasPendingInterrupt()"
    (let s := set_response_fifo [] s in
     let moved := FIFO.PushFromQueue RESPONSE_FIFO_SIZE (response_fifo s) (async_response_fifo s) in
     let s := set_async_response_fifo (snd moved) (set_response_fifo (fst moved) s) in
     let s := set_interrupt_flag_register (pending_async_interrupt s) s in
     let s := set_pending_async_interrupt 0 s in
     Ok (InterruptRequest s)).

Definition SetAsyncInterrupt (interrupt : Z) (s : State) : res State :=
  Assert (pending_async_interrupt s =? 0) "m_pending_async_interrupt == 0"
    (let s := set_pending_async_interrupt (u8 interrupt) s in
     if negb (HasPendingInterrupt s) then DeliverAsyncInterrupt s else Ok s).

Definition CancelAsyncInterrupt (s : State) : State :=
  set_async_response_fifo [] (set_pending_async_interrupt 0 s).

Definition PushResponse (v : Z) (s : State) : res State :=
  do q <- FIFO.Push RESPONSE_FIFO_SIZE v (response_fifo s); Ok (set_response_fifo q s).

Definition PushResponseRange (vs : list Z) (s : State) : res State :=
  do q <- FIFO.PushRange RESPONSE_FIFO_SIZE vs (response_fifo s); Ok (set_response_fifo q s).

Definition PushAsyncResponse (v : Z) (s : State) : res State :=
  do q <- FIFO.Push RESPONSE_FIFO_SIZE v (async_response_fifo s);
  Ok (set_async_response_fifo q s).

Definition SendACKAndStat (s : State) : res State :=
  do s <- PushResponse (secondary_status s) s;
  Ok (SetInterrupt ACK s).

Definition SendErrorResponse (reason : Z) (s : State) : res State :=
  do s <- PushResponse (Z.lor (secondary_status s) 1) s;
  do s <- PushResponse reason s;
  Ok (SetInterrupt INT5 s).

Definition SendAsyncErrorResponse (reason : Z) (s : State) : res State :=
  do s <- PushAsyncResponse (Z.lor (secondary_status s) 1) s;
  do s <- PushAsyncResponse reason s;
  SetAsyncInterrupt INT5 s.

(** ** Timing *)

Definition GetAckDelayForCommand (s : State) : Z :=
  let default_ack_delay := 4000 in
  if command s =? Command.Init then 60000 else default_ack_delay.

Definition GetTicksForRead (s : State) : Z :=
  if mode_bit ModeBit.double_speed s then MASTER_CLOCK / 150 else MASTER_CLOCK / 75.

(** The image is dereferenced without a check; without media the call is a
    fault. *)
Definition GetTicksForSeek (s : State) : res Z :=
  match media s with
  | None => Err (Unspecified "m_media is null")
  | Some m =>
      let current_lba := Image.GetPositionOnDisc m in
      let new_lba := ToLBA (setloc_position s) in
      let lba_diff :=
        u32 (if new_lba >? current_lba then new_lba - current_lba else current_lba - new_lba) in
      let ticks := s32 (u32 (20000 + lba_diff * 100)) in
      Ok ticks
  end.

(** ** Drive state machine *)

Definition StopReading (s : State) : State :=
  if negb (IsActive s) then s
  else
    let s := set_secondary SecondaryBit.reading false s in
    let s := set_secondary SecondaryBit.playing_cdda false s in
    let s := set_secondary SecondaryBit.seeking false s in
    set_read_or_seek_remaining_ticks 0 s.

Definition BeginSeeking (s : State) : res State :=
  let s := set_seek_position (setloc_position s) s in
  let s := set_setloc_pending false s in
  Assert (negb (IsReadingOrPlaying s)) "!m_secondary_status.IsReadingOrPlaying()"
    (let s := set_secondary SecondaryBit.motor_on true s in
     let s := set_secondary SecondaryBit.seeking true s in
     do ticks <- GetTicksForSeek s;
     let s := set_read_or_seek_remaining_ticks ticks s in
     Ok (SetDowncount (read_or_seek_remaining_ticks s) s)).

(** The tail of BeginReading, reached when no seek is needed: the drive
    starts reading or playing and the first sector is scheduled. *)
Definition begin_reading_now (cdda : bool) (s : State) : State :=
  let s := set_secondary SecondaryBit.motor_on true s in
  let s := set_secondary SecondaryBit.seeking false s in
  let s := set_secondary SecondaryBit.reading (negb cdda) s in
  let s := set_secondary SecondaryBit.playing_cdda cdda s in
  let s := set_read_or_seek_remaining_ticks (GetTicksForRead s) s in
  SetDowncount (read_or_seek_remaining_ticks s) s.

Definition BeginReading (cdda : bool) (s : State) : res State :=
  if setloc_pending s then
    match media s with
    | None => Err (Unspecified "m_media is null")
    | Some m =>
        if negb (Position_eqb (Image.GetMSFPositionOnDisc m) (setloc_position s)) then
          do s <- BeginSeeking s;
          let s := set_read_after_seek (negb cdda) s in
          Ok (set_play_after_seek cdda s)
        else
          (* already in position *)
          Ok (begin_reading_now cdda (set_setloc_pending false s))
    end
  else Ok (begin_reading_now cdda s).

Definition DoSeekComplete (s : State) : res State :=
  Assert (secondary SecondaryBit.seeking s) "m_secondary_status.seeking"
    (let s := set_secondary SecondaryBit.seeking false s in
     let sought :=
       match media s with
       | None => (false, s)
       | Some m =>
           let r := Image.SeekMSF (seek_position s) m in
           (fst r, set_media (Some (snd r)) s)
       end in
     let s := snd sought in
     do s <-
       (if fst sought then
          do s <- (if play_after_seek s || read_after_seek s
                   then BeginReading (play_after_seek s) s else Ok s);
          do s <- PushAsyncResponse (secondary_status s) s;
          do s <- SetAsyncInterrupt INT2 s;
          Ok (UpdateStatusRegister s)
        else SendAsyncErrorResponse 0x80 s);
     let s := set_setloc_pending false s in
     let s := set_read_after_seek false s in
     Ok (set_play_after_seek false s)).

(** ** Data FIFO *)

Definition slice (from count : Z) (l : list Z) : list Z :=
  firstn (Z.to_nat count) (skipn (Z.to_nat from) l).

Definition LoadDataFIFO (s : State) : res State :=
  if FIFO.IsEmpty (sector_buffer s) then Ok s
  else
    do q <-
      (if mode_bit ModeBit.read_raw_sector s then
         FIFO.PushRange DATA_FIFO_SIZE
           (slice SECTOR_SYNC_SIZE (RAW_SECTOR_SIZE - SECTOR_SYNC_SIZE) (sector_buffer s))
           (data_fifo s)
       else
         FIFO.PushRange DATA_FIFO_SIZE
           (slice (SECTOR_SYNC_SIZE + 12) DATA_SECTOR_SIZE (sector_buffer s))
           (data_fifo s));
    Ok (set_sector_buffer [] (set_data_fifo q s)).

(** DMARead(words, word_count): the bytes written to [words], and the state.
    The words past the FIFO's contents are zeroed before the bytes of the
    FIFO are copied over the front of the buffer. *)
Definition DMARead (word_count : Z) (s : State) : res (list Z * State) :=
  let words_in_fifo := FIFO.GetSize (data_fifo s) / 4 in
  let bytes_to_read := Z.min (u32 (word_count * 4)) (FIFO.GetSize (data_fifo s)) in
  do popped <- FIFO.PopRange bytes_to_read (data_fifo s);
  let zeros :=
    if words_in_fifo <? word_count
    then repeat 0 (Z.to_nat (word_count * 4 - bytes_to_read)) else [] in
  Ok (fst popped ++ zeros, set_data_fifo (snd popped) s).

(** ** XA-ADPCM resampling and volume *)

Definition s_zigzag_table : list (list Z) :=
  [
   [0; 0; 0; 0; 0; (-0x0002); 0x000A; (-0x0022); 0x0041; (-0x0054); 0x0034; 0x0009; (-0x010A);
    0x0400; (-0x0A78); 0x234C; 0x6794; (-0x1780); 0x0BCD; (-0x0623); 0x0350; (-0x016D); 0x006B;
    0x000A; (-0x0010); 0x0011; (-0x0008); 0x0003; (-0x0001)];
   [0; 0; 0; (-0x0002); 0; 0x0003; (-0x0013); 0x003C; (-0x004B); 0x00A2; (-0x00E3); 0x0132;
    (-0x0043); (-0x0267); 0x0C9D; 0x74BB; (-0x11B4); 0x09B8; (-0x05BF); 0x0372; (-0x01A8);
    0x00A6; (-0x001B); 0x0005; 0x0006; (-0x0008); 0x0003; (-0x0001); 0];
   [0; 0; (-0x0001); 0x0003; (-0x0002); (-0x0005); 0x001F; (-0x004A); 0x00B3; (-0x0192);
    0x02B1; (-0x039E); 0x04F8; (-0x05A6); 0x7939; (-0x05A6); 0x04F8; (-0x039E); 0x02B1;
    (-0x0192); 0x00B3; (-0x004A); 0x001F; (-0x0005); (-0x0002); 0x0003; (-0x0001); 0; 0];
   [0; (-0x0001); 0x0003; (-0x0008); 0x0006; 0x0005; (-0x001B); 0x00A6; (-0x01A8); 0x0372;
    (-0x05BF); 0x09B8; (-0x11B4); 0x74BB; 0x0C9D; (-0x0267); (-0x0043); 0x0132; (-0x00E3);
    0x00A2; (-0x004B); 0x003C; (-0x0013); 0x0003; 0; (-0x0002); 0; 0; 0];
   [(-0x0001); 0x0003; (-0x0008); 0x0011; (-0x0010); 0x000A; 0x006B; (-0x016D); 0x0350;
    (-0x0623); 0x0BCD; (-0x1780); 0x6794; 0x234C; (-0x0A78); 0x0400; (-0x010A); 0x0009; 0x0034;
    (-0x0054); 0x0041; (-0x0022); 0x000A; (-0x0001); 0; 0x0001; 0; 0; 0];
   [0x0002; (-0x0008); 0x0010; (-0x0023); 0x002B; 0x001A; (-0x00EB); 0x027B; (-0x0548); 0x0AFA;
    (-0x16FA); 0x53E0; 0x3C07; (-0x1249); 0x080E; (-0x0347); 0x015B; (-0x0044); (-0x0017);
    0x0046; (-0x0023); 0x0011; (-0x0005); 0; 0; 0; 0; 0; 0];
   [(-0x0005); 0x0011; (-0x0023); 0x0046; (-0x0017); (-0x0044); 0x015B; (-0x0347); 0x080E;
    (-0x1249); 0x3C07; 0x53E0; (-0x16FA); 0x0AFA; (-0x0548); 0x027B; (-0x00EB); 0x001A; 0x002B;
    (-0x0023); 0x0010; (-0x0008); 0x0002; 0; 0; 0; 0; 0; 0]
  ].

(** ringbuf[i] for a ring of 32 samples. *)
Definition ring_at (ringbuf : list Z) (i : Z) : Z := nth (Z.to_nat i) ringbuf 0.

(** ringbuf[i] = v; an index outside the ring leaves it as it is (the
    resampler keeps [p] below 32). *)
Definition ring_set (i : Z) (v : Z) (ringbuf : list Z) : list Z :=
  if (0 <=? i) && (i <? Z.of_nat (length ringbuf))
  then firstn (Z.to_nat i) ringbuf ++ v :: skipn (S (Z.to_nat i)) ringbuf
  else ringbuf.

Definition ZigZagInterpolate (ringbuf table : list Z) (p : Z) : Z :=
  let sum :=
    fold_left
      (fun sum i =>
         s32 (sum + Z.quot (ring_at ringbuf (Z.land (p - Z.of_nat i) 0x1F) * nth i table 0) 0x8000))
      (seq 0 29) 0 in
  s16 (clamp sum (-0x8000) 0x7FFF).

Definition ApplyVolume (sample volume : Z) : Z :=
  s16 (clamp (Z.shiftr (s32 (sample * volume)) 7) (-0x8000) 0x7FFF).

(** The volume-matrix step of the inner loop of ResampleXAADPCM. *)
Definition xa_apply_volume (volume_matrix : VolumeMatrix) (left_interp right_interp : Z)
  : Z * Z :=
  let left_out :=
    s16 (ApplyVolume left_interp (m00 volume_matrix)
         + ApplyVolume right_interp (m10 volume_matrix)) in
  let right_out :=
    s16 (ApplyVolume left_interp (m10 volume_matrix)
         + ApplyVolume right_interp (m11 volume_matrix)) in
  (left_out, right_out).

(** The volume-matrix step of the loop of ProcessCDDASector. *)
Definition cdda_apply_volume (volume_matrix : VolumeMatrix) (samp_left samp_right : Z)
  : Z * Z :=
  let left :=
    s16 (ApplyVolume samp_left (m00 volume_matrix)
         + ApplyVolume samp_right (m01 volume_matrix)) in
  let right :=
    s16 (ApplyVolume samp_left (m10 volume_matrix)
         + ApplyVolume samp_right (m11 volume_matrix)) in
  (left, right).

(** The resampler's position: the rings, the write pointer and the phase
    counter. *)
Definition Resampler : Type := (RingBuffers * Z * Z)%type.

(** The seven interpolated pairs sent to the mixer when the phase counter
    runs out. *)
Definition resample_emit (STEREO : bool) (volume_matrix : VolumeMatrix)
    (ring : RingBuffers) (p : Z) : list SPUCall :=
  map (fun j =>
         let table := nth j s_zigzag_table [] in
         let left_interp := ZigZagInterpolate (left_ringbuf ring) table p in
         let right_interp :=
           if STEREO then ZigZagInterpolate (right_ringbuf ring) table p else left_interp in
         let out := xa_apply_volume volume_matrix left_interp right_interp in
         AddCDAudioSample (fst out) (snd out))
      (seq 0 7).

(** One pass of the sample_dup loop. *)
Definition resample_dup (STEREO : bool) (volume_matrix : VolumeMatrix) (left right : Z)
    (st : Resampler) : Resampler * list SPUCall :=
  let '(ring, p, sixstep) := st in
  let ring :=
    {| left_ringbuf := ring_set p left (left_ringbuf ring);
       right_ringbuf :=
         if STEREO then ring_set p right (right_ringbuf ring) else right_ringbuf ring |} in
  let p := u8 ((p + 1) mod 32) in
  let sixstep := u8 (sixstep - 1) in
  if sixstep =? 0
  then ((ring, p, 6), resample_emit STEREO volume_matrix ring p)
  else ((ring, p, sixstep), []).

(** The in_sample_index loop, [count] passes from [samples_in] on. *)
Fixpoint resample_loop (STEREO SAMPLE_RATE : bool) (volume_matrix : VolumeMatrix)
    (count : nat) (samples_in : list Z) (st : Resampler) : Resampler * list SPUCall :=
  match count with
  | O => (st, [])
  | S count' =>
      let left := hd 0 samples_in in
      let samples_in := tl samples_in in
      let right := if STEREO then hd 0 samples_in else left in
      let samples_in := if STEREO then tl samples_in else samples_in in
      let r1 := resample_dup STEREO volume_matrix left right st in
      let r2 :=
        if SAMPLE_RATE then resample_dup STEREO volume_matrix left right (fst r1)
        else (fst r1, []) in
      let r3 := resample_loop STEREO SAMPLE_RATE volume_matrix count' samples_in (fst r2) in
      (fst r3, snd r1 ++ snd r2 ++ snd r3)
  end.

Definition ResampleXAADPCM (STEREO SAMPLE_RATE : bool) (samples_in : list Z)
    (num_samples_in : Z) (volume_matrix : VolumeMatrix) (s : State) : State :=
  let st := (xa_resample_ring_buffer s, xa_resample_p s, xa_resample_sixstep s) in
  let r :=
    resample_loop STEREO SAMPLE_RATE volume_matrix (Z.to_nat (u32 num_samples_in))
      samples_in st in
  let '(ring, p, sixstep) := fst r in
  let s := spu_calls (snd r) s in
  let s := set_xa_resample_ring_buffer ring s in
  set_xa_resample_sixstep sixstep (set_xa_resample_p p s).

(** The XA layer is declared outside the sources: the ADPCM decoder, which
    turns a sector and the filter history into the sample buffer and the
    new history, and the accessors of the coding-info byte. *)
Class CDXA : Type := {
  DecodeADPCMSector : list Z -> list Z -> list Z * list Z;
  IsStereo : Z -> bool;
  IsHalfSampleRate : Z -> bool;
  GetSamplesPerSector : Z -> Z
}.

(** ** Sector processor *)

Section SectorProcessor.

Context {xa : CDXA}.

Definition ProcessXAADPCMSector (s : State) : State :=
  let decoded := DecodeADPCMSector (sector_buffer s) (xa_last_samples s) in
  let sample_buffer := fst decoded in
  let s := set_xa_last_samples (snd decoded) s in
  (* Only send to SPU if we're not muted. *)
  if muted s || adpcm_muted s then s
  else
    let codinginfo := subheader_codinginfo s in
    if IsStereo codinginfo then
      let num_samples := u32 (GetSamplesPerSector codinginfo) / 2 in
      let s := spu_call (EnsureCDAudioSpace num_samples) s in
      ResampleXAADPCM true (IsHalfSampleRate codinginfo) sample_buffer num_samples
        (cd_audio_volume_matrix s) s
    else
      let num_samples := u32 (GetSamplesPerSector codinginfo) in
      let s := spu_call (EnsureCDAudioSpace num_samples) s in
      ResampleXAADPCM false (IsHalfSampleRate codinginfo) sample_buffer num_samples
        (cd_audio_volume_matrix s) s.

Definition ProcessDataSector (s : State) : res State :=
  let s := set_last_sector_header
             (slice SECTOR_SYNC_SIZE SECTOR_HEADER_SIZE (sector_buffer s)) s in
  let s := set_last_sector_subheader
             (slice (SECTOR_SYNC_SIZE + SECTOR_HEADER_SIZE) SECTOR_SUBHEADER_SIZE
                (sector_buffer s)) s in
  let submode := subheader_submode s in
  let r :=
    if mode_bit ModeBit.xa_enable s && (header_sector_mode s =? 2) then
      if Z.testbit submode SubmodeBit.realtime && Z.testbit submode SubmodeBit.audio then
        let s :=
          (* Check for automatic ADPCM filter. *)
          if mode_bit ModeBit.xa_filter s
             && (negb (subheader_file_number s =? filter_file_number s)
                 || negb (subheader_channel_number s =? filter_channel_number s))
          then s
          else ProcessXAADPCMSector s in
        (* Audio+realtime sectors aren't delivered to the CPU. *)
        (set_sector_buffer [] s, false)
      else (s, true)
    else (s, true) in
  let s := fst r in
  let pass_to_cpu := snd r in
  if pass_to_cpu then
    do s <- PushAsyncResponse (secondary_status s) s;
    do s <- SetAsyncInterrupt INT1 s;
    Ok (UpdateStatusRegister s)
  else Ok s.

End SectorProcessor.

(** A 16-bit sample read from two bytes of the sector, low byte first. *)
Definition sample_at (buf : list Z) (offset : nat) : Z :=
  s16 (nth offset buf 0 + 256 * nth (S offset) buf 0).

Definition CDDA_NUM_SAMPLES : Z := RAW_SECTOR_SIZE / 2 / 2.

Definition ProcessCDDASector (s : State) : State :=
  let s :=
    if negb (muted s) then
      let num_samples := CDDA_NUM_SAMPLES in
      let s := spu_call (EnsureCDAudioSpace num_samples) s in
      spu_calls
        (map (fun i =>
                let samp_left := sample_at (sector_buffer s) (4 * i) in
                let samp_right := sample_at (sector_buffer s) (4 * i + 2) in
                let out := cdda_apply_volume (cd_audio_volume_matrix s) samp_left samp_right in
                AddCDAudioSample (fst out) (snd out))
             (seq 0 (Z.to_nat num_samples)))
        s
    else s in
  set_sector_buffer [] s.

Section SectorRead.

Context {xa : CDXA}.

Definition DoSectorRead (s : State) : res State :=
  let s := if HasPendingAsyncInterrupt s then CancelAsyncInterrupt s else s in
  Assert (negb (mode_bit ModeBit.ignore_bit s)) "!m_mode.ignore_bit"
    (let s := set_sector_buffer (resize RAW_SECTOR_SIZE (sector_buffer s)) s in
     match media s with
     | None => Err (Unspecified "m_media is null")
     | Some m =>
         let r := Image.Read m in
         let s := set_media (Some (snd r)) (set_sector_buffer (fst r) s) in
         do s <-
           (if secondary SecondaryBit.reading s then ProcessDataSector s
            else if secondary SecondaryBit.playing_cdda s then Ok (ProcessCDDASector s)
            else Err (Panicked "Not reading or playing"));
         let s :=
           set_read_or_seek_remaining_ticks
             (s32 (read_or_seek_remaining_ticks s + GetTicksForRead s)) s in
         Ok (SetDowncount (read_or_seek_remaining_ticks s) s)
     end).

End SectorRead.

(** ** Command dispatcher and register window

    The scheduler is an external collaborator: System::Synchronize hands
    the ticks that have run since the last flush to [Execute].  The
    functions that call it take it as the section variable [Synchronize];
    the knot is tied after the section. *)
Module Dispatch.
Section Dispatcher.

Context {xa : CDXA}.
Variable Synchronize : State -> res State.

Definition EndCommand (s : State) : State :=
  let s := set_param_fifo [] s in
  let s := set_command_state Idle s in
  let s := set_command Command.Sync s in
  let s := set_command_stage 0 s in
  let s := set_command_remaining_ticks 0 s in
  UpdateStatusRegister s.

Definition NextCommandStage (wait_for_irq : bool) (time : Z) (s : State) : res State :=
  (* prevent re-execution when synchronizing below *)
  let s := set_command_state WaitForIRQClear s in
  let s := set_command_remaining_ticks (s32 (u32 time)) s in
  let s := set_command_stage (u32 (command_stage s + 1)) s in
  let s := UpdateStatusRegister s in
  if wait_for_irq then Ok s
  else
    do s <- Synchronize s;
    let s := set_command_state WaitForExecute s in
    let s := SetDowncount (command_remaining_ticks s) s in
    Ok (UpdateStatusRegister s).

Definition ExecuteTestCommand (subcommand : Z) (s : State) : res State :=
  if subcommand =? 0x20 then
    (* Get CDROM BIOS Date/Version *)
    do s <- PushResponseRange [0x94; 0x09; 0x19; 0xC0] s;
    Ok (EndCommand (SetInterrupt ACK s))
  else if subcommand =? 0x22 then
    (* Get CDROM region ID string: 'f', 'o', 'r', ' ', 'U', '/', 'C' *)
    do s <- PushResponseRange [0x66; 0x6F; 0x72; 0x20; 0x55; 0x2F; 0x43] s;
    Ok (EndCommand (SetInterrupt ACK s))
  else Ok s.

Definition ExecuteCommand (s : State) : res State :=
  let c := command s in
  if c =? Command.Getstat then
    do s <- SendACKAndStat s;
    Ok (EndCommand s)
  else if c =? Command.Test then
    do r <- FIFO.Pop (param_fifo s);
    ExecuteTestCommand (fst r) (set_param_fifo (snd r) s)
  else if c =? Command.GetID then
    if command_stage s =? 0 then
      if negb (HasMedia s) then
        do s <- PushResponseRange [0x11; 0x80] s;
        Ok (EndCommand (SetInterrupt INT5 s))
      else
        (* INT3(stat), ... *)
        do s <- SendACKAndStat s;
        NextCommandStage true 18000 s
    else
      do s <- PushResponseRange [0x02; 0x00; 0x20; 0x00; 0x53; 0x43; 0x45; 0x41] s;
      Ok (EndCommand (SetInterrupt INT2 s))
  else if c =? Command.Setfilter then
    do file <- FIFO.Peek 0 (param_fifo s);
    do channel <- FIFO.Peek 1 (param_fifo s);
    let s := set_filter_file_number file s in
    let s := set_filter_channel_number channel s in
    do s <- SendACKAndStat s;
    Ok (EndCommand s)
  else if c =? Command.Setmode then
    do mode <- FIFO.Peek 0 (param_fifo s);
    let s := set_mode mode s in
    do s <- SendACKAndStat s;
    Ok (EndCommand s)
  else if c =? Command.Setloc then
    do p0 <- FIFO.Peek 0 (param_fifo s);
    do p1 <- FIFO.Peek 1 (param_fifo s);
    do p2 <- FIFO.Peek 2 (param_fifo s);
    let s :=
      set_setloc_position
        {| minute := BCDToDecimal p0; second := BCDToDecimal p1; frame := BCDToDecimal p2 |}
        s in
    let s := set_setloc_pending true s in
    do s <- SendACKAndStat s;
    Ok (EndCommand s)
  else if (c =? Command.SeekL) || (c =? Command.SeekP) then
    do s <-
      (if negb (HasMedia s) then SendErrorResponse 0x80 s
       else
         let s := StopReading s in
         do s <- BeginSeeking s;
         SendACKAndStat s);
    Ok (EndCommand s)
  else if (c =? Command.ReadN) || (c =? Command.ReadS) then
    do s <-
      (if negb (HasMedia s) then SendErrorResponse 0x80 s
       else
         let s := StopReading s in
         do s <- BeginReading false s;
         SendACKAndStat s);
    Ok (EndCommand s)
  else if c =? Command.Play then
    do track <- (if FIFO.IsEmpty (param_fifo s) then Ok 0 else FIFO.Peek 0 (param_fifo s));
    do s <-
      match media s with
      | None => SendErrorResponse 0x80 s
      | Some m =>
          (* if track zero, start from current position *)
          let s :=
            if negb (track =? 0) then
              (* play specific track? restart current track if past the end *)
              let track :=
                if track >? Image.GetTrackCount m
                then Truncate8 (Image.GetTrackNumber m) else track in
              let s := set_setloc_position (Image.GetTrackStartMSFPosition m track) s in
              set_setloc_pending true s
            else s in
          do s <- BeginReading true s;
          SendACKAndStat s
      end;
    Ok (EndCommand s)
  else if c =? Command.Pause then
    if command_stage s =? 0 then
      let was_reading := IsReadingOrPlaying s in
      do s <- SendACKAndStat s;
      let s := StopReading s in
      NextCommandStage true
        (if was_reading
         then (if mode_bit ModeBit.double_speed s then 2000000 else 1000000)
         else 7000) s
    else
      do s <- PushResponse (secondary_status s) s;
      Ok (EndCommand (SetInterrupt INT2 s))
  else if c =? Command.Init then
    if command_stage s =? 0 then
      do s <- SendACKAndStat s;
      let s := StopReading s in
      NextCommandStage true 8000 s
    else
      let s := set_mode 0 s in
      let s := set_secondary_status 0 s in
      let s := set_secondary SecondaryBit.motor_on true s in
      do s <- PushResponse (secondary_status s) s;
      Ok (EndCommand (SetInterrupt INT2 s))
  else if c =? Command.Mute then
    let s := set_muted true s in
    do s <- SendACKAndStat s;
    Ok (EndCommand s)
  else if c =? Command.Demute then
    let s := set_muted false s in
    do s <- SendACKAndStat s;
    Ok (EndCommand s)
  else if c =? Command.GetlocL then
    do s <- PushResponseRange (last_sector_header s) s;
    do s <- PushResponseRange (last_sector_subheader s) s;
    Ok (EndCommand (SetInterrupt ACK s))
  else if c =? Command.GetlocP then
    (* TODO: Subchannel Q support.. *)
    do s <- PushResponse 1 s;                  (* track number *)
    do s <- PushResponse 1 s;                  (* index *)
    do s <- PushResponse (header_minute s) s;  (* minute within track *)
    do s <- PushResponse (header_second s) s;  (* second within track *)
    do s <- PushResponse (header_frame s) s;   (* frame within track *)
    do s <- PushResponse (header_minute s) s;  (* minute on entire disc *)
    do s <- PushResponse (header_second s) s;  (* second on entire disc *)
    do s <- PushResponse (header_frame s) s;   (* frame on entire disc *)
    Ok (EndCommand (SetInterrupt ACK s))
  else if c =? Command.GetTN then
    do s <-
      match media s with
      | Some m =>
          do s <- PushResponse (secondary_status s) s;
          do s <- PushResponse (DecimalToBCD (Truncate8 (Image.GetTrackNumber m))) s;
          do s <- PushResponse (DecimalToBCD (Truncate8 (Image.GetTrackCount m))) s;
          Ok (SetInterrupt ACK s)
      | None => SendErrorResponse 0x80 s
      end;
    Ok (EndCommand s)
  else if c =? Command.GetTD then
    Assert (1 <=? FIFO.GetSize (param_fifo s)) "m_param_fifo.GetSize() >= 1"
      (do p0 <- FIFO.Peek 0 (param_fifo s);
       let track := BCDToDecimal p0 in
       do s <-
         match media s with
         | None => SendErrorResponse 0x80 s
         | Some m =>
             if track >? Image.GetTrackCount m then SendErrorResponse 0x10 s
             else
               let pos :=
                 if track =? 0 then FromLBA (Image.GetLBACount m)
                 else Image.GetTrackStartMSFPosition m track in
               do s <- PushResponse (secondary_status s) s;
               do s <- PushResponse (DecimalToBCD (Truncate8 (minute pos))) s;
               do s <- PushResponse (DecimalToBCD (Truncate8 (second pos))) s;
               Ok (SetInterrupt ACK s)
         end;
       Ok (EndCommand s))
  else Err (Panicked "Unknown command").

Definition Execute (ticks : Z) (s : State) : res State :=
  do s <-
    match command_state s with
    | Idle | WaitForIRQClear => Ok s
    | WaitForExecute =>
        let s := set_command_remaining_ticks (s32 (command_remaining_ticks s - ticks)) s in
        if command_remaining_ticks s <=? 0 then ExecuteCommand s
        else Ok (SetDowncount (command_remaining_ticks s) s)
    end;
  if IsActive s then
    let s :=
      set_read_or_seek_remaining_ticks (s32 (read_or_seek_remaining_ticks s - ticks)) s in
    if read_or_seek_remaining_ticks s <=? 0 then
      if secondary SecondaryBit.seeking s then DoSeekComplete s else DoSectorRead s
    else Ok (SetDowncount (read_or_seek_remaining_ticks s) s)
  else Ok s.

Definition BeginCommand (command : Z) (s : State) : res State :=
  let s := set_response_fifo [] s in
  do s <- Synchronize s;
  let s := set_command command s in
  let s := set_command_stage 0 s in
  let s := set_command_remaining_ticks (GetAckDelayForCommand s) s in
  if command_remaining_ticks s =? 0 then ExecuteCommand s
  else
    let s := set_command_state WaitForExecute s in
    let s := SetDowncount (command_remaining_ticks s) s in
    Ok (UpdateStatusRegister s).

Definition WriteRegister (offset value : Z) (s : State) : res State :=
  let value := u8 value in
  let index := status_index s in
  if offset =? 0 then
    Ok (set_status (Z.lor (Z.land (status s) (u8 (Z.lnot 3))) (Z.land value 3)) s)
  else if offset =? 1 then
    if index =? 0 then
      if CommandState_eqb (command_state s) Idle then BeginCommand value s
      else Ok s
    else if index =? 1 then Ok s  (* sound map data out *)
    else if index =? 2 then Ok s  (* sound map coding info *)
    else
      (* Audio volume for right-to-left output *)
      let m := next_cd_audio_volume_matrix s in
      Ok (set_next_cd_audio_volume_matrix
            {| m00 := m00 m; m01 := m01 m; m10 := value; m11 := m11 m |} s)
  else if offset =? 2 then
    if index =? 0 then
      do q <- (if FIFO.IsFull PARAM_FIFO_SIZE (param_fifo s)
               then FIFO.RemoveOne (param_fifo s) else Ok (param_fifo s));
      do q <- FIFO.Push PARAM_FIFO_SIZE value q;
      Ok (UpdateStatusRegister (set_param_fifo q s))
    else if index =? 1 then
      Ok (set_interrupt_enable_register (Z.land value INTERRUPT_REGISTER_MASK) s)
    else if index =? 2 then
      (* Audio volume for left-to-left output *)
      let m := next_cd_audio_volume_matrix s in
      Ok (set_next_cd_audio_volume_matrix
            {| m00 := value; m01 := m01 m; m10 := m10 m; m11 := m11 m |} s)
    else
      (* Audio volume for right-to-left output *)
      let m := next_cd_audio_volume_matrix s in
      Ok (set_next_cd_audio_volume_matrix
            {| m00 := m00 m; m01 := m01 m; m10 := value; m11 := m11 m |} s)
  else if offset =? 3 then
    if index =? 0 then
      (* Request register *)
      Assert (negb (Z.testbit value RequestBit.SMEN)) "!rr.SMEN"
        (do s <- (if Z.testbit value RequestBit.BFRD then LoadDataFIFO s
                  else Ok (set_data_fifo [] s));
         Ok (UpdateStatusRegister s))
    else if index =? 1 then
      (* Interrupt flag register *)
      let s :=
        set_interrupt_flag_register
          (u8 (Z.land (interrupt_flag_register s)
                 (Z.lnot (Z.land value INTERRUPT_REGISTER_MASK)))) s in
      do s <-
        (if interrupt_flag_register s =? 0 then
           if CommandState_eqb (command_state s) WaitForIRQClear then
             do s <- Synchronize s;
             let s := set_command_state WaitForExecute s in
             Ok (SetDowncount (command_remaining_ticks s) s)
           else if HasPendingAsyncInterrupt s then DeliverAsyncInterrupt s
           else Ok s
         else Ok s);
      (* Bit 6 clears the parameter FIFO. *)
      if negb (Z.land value 0x40 =? 0)
      then Ok (UpdateStatusRegister (set_param_fifo [] s))
      else Ok s
    else if index =? 2 then
      (* Audio volume for left-to-right output *)
      let m := next_cd_audio_volume_matrix s in
      Ok (set_next_cd_audio_volume_matrix
            {| m00 := m00 m; m01 := value; m10 := m10 m; m11 := m11 m |} s)
    else
      (* Audio volume apply changes *)
      let s := set_adpcm_muted (negb (Z.land value 0x01 =? 0)) s in
      if negb (Z.land value 0x20 =? 0)
      then Ok (set_cd_audio_volume_matrix (next_cd_audio_volume_matrix s) s)
      else Ok s
  else Ok s.

End Dispatcher.
End Dispatch.

(** ** Register reads, reset and media *)

Definition ReadRegister (offset : Z) (s : State) : res (Z * State) :=
  if offset =? 0 then
    (* status register *)
    Ok (status s, s)
  else if offset =? 1 then
    (* always response FIFO *)
    match response_fifo s with
    | [] => Ok (0xFF, s)
    | value :: q => Ok (value, UpdateStatusRegister (set_response_fifo q s))
    end
  else if offset =? 2 then
    (* always data FIFO *)
    do r <- FIFO.Pop (data_fifo s);
    Ok (fst r, UpdateStatusRegister (set_data_fifo (snd r) s))
  else if offset =? 3 then
    let index := status_index s in
    if (index =? 0) || (index =? 2) then
      Ok (u8 (Z.lor (interrupt_enable_register s) (Z.lnot INTERRUPT_REGISTER_MASK)), s)
    else
      Ok (u8 (Z.lor (interrupt_flag_register s) (Z.lnot INTERRUPT_REGISTER_MASK)), s)
  else Err (Panicked "Unknown CDROM register").

Definition SoftReset (s : State) : State :=
  let s := set_command_state Idle s in
  let s := set_command Command.Sync s in
  let s := set_command_stage 0 s in
  let s := set_command_remaining_ticks 0 s in
  let s := set_read_or_seek_remaining_ticks 0 s in
  let s := set_status 0 s in
  let s := set_secondary_status 0 s in
  let s := set_mode 0 s in
  let s := set_interrupt_enable_register INTERRUPT_REGISTER_MASK s in
  let s := set_interrupt_flag_register 0 s in
  let s := set_pending_async_interrupt 0 s in
  let s := set_setloc_position {| minute := 0; second := 0; frame := 0 |} s in
  let s := set_seek_position {| minute := 0; second := 0; frame := 0 |} s in
  let s := set_setloc_pending false s in
  let s := set_read_after_seek false s in
  let s := set_play_after_seek false s in
  let s := set_muted false s in
  let s := set_adpcm_muted false s in
  let s := set_filter_file_number 0 s in
  let s := set_filter_channel_number 0 s in
  let s := set_last_sector_header (repeat 0 (Z.to_nat SECTOR_HEADER_SIZE)) s in
  let s := set_last_sector_subheader (repeat 0 (Z.to_nat SECTOR_SUBHEADER_SIZE)) s in
  let s :=
    set_next_cd_audio_volume_matrix {| m00 := 0x80; m01 := 0x00; m10 := 0x00; m11 := 0x80 |} s in
  let s := set_cd_audio_volume_matrix (next_cd_audio_volume_matrix s) s in
  let s := set_xa_last_samples (repeat 0 4) s in
  let s :=
    set_xa_resample_ring_buffer
      {| left_ringbuf := repeat 0 (Z.to_nat XA_RESAMPLE_RING_BUFFER_SIZE);
         right_ringbuf := repeat 0 (Z.to_nat XA_RESAMPLE_RING_BUFFER_SIZE) |} s in
  let s := set_xa_resample_p 0 s in
  let s := set_xa_resample_sixstep 6 s in
  let s := set_param_fifo [] s in
  let s := set_response_fifo [] s in
  let s := set_async_response_fifo [] s in
  let s := set_data_fifo [] s in
  let s := set_sector_buffer [] s in
  UpdateStatusRegister s.

Definition Reset (s : State) : State :=
  let s :=
    match media s with
    | Some m => set_media (Some (snd (Image.Seek 0 m))) s
    | None => s
    end in
  SoftReset s.

Definition RemoveMedia (s : State) : State :=
  match media s with
  | None => s
  | Some _ => set_media None s
  end.

(** InsertMedia(filename): [opened] is what CDImage::Open made of the file
    name. *)
Definition InsertMedia (opened : option CDImage) (s : State) : bool * State :=
  match opened with
  | None => (false, s)
  | Some m =>
      let s := if HasMedia s then RemoveMedia s else s in
      (true, set_media (Some m) s)
  end.

(** ** The scheduler

    Modelled from the spec: the scheduler is not among the sources.  It
    counts the ticks that have run since the last flush; Synchronize
    clears the count and passes it to Execute (section 5).  While Execute
    runs the count is zero, so a Synchronize called from inside it returns
    at once. *)
Definition SynchronizeNested (s : State) : res State := Ok s.

Section Scheduler.

Context {xa : CDXA}.

Definition Execute (ticks : Z) (s : State) : res State :=
  Dispatch.Execute SynchronizeNested ticks s.

Definition Synchronize (s : State) : res State :=
  if pending_ticks s =? 0 then Ok s
  else Execute (pending_ticks s) (set_pending_ticks 0 s).

Definition BeginCommand (command : Z) (s : State) : res State :=
  Dispatch.BeginCommand Synchronize command s.

Definition WriteRegister (offset value : Z) (s : State) : res State :=
  Dispatch.WriteRegister Synchronize offset value s.

(** What the surroundings can do to the controller. *)
Inductive Op : Type :=
| OpReset
| OpInsertMedia (opened : option CDImage)
| OpRemoveMedia
| OpReadRegister (offset : Z)
| OpWriteRegister (offset value : Z)
| OpDMARead (word_count : Z)
| OpRun (ticks : Z)
| OpSynchronize.

Definition apply_op (o : Op) (s : State) : res State :=
  match o with
  | OpReset => Ok (Reset s)
  | OpInsertMedia opened => Ok (snd (InsertMedia opened s))
  | OpRemoveMedia => Ok (RemoveMedia s)
  | OpReadRegister offset => do r <- ReadRegister offset s; Ok (snd r)
  | OpWriteRegister offset value => WriteRegister offset value s
  | OpDMARead word_count => do r <- DMARead word_count s; Ok (snd r)
  | OpRun ticks =>
      if 0 <=? ticks then Ok (set_pending_ticks (pending_ticks s + ticks) s)
      else Err (Unspecified "time runs forward")
  | OpSynchronize => Synchronize s
  end.

Fixpoint run (ops : list Op) (s : State) : res State :=
  match ops with
  | [] => Ok s
  | o :: ops' => do s' <- apply_op o s; run ops' s'
  end.

(** The states the controller reaches from a reset. *)
Inductive reachable : State -> Prop :=
| reachable_reset : forall s0, reachable (Reset s0)
| reachable_step : forall s o s',
    reachable s -> apply_op o s = Ok s' -> reachable s'.

End Scheduler.

(** A powered-up controller before its first reset: every member zero, no
    media, nothing yet asked of the collaborators. *)
Definition power_on : State :=
  {| command_state := Idle; command := 0; command_stage := 0; command_remaining_ticks := 0;
     read_or_seek_remaining_ticks := 0; status := 0; secondary_status := 0; mode := 0;
     interrupt_enable_register := 0; interrupt_flag_register := 0;
     pending_async_interrupt := 0;
     setloc_position := {| minute := 0; second := 0; frame := 0 |};
     seek_position := {| minute := 0; second := 0; frame := 0 |};
     setloc_pending := false; read_after_seek := false; play_after_seek := false;
     muted := false; adpcm_muted := false; filter_file_number := 0;
     filter_channel_number := 0; last_sector_header := []; last_sector_subheader := [];
     cd_audio_volume_matrix := {| m00 := 0; m01 := 0; m10 := 0; m11 := 0 |};
     next_cd_audio_volume_matrix := {| m00 := 0; m01 := 0; m10 := 0; m11 := 0 |};
     xa_last_samples := []; xa_resample_ring_buffer := {| left_ringbuf := []; right_ringbuf := [] |};
     xa_resample_p := 0; xa_resample_sixstep := 0; param_fifo := []; response_fifo := [];
     async_response_fifo := []; data_fifo := []; sector_buffer := []; media := None;
     dma_request := false; irq_requests := 0; spu := []; downcount := 0; pending_ticks := 0 |}.

(** ** Notions used in the statements *)

(** Invariants (T1) and (T2) of the specification. *)
Definition T1 (s : State) : Prop :=
  status_BUSYSTS s = CommandState_eqb (command_state s) WaitForExecute.
Definition T2 (s : State) : Prop :=
  status_DRQSTS s = negb (FIFO.IsEmpty (data_fifo s)) /\ dma_request s = status_DRQSTS s.

(** The flag register after the host writes [value] to acknowledge. *)
Definition flags_after_ack (value : Z) (s : State) : Z :=
  u8 (Z.land (interrupt_flag_register s) (Z.lnot (Z.land (u8 value) INTERRUPT_REGISTER_MASK))).

(** The acknowledge write of [value] releases a waiting command and does
    not ask for the parameter FIFO to be cleared. *)
Definition releases_command (value : Z) (s : State) : Prop :=
  status_index s = 1
  /\ command_state s = WaitForIRQClear
  /\ flags_after_ack value s = 0
  /\ Z.land (u8 value) 0x40 = 0.

(** A delivery of the asynchronous interrupt [code]: the response FIFO
    becomes the staged response, the code is latched into the flag register
    and an interrupt is requested. *)
Definition delivered (code : Z) (s s' : State) : Prop :=
  response_fifo s' = async_response_fifo s
  /\ async_response_fifo s' = []
  /\ interrupt_flag_register s' = code
  /\ pending_async_interrupt s' = 0
  /\ irq_requests s' = S (irq_requests s).

(** The fault of the assertion that guards against a second held interrupt. *)
Definition double_pending : Fault := AssertionFailed "m_pending_async_interrupt == 0".

(** The volume matrices, and the command-sequencing members. *)
Definition volume_part (s : State) : VolumeMatrix * VolumeMatrix :=
  (cd_audio_volume_matrix s, next_cd_audio_volume_matrix s).

Definition command_part (s : State) : CommandState * Z * Z * Z :=
  (command_state s, command s, command_stage s, command_remaining_ticks s).

(** What a register write may do to the entries [1][1]: the staged entry
    stays, and the entry in force stays or becomes the staged one. *)
Definition m11_kept (s s' : State) : Prop :=
  m11 (next_cd_audio_volume_matrix s') = m11 (next_cd_audio_volume_matrix s)
  /\ (m11 (cd_audio_volume_matrix s') = m11 (cd_audio_volume_matrix s)
      \/ m11 (cd_audio_volume_matrix s') = m11 (next_cd_audio_volume_matrix s)).

(** The staged matrix with one entry replaced. *)
Definition stage_m00 (v : Z) (s : State) : State :=
  let m := next_cd_audio_volume_matrix s in
  set_next_cd_audio_volume_matrix {| m00 := v; m01 := m01 m; m10 := m10 m; m11 := m11 m |} s.
Definition stage_m01 (v : Z) (s : State) : State :=
  let m := next_cd_audio_volume_matrix s in
  set_next_cd_audio_volume_matrix {| m00 := m00 m; m01 := v; m10 := m10 m; m11 := m11 m |} s.
Definition stage_m10 (v : Z) (s : State) : State :=
  let m := next_cd_audio_volume_matrix s in
  set_next_cd_audio_volume_matrix {| m00 := m00 m; m01 := m01 m; m10 := v; m11 := m11 m |} s.

(** sat(x): saturation to the range of a signed 16-bit sample. *)
Definition sat (x : Z) : Z := clamp x (-0x8000) 0x7FFF.

Definition is_s16 (x : Z) : Prop := -0x8000 <= x <= 0x7FFF.
Definition is_u8 (x : Z) : Prop := 0 <= x <= 0xFF.

(** The mapping the specification gives for both audio paths, the sum
    being stored in a 16-bit sample. *)
Definition spec_apply_volume (M : VolumeMatrix) (l r : Z) : Z * Z :=
  (s16 (sat (l * m00 M / 128) + sat (r * m01 M / 128)),
   s16 (sat (l * m10 M / 128) + sat (r * m11 M / 128))).

Definition is_add (c : SPUCall) : bool :=
  match c with AddCDAudioSample _ _ => true | EnsureCDAudioSpace _ => false end.

(** The number of AddCDAudioSample calls in a run of mixer calls. *)
Definition count_adds (calls : list SPUCall) : Z := Z.of_nat (length (filter is_add calls)).

(** The space reserved by the first mixer call and the samples added after it. *)
Definition reserved_and_added (calls : list SPUCall) : option (Z * Z) :=
  match calls with
  | EnsureCDAudioSpace n :: rest => Some (n, count_adds rest)
  | _ => None
  end.

(** The passes of the sample_dup loop made for one input sample. *)
Definition dup_passes (SAMPLE_RATE : bool) : Z := if SAMPLE_RATE then 2 else 1.

(** ** Worked examples: images, decoder and host programs *)

(** A two-track image of 1000 sectors whose sector [n] holds the bytes
    n, n+1, ... (modulo 256). *)
Definition example_image : CDImage :=
  {| file_name := "disc.bin";
     position_on_disc := 0;
     lba_count := 1000;
     track_count := 2;
     track_number_at := fun lba => if lba <? 500 then 1 else 2;
     track_start_msf := fun track => FromLBA (150 + 500 * (track - 1));
     seekable := fun lba => lba <? 1000;
     raw_sector := fun lba => map (fun i => u8 (lba + Z.of_nat i)) (seq 0 2352) |}.

(** The head of a CD-XA audio sector: sync, header with mode 2, subheader
    with submode realtime + form 2 + audio and coding info stereo, 37800 Hz,
    4 bits.  The image below gives it for every sector, the rest of the
    sector being zero. *)
Definition xa_sector : list Z :=
  [0x00; 0xFF; 0xFF; 0xFF; 0xFF; 0xFF; 0xFF; 0xFF; 0xFF; 0xFF; 0xFF; 0x00;
   0x00; 0x02; 0x00; 0x02;
   0x01; 0x00; 0x64; 0x01; 0x01; 0x00; 0x64; 0x01].

Definition xa_image : CDImage :=
  {| file_name := "xa.bin";
     position_on_disc := 0;
     lba_count := 1000;
     track_count := 1;
     track_number_at := fun _ => 1;
     track_start_msf := fun _ => FromLBA 150;
     seekable := fun lba => lba <? 1000;
     raw_sector := fun _ => xa_sector |}.

(** An XA layer for the worked examples.  The accessors follow the
    coding-info byte of CD-XA (bit 0 stereo, bit 2 half rate, bit 4 eight
    bits per sample) with the samples per sector of section 4.6 of the
    specification; the decoder of these examples yields silence and keeps
    the filter history.  The properties below are proved for every XA
    layer; this one only supplies closed inputs. *)
Definition example_xa : CDXA :=
  {| DecodeADPCMSector := fun _ last_samples => (repeat 0 4032, last_samples);
     IsStereo := fun codinginfo => Z.testbit codinginfo 0;
     IsHalfSampleRate := fun codinginfo => Z.testbit codinginfo 2;
     GetSamplesPerSector := fun codinginfo => if Z.testbit codinginfo 4 then 2240 else 4032 |}.

(** The controller after its first reset, and the state the operations
    [ops] lead to from there. *)
Definition initial : State := Reset power_on.

Definition after (ops : list Op) : State :=
  match run (xa := example_xa) ops initial with
  | Ok s => s
  | Err _ => initial
  end.

(** Host writes: select an index, acknowledge all interrupt flags. *)
Definition select_index (index : Z) : Op := OpWriteRegister 0 index.
Definition acknowledge : list Op := [select_index 1; OpWriteRegister 3 0x07; select_index 0].

(** ReadN, acknowledged; the time of one sector; then the request register
    is written with BFRD to load the data FIFO. *)
Definition read_one_sector : list Op :=
  [OpInsertMedia (Some example_image);
   OpWriteRegister 1 Command.ReadN; OpRun 4000; OpSynchronize]
  ++ acknowledge
  ++ [OpRun (MASTER_CLOCK / 75); OpSynchronize; OpWriteRegister 3 0x80].

(** ReadN executed and not acknowledged, and a first sector read whose
    interrupt is therefore held. *)
Definition read_unacknowledged : list Op :=
  [OpInsertMedia (Some example_image);
   OpWriteRegister 1 Command.ReadN; OpRun 4000; OpSynchronize;
   OpRun (MASTER_CLOCK / 75); OpSynchronize].

(** GetID with media, its first stage executed, the index register set for
    the acknowledge write. *)
Definition getid_first_stage : list Op :=
  [OpInsertMedia (Some example_image);
   OpWriteRegister 1 Command.GetID; OpRun 4000; OpSynchronize; select_index 1].

(** Setloc 00:02:16, executed and acknowledged. *)
Definition setloc_done : list Op :=
  [OpInsertMedia (Some example_image);
   OpWriteRegister 2 0x00; OpWriteRegister 2 0x02; OpWriteRegister 2 0x16;
   OpWriteRegister 1 Command.Setloc; OpRun 4000; OpSynchronize]
  ++ acknowledge.

(** GetTD for track 2 written to the command register. *)
Definition gettd_written : list Op :=
  [OpInsertMedia (Some example_image); OpWriteRegister 2 0x02;
   OpWriteRegister 1 Command.GetTD].

(** Setmode(xa_enable), then ReadN, then the time of one sector. *)
Definition xa_playback : list Op :=
  [OpInsertMedia (Some xa_image);
   OpWriteRegister 2 0x40; OpWriteRegister 1 Command.Setmode; OpRun 4000; OpSynchronize]
  ++ acknowledge
  ++ [OpWriteRegister 1 Command.ReadN; OpRun 4000; OpSynchronize]
  ++ acknowledge
  ++ [OpRun (MASTER_CLOCK / 75); OpSynchronize].

(** Play, then the time of one sector. *)
Definition cdda_playback : list Op :=
  [OpInsertMedia (Some example_image);
   OpWriteRegister 1 Command.Play; OpRun 4000; OpSynchronize]
  ++ acknowledge
  ++ [OpRun (MASTER_CLOCK / 75); OpSynchronize].

(** Every volume target written with 0xFF, then the staged matrix applied. *)
Definition volume_writes : list Op :=
  [select_index 3; OpWriteRegister 1 0xFF; OpWriteRegister 2 0xFF;
   select_index 2; OpWriteRegister 2 0xFF; OpWriteRegister 3 0xFF;
   select_index 3; OpWriteRegister 3 0x20].

(** 0x80 written to the volume target at (offset 3, index 2), then the
    staged matrix applied. *)
Definition left_from_right : list Op :=
  [select_index 2; OpWriteRegister 3 0x80; select_index 3; OpWriteRegister 3 0x20].



(** ** Notions used in the further properties *)

Definition is_dma_read (o : Op) : bool :=
  match o with OpDMARead _ => true | _ => false end.

(** The host reading the register at [offset] [n] times: the bytes it
    reads, in the order it reads them, and the state it leaves. *)
Fixpoint read_registers (offset : Z) (n : nat) (s : State) : res (list Z * State) :=
  match n with
  | O => Ok ([], s)
  | S n' =>
      do r <- ReadRegister offset s;
      do rest <- read_registers offset n' (snd r);
      Ok (fst r :: fst rest, snd rest)
  end.

(** The [n] newest entries of a queue. *)
Definition newest (n : nat) (q : list Z) : list Z := skipn (length q - n) q.

(** The matrix that is in force after a reset. *)
Definition unity_volume : VolumeMatrix := {| m00 := 0x80; m01 := 0x00; m10 := 0x00; m11 := 0x80 |}.

(** The resampler's write pointer is inside the rings, its phase counter
    is between 1 and 6 and the rings have their 32 entries. *)
Definition resampler_ok (s : State) : Prop :=
  0 <= xa_resample_p s < 32
  /\ 1 <= xa_resample_sixstep s <= 6
  /\ length (left_ringbuf (xa_resample_ring_buffer s)) = 32%nat
  /\ length (right_ringbuf (xa_resample_ring_buffer s)) = 32%nat.

(** Setmode(xa_enable), Mute and ReadN, each acknowledged: the drive reads
    XA-ADPCM sectors with the mixer output muted. *)
Definition muted_xa_reading : list Op :=
  [OpInsertMedia (Some xa_image);
   OpWriteRegister 2 0x40; OpWriteRegister 1 Command.Setmode; OpRun 4000; OpSynchronize]
  ++ acknowledge
  ++ [OpWriteRegister 1 Command.Mute; OpRun 4000; OpSynchronize]
  ++ acknowledge
  ++ [OpWriteRegister 1 Command.ReadN; OpRun 4000; OpSynchronize]
  ++ acknowledge.

(** Setfilter(file 2, channel 0), Setmode(xa_enable, xa_filter) and ReadN,
    each acknowledged, on the image whose sectors belong to file 1. *)
Definition filtered_xa_reading : list Op :=
  [OpInsertMedia (Some xa_image);
   OpWriteRegister 2 0x02; OpWriteRegister 2 0x00; OpWriteRegister 1 Command.Setfilter;
   OpRun 4000; OpSynchronize]
  ++ acknowledge
  ++ [OpWriteRegister 2 0x48; OpWriteRegister 1 Command.Setmode; OpRun 4000; OpSynchronize]
  ++ acknowledge
  ++ [OpWriteRegister 1 Command.ReadN; OpRun 4000; OpSynchronize]
  ++ acknowledge.

(** Execute called once for each entry of [ticks], in that order. *)
Fixpoint Executes {xa : CDXA} (ticks : list Z) (s : State) : res State :=
  match ticks with
  | [] => Ok s
  | t :: ticks' => do s1 <- Execute t s; Executes ticks' s1
  end.

(** The Test command written after the parameters 0x55, 0x66 and 0x20, of
    which the first two are no subcommands the controller knows. *)
Definition unknown_test_written : list Op :=
  [OpWriteRegister 2 0x55; OpWriteRegister 2 0x66; OpWriteRegister 2 0x20;
   OpWriteRegister 1 Command.Test].

(** Pause written to the command register while the drive reads. *)
Definition pause_written : list Op := read_one_sector ++ [OpWriteRegister 1 Command.Pause].

(** Setloc 00:02:16 and ReadN, each acknowledged: the head is elsewhere, so
    the drive seeks first, with the request to read after the seek. *)
Definition read_with_seek : list Op :=
  setloc_done ++ [OpWriteRegister 1 Command.ReadN; OpRun 4000; OpSynchronize] ++ acknowledge.

(** The same, and while the drive seeks Setloc 00:02:40, executed and
    acknowledged: the seek ends with a Setloc pending for another sector. *)
Definition setloc_during_seek : list Op :=
  read_with_seek
  ++ [OpWriteRegister 2 0x00; OpWriteRegister 2 0x02; OpWriteRegister 2 0x40;
      OpWriteRegister 1 Command.Setloc; OpRun 4000; OpSynchronize]
  ++ acknowledge.

(** Setloc and SeekL on an image that accepts no seek target. *)
Definition unseekable_image : CDImage :=
  {| file_name := "short.bin";
     position_on_disc := 0;
     lba_count := 100;
     track_count := 1;
     track_number_at := fun _ => 1;
     track_start_msf := fun _ => FromLBA 150;
     seekable := fun lba => lba <? 100;
     raw_sector := fun lba => map (fun i => u8 (lba + Z.of_nat i)) (seq 0 2352) |}.

Definition seek_past_the_end : list Op :=
  [OpInsertMedia (Some unseekable_image);
   OpWriteRegister 2 0x00; OpWriteRegister 2 0x02; OpWriteRegister 2 0x16;
   OpWriteRegister 1 Command.Setloc; OpRun 4000; OpSynchronize]
  ++ acknowledge
  ++ [OpWriteRegister 1 Command.SeekL; OpRun 4000; OpSynchronize]
  ++ acknowledge.

(** The controller after [ticks] ticks that reach no deadline: the
    countdown of a command that waits to execute and the countdown of an
    active drive have gone down by [ticks], and the scheduler has been
    given the one that was updated last. *)
Definition elapse (ticks : Z) (s : State) : State :=
  let s :=
    match command_state s with
    | WaitForExecute =>
        SetDowncount (command_remaining_ticks s - ticks)
          (set_command_remaining_ticks (command_remaining_ticks s - ticks) s)
    | _ => s
    end in
  if IsActive s
  then SetDowncount (read_or_seek_remaining_ticks s - ticks)
         (set_read_or_seek_remaining_ticks (read_or_seek_remaining_ticks s - ticks) s)
  else s.

(** ReadN left unacknowledged, a first sector whose interrupt is therefore
    held, and then SeekL: the drive seeks while the interrupt is held. *)
Definition seek_with_held_interrupt : list Op :=
  read_unacknowledged ++ [OpWriteRegister 1 Command.SeekL; OpRun 4000; OpSynchronize].

(** The drive does at most one thing at a time (it seeks, or reads, or
    plays, or is inactive), and its motor is on while it does. *)
Definition drive_ok (s : State) : Prop :=
  (if secondary SecondaryBit.seeking s
   then negb (secondary SecondaryBit.reading s || secondary SecondaryBit.playing_cdda s)
   else negb (secondary SecondaryBit.reading s && secondary SecondaryBit.playing_cdda s))
  = true
  /\ (IsActive s = true -> secondary SecondaryBit.motor_on s = true).

(** At most one asynchronous response is staged: the staged response is
    empty unless an interrupt is held, and it never holds more than the two
    bytes of an error response. *)
Definition held_ok (s : State) : Prop :=
  (pending_async_interrupt s = 0 -> async_response_fifo s = [])
  /\ FIFO.GetSize (async_response_fifo s) <= 2.

(** ** Tactics *)

Create HintDb frame.
Create Rewrite HintDb frame_rw.
Create HintDb inv.
Create Rewrite HintDb inv_rw.

(** Decide the comparisons between opcodes once the command is known. *)
Ltac decide_opcodes :=
  repeat match goal with
         | |- context [?a =? ?b] =>
             let v := eval vm_compute in (a =? b) in
             match v with
             | true => change (a =? b) with true
             | false => change (a =? b) with false
             end
         end;
  cbn [orb andb negb].

(** Symbolic execution of a successful run: split the binds, assertions and
    branches of a hypothesis [_ = Ok _]. *)
Ltac run_step :=
  match goal with
  | H : Ok _ = Ok _ |- _ => injection H as H; try subst
  | H : Err _ = Ok _ |- _ => discriminate H
  | H : bind ?m _ = Ok _ |- _ =>
      let E := fresh "E" in destruct m eqn:E; cbn [bind] in H; [|discriminate H]
  | H : Assert ?c _ _ = Ok _ |- _ =>
      unfold Assert in H; destruct c eqn:?; [|discriminate H]
  | H : (if ?c then _ else _) = Ok _ |- _ => destruct c eqn:?
  | H : match ?x with _ => _ end = Ok _ |- _ => destruct x eqn:?
  end.

(** [F (f .. s)] is [F s] for every [f] that computes to updates of members
    [F] does not read; the equation is checked on variables, away from the
    terms at hand. *)
Ltac frame_simp F :=
  repeat first
    [ progress autorewrite with frame_rw
    | match goal with
      | |- context [F (if ?c then _ else _)] => destruct c; cbv iota
      | |- context [F (?f ?a ?b ?s)] =>
          let H := fresh in
          assert (H : forall a' b' s', F (f a' b' s') = F s') by (intros; reflexivity);
          rewrite !H; clear H
      | |- context [F (?f ?a ?s)] =>
          let H := fresh in
          assert (H : forall a' s', F (f a' s') = F s') by (intros; reflexivity);
          rewrite !H; clear H
      | |- context [F (?f ?s)] =>
          let H := fresh in
          assert (H : forall s', F (f s') = F s') by (intros; reflexivity);
          rewrite !H; clear H
      end ].

(** Turn every finished call [E : f .. s0 = Ok s1] into the fact that [F] of
    [s1] is [F] of [s0], by the lemmas of the database [frame]. *)
Ltac frame_facts F :=
  repeat match goal with
         | E : ?g ?s0 = Ok ?s1 |- _ =>
             first [ let K := fresh "K" in
                     assert (K : F s1 = F s0) by (eauto with frame);
                     revert K; clear E
                   | clear E ]
         end.

Ltac frame F :=
  repeat run_step; frame_facts F; frame_simp F; intros; frame_simp F;
  try congruence.

(** Backward reasoning for an invariant [P] along a successful run: the
    goal [P (..)] is reduced through updates of members [P] does not read,
    through the calls already executed (by the lemmas of the database
    [inv]), and closed by [est] where the status register has just been
    updated, until it is the hypothesis on the initial state. *)
Ltac inv_back P est :=
  repeat first
    [ match goal with H : P ?x |- P ?x => exact H end
    | est
    | progress autorewrite with inv_rw
    | match goal with
      | |- P (if ?c then _ else _) => destruct c
      | E : ?g ?s0 = Ok ?s1 |- P ?s1 =>
          let K := fresh "K" in
          assert (K : P s0 -> P s1) by (intro; eauto with inv);
          apply K; clear K E
      | |- P (?f ?a ?b ?s) =>
          let H := fresh in
          assert (H : forall a' b' s', P (f a' b' s') = P s') by (intros; reflexivity);
          rewrite H; clear H
      | |- P (?f ?a ?s) =>
          let H := fresh in
          assert (H : forall a' s', P (f a' s') = P s') by (intros; reflexivity);
          rewrite H; clear H
      | |- P (?f ?s) =>
          let H := fresh in
          assert (H : forall s', P (f s') = P s') by (intros; reflexivity);
          rewrite H; clear H
      end ].

Ltac inv P est := repeat run_step; inv_back P est.

(** * Properties *)

(** ** Arithmetic of the fixed-width types *)

Lemma u8_id (x : Z) : 0 <= x < 256 -> u8 x = x.
Proof. intros H. unfold u8. apply Z.mod_small. exact H. Qed.

Lemma u32_id (x : Z) : 0 <= x < 4294967296 -> u32 x = x.
Proof. intros H. unfold u32. apply Z.mod_small. exact H. Qed.

Lemma s16_id (x : Z) : -32768 <= x <= 32767 -> s16 x = x.
Proof. intros H. unfold s16. rewrite Z.mod_small by lia. lia. Qed.

Lemma s32_id (x : Z) : -2147483648 <= x <= 2147483647 -> s32 x = x.
Proof. intros H. unfold s32. rewrite Z.mod_small by lia. lia. Qed.

Lemma clamp_range (v lo hi : Z) : lo <= hi -> lo <= clamp v lo hi <= hi.
Proof.
  intros H. unfold clamp.
  destruct (Z.ltb_spec v lo); [lia|].
  destruct (Z.ltb_spec hi v); lia.
Qed.

Lemma sat_range (x : Z) : is_s16 (sat x).
Proof. unfold sat, is_s16. apply clamp_range. lia. Qed.

(** ** The volume matrix on the two audio paths *)

Lemma ApplyVolume_sat (sample volume : Z) :
  is_s16 sample -> is_u8 volume -> ApplyVolume sample volume = sat (sample * volume / 128).
Proof.
  unfold is_s16, is_u8, ApplyVolume. intros Hs Hv.
  rewrite s32_id by nia.
  rewrite Z.shiftr_div_pow2 by lia.
  change (2 ^ 7) with 128.
  apply s16_id. apply (sat_range (sample * volume / 128)).
Qed.

(** The CDDA path applies the matrix as the specification writes it. *)
Lemma cdda_apply_volume_spec (M : VolumeMatrix) (l r : Z) :
  is_s16 l -> is_s16 r ->
  is_u8 (m00 M) -> is_u8 (m01 M) -> is_u8 (m10 M) -> is_u8 (m11 M) ->
  cdda_apply_volume M l r = spec_apply_volume M l r.
Proof.
  intros Hl Hr H00 H01 H10 H11.
  unfold cdda_apply_volume, spec_apply_volume.
  rewrite !ApplyVolume_sat by assumption. reflexivity.
Qed.

(** The XA path reads [1][0] where the CDDA path reads [0][1]. *)
Lemma xa_apply_volume_transposed (M : VolumeMatrix) (l r : Z) :
  xa_apply_volume M l r
  = cdda_apply_volume {| m00 := m00 M; m01 := m10 M; m10 := m10 M; m11 := m11 M |} l r.
Proof. reflexivity. Qed.

(** C3 (the code departs from the claim): writing 0x80 to the volume target
    at (offset 3, index 2) and applying the staged matrix puts the matrix
    [[0x80, 0x80], [0x00, 0x80]] in force.  With it and the input pair
    (0, 256) the CDDA path gives the left output 256 that the
    specification's mapping gives, and the XA-ADPCM path gives 0, so the two
    volume-application functions are not equal. *)
Theorem C3_xa_and_cdda_volume_differ :
  let M := cd_audio_volume_matrix (after left_from_right) in
  M = {| m00 := 0x80; m01 := 0x80; m10 := 0x00; m11 := 0x80 |}
  /\ cdda_apply_volume M 0 256 = (256, 256)
  /\ spec_apply_volume M 0 256 = (256, 256)
  /\ xa_apply_volume M 0 256 = (0, 256)
  /\ xa_apply_volume M 0 256 <> cdda_apply_volume M 0 256.
Proof.
  cbv zeta.
  assert (E : cd_audio_volume_matrix (after left_from_right)
              = {| m00 := 0x80; m01 := 0x80; m10 := 0x00; m11 := 0x80 |})
    by (vm_compute; reflexivity).
  rewrite E. repeat split; try (vm_compute; reflexivity).
  vm_compute. discriminate.
Qed.

(** ** Runs of operations *)

Lemma run_reachable {xa : CDXA} (ops : list Op) :
  forall s s', reachable s -> run ops s = Ok s' -> reachable s'.
Proof.
  induction ops as [|o ops IH]; intros s s' Hr H; cbn [run] in H.
  - injection H as <-. exact Hr.
  - destruct (apply_op o s) as [s1|] eqn:E; cbn [bind] in H; [|discriminate].
    apply (IH s1 s'); [|exact H].
    apply (reachable_step s o s1 Hr E).
Qed.

Lemma after_reachable (ops : list Op) :
  is_ok (run (xa := example_xa) ops initial) = true -> reachable (xa := example_xa) (after ops).
Proof.
  unfold after. destruct (run (xa := example_xa) ops initial) as [s|] eqn:E; [|discriminate].
  intros _. apply (run_reachable ops initial s); [|exact E].
  apply reachable_reset.
Qed.

(** ** Mixer calls per audio sector *)

Lemma count_adds_app (a b : list SPUCall) : count_adds (a ++ b) = count_adds a + count_adds b.
Proof. unfold count_adds. rewrite filter_app, length_app. lia. Qed.

Lemma count_adds_map_add {A : Type} (f g : A -> Z) (l : list A) :
  count_adds (map (fun x => AddCDAudioSample (f x) (g x)) l) = Z.of_nat (length l).
Proof.
  unfold count_adds. induction l as [|x l IH]; simpl; [reflexivity|].
  simpl in IH. lia.
Qed.

Lemma resample_emit_count (STEREO : bool) (M : VolumeMatrix) (ring : RingBuffers) (p : Z) :
  count_adds (resample_emit STEREO M ring p) = 7.
Proof. unfold resample_emit. rewrite count_adds_map_add. reflexivity. Qed.

(** One pass of the sample_dup loop, for a phase counter in 1..6: seven
    calls when the counter runs out, none otherwise. *)
Lemma resample_dup_count (STEREO : bool) (M : VolumeMatrix) (l r : Z)
    (ring : RingBuffers) (p sixstep : Z) :
  1 <= sixstep <= 6 ->
  let res := resample_dup STEREO M l r (ring, p, sixstep) in
  1 <= snd (fst res) <= 6
  /\ 6 - snd (fst res) = (6 - sixstep + 1) mod 6
  /\ count_adds (snd res) = 7 * ((6 - sixstep + 1) / 6).
Proof.
  intros H. unfold resample_dup.
  assert (Hu : u8 (sixstep - 1) = sixstep - 1) by (apply u8_id; lia).
  rewrite Hu.
  destruct (Z.eqb_spec (sixstep - 1) 0) as [E|E]; cbn [fst snd].
  - assert (sixstep = 1) by lia. subst sixstep.
    rewrite resample_emit_count. repeat split; try reflexivity; lia.
  - assert (Hd : (6 - sixstep + 1) / 6 = 0) by (apply Z.div_small; lia).
    assert (Hm : (6 - sixstep + 1) mod 6 = 6 - sixstep + 1) by (apply Z.mod_small; lia).
    rewrite Hd, Hm. repeat split; try reflexivity; lia.
Qed.

Lemma phase_step (a b : Z) :
  0 <= a -> 0 <= b ->
  (a mod 6 + b) / 6 + a / 6 = (a + b) / 6 /\ (a mod 6 + b) mod 6 = (a + b) mod 6.
Proof.
  intros Ha Hb. split.
  - rewrite (Z.div_mod a 6) at 3 by lia.
    replace (6 * (a / 6) + a mod 6 + b) with (a mod 6 + b + (a / 6) * 6) by lia.
    rewrite Z.div_add by lia. lia.
  - rewrite Z.add_mod_idemp_l by lia. reflexivity.
Qed.

(** The sample loop: [count] input samples, each passed once or twice
    through the ring, give seven calls for every sixth pass. *)
Lemma resample_loop_count (STEREO SAMPLE_RATE : bool) (M : VolumeMatrix) (count : nat) :
  forall (samples_in : list Z) (ring : RingBuffers) (p sixstep : Z),
  1 <= sixstep <= 6 ->
  let res := resample_loop STEREO SAMPLE_RATE M count samples_in (ring, p, sixstep) in
  1 <= snd (fst res) <= 6
  /\ 6 - snd (fst res) = (6 - sixstep + dup_passes SAMPLE_RATE * Z.of_nat count) mod 6
  /\ count_adds (snd res)
     = 7 * ((6 - sixstep + dup_passes SAMPLE_RATE * Z.of_nat count) / 6).
Proof.
  induction count as [|count IH]; intros samples_in ring p sixstep H.
  - cbn [resample_loop fst snd].
    rewrite Z.mul_0_r, Z.add_0_r.
    rewrite Z.mod_small, Z.div_small by lia.
    repeat split; try reflexivity; lia.
  - cbn [resample_loop].
    set (left := hd 0 samples_in).
    set (rest1 := tl samples_in).
    set (right := if STEREO then hd 0 rest1 else left).
    set (rest2 := if STEREO then tl rest1 else rest1).
    destruct (resample_dup STEREO M left right (ring, p, sixstep))
      as [[[ring1 p1] six1] out1] eqn:E1.
    pose proof (resample_dup_count STEREO M left right ring p sixstep H) as D1.
    rewrite E1 in D1. cbn [fst snd] in D1. destruct D1 as (R1 & P1 & C1).
    cbn [fst snd].
    destruct SAMPLE_RATE.
    + destruct (resample_dup STEREO M left right (ring1, p1, six1))
        as [[[ring2 p2] six2] out2] eqn:E2.
      pose proof (resample_dup_count STEREO M left right ring1 p1 six1 R1) as D2.
      rewrite E2 in D2. cbn [fst snd] in D2. destruct D2 as (R2 & P2 & C2).
      cbn [fst snd].
      specialize (IH rest2 ring2 p2 six2 R2).
      cbv zeta in IH. destruct IH as (R3 & P3 & C3).
      rewrite !count_adds_app, C1, C2, C3.
      unfold dup_passes in *.
      rewrite P2, P1 in *.
      replace (6 - sixstep + 2 * Z.of_nat (S count))
        with (6 - sixstep + 1 + 1 + 2 * Z.of_nat count) by lia.
      pose proof (phase_step (6 - sixstep + 1) 1 ltac:(lia) ltac:(lia)) as [Q1 Q2].
      pose proof (phase_step (6 - sixstep + 1 + 1) (2 * Z.of_nat count)
                    ltac:(lia) ltac:(lia)) as [Q3 Q4].
      rewrite Q2 in *.
      repeat split; try lia.
    + cbn [fst snd].
      specialize (IH rest2 ring1 p1 six1 R1).
      cbv zeta in IH. destruct IH as (R3 & P3 & C3).
      rewrite !count_adds_app, C1, C3.
      unfold dup_passes in *. cbn [count_adds filter length app].
      rewrite P1 in *.
      replace (6 - sixstep + 1 * Z.of_nat (S count))
        with (6 - sixstep + 1 + 1 * Z.of_nat count) by lia.
      pose proof (phase_step (6 - sixstep + 1) (1 * Z.of_nat count)
                    ltac:(lia) ltac:(lia)) as [Q3 Q4].
      change (count_adds []) with 0.
      repeat split; try lia.
Qed.

Lemma ResampleXAADPCM_calls (STEREO SAMPLE_RATE : bool) (samples_in : list Z)
    (num_samples_in : Z) (M : VolumeMatrix) (s : State) :
  1 <= xa_resample_sixstep s <= 6 ->
  exists calls,
    spu (ResampleXAADPCM STEREO SAMPLE_RATE samples_in num_samples_in M s) = spu s ++ calls
    /\ count_adds calls
       = 7 * ((6 - xa_resample_sixstep s + dup_passes SAMPLE_RATE * u32 num_samples_in) / 6).
Proof.
  intros H. unfold ResampleXAADPCM.
  pose proof (resample_loop_count STEREO SAMPLE_RATE M (Z.to_nat (u32 num_samples_in))
                samples_in (xa_resample_ring_buffer s) (xa_resample_p s)
                (xa_resample_sixstep s) H) as L.
  cbv zeta in L.
  destruct (resample_loop STEREO SAMPLE_RATE M (Z.to_nat (u32 num_samples_in)) samples_in
              (xa_resample_ring_buffer s, xa_resample_p s, xa_resample_sixstep s))
    as [[[ring p] six] out].
  cbn [fst snd] in *. destruct L as (_ & _ & L).
  exists out. split; [reflexivity|].
  rewrite L. rewrite Z2Nat.id; [reflexivity|].
  unfold u32. apply Z.mod_pos_bound. lia.
Qed.

(** An unmuted XA-ADPCM sector: the space reserved is the number of input
    samples, the samples added are seven for every six passes through the
    ring. *)
Lemma ProcessXAADPCMSector_calls {xa : CDXA} (s : State) :
  muted s = false -> adpcm_muted s = false ->
  1 <= xa_resample_sixstep s <= 6 ->
  let codinginfo := subheader_codinginfo s in
  let n :=
    if IsStereo codinginfo then u32 (GetSamplesPerSector codinginfo) / 2
    else u32 (GetSamplesPerSector codinginfo) in
  exists calls,
    spu (ProcessXAADPCMSector s) = spu s ++ EnsureCDAudioSpace n :: calls
    /\ count_adds calls
       = 7 * ((6 - xa_resample_sixstep s
               + dup_passes (IsHalfSampleRate codinginfo) * u32 n) / 6).
Proof.
  intros Hm Ha Hs. cbv zeta. unfold ProcessXAADPCMSector.
  cbn [muted adpcm_muted set_xa_last_samples].
  rewrite Hm, Ha. cbn [orb].
  change (subheader_codinginfo (set_xa_last_samples _ s)) with (subheader_codinginfo s).
  destruct (IsStereo (subheader_codinginfo s)).
  - match goal with
    | |- context [ResampleXAADPCM ?a ?b ?c ?d ?e ?f] =>
        destruct (ResampleXAADPCM_calls a b c d e f Hs) as (calls & E & C)
    end.
    exists calls. split; [|exact C].
    rewrite E. cbn [spu spu_call set_spu set_xa_last_samples].
    rewrite <- app_assoc. reflexivity.
  - match goal with
    | |- context [ResampleXAADPCM ?a ?b ?c ?d ?e ?f] =>
        destruct (ResampleXAADPCM_calls a b c d e f Hs) as (calls & E & C)
    end.
    exists calls. split; [|exact C].
    rewrite E. cbn [spu spu_call set_spu set_xa_last_samples].
    rewrite <- app_assoc. reflexivity.
Qed.

(** An unmuted CDDA sector: 588 slots reserved, 588 samples added. *)
Lemma ProcessCDDASector_calls (s : State) :
  muted s = false ->
  exists calls,
    spu (ProcessCDDASector s) = spu s ++ EnsureCDAudioSpace CDDA_NUM_SAMPLES :: calls
    /\ count_adds calls = CDDA_NUM_SAMPLES.
Proof.
  intros Hm. unfold ProcessCDDASector. rewrite Hm. cbn [negb].
  eexists. split.
  - cbn [spu set_sector_buffer spu_calls spu_call set_spu].
    rewrite <- app_assoc. reflexivity.
  - rewrite count_adds_map_add, length_seq.
    rewrite Z2Nat.id; [reflexivity|]. vm_compute. discriminate.
Qed.

(** C4 (the code departs from the claim on the XA-ADPCM path): playing one
    stereo, full-rate, 4-bit XA-ADPCM sector after reset reserves 2016
    slots with EnsureCDAudioSpace and then makes 2352 AddCDAudioSample
    calls, while playing one CDDA sector reserves 588 and adds 588.  Both
    states are reached from reset. *)
Theorem C4_xa_sector_adds_more_than_it_reserves :
  reachable (xa := example_xa) (after xa_playback)
  /\ reserved_and_added (spu (after xa_playback)) = Some (2016, 2352)
  /\ reachable (xa := example_xa) (after cdda_playback)
  /\ reserved_and_added (spu (after cdda_playback)) = Some (588, 588).
Proof.
  split; [apply after_reachable; vm_compute; reflexivity|].
  split; [vm_compute; reflexivity|].
  split; [apply after_reachable; vm_compute; reflexivity|].
  vm_compute; reflexivity.
Qed.

(** ** The interrupt arbiter *)

Lemma PushFromQueue_fits (capacity : Z) (src : list Z) :
  FIFO.GetSize src <= capacity -> FIFO.PushFromQueue capacity [] src = (src, []).
Proof.
  unfold FIFO.PushFromQueue, FIFO.GetSize. intros H. cbn [length app].
  rewrite Z.sub_0_r.
  rewrite firstn_all2, skipn_all2 by lia. reflexivity.
Qed.

Lemma DeliverAsyncInterrupt_ok (s : State) :
  pending_async_interrupt s <> 0 -> interrupt_flag_register s = 0 ->
  FIFO.GetSize (async_response_fifo s) <= RESPONSE_FIFO_SIZE ->
  exists s', DeliverAsyncInterrupt s = Ok s' /\ delivered (pending_async_interrupt s) s s'.
Proof.
  intros Hp Hf Hsz. unfold DeliverAsyncInterrupt, HasPendingInterrupt, Assert.
  rewrite Hf. rewrite (proj2 (Z.eqb_neq _ _) Hp). cbn [negb andb Z.eqb].
  eexists. split; [reflexivity|].
  unfold delivered. cbn -[FIFO.PushFromQueue].
  rewrite PushFromQueue_fits by exact Hsz. cbn. auto.
Qed.

Lemma DeliverAsyncInterrupt_only_without_flag (s s' : State) :
  DeliverAsyncInterrupt s = Ok s' -> interrupt_flag_register s = 0.
Proof.
  unfold DeliverAsyncInterrupt, HasPendingInterrupt, Assert.
  destruct (Z.eqb_spec (interrupt_flag_register s) 0) as [E|E]; [auto|].
  rewrite andb_false_r. discriminate.
Qed.

Lemma SetAsyncInterrupt_delivers (s : State) (interrupt : Z) :
  pending_async_interrupt s = 0 -> 0 < interrupt < 256 ->
  FIFO.GetSize (async_response_fifo s) <= RESPONSE_FIFO_SIZE ->
  interrupt_flag_register s = 0 ->
  exists s', SetAsyncInterrupt interrupt s = Ok s' /\ delivered interrupt s s'.
Proof.
  intros Hp Hi Hsz Hf. unfold SetAsyncInterrupt, Assert.
  rewrite Hp. cbn [Z.eqb]. rewrite u8_id by lia.
  unfold HasPendingInterrupt at 1. cbn [interrupt_flag_register set_pending_async_interrupt].
  rewrite Hf. cbn [Z.eqb negb].
  destruct (DeliverAsyncInterrupt_ok (set_pending_async_interrupt interrupt s))
    as (s' & E & D); cbn; try assumption; try lia.
  exists s'. split; [exact E|]. exact D.
Qed.

Lemma SetAsyncInterrupt_holds (s : State) (interrupt : Z) :
  pending_async_interrupt s = 0 -> 0 < interrupt < 256 ->
  interrupt_flag_register s <> 0 ->
  SetAsyncInterrupt interrupt s = Ok (set_pending_async_interrupt interrupt s).
Proof.
  intros Hp Hi Hf. unfold SetAsyncInterrupt, Assert.
  rewrite Hp. cbn [Z.eqb]. rewrite u8_id by lia.
  unfold HasPendingInterrupt. cbn [interrupt_flag_register set_pending_async_interrupt].
  rewrite (proj2 (Z.eqb_neq _ _) Hf). reflexivity.
Qed.

(** The acknowledge write outside WaitForIRQClear, with an interrupt held:
    it is delivered when the write leaves the flag register zero, and stays
    held otherwise. *)
Lemma WriteRegister_ack_delivery (Synchronize : State -> res State)
    (s : State) (value : Z) :
  status_index s = 1 ->
  command_state s <> WaitForIRQClear ->
  pending_async_interrupt s <> 0 ->
  FIFO.GetSize (async_response_fifo s) <= RESPONSE_FIFO_SIZE ->
  exists s', Dispatch.WriteRegister Synchronize 3 value s = Ok s'
    /\ (flags_after_ack value s = 0 -> delivered (pending_async_interrupt s) s s')
    /\ (flags_after_ack value s <> 0 ->
        pending_async_interrupt s' = pending_async_interrupt s
        /\ response_fifo s' = response_fifo s
        /\ async_response_fifo s' = async_response_fifo s
        /\ interrupt_flag_register s' = flags_after_ack value s
        /\ irq_requests s' = irq_requests s).
Proof.
  intros Hi Hc Hp Hsz. unfold Dispatch.WriteRegister.
  rewrite Hi. cbn [Z.eqb orb].
  change (3 =? 0) with false. change (3 =? 1) with false. change (3 =? 2) with false.
  change (3 =? 3) with true. cbv iota.
  fold (flags_after_ack value s).
  set (s1 := set_interrupt_flag_register (flags_after_ack value s) s).
  change (interrupt_flag_register s1) with (flags_after_ack value s).
  assert (Hc1 : CommandState_eqb (command_state s1) WaitForIRQClear = false).
  { subst s1. cbn. destruct (command_state s); try reflexivity. congruence. }
  destruct (Z.eqb_spec (flags_after_ack value s) 0) as [E|E].
  - rewrite Hc1.
    unfold HasPendingAsyncInterrupt.
    change (pending_async_interrupt s1) with (pending_async_interrupt s).
    rewrite (proj2 (Z.eqb_neq _ _) Hp). cbn [negb].
    destruct (DeliverAsyncInterrupt_ok s1) as (s' & D & R); try assumption.
    rewrite D. cbn [bind].
    destruct (negb (Z.land (u8 value) 64 =? 0)).
    + eexists. split; [reflexivity|]. split; [|congruence].
      intros _. unfold delivered in *. cbn. exact R.
    + eexists. split; [reflexivity|]. split; [|congruence].
      intros _. exact R.
  - cbn [bind].
    destruct (negb (Z.land (u8 value) 64 =? 0)).
    + eexists. split; [reflexivity|]. split; [congruence|].
      intros _. cbn. auto.
    + eexists. split; [reflexivity|]. split; [congruence|].
      intros _. cbn. auto.
Qed.
(** ** FIFO pushes that fit *)

Lemma Push_ok (capacity v : Z) (q : list Z) :
  FIFO.GetSize q + 1 <= capacity -> FIFO.Push capacity v q = Ok (q ++ [v]).
Proof.
  intros H. unfold FIFO.Push, FIFO.IsFull.
  destruct (Z.leb_spec capacity (FIFO.GetSize q)); [lia|reflexivity].
Qed.

Lemma PushRange_ok (capacity : Z) (vs : list Z) :
  forall q, FIFO.GetSize q + Z.of_nat (length vs) <= capacity ->
            FIFO.PushRange capacity vs q = Ok (q ++ vs).
Proof.
  induction vs as [|v vs IH]; intros q H.
  - cbn. rewrite app_nil_r. reflexivity.
  - cbn [FIFO.PushRange]. cbn [length] in H.
    rewrite Push_ok by lia. cbn [bind].
    rewrite IH.
    + rewrite <- app_assoc. reflexivity.
    + unfold FIFO.GetSize in *. rewrite length_app. cbn [length]. lia.
Qed.

Lemma PushResponse_ok (v : Z) (s : State) :
  FIFO.GetSize (response_fifo s) + 1 <= RESPONSE_FIFO_SIZE ->
  PushResponse v s = Ok (set_response_fifo (response_fifo s ++ [v]) s).
Proof. intros H. unfold PushResponse. rewrite Push_ok by exact H. reflexivity. Qed.

Lemma PushResponseRange_ok (vs : list Z) (s : State) :
  FIFO.GetSize (response_fifo s) + Z.of_nat (length vs) <= RESPONSE_FIFO_SIZE ->
  PushResponseRange vs s = Ok (set_response_fifo (response_fifo s ++ vs) s).
Proof. intros H. unfold PushResponseRange. rewrite PushRange_ok by exact H. reflexivity. Qed.

Lemma PushAsyncResponse_ok (v : Z) (s : State) :
  FIFO.GetSize (async_response_fifo s) + 1 <= RESPONSE_FIFO_SIZE ->
  PushAsyncResponse v s = Ok (set_async_response_fifo (async_response_fifo s ++ [v]) s).
Proof. intros H. unfold PushAsyncResponse. rewrite Push_ok by exact H. reflexivity. Qed.

Lemma GetSize_app (q vs : list Z) :
  FIFO.GetSize (q ++ vs) = FIFO.GetSize q + Z.of_nat (length vs).
Proof. unfold FIFO.GetSize. rewrite length_app. lia. Qed.

(** ** The GetID command *)

Section GetID.

Variable Synchronize : State -> res State.

Lemma GetID_no_media (s : State) :
  command s = Command.GetID -> command_stage s = 0 -> media s = None ->
  FIFO.GetSize (response_fifo s) + 2 <= RESPONSE_FIFO_SIZE ->
  exists s',
    Dispatch.ExecuteCommand Synchronize s = Ok s'
    /\ response_fifo s' = response_fifo s ++ [0x11; 0x80]
    /\ interrupt_flag_register s' = INT5
    /\ irq_requests s' = S (irq_requests s)
    /\ command_state s' = Idle.
Proof.
  intros Hc Hst Hm Hsz. unfold Dispatch.ExecuteCommand.
  rewrite Hc, Hst. cbn [Z.eqb Command.GetID Command.Getstat Command.Test Pos.eqb].
  unfold HasMedia. rewrite Hm. cbn [negb].
  rewrite PushResponseRange_ok by exact Hsz. cbn [bind].
  eexists. split; [reflexivity|]. cbn. auto.
Qed.

Lemma GetID_with_media (s : State) (m : CDImage) :
  command s = Command.GetID -> command_stage s = 0 -> media s = Some m ->
  FIFO.GetSize (response_fifo s) + 1 <= RESPONSE_FIFO_SIZE ->
  exists s',
    Dispatch.ExecuteCommand Synchronize s = Ok s'
    /\ response_fifo s' = response_fifo s ++ [secondary_status s]
    /\ interrupt_flag_register s' = ACK
    /\ irq_requests s' = S (irq_requests s)
    /\ command_state s' = WaitForIRQClear
    /\ command s' = Command.GetID
    /\ command_stage s' = 1
    /\ command_remaining_ticks s' = 18000.
Proof.
  intros Hc Hst Hm Hsz. unfold Dispatch.ExecuteCommand.
  rewrite Hc, Hst. cbn [Z.eqb Command.GetID Command.Getstat Command.Test Pos.eqb].
  unfold HasMedia. rewrite Hm. cbn [negb].
  unfold SendACKAndStat. rewrite PushResponse_ok by exact Hsz. cbn [bind].
  unfold Dispatch.NextCommandStage.
  eexists. split; [reflexivity|]. cbn. rewrite Hst, Hc. auto 10.
Qed.

Lemma GetID_second_stage (s : State) :
  command s = Command.GetID -> command_stage s <> 0 ->
  FIFO.GetSize (response_fifo s) + 8 <= RESPONSE_FIFO_SIZE ->
  exists s',
    Dispatch.ExecuteCommand Synchronize s = Ok s'
    /\ response_fifo s'
       = response_fifo s ++ [0x02; 0x00; 0x20; 0x00; 0x53; 0x43; 0x45; 0x41]
    /\ interrupt_flag_register s' = INT2
    /\ irq_requests s' = S (irq_requests s)
    /\ command_state s' = Idle.
Proof.
  intros Hc Hst Hsz. unfold Dispatch.ExecuteCommand.
  rewrite Hc. cbn [Z.eqb Command.GetID Command.Getstat Command.Test Pos.eqb].
  rewrite (proj2 (Z.eqb_neq _ _) Hst).
  rewrite PushResponseRange_ok by exact Hsz. cbn [bind].
  eexists. split; [reflexivity|]. cbn. auto.
Qed.

End GetID.
(** ** Seek timing *)

Lemma ToLBA_range (p : Position) : 0 <= ToLBA p < 4294967296.
Proof. unfold ToLBA, u32. apply Z.mod_pos_bound. lia. Qed.

(** GetTicksForSeek computes the formula in unsigned 32-bit arithmetic and
    casts the result to the signed tick count. *)
Lemma GetTicksForSeek_computes (s : State) (m : CDImage) :
  media s = Some m ->
  GetTicksForSeek s
  = Ok (s32 (u32 (20000
                  + u32 (Z.abs (ToLBA (setloc_position s) - position_on_disc m)) * 100))).
Proof.
  intros Hm. unfold GetTicksForSeek. rewrite Hm.
  unfold Image.GetPositionOnDisc. cbv zeta.
  set (new_lba := ToLBA (setloc_position s)).
  set (current_lba := position_on_disc m).
  assert (Hd : (if new_lba >? current_lba then new_lba - current_lba
                else current_lba - new_lba) = Z.abs (new_lba - current_lba)).
  { destruct (Z.gtb_spec new_lba current_lba); lia. }
  rewrite Hd. reflexivity.
Qed.



Lemma secondary_set_same (bit : Z) (b : bool) (s : State) :
  0 <= bit -> secondary bit (set_secondary bit b s) = b.
Proof.
  intros H. unfold secondary, set_secondary, bitfield_set.
  cbn [secondary_status set_secondary_status].
  destruct b; [apply Z.setbit_eq | apply Z.clearbit_eq]; exact H.
Qed.

Lemma secondary_set_other (bit bit' : Z) (b : bool) (s : State) :
  0 <= bit -> 0 <= bit' -> bit <> bit' ->
  secondary bit' (set_secondary bit b s) = secondary bit' s.
Proof.
  intros H H' Hne. unfold secondary, set_secondary, bitfield_set.
  cbn [secondary_status set_secondary_status].
  destruct b; [apply Z.setbit_neq | apply Z.clearbit_neq]; assumption.
Qed.

(** A seek begun with media present and the drive not reading or playing. *)
Lemma BeginSeeking_programs (s : State) (m : CDImage) :
  media s = Some m ->
  IsReadingOrPlaying s = false ->
  exists s',
    BeginSeeking s = Ok s'
    /\ read_or_seek_remaining_ticks s'
       = s32 (u32 (20000
                   + u32 (Z.abs (ToLBA (setloc_position s) - position_on_disc m)) * 100))
    /\ downcount s' = read_or_seek_remaining_ticks s'
    /\ seek_position s' = setloc_position s
    /\ setloc_pending s' = false
    /\ secondary SecondaryBit.seeking s' = true.
Proof.
  intros Hm Hrp. unfold BeginSeeking, Assert.
  change (IsReadingOrPlaying (set_setloc_pending false (set_seek_position (setloc_position s) s)))
    with (IsReadingOrPlaying s).
  rewrite Hrp. cbn [negb].
  rewrite (GetTicksForSeek_computes _ m) by exact Hm.
  cbn [bind]. eexists. split; [reflexivity|].
  repeat split; try reflexivity.
  unfold SetDowncount.
  change (secondary SecondaryBit.seeking (set_downcount ?d (set_read_or_seek_remaining_ticks ?t ?x)))
    with (secondary SecondaryBit.seeking x).
  apply secondary_set_same. vm_compute. discriminate.
Qed.



(** ** The GetTD command *)

Lemma DecimalToBCD_digits (x : Z) :
  0 <= x < 100 -> DecimalToBCD x = 16 * (x / 10) + x mod 10.
Proof.
  intros H. unfold DecimalToBCD.
  rewrite Z.shiftl_mul_pow2 by lia. change (2 ^ 4) with 16.
  assert (0 <= x / 10 < 10) by (split; [apply Z.div_pos | apply Z.div_lt_upper_bound]; lia).
  assert (0 <= x mod 10 < 10) by (apply Z.mod_pos_bound; lia).
  rewrite u8_id by lia. lia.
Qed.

Lemma GetSize_cons_pos (v : Z) (q : list Z) : (1 <=? FIFO.GetSize (v :: q)) = true.
Proof. unfold FIFO.GetSize. cbn [length]. apply Z.leb_le. lia. Qed.

Section GetTD.

Variable Synchronize : State -> res State.

Variable s : State.
Variables (param : Z) (params : list Z).
Hypothesis Hcommand : command s = Command.GetTD.
Hypothesis Hparam : param_fifo s = param :: params.

Let track : Z := BCDToDecimal param.

Lemma GetTD_no_media :
  media s = None ->
  FIFO.GetSize (response_fifo s) + 2 <= RESPONSE_FIFO_SIZE ->
  exists s',
    Dispatch.ExecuteCommand Synchronize s = Ok s'
    /\ response_fifo s' = response_fifo s ++ [Z.lor (secondary_status s) 1; 0x80]
    /\ interrupt_flag_register s' = INT5
    /\ irq_requests s' = S (irq_requests s)
    /\ command_state s' = Idle.
Proof.
  intros Hm Hsz. unfold Dispatch.ExecuteCommand.
  rewrite Hcommand. decide_opcodes.
  unfold Assert. rewrite Hparam, GetSize_cons_pos. cbn [FIFO.Peek nth_error bind].
  rewrite Hm. unfold SendErrorResponse.
  rewrite PushResponse_ok by lia. cbn [bind].
  rewrite PushResponse_ok by (cbn [response_fifo set_response_fifo]; rewrite GetSize_app;
                              cbn [length]; lia).
  cbn [bind]. eexists. split; [reflexivity|].
  cbn. rewrite <- app_assoc. auto.
Qed.

Lemma GetTD_track_past_the_end (m : CDImage) :
  media s = Some m ->
  track > track_count m ->
  FIFO.GetSize (response_fifo s) + 2 <= RESPONSE_FIFO_SIZE ->
  exists s',
    Dispatch.ExecuteCommand Synchronize s = Ok s'
    /\ response_fifo s' = response_fifo s ++ [Z.lor (secondary_status s) 1; 0x10]
    /\ interrupt_flag_register s' = INT5
    /\ irq_requests s' = S (irq_requests s)
    /\ command_state s' = Idle.
Proof.
  intros Hm Ht Hsz. unfold Dispatch.ExecuteCommand.
  rewrite Hcommand. decide_opcodes.
  unfold Assert. rewrite Hparam, GetSize_cons_pos. cbn [FIFO.Peek nth_error bind].
  rewrite Hm. unfold Image.GetTrackCount. fold track.
  destruct (Z.gtb_spec track (track_count m)); [|lia].
  unfold SendErrorResponse.
  rewrite PushResponse_ok by lia. cbn [bind].
  rewrite PushResponse_ok by (cbn [response_fifo set_response_fifo]; rewrite GetSize_app;
                              cbn [length]; lia).
  cbn [bind]. eexists. split; [reflexivity|].
  cbn. rewrite <- app_assoc. auto.
Qed.

Lemma GetTD_position (m : CDImage) :
  media s = Some m ->
  track <= track_count m ->
  FIFO.GetSize (response_fifo s) + 3 <= RESPONSE_FIFO_SIZE ->
  let pos := if track =? 0 then FromLBA (lba_count m) else track_start_msf m track in
  exists s',
    Dispatch.ExecuteCommand Synchronize s = Ok s'
    /\ response_fifo s'
       = response_fifo s
         ++ [secondary_status s;
             DecimalToBCD (Truncate8 (minute pos)); DecimalToBCD (Truncate8 (second pos))]
    /\ interrupt_flag_register s' = ACK
    /\ irq_requests s' = S (irq_requests s)
    /\ command_state s' = Idle.
Proof.
  intros Hm Ht Hsz pos. unfold Dispatch.ExecuteCommand.
  rewrite Hcommand. decide_opcodes.
  unfold Assert. rewrite Hparam, GetSize_cons_pos. cbn [FIFO.Peek nth_error bind].
  rewrite Hm. unfold Image.GetTrackCount, Image.GetLBACount, Image.GetTrackStartMSFPosition.
  fold track.
  destruct (Z.gtb_spec track (track_count m)); [lia|].
  fold pos.
  rewrite PushResponse_ok by lia. cbn [bind].
  rewrite PushResponse_ok by (cbn [response_fifo set_response_fifo]; rewrite GetSize_app;
                              cbn [length]; lia).
  cbn [bind].
  rewrite PushResponse_ok by (cbn [response_fifo set_response_fifo]; rewrite !GetSize_app;
                              cbn [length]; lia).
  cbn [bind]. eexists. split; [reflexivity|].
  cbn. rewrite <- !app_assoc. auto.
Qed.

End GetTD.
(** ** Sector reads and the held interrupt *)

Lemma CancelAsyncInterrupt_clears (s : State) :
  pending_async_interrupt (CancelAsyncInterrupt s) = 0
  /\ async_response_fifo (CancelAsyncInterrupt s) = []
  /\ HasPendingAsyncInterrupt (CancelAsyncInterrupt s) = false.
Proof. repeat split. Qed.

(** A sector read with an interrupt still held is the sector read of the
    state in which that interrupt has been cancelled. *)
Lemma DoSectorRead_cancels_first {xa : CDXA} (s : State) :
  pending_async_interrupt s <> 0 ->
  DoSectorRead s = DoSectorRead (CancelAsyncInterrupt s).
Proof.
  intros H. unfold DoSectorRead.
  destruct (CancelAsyncInterrupt_clears s) as (_ & _ & ->).
  unfold HasPendingAsyncInterrupt. rewrite (proj2 (Z.eqb_neq _ _) H). reflexivity.
Qed.

Lemma SetAsyncInterrupt_not_double_pending (interrupt : Z) (s : State) :
  pending_async_interrupt s = 0 -> SetAsyncInterrupt interrupt s <> Err double_pending.
Proof.
  intros H. unfold SetAsyncInterrupt, Assert. rewrite H. cbn [Z.eqb].
  destruct (negb _); [|discriminate].
  unfold DeliverAsyncInterrupt, Assert.
  destruct (_ && _); discriminate.
Qed.

Lemma ProcessDataSector_not_double_pending {xa : CDXA} (s : State) :
  pending_async_interrupt s = 0 -> ProcessDataSector s <> Err double_pending.
Proof.
  intros H. unfold ProcessDataSector.
  match goal with
  | |- context [set_last_sector_subheader ?h (set_last_sector_header ?g s)] =>
      set (s1 := set_last_sector_subheader h (set_last_sector_header g s))
  end.
  destruct (mode_bit ModeBit.xa_enable s1 && (header_sector_mode s1 =? 2)).
  - destruct (Z.testbit (subheader_submode s1) SubmodeBit.realtime
              && Z.testbit (subheader_submode s1) SubmodeBit.audio);
      cbn [fst snd]; [discriminate|].
    unfold PushAsyncResponse, FIFO.Push.
    destruct (FIFO.IsFull _ _); cbn [bind]; [discriminate|].
    match goal with
    | |- bind (SetAsyncInterrupt ?i ?t) _ <> _ =>
        pose proof (SetAsyncInterrupt_not_double_pending i t H) as N;
        destruct (SetAsyncInterrupt i t); cbn [bind]; [discriminate|exact N]
    end.
  - cbn [fst snd].
    unfold PushAsyncResponse, FIFO.Push.
    destruct (FIFO.IsFull _ _); cbn [bind]; [discriminate|].
    match goal with
    | |- bind (SetAsyncInterrupt ?i ?t) _ <> _ =>
        pose proof (SetAsyncInterrupt_not_double_pending i t H) as N;
        destruct (SetAsyncInterrupt i t); cbn [bind]; [discriminate|exact N]
    end.
Qed.

(** No sector read fails the assertion that guards against a second held
    interrupt. *)
Lemma DoSectorRead_not_double_pending {xa : CDXA} (s : State) :
  DoSectorRead s <> Err double_pending.
Proof.
  unfold DoSectorRead.
  set (s1 := if HasPendingAsyncInterrupt s then CancelAsyncInterrupt s else s).
  assert (H1 : pending_async_interrupt s1 = 0).
  { subst s1. unfold HasPendingAsyncInterrupt.
    destruct (Z.eqb_spec (pending_async_interrupt s) 0); cbn [negb]; auto. }
  unfold Assert. destruct (negb (mode_bit ModeBit.ignore_bit s1)); [|discriminate].
  change (media (set_sector_buffer ?b s1)) with (media s1).
  destruct (media s1) as [m|]; [|discriminate].
  match goal with
  | |- context [set_media ?a (set_sector_buffer ?b (set_sector_buffer ?c s1))] =>
      set (s2 := set_media a (set_sector_buffer b (set_sector_buffer c s1)))
  end.
  destruct (secondary SecondaryBit.reading s2).
  - pose proof (ProcessDataSector_not_double_pending s2 H1) as N.
    destruct (ProcessDataSector s2); cbn [bind]; [discriminate|exact N].
  - destruct (secondary SecondaryBit.playing_cdda s2); cbn [bind]; discriminate.
Qed.

(** A data sector read while an interrupt is held and a flag is
    outstanding: what was held is dropped, and the sector's INT1 and status
    byte are what is held after. *)
Lemma DoSectorRead_replaces_held {xa : CDXA} (s : State) (m : CDImage) :
  pending_async_interrupt s <> 0 ->
  media s = Some m ->
  mode_bit ModeBit.ignore_bit s = false ->
  mode_bit ModeBit.xa_enable s = false ->
  secondary SecondaryBit.reading s = true ->
  interrupt_flag_register s <> 0 ->
  exists s',
    DoSectorRead s = Ok s'
    /\ pending_async_interrupt s' = INT1
    /\ async_response_fifo s' = [secondary_status s]
    /\ interrupt_flag_register s' = interrupt_flag_register s
    /\ response_fifo s' = response_fifo s
    /\ irq_requests s' = irq_requests s
    /\ sector_buffer s' = resize RAW_SECTOR_SIZE (raw_sector m (position_on_disc m)).
Proof.
  intros Hp Hm Hi Hx Hr Hf.
  rewrite (DoSectorRead_cancels_first s Hp). unfold DoSectorRead at 1.
  destruct (CancelAsyncInterrupt_clears s) as (_ & _ & ->).
  unfold Assert.
  change (mode_bit ModeBit.ignore_bit (CancelAsyncInterrupt s))
    with (mode_bit ModeBit.ignore_bit s).
  rewrite Hi. cbn [negb].
  change (media (set_sector_buffer ?b (CancelAsyncInterrupt s))) with (media s).
  rewrite Hm.
  match goal with
  | |- context [set_media ?a (set_sector_buffer ?b (set_sector_buffer ?c ?d))] =>
      set (s2 := set_media a (set_sector_buffer b (set_sector_buffer c d)))
  end.
  change (secondary SecondaryBit.reading s2) with (secondary SecondaryBit.reading s).
  rewrite Hr.
  unfold ProcessDataSector.
  match goal with
  | |- context [set_last_sector_subheader ?h (set_last_sector_header ?g s2)] =>
      set (s3 := set_last_sector_subheader h (set_last_sector_header g s2))
  end.
  change (mode_bit ModeBit.xa_enable s3) with (mode_bit ModeBit.xa_enable s).
  rewrite Hx. cbn [andb fst snd].
  rewrite PushAsyncResponse_ok by (vm_compute; discriminate).
  cbn [bind].
  rewrite SetAsyncInterrupt_holds; [| reflexivity | vm_compute; split; reflexivity | exact Hf].
  cbn [bind]. eexists. split; [reflexivity|].
  repeat split.
Qed.
(** ** What the controller leaves alone

    The volume matrices are written by the register window and by reset and
    by nothing else. *)

Lemma volume_UpdateStatusRegister (s : State) :
  volume_part (UpdateStatusRegister s) = volume_part s.
Proof. reflexivity. Qed.

Lemma volume_SetInterrupt (i : Z) (s : State) :
  volume_part (SetInterrupt i s) = volume_part s.
Proof. unfold SetInterrupt. destruct (HasPendingInterrupt _); reflexivity. Qed.

Lemma volume_StopReading (s : State) : volume_part (StopReading s) = volume_part s.
Proof. unfold StopReading. destruct (negb _); reflexivity. Qed.

Lemma volume_ResampleXAADPCM (a b : bool) (l : list Z) (n : Z) (M : VolumeMatrix) (s : State) :
  volume_part (ResampleXAADPCM a b l n M s) = volume_part s.
Proof.
  unfold ResampleXAADPCM.
  destruct (resample_loop _ _ _ _ _ _) as [[[ring p] six] out]. reflexivity.
Qed.

Lemma volume_ProcessXAADPCMSector {xa : CDXA} (s : State) :
  volume_part (ProcessXAADPCMSector s) = volume_part s.
Proof.
  unfold ProcessXAADPCMSector.
  destruct (_ || _); [reflexivity|].
  destruct (IsStereo _); rewrite volume_ResampleXAADPCM; reflexivity.
Qed.

Lemma volume_ProcessCDDASector (s : State) : volume_part (ProcessCDDASector s) = volume_part s.
Proof. unfold ProcessCDDASector. destruct (negb _); reflexivity. Qed.

Lemma volume_EndCommand (s : State) : volume_part (Dispatch.EndCommand s) = volume_part s.
Proof. reflexivity. Qed.

Lemma volume_RemoveMedia (s : State) : volume_part (RemoveMedia s) = volume_part s.
Proof. unfold RemoveMedia. destruct (media s); reflexivity. Qed.

#[local] Hint Rewrite volume_UpdateStatusRegister volume_SetInterrupt volume_StopReading
  volume_ResampleXAADPCM @volume_ProcessXAADPCMSector volume_ProcessCDDASector
  volume_EndCommand volume_RemoveMedia : frame_rw.

Lemma volume_DeliverAsyncInterrupt (s s' : State) :
  DeliverAsyncInterrupt s = Ok s' -> volume_part s' = volume_part s.
Proof. unfold DeliverAsyncInterrupt. intros H. frame volume_part. Qed.
#[local] Hint Resolve volume_DeliverAsyncInterrupt : frame.

Lemma volume_SetAsyncInterrupt (i : Z) (s s' : State) :
  SetAsyncInterrupt i s = Ok s' -> volume_part s' = volume_part s.
Proof. unfold SetAsyncInterrupt. intros H. frame volume_part. Qed.
#[local] Hint Resolve volume_SetAsyncInterrupt : frame.

Lemma volume_PushResponse (v : Z) (s s' : State) :
  PushResponse v s = Ok s' -> volume_part s' = volume_part s.
Proof. unfold PushResponse. intros H. frame volume_part. Qed.
#[local] Hint Resolve volume_PushResponse : frame.

Lemma volume_PushResponseRange (vs : list Z) (s s' : State) :
  PushResponseRange vs s = Ok s' -> volume_part s' = volume_part s.
Proof. unfold PushResponseRange. intros H. frame volume_part. Qed.
#[local] Hint Resolve volume_PushResponseRange : frame.

Lemma volume_PushAsyncResponse (v : Z) (s s' : State) :
  PushAsyncResponse v s = Ok s' -> volume_part s' = volume_part s.
Proof. unfold PushAsyncResponse. intros H. frame volume_part. Qed.
#[local] Hint Resolve volume_PushAsyncResponse : frame.

Lemma volume_SendACKAndStat (s s' : State) :
  SendACKAndStat s = Ok s' -> volume_part s' = volume_part s.
Proof. unfold SendACKAndStat. intros H. frame volume_part. Qed.
#[local] Hint Resolve volume_SendACKAndStat : frame.

Lemma volume_SendErrorResponse (r : Z) (s s' : State) :
  SendErrorResponse r s = Ok s' -> volume_part s' = volume_part s.
Proof. unfold SendErrorResponse. intros H. frame volume_part. Qed.
#[local] Hint Resolve volume_SendErrorResponse : frame.

Lemma volume_SendAsyncErrorResponse (r : Z) (s s' : State) :
  SendAsyncErrorResponse r s = Ok s' -> volume_part s' = volume_part s.
Proof. unfold SendAsyncErrorResponse. intros H. frame volume_part. Qed.
#[local] Hint Resolve volume_SendAsyncErrorResponse : frame.

Lemma volume_BeginSeeking (s s' : State) :
  BeginSeeking s = Ok s' -> volume_part s' = volume_part s.
Proof. unfold BeginSeeking. intros H. cbv zeta in H. frame volume_part. Qed.
#[local] Hint Resolve volume_BeginSeeking : frame.

Lemma volume_BeginReading (cdda : bool) (s s' : State) :
  BeginReading cdda s = Ok s' -> volume_part s' = volume_part s.
Proof. unfold BeginReading. intros H. frame volume_part. Qed.
#[local] Hint Resolve volume_BeginReading : frame.

Lemma volume_DoSeekComplete (s s' : State) :
  DoSeekComplete s = Ok s' -> volume_part s' = volume_part s.
Proof.
  unfold DoSeekComplete. intros H. cbv zeta in H.
  change (media (set_secondary SecondaryBit.seeking false s)) with (media s) in H.
  destruct (media s); cbn [fst snd] in H; frame volume_part.
Qed.
#[local] Hint Resolve volume_DoSeekComplete : frame.

Lemma volume_LoadDataFIFO (s s' : State) :
  LoadDataFIFO s = Ok s' -> volume_part s' = volume_part s.
Proof. unfold LoadDataFIFO. intros H. frame volume_part. Qed.
#[local] Hint Resolve volume_LoadDataFIFO : frame.

Lemma volume_ProcessDataSector {xa : CDXA} (s s' : State) :
  ProcessDataSector s = Ok s' -> volume_part s' = volume_part s.
Proof.
  unfold ProcessDataSector. intros H. cbv zeta in H.
  repeat match type of H with
         | context [snd (if ?c then _ else _)] => destruct c; cbn [fst snd] in H
         end.
  all: frame volume_part.
Qed.
#[local] Hint Resolve volume_ProcessDataSector : frame.

Lemma volume_DoSectorRead {xa : CDXA} (s s' : State) :
  DoSectorRead s = Ok s' -> volume_part s' = volume_part s.
Proof. unfold DoSectorRead. intros H. cbv zeta in H. frame volume_part. Qed.
#[local] Hint Resolve volume_DoSectorRead : frame.

Section VolumeDispatch.

Context {xa : CDXA}.
Variable Synchronize : State -> res State.
Hypothesis volume_Synchronize :
  forall s s', Synchronize s = Ok s' -> volume_part s' = volume_part s.
Hint Resolve volume_Synchronize : frame.

Lemma volume_NextCommandStage (w : bool) (t : Z) (s s' : State) :
  Dispatch.NextCommandStage Synchronize w t s = Ok s' -> volume_part s' = volume_part s.
Proof. unfold Dispatch.NextCommandStage. intros H. cbv zeta in H. frame volume_part. Qed.
Hint Resolve volume_NextCommandStage : frame.

Lemma volume_ExecuteTestCommand (c : Z) (s s' : State) :
  Dispatch.ExecuteTestCommand c s = Ok s' -> volume_part s' = volume_part s.
Proof. unfold Dispatch.ExecuteTestCommand. intros H. frame volume_part. Qed.
Hint Resolve volume_ExecuteTestCommand : frame.

Lemma volume_ExecuteCommand (s s' : State) :
  Dispatch.ExecuteCommand Synchronize s = Ok s' -> volume_part s' = volume_part s.
Proof. unfold Dispatch.ExecuteCommand. intros H. cbv zeta in H. frame volume_part. Qed.
Hint Resolve volume_ExecuteCommand : frame.

Lemma volume_Execute (ticks : Z) (s s' : State) :
  Dispatch.Execute Synchronize ticks s = Ok s' -> volume_part s' = volume_part s.
Proof. unfold Dispatch.Execute. intros H. cbv zeta in H. frame volume_part. Qed.

Lemma volume_BeginCommand (c : Z) (s s' : State) :
  Dispatch.BeginCommand Synchronize c s = Ok s' -> volume_part s' = volume_part s.
Proof. unfold Dispatch.BeginCommand. intros H. cbv zeta in H. frame volume_part. Qed.

End VolumeDispatch.

(** ** The staged volume matrix and the register window *)

Section VolumeScheduler.

Context {xa : CDXA}.

Lemma volume_SynchronizeNested (s s' : State) :
  SynchronizeNested s = Ok s' -> volume_part s' = volume_part s.
Proof. unfold SynchronizeNested. intros H. injection H as <-. reflexivity. Qed.

Lemma volume_Execute_top (ticks : Z) (s s' : State) :
  Execute ticks s = Ok s' -> volume_part s' = volume_part s.
Proof. apply volume_Execute. exact volume_SynchronizeNested. Qed.

Lemma volume_Synchronize_top (s s' : State) :
  Synchronize s = Ok s' -> volume_part s' = volume_part s.
Proof.
  unfold Synchronize. destruct (pending_ticks s =? 0).
  - intros H. injection H as <-. reflexivity.
  - intros H. apply volume_Execute_top in H. exact H.
Qed.

Lemma volume_ReadRegister (offset : Z) (s : State) (r : Z * State) :
  ReadRegister offset s = Ok r -> volume_part (snd r) = volume_part s.
Proof.
  unfold ReadRegister. intros H.
  repeat run_step; cbn [snd]; frame_simp volume_part; reflexivity.
Qed.

Lemma volume_DMARead (word_count : Z) (s : State) (r : list Z * State) :
  DMARead word_count s = Ok r -> volume_part (snd r) = volume_part s.
Proof.
  unfold DMARead. intros H. cbv zeta in H.
  repeat run_step; cbn [snd]; frame_simp volume_part; reflexivity.
Qed.

End VolumeScheduler.

Lemma volume_part_m11_kept (s s' : State) : volume_part s' = volume_part s -> m11_kept s s'.
Proof.
  unfold volume_part, m11_kept. intros H. injection H as H1 H2.
  rewrite H1, H2. auto.
Qed.

Section VolumeWrites.

Context {xa : CDXA}.
Variable Synchronize : State -> res State.
Hypothesis volume_Synchronize :
  forall s s', Synchronize s = Ok s' -> volume_part s' = volume_part s.

Lemma WriteRegister_m11_kept (offset value : Z) (s s' : State) :
  Dispatch.WriteRegister Synchronize offset value s = Ok s' -> m11_kept s s'.
Proof.
  unfold Dispatch.WriteRegister. intros H. cbv zeta in H.
  destruct (offset =? 0).
  { injection H as <-. apply volume_part_m11_kept. reflexivity. }
  destruct (offset =? 1).
  { destruct (status_index s =? 0).
    - destruct (CommandState_eqb (command_state s) Idle).
      + apply volume_part_m11_kept.
        apply (volume_BeginCommand Synchronize volume_Synchronize _ _ _ H).
      + injection H as <-. apply volume_part_m11_kept. reflexivity.
    - destruct (status_index s =? 1);
        [injection H as <-; apply volume_part_m11_kept; reflexivity|].
      destruct (status_index s =? 2);
        [injection H as <-; apply volume_part_m11_kept; reflexivity|].
      injection H as <-. unfold m11_kept. cbn. auto. }
  destruct (offset =? 2).
  { destruct (status_index s =? 0).
    - repeat run_step; apply volume_part_m11_kept; reflexivity.
    - destruct (status_index s =? 1);
        [injection H as <-; apply volume_part_m11_kept; reflexivity|].
      destruct (status_index s =? 2); injection H as <-; unfold m11_kept; cbn; auto. }
  destruct (offset =? 3).
  { destruct (status_index s =? 0).
    - apply volume_part_m11_kept.
      pose proof volume_LoadDataFIFO. frame volume_part.
    - destruct (status_index s =? 1).
      + apply volume_part_m11_kept.
        pose proof volume_DeliverAsyncInterrupt.
        repeat run_step; frame_facts volume_part; frame_simp volume_part; intros; frame_simp volume_part; congruence.
      + destruct (status_index s =? 2);
          [injection H as <-; unfold m11_kept; cbn; auto|].
        destruct (negb _); injection H as <-; unfold m11_kept; cbn; auto. }
  injection H as <-. apply volume_part_m11_kept. reflexivity.
Qed.

End VolumeWrites.

(** The four write targets of the window that store a volume. *)
Lemma WriteRegister_volume_targets (Synchronize : State -> res State)
    (value : Z) (s : State) :
  (status_index s = 3 ->
   Dispatch.WriteRegister Synchronize 1 value s = Ok (stage_m10 (u8 value) s))
  /\ (status_index s = 3 ->
      Dispatch.WriteRegister Synchronize 2 value s = Ok (stage_m10 (u8 value) s))
  /\ (status_index s = 2 ->
      Dispatch.WriteRegister Synchronize 2 value s = Ok (stage_m00 (u8 value) s))
  /\ (status_index s = 2 ->
      Dispatch.WriteRegister Synchronize 3 value s = Ok (stage_m01 (u8 value) s)).
Proof.
  unfold Dispatch.WriteRegister.
  repeat split; intros ->; reflexivity.
Qed.

Lemma Reset_m11 (s : State) :
  m11 (next_cd_audio_volume_matrix (Reset s)) = 0x80
  /\ m11 (cd_audio_volume_matrix (Reset s)) = 0x80.
Proof. unfold Reset. destruct (media s); split; reflexivity. Qed.

(** From reset on, both entries [1][1] are 0x80. *)
Lemma reachable_m11 {xa : CDXA} (s : State) :
  reachable s ->
  m11 (next_cd_audio_volume_matrix s) = 0x80 /\ m11 (cd_audio_volume_matrix s) = 0x80.
Proof.
  induction 1 as [s0 | s o s' Hr [IHn IHc] Hstep].
  - apply Reset_m11.
  - assert (K : m11_kept s s' -> m11 (next_cd_audio_volume_matrix s') = 0x80
                                 /\ m11 (cd_audio_volume_matrix s') = 0x80).
    { unfold m11_kept. intros [Kn [Kc | Kc]]; rewrite Kn, Kc; auto. }
    destruct o as [ | opened | | offset | offset value | word_count | ticks | ];
      cbn [apply_op] in Hstep.
    + injection Hstep as <-. apply Reset_m11.
    + injection Hstep as <-. apply K, volume_part_m11_kept.
      unfold InsertMedia. destruct opened; cbn [snd]; [|reflexivity].
      destruct (HasMedia s); frame_simp volume_part; reflexivity.
    + injection Hstep as <-. apply K, volume_part_m11_kept. apply volume_RemoveMedia.
    + destruct (ReadRegister offset s) as [r|] eqn:E; cbn [bind] in Hstep; [|discriminate].
      injection Hstep as <-. apply K, volume_part_m11_kept.
      apply (volume_ReadRegister _ _ _ E).
    + apply K. unfold WriteRegister in Hstep.
      apply (WriteRegister_m11_kept Synchronize volume_Synchronize_top _ _ _ _ Hstep).
    + destruct (DMARead word_count s) as [r|] eqn:E; cbn [bind] in Hstep; [|discriminate].
      injection Hstep as <-. apply K, volume_part_m11_kept.
      apply (volume_DMARead _ _ _ E).
    + destruct (0 <=? ticks); [|discriminate].
      injection Hstep as <-. apply K, volume_part_m11_kept. reflexivity.
    + apply K, volume_part_m11_kept. apply (volume_Synchronize_top _ _ Hstep).
Qed.

(** C10: no write through the register window changes the staged entry
    M'[1][1].  The writes at (offset 1, index 3) and (offset 2, index 3)
    both store to M'[1][0], the write at (offset 2, index 2) stores to
    M'[0][0] and the write at (offset 3, index 2) to M'[0][1]; every write
    leaves M'[1][1] as it was, and leaves M[1][1] as it was or makes it
    M'[1][1]; so in every state reached from a reset M'[1][1] and M[1][1]
    are 0x80. *)
Theorem C10_staged_m11_is_never_written {xa : CDXA} :
  (forall (value : Z) (s : State),
      (status_index s = 3 -> WriteRegister 1 value s = Ok (stage_m10 (u8 value) s))
      /\ (status_index s = 3 -> WriteRegister 2 value s = Ok (stage_m10 (u8 value) s))
      /\ (status_index s = 2 -> WriteRegister 2 value s = Ok (stage_m00 (u8 value) s))
      /\ (status_index s = 2 -> WriteRegister 3 value s = Ok (stage_m01 (u8 value) s)))
  /\ (forall (offset value : Z) (s s' : State),
         WriteRegister offset value s = Ok s' ->
         m11 (next_cd_audio_volume_matrix s') = m11 (next_cd_audio_volume_matrix s)
         /\ (m11 (cd_audio_volume_matrix s') = m11 (cd_audio_volume_matrix s)
             \/ m11 (cd_audio_volume_matrix s') = m11 (next_cd_audio_volume_matrix s)))
  /\ (forall s : State,
         reachable s ->
         m11 (next_cd_audio_volume_matrix s) = 0x80
         /\ m11 (cd_audio_volume_matrix s) = 0x80).
Proof.
  split; [|split].
  - intros value s. apply WriteRegister_volume_targets.
  - intros offset value s s' H.
    apply (WriteRegister_m11_kept Synchronize volume_Synchronize_top _ _ _ _ H).
  - intros s. apply reachable_m11.
Qed.
(** ** The drive side leaves the command sequencing alone *)

Lemma command_UpdateStatusRegister (s : State) :
  command_part (UpdateStatusRegister s) = command_part s.
Proof. reflexivity. Qed.

Lemma command_ResampleXAADPCM (a b : bool) (l : list Z) (n : Z) (M : VolumeMatrix) (s : State) :
  command_part (ResampleXAADPCM a b l n M s) = command_part s.
Proof.
  unfold ResampleXAADPCM.
  destruct (resample_loop _ _ _ _ _ _) as [[[ring p] six] out]. reflexivity.
Qed.

Lemma command_ProcessXAADPCMSector {xa : CDXA} (s : State) :
  command_part (ProcessXAADPCMSector s) = command_part s.
Proof.
  unfold ProcessXAADPCMSector.
  destruct (_ || _); [reflexivity|].
  destruct (IsStereo _); rewrite command_ResampleXAADPCM; reflexivity.
Qed.

Lemma command_ProcessCDDASector (s : State) :
  command_part (ProcessCDDASector s) = command_part s.
Proof. unfold ProcessCDDASector. destruct (negb _); reflexivity. Qed.

#[local] Hint Rewrite command_UpdateStatusRegister command_ResampleXAADPCM
  @command_ProcessXAADPCMSector command_ProcessCDDASector : frame_rw.

Lemma command_DeliverAsyncInterrupt (s s' : State) :
  DeliverAsyncInterrupt s = Ok s' -> command_part s' = command_part s.
Proof. unfold DeliverAsyncInterrupt. intros H. frame command_part. Qed.
#[local] Hint Resolve command_DeliverAsyncInterrupt : frame.

Lemma command_SetAsyncInterrupt (i : Z) (s s' : State) :
  SetAsyncInterrupt i s = Ok s' -> command_part s' = command_part s.
Proof. unfold SetAsyncInterrupt. intros H. frame command_part. Qed.
#[local] Hint Resolve command_SetAsyncInterrupt : frame.

Lemma command_PushAsyncResponse (v : Z) (s s' : State) :
  PushAsyncResponse v s = Ok s' -> command_part s' = command_part s.
Proof. unfold PushAsyncResponse. intros H. frame command_part. Qed.
#[local] Hint Resolve command_PushAsyncResponse : frame.

Lemma command_SendAsyncErrorResponse (r : Z) (s s' : State) :
  SendAsyncErrorResponse r s = Ok s' -> command_part s' = command_part s.
Proof. unfold SendAsyncErrorResponse. intros H. frame command_part. Qed.
#[local] Hint Resolve command_SendAsyncErrorResponse : frame.

Lemma command_BeginSeeking (s s' : State) :
  BeginSeeking s = Ok s' -> command_part s' = command_part s.
Proof. unfold BeginSeeking. intros H. cbv zeta in H. frame command_part. Qed.
#[local] Hint Resolve command_BeginSeeking : frame.

Lemma command_BeginReading (cdda : bool) (s s' : State) :
  BeginReading cdda s = Ok s' -> command_part s' = command_part s.
Proof. unfold BeginReading. intros H. frame command_part. Qed.
#[local] Hint Resolve command_BeginReading : frame.

Lemma command_DoSeekComplete (s s' : State) :
  DoSeekComplete s = Ok s' -> command_part s' = command_part s.
Proof.
  unfold DoSeekComplete. intros H. cbv zeta in H.
  change (media (set_secondary SecondaryBit.seeking false s)) with (media s) in H.
  destruct (media s); cbn [fst snd] in H; frame command_part.
Qed.
#[local] Hint Resolve command_DoSeekComplete : frame.

Lemma command_ProcessDataSector {xa : CDXA} (s s' : State) :
  ProcessDataSector s = Ok s' -> command_part s' = command_part s.
Proof.
  unfold ProcessDataSector. intros H. cbv zeta in H.
  repeat match type of H with
         | context [snd (if ?c then _ else _)] => destruct c; cbn [fst snd] in H
         end.
  all: frame command_part.
Qed.
#[local] Hint Resolve command_ProcessDataSector : frame.

Lemma command_DoSectorRead {xa : CDXA} (s s' : State) :
  DoSectorRead s = Ok s' -> command_part s' = command_part s.
Proof. unfold DoSectorRead. intros H. cbv zeta in H. frame command_part. Qed.
#[local] Hint Resolve command_DoSectorRead : frame.

(** While the command waits for the host to clear the flag, the passing of
    time does not touch it. *)
Lemma Execute_waits_for_ack {xa : CDXA} (ticks : Z) (s s' : State) :
  command_state s = WaitForIRQClear ->
  Execute ticks s = Ok s' -> command_part s' = command_part s.
Proof.
  intros Hw. unfold Execute, Dispatch.Execute. rewrite Hw. cbn [bind].
  intros H. cbv zeta in H. frame command_part.
Qed.

Lemma Synchronize_waits_for_ack {xa : CDXA} (s s' : State) :
  command_state s = WaitForIRQClear ->
  Synchronize s = Ok s' -> command_part s' = command_part s.
Proof.
  intros Hw. unfold Synchronize. destruct (pending_ticks s =? 0).
  - intros H. injection H as <-. reflexivity.
  - intros H. apply Execute_waits_for_ack in H; [exact H | exact Hw].
Qed.

(** The acknowledge write while the command waits: when it leaves the flag
    register zero the command moves to WaitForExecute with the delay it was
    given, otherwise it goes on waiting. *)
Lemma WriteRegister_ack_releases_command {xa : CDXA} (value : Z) (s s' : State) :
  status_index s = 1 ->
  command_state s = WaitForIRQClear ->
  WriteRegister 3 value s = Ok s' ->
  (flags_after_ack value s = 0 ->
   command_state s' = WaitForExecute
   /\ command s' = command s
   /\ command_stage s' = command_stage s
   /\ command_remaining_ticks s' = command_remaining_ticks s
   /\ downcount s' = command_remaining_ticks s)
  /\ (flags_after_ack value s <> 0 -> command_part s' = command_part s).
Proof.
  intros Hi Hw. unfold WriteRegister, Dispatch.WriteRegister.
  rewrite Hi. cbn [Z.eqb orb].
  change (3 =? 0) with false. change (3 =? 1) with false. change (3 =? 2) with false.
  change (3 =? 3) with true. cbv iota.
  fold (flags_after_ack value s).
  set (s1 := set_interrupt_flag_register (flags_after_ack value s) s).
  change (interrupt_flag_register s1) with (flags_after_ack value s).
  change (command_state s1) with (command_state s). rewrite Hw. cbn [CommandState_eqb].
  destruct (Z.eqb_spec (flags_after_ack value s) 0) as [E|E].
  - destruct (Synchronize s1) as [s2|] eqn:ES; cbn [bind]; [|discriminate].
    apply Synchronize_waits_for_ack in ES; [|exact Hw].
    change (command_part s1) with (command_part s) in ES.
    unfold command_part in ES. injection ES as E1 E2 E3 E4.
    destruct (negb (Z.land (u8 value) 64 =? 0)); intros H; injection H as <-;
      (split; [intros _ | congruence]); cbn; rewrite E2, E3, E4; auto.
  - cbn [bind].
    destruct (negb (Z.land (u8 value) 64 =? 0)); intros H; injection H as <-;
      (split; [congruence | intros _]); reflexivity.
Qed.

(** ** Where (T2) is kept

    Every function of the controller that ends without having touched the
    data FIFO keeps (T2); those that touch it go on to update the status
    register. *)

Lemma bitfield_set_same (n : Z) (b : bool) (x : Z) :
  0 <= n -> Z.testbit (bitfield_set n b x) n = b.
Proof.
  intros H. unfold bitfield_set.
  destruct b; [apply Z.setbit_eq | apply Z.clearbit_eq]; exact H.
Qed.

Lemma bitfield_set_other (n m : Z) (b : bool) (x : Z) :
  0 <= n -> 0 <= m -> n <> m -> Z.testbit (bitfield_set n b x) m = Z.testbit x m.
Proof.
  intros Hn Hm Hne. unfold bitfield_set.
  destruct b; [apply Z.setbit_neq | apply Z.clearbit_neq]; assumption.
Qed.

Lemma UpdateStatusRegister_T2 (s : State) : T2 (UpdateStatusRegister s).
Proof.
  unfold T2, status_DRQSTS, UpdateStatusRegister.
  cbn [status dma_request data_fifo set_dma_request set_status].
  split; [|reflexivity].
  rewrite bitfield_set_other by (vm_compute; discriminate).
  apply bitfield_set_same. vm_compute. discriminate.
Qed.

Lemma UpdateStatusRegister_T1 (s : State) : T1 (UpdateStatusRegister s).
Proof.
  unfold T1, status_BUSYSTS, UpdateStatusRegister.
  cbn [status command_state set_dma_request set_status].
  apply bitfield_set_same. vm_compute. discriminate.
Qed.

Lemma EndCommand_T2 (s : State) : T2 (Dispatch.EndCommand s).
Proof. unfold Dispatch.EndCommand. apply UpdateStatusRegister_T2. Qed.

Lemma EndCommand_T1 (s : State) : T1 (Dispatch.EndCommand s).
Proof. unfold Dispatch.EndCommand. apply UpdateStatusRegister_T1. Qed.

Lemma status_index_write_keeps (st value n : Z) :
  2 <= n <= 7 ->
  Z.testbit (Z.lor (Z.land st (u8 (Z.lnot 3))) (Z.land (u8 value) 3)) n = Z.testbit st n.
Proof.
  intros H. rewrite Z.lor_spec, !Z.land_spec.
  assert (E3 : Z.testbit 3 n = false).
  { assert (n = 2 \/ n = 3 \/ n = 4 \/ n = 5 \/ n = 6 \/ n = 7) as C by lia.
    destruct C as [-> | [-> | [-> | [-> | [-> | ->]]]]]; reflexivity. }
  assert (E252 : Z.testbit (u8 (Z.lnot 3)) n = true).
  { assert (n = 2 \/ n = 3 \/ n = 4 \/ n = 5 \/ n = 6 \/ n = 7) as C by lia.
    destruct C as [-> | [-> | [-> | [-> | [-> | ->]]]]]; reflexivity. }
  rewrite E3, E252, andb_true_r, andb_false_r, orb_false_r. reflexivity.
Qed.

Ltac T2_est :=
  idtac;
  match goal with
  | |- T2 (UpdateStatusRegister _) => apply UpdateStatusRegister_T2
  | |- T2 (Dispatch.EndCommand _) => apply EndCommand_T2
  end.
Ltac T1_est :=
  idtac;
  match goal with
  | |- T1 (UpdateStatusRegister _) => apply UpdateStatusRegister_T1
  | |- T1 (Dispatch.EndCommand _) => apply EndCommand_T1
  end.

Lemma T2_SetInterrupt (i : Z) (s : State) : T2 (SetInterrupt i s) = T2 s.
Proof. unfold SetInterrupt. destruct (HasPendingInterrupt _); reflexivity. Qed.

Lemma T2_StopReading (s : State) : T2 (StopReading s) = T2 s.
Proof. unfold StopReading. destruct (negb _); reflexivity. Qed.

Lemma T2_ResampleXAADPCM (a b : bool) (l : list Z) (n : Z) (M : VolumeMatrix) (s : State) :
  T2 (ResampleXAADPCM a b l n M s) = T2 s.
Proof.
  unfold ResampleXAADPCM.
  destruct (resample_loop _ _ _ _ _ _) as [[[ring p] six] out]. reflexivity.
Qed.

Lemma T2_ProcessXAADPCMSector {xa : CDXA} (s : State) : T2 (ProcessXAADPCMSector s) = T2 s.
Proof.
  unfold ProcessXAADPCMSector.
  destruct (_ || _); [reflexivity|].
  destruct (IsStereo _); rewrite T2_ResampleXAADPCM; reflexivity.
Qed.

Lemma T2_ProcessCDDASector (s : State) : T2 (ProcessCDDASector s) = T2 s.
Proof. unfold ProcessCDDASector. destruct (negb _); reflexivity. Qed.

Lemma T2_RemoveMedia (s : State) : T2 (RemoveMedia s) = T2 s.
Proof. unfold RemoveMedia. destruct (media s); reflexivity. Qed.

#[local] Hint Rewrite T2_SetInterrupt T2_StopReading T2_ResampleXAADPCM
  @T2_ProcessXAADPCMSector T2_ProcessCDDASector T2_RemoveMedia : inv_rw.

Lemma T2_DeliverAsyncInterrupt (s s' : State) :
  DeliverAsyncInterrupt s = Ok s' -> T2 s -> T2 s'.
Proof. unfold DeliverAsyncInterrupt. intros H P. inv T2 T2_est. Qed.
#[local] Hint Resolve T2_DeliverAsyncInterrupt : inv.

Lemma T2_SetAsyncInterrupt (i : Z) (s s' : State) :
  SetAsyncInterrupt i s = Ok s' -> T2 s -> T2 s'.
Proof. unfold SetAsyncInterrupt. intros H P. inv T2 T2_est. Qed.
#[local] Hint Resolve T2_SetAsyncInterrupt : inv.

Lemma T2_PushResponse (v : Z) (s s' : State) : PushResponse v s = Ok s' -> T2 s -> T2 s'.
Proof. unfold PushResponse. intros H P. inv T2 T2_est. Qed.
#[local] Hint Resolve T2_PushResponse : inv.

Lemma T2_PushResponseRange (vs : list Z) (s s' : State) :
  PushResponseRange vs s = Ok s' -> T2 s -> T2 s'.
Proof. unfold PushResponseRange. intros H P. inv T2 T2_est. Qed.
#[local] Hint Resolve T2_PushResponseRange : inv.

Lemma T2_PushAsyncResponse (v : Z) (s s' : State) :
  PushAsyncResponse v s = Ok s' -> T2 s -> T2 s'.
Proof. unfold PushAsyncResponse. intros H P. inv T2 T2_est. Qed.
#[local] Hint Resolve T2_PushAsyncResponse : inv.

Lemma T2_SendACKAndStat (s s' : State) : SendACKAndStat s = Ok s' -> T2 s -> T2 s'.
Proof. unfold SendACKAndStat. intros H P. inv T2 T2_est. Qed.
#[local] Hint Resolve T2_SendACKAndStat : inv.

Lemma T2_SendErrorResponse (r : Z) (s s' : State) :
  SendErrorResponse r s = Ok s' -> T2 s -> T2 s'.
Proof. unfold SendErrorResponse. intros H P. inv T2 T2_est. Qed.
#[local] Hint Resolve T2_SendErrorResponse : inv.

Lemma T2_SendAsyncErrorResponse (r : Z) (s s' : State) :
  SendAsyncErrorResponse r s = Ok s' -> T2 s -> T2 s'.
Proof. unfold SendAsyncErrorResponse. intros H P. inv T2 T2_est. Qed.
#[local] Hint Resolve T2_SendAsyncErrorResponse : inv.

Lemma T2_BeginSeeking (s s' : State) : BeginSeeking s = Ok s' -> T2 s -> T2 s'.
Proof. unfold BeginSeeking. intros H P. cbv zeta in H. inv T2 T2_est. Qed.
#[local] Hint Resolve T2_BeginSeeking : inv.

Lemma T2_BeginReading (cdda : bool) (s s' : State) :
  BeginReading cdda s = Ok s' -> T2 s -> T2 s'.
Proof. unfold BeginReading. intros H P. inv T2 T2_est. Qed.
#[local] Hint Resolve T2_BeginReading : inv.

Lemma T2_DoSeekComplete (s s' : State) : DoSeekComplete s = Ok s' -> T2 s -> T2 s'.
Proof.
  unfold DoSeekComplete. intros H P. cbv zeta in H.
  change (media (set_secondary SecondaryBit.seeking false s)) with (media s) in H.
  destruct (media s); cbn [fst snd] in H; inv T2 T2_est.
Qed.
#[local] Hint Resolve T2_DoSeekComplete : inv.

Lemma T2_ProcessDataSector {xa : CDXA} (s s' : State) :
  ProcessDataSector s = Ok s' -> T2 s -> T2 s'.
Proof.
  unfold ProcessDataSector. intros H P. cbv zeta in H.
  repeat match type of H with
         | context [snd (if ?c then _ else _)] => destruct c; cbn [fst snd] in H
         end.
  all: inv T2 T2_est.
Qed.
#[local] Hint Resolve T2_ProcessDataSector : inv.

Lemma T2_DoSectorRead {xa : CDXA} (s s' : State) : DoSectorRead s = Ok s' -> T2 s -> T2 s'.
Proof. unfold DoSectorRead. intros H P. cbv zeta in H. inv T2 T2_est. Qed.
#[local] Hint Resolve T2_DoSectorRead : inv.

Section T2Dispatch.

Context {xa : CDXA}.
Variable Synchronize : State -> res State.
Hypothesis T2_Synchronize : forall s s', Synchronize s = Ok s' -> T2 s -> T2 s'.
Hint Resolve T2_Synchronize : inv.

Lemma T2_NextCommandStage (w : bool) (t : Z) (s s' : State) :
  Dispatch.NextCommandStage Synchronize w t s = Ok s' -> T2 s -> T2 s'.
Proof. unfold Dispatch.NextCommandStage. intros H P. cbv zeta in H. inv T2 T2_est. Qed.
Hint Resolve T2_NextCommandStage : inv.

Lemma T2_ExecuteTestCommand (c : Z) (s s' : State) :
  Dispatch.ExecuteTestCommand c s = Ok s' -> T2 s -> T2 s'.
Proof. unfold Dispatch.ExecuteTestCommand. intros H P. inv T2 T2_est. Qed.
Hint Resolve T2_ExecuteTestCommand : inv.

Lemma T2_ExecuteCommand (s s' : State) :
  Dispatch.ExecuteCommand Synchronize s = Ok s' -> T2 s -> T2 s'.
Proof. unfold Dispatch.ExecuteCommand. intros H P. cbv zeta in H. inv T2 T2_est. Qed.
Hint Resolve T2_ExecuteCommand : inv.

Lemma T2_Execute (ticks : Z) (s s' : State) :
  Dispatch.Execute Synchronize ticks s = Ok s' -> T2 s -> T2 s'.
Proof. unfold Dispatch.Execute. intros H P. cbv zeta in H. inv T2 T2_est. Qed.

Lemma T2_BeginCommand (c : Z) (s s' : State) :
  Dispatch.BeginCommand Synchronize c s = Ok s' -> T2 s -> T2 s'.
Proof. unfold Dispatch.BeginCommand. intros H P. cbv zeta in H. inv T2 T2_est. Qed.
Hint Resolve T2_BeginCommand : inv.

Lemma T2_WriteRegister (offset value : Z) (s s' : State) :
  Dispatch.WriteRegister Synchronize offset value s = Ok s' -> T2 s -> T2 s'.
Proof.
  unfold Dispatch.WriteRegister. intros H P. cbv zeta in H.
  destruct (offset =? 0).
  { injection H as <-. destruct P as [P1 P2]. unfold T2, status_DRQSTS in *.
    cbn [status data_fifo dma_request set_status].
    rewrite status_index_write_keeps by (vm_compute; split; discriminate). auto. }
  pose proof T2_DeliverAsyncInterrupt.
  inv T2 T2_est.
Qed.

End T2Dispatch.

Section T2Scheduler.

Context {xa : CDXA}.

Lemma T2_Execute_top (ticks : Z) (s s' : State) : Execute ticks s = Ok s' -> T2 s -> T2 s'.
Proof.
  unfold Execute. apply T2_Execute.
Qed.

Lemma T2_Synchronize_top (s s' : State) : Synchronize s = Ok s' -> T2 s -> T2 s'.
Proof.
  unfold Synchronize. destruct (pending_ticks s =? 0).
  - intros H P. injection H as <-. exact P.
  - intros H P. apply (T2_Execute_top _ _ _ H). exact P.
Qed.

Lemma T2_ReadRegister (offset : Z) (s : State) (r : Z * State) :
  ReadRegister offset s = Ok r -> T2 s -> T2 (snd r).
Proof. unfold ReadRegister. intros H P. repeat run_step; cbn [snd]; inv_back T2 T2_est. Qed.

Lemma Reset_T2 (s : State) : T2 (Reset s).
Proof. unfold Reset, SoftReset. cbv zeta. apply UpdateStatusRegister_T2. Qed.

(** Every operation other than a DMA read keeps (T2). *)
Lemma T2_kept_by_all_but_DMARead (o : Op) (s s' : State) :
  T2 s -> apply_op o s = Ok s' ->
  (forall word_count, o <> OpDMARead word_count) ->
  T2 s'.
Proof.
  intros P H Hn.
  destruct o as [ | opened | | offset | offset value | word_count | ticks | ];
    cbn [apply_op] in H.
  - injection H as <-. apply Reset_T2.
  - injection H as <-. unfold InsertMedia. destruct opened; cbn [snd]; [|exact P].
    destruct (HasMedia s); inv_back T2 T2_est.
  - injection H as <-. inv_back T2 T2_est.
  - destruct (ReadRegister offset s) as [r|] eqn:E; cbn [bind] in H; [|discriminate].
    injection H as <-. apply (T2_ReadRegister _ _ _ E P).
  - apply (T2_WriteRegister Synchronize T2_Synchronize_top _ _ _ _ H P).
  - exfalso. apply (Hn word_count). reflexivity.
  - destruct (0 <=? ticks); [|discriminate]. injection H as <-. exact P.
  - apply (T2_Synchronize_top _ _ H P).
Qed.

End T2Scheduler.

(** ** Where (T1) is kept

    Every function of the controller that ends without having changed the
    command state keeps (T1); those that change it go on to update the
    status register, except the acknowledge write that releases a waiting
    command. *)

Lemma T1_SetInterrupt (i : Z) (s : State) : T1 (SetInterrupt i s) = T1 s.
Proof. unfold SetInterrupt. destruct (HasPendingInterrupt _); reflexivity. Qed.

Lemma T1_StopReading (s : State) : T1 (StopReading s) = T1 s.
Proof. unfold StopReading. destruct (negb _); reflexivity. Qed.

Lemma T1_ResampleXAADPCM (a b : bool) (l : list Z) (n : Z) (M : VolumeMatrix) (s : State) :
  T1 (ResampleXAADPCM a b l n M s) = T1 s.
Proof.
  unfold ResampleXAADPCM.
  destruct (resample_loop _ _ _ _ _ _) as [[[ring p] six] out]. reflexivity.
Qed.

Lemma T1_ProcessXAADPCMSector {xa : CDXA} (s : State) : T1 (ProcessXAADPCMSector s) = T1 s.
Proof.
  unfold ProcessXAADPCMSector.
  destruct (_ || _); [reflexivity|].
  destruct (IsStereo _); rewrite T1_ResampleXAADPCM; reflexivity.
Qed.

Lemma T1_ProcessCDDASector (s : State) : T1 (ProcessCDDASector s) = T1 s.
Proof. unfold ProcessCDDASector. destruct (negb _); reflexivity. Qed.

Lemma T1_RemoveMedia (s : State) : T1 (RemoveMedia s) = T1 s.
Proof. unfold RemoveMedia. destruct (media s); reflexivity. Qed.

#[local] Hint Rewrite T1_SetInterrupt T1_StopReading T1_ResampleXAADPCM
  @T1_ProcessXAADPCMSector T1_ProcessCDDASector T1_RemoveMedia : inv_rw.

Lemma T1_DeliverAsyncInterrupt (s s' : State) :
  DeliverAsyncInterrupt s = Ok s' -> T1 s -> T1 s'.
Proof. unfold DeliverAsyncInterrupt. intros H P. inv T1 T1_est. Qed.
#[local] Hint Resolve T1_DeliverAsyncInterrupt : inv.

Lemma T1_SetAsyncInterrupt (i : Z) (s s' : State) :
  SetAsyncInterrupt i s = Ok s' -> T1 s -> T1 s'.
Proof. unfold SetAsyncInterrupt. intros H P. inv T1 T1_est. Qed.
#[local] Hint Resolve T1_SetAsyncInterrupt : inv.

Lemma T1_PushResponse (v : Z) (s s' : State) : PushResponse v s = Ok s' -> T1 s -> T1 s'.
Proof. unfold PushResponse. intros H P. inv T1 T1_est. Qed.
#[local] Hint Resolve T1_PushResponse : inv.

Lemma T1_PushResponseRange (vs : list Z) (s s' : State) :
  PushResponseRange vs s = Ok s' -> T1 s -> T1 s'.
Proof. unfold PushResponseRange. intros H P. inv T1 T1_est. Qed.
#[local] Hint Resolve T1_PushResponseRange : inv.

Lemma T1_PushAsyncResponse (v : Z) (s s' : State) :
  PushAsyncResponse v s = Ok s' -> T1 s -> T1 s'.
Proof. unfold PushAsyncResponse. intros H P. inv T1 T1_est. Qed.
#[local] Hint Resolve T1_PushAsyncResponse : inv.

Lemma T1_SendACKAndStat (s s' : State) : SendACKAndStat s = Ok s' -> T1 s -> T1 s'.
Proof. unfold SendACKAndStat. intros H P. inv T1 T1_est. Qed.
#[local] Hint Resolve T1_SendACKAndStat : inv.

Lemma T1_SendErrorResponse (r : Z) (s s' : State) :
  SendErrorResponse r s = Ok s' -> T1 s -> T1 s'.
Proof. unfold SendErrorResponse. intros H P. inv T1 T1_est. Qed.
#[local] Hint Resolve T1_SendErrorResponse : inv.

Lemma T1_SendAsyncErrorResponse (r : Z) (s s' : State) :
  SendAsyncErrorResponse r s = Ok s' -> T1 s -> T1 s'.
Proof. unfold SendAsyncErrorResponse. intros H P. inv T1 T1_est. Qed.
#[local] Hint Resolve T1_SendAsyncErrorResponse : inv.

Lemma T1_BeginSeeking (s s' : State) : BeginSeeking s = Ok s' -> T1 s -> T1 s'.
Proof. unfold BeginSeeking. intros H P. cbv zeta in H. inv T1 T1_est. Qed.
#[local] Hint Resolve T1_BeginSeeking : inv.

Lemma T1_BeginReading (cdda : bool) (s s' : State) :
  BeginReading cdda s = Ok s' -> T1 s -> T1 s'.
Proof. unfold BeginReading. intros H P. inv T1 T1_est. Qed.
#[local] Hint Resolve T1_BeginReading : inv.

Lemma T1_DoSeekComplete (s s' : State) : DoSeekComplete s = Ok s' -> T1 s -> T1 s'.
Proof.
  unfold DoSeekComplete. intros H P. cbv zeta in H.
  change (media (set_secondary SecondaryBit.seeking false s)) with (media s) in H.
  destruct (media s); cbn [fst snd] in H; inv T1 T1_est.
Qed.
#[local] Hint Resolve T1_DoSeekComplete : inv.

Lemma T1_ProcessDataSector {xa : CDXA} (s s' : State) :
  ProcessDataSector s = Ok s' -> T1 s -> T1 s'.
Proof.
  unfold ProcessDataSector. intros H P. cbv zeta in H.
  repeat match type of H with
         | context [snd (if ?c then _ else _)] => destruct c; cbn [fst snd] in H
         end.
  all: inv T1 T1_est.
Qed.
#[local] Hint Resolve T1_ProcessDataSector : inv.

Lemma T1_DoSectorRead {xa : CDXA} (s s' : State) : DoSectorRead s = Ok s' -> T1 s -> T1 s'.
Proof. unfold DoSectorRead. intros H P. cbv zeta in H. inv T1 T1_est. Qed.
#[local] Hint Resolve T1_DoSectorRead : inv.

Lemma T1_LoadDataFIFO (s s' : State) : LoadDataFIFO s = Ok s' -> T1 s -> T1 s'.
Proof. unfold LoadDataFIFO. intros H P. inv T1 T1_est. Qed.
#[local] Hint Resolve T1_LoadDataFIFO : inv.

Section T1Dispatch.

Context {xa : CDXA}.
Variable Synchronize : State -> res State.
Hypothesis T1_Synchronize : forall s s', Synchronize s = Ok s' -> T1 s -> T1 s'.
Hint Resolve T1_Synchronize : inv.

Lemma T1_NextCommandStage (w : bool) (t : Z) (s s' : State) :
  Dispatch.NextCommandStage Synchronize w t s = Ok s' -> T1 s -> T1 s'.
Proof. unfold Dispatch.NextCommandStage. intros H P. cbv zeta in H. inv T1 T1_est. Qed.
Hint Resolve T1_NextCommandStage : inv.

Lemma T1_ExecuteTestCommand (c : Z) (s s' : State) :
  Dispatch.ExecuteTestCommand c s = Ok s' -> T1 s -> T1 s'.
Proof. unfold Dispatch.ExecuteTestCommand. intros H P. inv T1 T1_est. Qed.
Hint Resolve T1_ExecuteTestCommand : inv.

Lemma T1_ExecuteCommand (s s' : State) :
  Dispatch.ExecuteCommand Synchronize s = Ok s' -> T1 s -> T1 s'.
Proof. unfold Dispatch.ExecuteCommand. intros H P. cbv zeta in H. inv T1 T1_est. Qed.
Hint Resolve T1_ExecuteCommand : inv.

Lemma T1_Execute (ticks : Z) (s s' : State) :
  Dispatch.Execute Synchronize ticks s = Ok s' -> T1 s -> T1 s'.
Proof. unfold Dispatch.Execute. intros H P. cbv zeta in H. inv T1 T1_est. Qed.

Lemma T1_BeginCommand (c : Z) (s s' : State) :
  Dispatch.BeginCommand Synchronize c s = Ok s' -> T1 s -> T1 s'.
Proof. unfold Dispatch.BeginCommand. intros H P. cbv zeta in H. inv T1 T1_est. Qed.
Hint Resolve T1_BeginCommand : inv.

(** The register writes keep (T1), but for the acknowledge that releases
    a waiting command without bit 6. *)
Lemma T1_WriteRegister (offset value : Z) (s s' : State) :
  Dispatch.WriteRegister Synchronize offset value s = Ok s' -> T1 s ->
  ~ (offset = 3 /\ releases_command value s) ->
  T1 s'.
Proof.
  unfold Dispatch.WriteRegister. intros H P N. cbv zeta in H.
  destruct (offset =? 0).
  { injection H as <-. unfold T1, status_BUSYSTS in *.
    cbn [status command_state set_status].
    rewrite status_index_write_keeps by (vm_compute; split; discriminate). exact P. }
  destruct (offset =? 1); [inv T1 T1_est|].
  destruct (offset =? 2); [inv T1 T1_est|].
  destruct (Z.eqb_spec offset 3) as [E3|E3]; [|inv T1 T1_est].
  destruct (status_index s =? 0); [inv T1 T1_est|].
  destruct (Z.eqb_spec (status_index s) 1) as [E1|E1]; [|inv T1 T1_est].
  fold (flags_after_ack value s) in H.
  set (s1 := set_interrupt_flag_register (flags_after_ack value s) s) in H.
  change (interrupt_flag_register s1) with (flags_after_ack value s) in H.
  change (command_state s1) with (command_state s) in H.
  assert (P1 : T1 s1) by exact P.
  destruct (Z.eqb_spec (flags_after_ack value s) 0) as [Ef|Ef].
  - destruct (command_state s) eqn:Ec; cbn [CommandState_eqb] in H.
    + pose proof T1_DeliverAsyncInterrupt. inv T1 T1_est.
    + pose proof T1_DeliverAsyncInterrupt. inv T1 T1_est.
    + destruct (Z.eqb_spec (Z.land (u8 value) 64) 0) as [E6|E6]; cbn [negb] in H.
      * exfalso. apply N. unfold releases_command. auto.
      * inv T1 T1_est.
  - inv T1 T1_est.
Qed.

End T1Dispatch.

Section T1Scheduler.

Context {xa : CDXA}.

Lemma T1_Execute_top (ticks : Z) (s s' : State) : Execute ticks s = Ok s' -> T1 s -> T1 s'.
Proof. unfold Execute. apply T1_Execute. Qed.

Lemma T1_Synchronize_top (s s' : State) : Synchronize s = Ok s' -> T1 s -> T1 s'.
Proof.
  unfold Synchronize. destruct (pending_ticks s =? 0).
  - intros H P. injection H as <-. exact P.
  - intros H P. apply (T1_Execute_top _ _ _ H). exact P.
Qed.

Lemma T1_ReadRegister (offset : Z) (s : State) (r : Z * State) :
  ReadRegister offset s = Ok r -> T1 s -> T1 (snd r).
Proof. unfold ReadRegister. intros H P. repeat run_step; cbn [snd]; inv_back T1 T1_est. Qed.

Lemma T1_DMARead (word_count : Z) (s : State) (r : list Z * State) :
  DMARead word_count s = Ok r -> T1 s -> T1 (snd r).
Proof.
  unfold DMARead. intros H P. cbv zeta in H.
  repeat run_step; cbn [snd]; inv_back T1 T1_est.
Qed.

Lemma Reset_T1 (s : State) : T1 (Reset s).
Proof. unfold Reset, SoftReset. cbv zeta. apply UpdateStatusRegister_T1. Qed.

(** Every operation keeps (T1), but for the acknowledge write that
    releases a waiting command without bit 6. *)
Lemma T1_kept_by_all_but_the_release (o : Op) (s s' : State) :
  T1 s -> apply_op o s = Ok s' ->
  (forall value, o = OpWriteRegister 3 value -> ~ releases_command value s) ->
  T1 s'.
Proof.
  intros P H Hn.
  destruct o as [ | opened | | offset | offset value | word_count | ticks | ];
    cbn [apply_op] in H.
  - injection H as <-. apply Reset_T1.
  - injection H as <-. unfold InsertMedia. destruct opened; cbn [snd]; [|exact P].
    destruct (HasMedia s); inv_back T1 T1_est.
  - injection H as <-. inv_back T1 T1_est.
  - destruct (ReadRegister offset s) as [r|] eqn:E; cbn [bind] in H; [|discriminate].
    injection H as <-. apply (T1_ReadRegister _ _ _ E P).
  - apply (T1_WriteRegister Synchronize T1_Synchronize_top _ _ _ _ H P).
    intros [-> R]. apply (Hn value eq_refl R).
  - destruct (DMARead word_count s) as [r|] eqn:E; cbn [bind] in H; [|discriminate].
    injection H as <-. apply (T1_DMARead _ _ _ E P).
  - destruct (0 <=? ticks); [|discriminate]. injection H as <-. exact P.
  - apply (T1_Synchronize_top _ _ H P).
Qed.

End T1Scheduler.
(** ** The status byte after a DMA read and after an acknowledge *)

Lemma DMARead_keeps_status (word_count : Z) (s : State) (r : list Z * State) :
  DMARead word_count s = Ok r ->
  status (snd r) = status s
  /\ dma_request (snd r) = dma_request s
  /\ data_fifo (snd r)
     = skipn (Z.to_nat (Z.min (u32 (word_count * 4)) (FIFO.GetSize (data_fifo s))))
         (data_fifo s).
Proof.
  unfold DMARead. cbv zeta. unfold FIFO.PopRange.
  destruct (_ <? _); cbn [bind]; [discriminate|].
  intros H. injection H as <-. cbn. auto.
Qed.

(** A DMA read that drains a FIFO that was not empty leaves DRQSTS and the
    request line as they were, and so at odds with the FIFO. *)
Lemma DMARead_draining_breaks_T2 (word_count : Z) (s : State) (r : list Z * State) :
  T2 s -> data_fifo s <> [] ->
  FIFO.GetSize (data_fifo s) <= u32 (word_count * 4) ->
  DMARead word_count s = Ok r ->
  data_fifo (snd r) = [] /\ status_DRQSTS (snd r) = true /\ dma_request (snd r) = true
  /\ ~ T2 (snd r).
Proof.
  intros [Hd Hq] Hne Hsz H.
  destruct (DMARead_keeps_status _ _ _ H) as (Ks & Kq & Kf).
  assert (Hd' : status_DRQSTS s = true).
  { rewrite Hd. destruct (data_fifo s); [congruence|reflexivity]. }
  assert (E : data_fifo (snd r) = []).
  { rewrite Kf. rewrite Z.min_r by exact Hsz.
    unfold FIFO.GetSize. rewrite Nat2Z.id. apply skipn_all. }
  assert (S1 : status_DRQSTS (snd r) = true).
  { unfold status_DRQSTS in *. rewrite Ks. exact Hd'. }
  repeat split; try assumption.
  - rewrite Kq, Hq. exact Hd'.
  - intros [Hbad _]. rewrite E, S1 in Hbad. discriminate.
Qed.

(** The acknowledge write that releases a waiting command, with nothing
    for the scheduler to flush and bit 6 of the value clear: the command is
    in WaitForExecute and the status byte is the one from before. *)
Lemma WriteRegister_ack_keeps_status {xa : CDXA} (value : Z) (s : State) :
  status_index s = 1 ->
  command_state s = WaitForIRQClear ->
  pending_ticks s = 0 ->
  flags_after_ack value s = 0 ->
  Z.land (u8 value) 0x40 = 0 ->
  exists s',
    WriteRegister 3 value s = Ok s'
    /\ command_state s' = WaitForExecute
    /\ interrupt_flag_register s' = 0
    /\ status s' = status s.
Proof.
  intros Hi Hw Hp Hf Hb. unfold WriteRegister, Dispatch.WriteRegister.
  rewrite Hi. cbn [Z.eqb orb].
  change (3 =? 0) with false. change (3 =? 1) with false. change (3 =? 2) with false.
  change (3 =? 3) with true. cbv iota.
  fold (flags_after_ack value s).
  set (s1 := set_interrupt_flag_register (flags_after_ack value s) s).
  change (interrupt_flag_register s1) with (flags_after_ack value s).
  change (command_state s1) with (command_state s).
  rewrite Hf, Hw, Hb. cbn [Z.eqb CommandState_eqb negb].
  unfold Synchronize. change (pending_ticks s1) with (pending_ticks s).
  rewrite Hp. cbn [Z.eqb bind].
  eexists. split; [reflexivity|]. cbn. rewrite Hf. auto.
Qed.

Lemma ack_breaks_T1 {xa : CDXA} (value : Z) (s : State) :
  T1 s ->
  status_index s = 1 ->
  command_state s = WaitForIRQClear ->
  pending_ticks s = 0 ->
  flags_after_ack value s = 0 ->
  Z.land (u8 value) 0x40 = 0 ->
  exists s',
    WriteRegister 3 value s = Ok s'
    /\ command_state s' = WaitForExecute
    /\ status_BUSYSTS s' = false
    /\ ~ T1 s'.
Proof.
  intros HT Hi Hw Hp Hf Hb.
  destruct (WriteRegister_ack_keeps_status value s Hi Hw Hp Hf Hb) as (s' & E & C & _ & S1).
  exists s'. unfold T1 in *. rewrite Hw in HT. cbn in HT.
  assert (B : status_BUSYSTS s' = false).
  { unfold status_BUSYSTS in *. rewrite S1. exact HT. }
  repeat split; try assumption.
  rewrite B, C. discriminate.
Qed.

(** C1 (the code departs from the claim): after ReadN, one sector and a
    write of the request register with BFRD, the data FIFO holds 2048 bytes
    and (T2) holds; the state is reached from reset.  A DMARead of 512
    words then empties the FIFO and leaves DRQSTS set and the DMA request
    line asserted: DMARead does not update the status register. *)
Theorem C1_dma_read_leaves_drqsts_set :
  let s := after read_one_sector in
  reachable (xa := example_xa) s
  /\ T2 s
  /\ FIFO.GetSize (data_fifo s) = 2048
  /\ exists out s',
       DMARead 512 s = Ok (out, s')
       /\ reachable (xa := example_xa) s'
       /\ data_fifo s' = []
       /\ status_DRQSTS s' = true
       /\ dma_request s' = true
       /\ ~ T2 s'.
Proof.
  intros s.
  assert (Hr : reachable (xa := example_xa) s)
    by (apply after_reachable; vm_compute; reflexivity).
  assert (HT : T2 s) by (split; vm_compute; reflexivity).
  assert (Hsz : FIFO.GetSize (data_fifo s) = 2048) by (vm_compute; reflexivity).
  clearbody s.
  split; [exact Hr|]. split; [exact HT|]. split; [exact Hsz|].
  assert (Hne : data_fifo s <> []).
  { intros C. rewrite C in Hsz. discriminate. }
  assert (Hle : FIFO.GetSize (data_fifo s) <= u32 (512 * 4))
    by (rewrite Hsz; vm_compute; discriminate).
  destruct (DMARead 512 s) as [[out s']|f] eqn:E.
  - exists out, s'. split; [reflexivity|].
    destruct (DMARead_draining_breaks_T2 512 _ _ HT Hne Hle E) as (A & B & C & D).
    split; [|auto].
    apply (reachable_step s (OpDMARead 512) s' Hr).
    cbn [apply_op]. rewrite E. reflexivity.
  - exfalso. revert E. unfold DMARead. cbv zeta. unfold FIFO.PopRange.
    rewrite Hsz. change (u32 (512 * 4)) with 2048. change (Z.min 2048 2048) with 2048.
    change (2048 <? 2048) with false. cbn [bind]. discriminate.
Qed.

(** C2 (the code departs from the claim): after the first stage of GetID
    the command waits in WaitForIRQClear and (T1) holds; the state is
    reached from reset.  The host's write of 0x07 to the interrupt-flag
    register leaves the flag register zero and moves the command to
    WaitForExecute, and BUSYSTS is still clear: this write does not update
    the status register. *)
Theorem C2_ack_leaves_busysts_clear :
  let s := after getid_first_stage in
  reachable (xa := example_xa) s
  /\ T1 s
  /\ command_state s = WaitForIRQClear
  /\ exists s',
       WriteRegister (xa := example_xa) 3 0x07 s = Ok s'
       /\ reachable (xa := example_xa) s'
       /\ command_state s' = WaitForExecute
       /\ status_BUSYSTS s' = false
       /\ ~ T1 s'.
Proof.
  intros s.
  assert (Hr : reachable (xa := example_xa) s)
    by (apply after_reachable; vm_compute; reflexivity).
  assert (HT : T1 s) by (vm_compute; reflexivity).
  assert (Hw : command_state s = WaitForIRQClear) by (vm_compute; reflexivity).
  assert (Hi : status_index s = 1) by (vm_compute; reflexivity).
  assert (Hp : pending_ticks s = 0) by (vm_compute; reflexivity).
  assert (Hf : flags_after_ack 0x07 s = 0) by (vm_compute; reflexivity).
  clearbody s.
  split; [exact Hr|]. split; [exact HT|]. split; [exact Hw|].
  destruct (ack_breaks_T1 (xa := example_xa) 0x07 s HT Hi Hw Hp Hf eq_refl)
    as (s' & E & C & B & N).
  exists s'. split; [exact E|]. split; [|auto].
  apply (reachable_step s (OpWriteRegister 3 0x07) s' Hr). exact E.
Qed.
(** ** The claims on the interrupt arbiter, the commands and the drive *)

(** C5: an asynchronous interrupt asserted with none held is delivered at
    once (the response FIFO is replaced by the staged response, the code is
    latched into the flag register and the interrupt is requested) if and
    only if the interrupt-flag register is zero at that moment; otherwise
    its code is held in pending_async_interrupt and nothing else changes.
    No delivery succeeds with a flag outstanding, and the host's
    acknowledge delivers a held interrupt exactly when it leaves the flag
    register zero. *)
Theorem C5_async_interrupt_delivered_iff_no_flag (s : State) (interrupt : Z) :
  pending_async_interrupt s = 0 ->
  0 < interrupt < 256 ->
  FIFO.GetSize (async_response_fifo s) <= RESPONSE_FIFO_SIZE ->
  exists s',
    SetAsyncInterrupt interrupt s = Ok s'
    /\ (interrupt_flag_register s = 0 -> delivered interrupt s s')
    /\ (interrupt_flag_register s <> 0 -> s' = set_pending_async_interrupt interrupt s)
    /\ (delivered interrupt s s' <-> interrupt_flag_register s = 0)
    /\ (forall t t', DeliverAsyncInterrupt t = Ok t' -> interrupt_flag_register t = 0)
    /\ (forall (Synchronize : State -> res State) (value : Z) (t : State),
           status_index t = 1 ->
           command_state t <> WaitForIRQClear ->
           pending_async_interrupt t <> 0 ->
           FIFO.GetSize (async_response_fifo t) <= RESPONSE_FIFO_SIZE ->
           exists t',
             Dispatch.WriteRegister Synchronize 3 value t = Ok t'
             /\ (flags_after_ack value t = 0 -> delivered (pending_async_interrupt t) t t')
             /\ (flags_after_ack value t <> 0 ->
                 pending_async_interrupt t' = pending_async_interrupt t
                 /\ response_fifo t' = response_fifo t
                 /\ async_response_fifo t' = async_response_fifo t
                 /\ interrupt_flag_register t' = flags_after_ack value t
                 /\ irq_requests t' = irq_requests t)).
Proof.
  intros Hp Hi Hsz.
  destruct (Z.eq_dec (interrupt_flag_register s) 0) as [Hf|Hf].
  - destruct (SetAsyncInterrupt_delivers s interrupt Hp Hi Hsz Hf) as (s' & E & D).
    exists s'. split; [exact E|].
    split; [intros _; exact D|]. split; [congruence|].
    split; [tauto|].
    split; [exact DeliverAsyncInterrupt_only_without_flag|].
    intros Sy value t H1 H2 H3 H4.
      exact (WriteRegister_ack_delivery Sy t value H1 H2 H3 H4).
  - exists (set_pending_async_interrupt interrupt s).
    split; [apply SetAsyncInterrupt_holds; assumption|].
    split; [congruence|]. split; [reflexivity|].
    split.
    + split; [|congruence].
      intros (_ & _ & _ & D & _). cbn in D. lia.
    + split; [exact DeliverAsyncInterrupt_only_without_flag|].
      intros Sy value t H1 H2 H3 H4.
      exact (WriteRegister_ack_delivery Sy t value H1 H2 H3 H4).
Qed.

Lemma C5_witness :
  exists s',
    SetAsyncInterrupt INT1 (after read_one_sector) = Ok s'
    /\ s' = set_pending_async_interrupt INT1 (after read_one_sector).
Proof.
  set (s := after read_one_sector).
  assert (Hp : pending_async_interrupt s = 0) by (vm_compute; reflexivity).
  assert (Hi : 0 < INT1 < 256) by (vm_compute; split; reflexivity).
  assert (Hsz : FIFO.GetSize (async_response_fifo s) <= RESPONSE_FIFO_SIZE)
    by (vm_compute; discriminate).
  assert (Hf : interrupt_flag_register s <> 0) by (vm_compute; discriminate).
  clearbody s.
  destruct (C5_async_interrupt_delivered_iff_no_flag s INT1 Hp Hi Hsz)
    as (s' & E & _ & H & _).
  exists s'. split; [exact E|]. apply H. exact Hf.
Defined.

(** C6: the GetID command.  At stage 0 without media it pushes exactly
    0x11, 0x80, raises INT5 and ends; with media it sends ACK with the
    secondary status and schedules stage 1 at 18000 ticks, waiting for the
    host to clear the flag; at stage 1 it pushes exactly
    0x02, 0x00, 0x20, 0x00, 'S', 'C', 'E', 'A', raises INT2 and ends.  The
    command is first executed 4000 ticks after it is written; while it
    waits for the host no passing of time moves it on, and the host's
    acknowledge that leaves the flag register zero puts it into
    WaitForExecute with the 18000 ticks. *)
Theorem C6_GetID {xa : CDXA} (Synchronize : State -> res State) (s : State) :
  command s = Command.GetID ->
  FIFO.GetSize (response_fifo s) + 8 <= RESPONSE_FIFO_SIZE ->
  GetAckDelayForCommand s = 4000
  /\ (exists s',
        Dispatch.ExecuteCommand Synchronize s = Ok s'
        /\ interrupt_flag_register s'
           = (if command_stage s =? 0 then if HasMedia s then ACK else INT5 else INT2)
        /\ irq_requests s' = S (irq_requests s)
        /\ response_fifo s'
           = response_fifo s
             ++ (if command_stage s =? 0
                 then if HasMedia s then [secondary_status s] else [0x11; 0x80]
                 else [0x02; 0x00; 0x20; 0x00; 0x53; 0x43; 0x45; 0x41])
        /\ (if (command_stage s =? 0) && HasMedia s
            then command_state s' = WaitForIRQClear
                 /\ command s' = Command.GetID
                 /\ command_stage s' = 1
                 /\ command_remaining_ticks s' = 18000
            else command_state s' = Idle))
  /\ (forall (ticks : Z) (t t' : State),
         command_state t = WaitForIRQClear ->
         Execute ticks t = Ok t' -> command_part t' = command_part t)
  /\ (forall (value : Z) (t t' : State),
         status_index t = 1 ->
         command_state t = WaitForIRQClear ->
         WriteRegister 3 value t = Ok t' ->
         (flags_after_ack value t = 0 ->
          command_state t' = WaitForExecute
          /\ command t' = command t
          /\ command_stage t' = command_stage t
          /\ command_remaining_ticks t' = command_remaining_ticks t
          /\ downcount t' = command_remaining_ticks t)
         /\ (flags_after_ack value t <> 0 -> command_part t' = command_part t)).
Proof.
  intros Hc Hsz.
  split.
  { unfold GetAckDelayForCommand. rewrite Hc. reflexivity. }
  split; [|split].
  - destruct (Z.eqb_spec (command_stage s) 0) as [H0|H0].
    + unfold HasMedia. destruct (media s) as [m|] eqn:Hm.
      * destruct (GetID_with_media Synchronize s m Hc H0 Hm ltac:(lia))
          as (s' & E & R & F & Q & C1 & C2 & C3 & C4).
        exists s'. cbn [andb]. auto 10.
      * destruct (GetID_no_media Synchronize s Hc H0 Hm ltac:(lia))
          as (s' & E & R & F & Q & C1).
        exists s'. cbn [andb]. auto 10.
    + destruct (GetID_second_stage Synchronize s Hc H0 Hsz) as (s' & E & R & F & Q & C1).
      exists s'. cbn [andb]. auto 10.
  - intros ticks t t'. apply Execute_waits_for_ack.
  - intros value t t'. apply WriteRegister_ack_releases_command.
Qed.

Lemma C6_witness :
  exists s',
    Dispatch.ExecuteCommand SynchronizeNested
      (after [OpInsertMedia (Some example_image); OpWriteRegister 1 Command.GetID]) = Ok s'
    /\ command_state s' = WaitForIRQClear
    /\ command_remaining_ticks s' = 18000.
Proof.
  set (s := after [OpInsertMedia (Some example_image); OpWriteRegister 1 Command.GetID]).
  assert (Hc : command s = Command.GetID) by (vm_compute; reflexivity).
  assert (Hsz : FIFO.GetSize (response_fifo s) + 8 <= RESPONSE_FIFO_SIZE)
    by (vm_compute; discriminate).
  assert (Hst : (command_stage s =? 0) = true) by (vm_compute; reflexivity).
  assert (Hm : HasMedia s = true) by (vm_compute; reflexivity).
  clearbody s.
  destruct (C6_GetID (xa := example_xa) SynchronizeNested s Hc Hsz)
    as (_ & (s' & E & _ & _ & _ & W) & _).
  rewrite Hst, Hm in W. cbn [andb] in W.
  exists s'. split; [exact E|]. split; apply W.
Defined.




(** C8: the GetTD command, its parameter being the BCD track number.
    Without media it answers INT5 with reason 0x80; with the decoded track
    above the track count, INT5 with reason 0x10; otherwise ACK with exactly
    the secondary status, the BCD minute and the BCD second of the end of
    the disc for track 0 and of the track's start for any other track.  In
    every case the command ends. *)
Theorem C8_GetTD (Synchronize : State -> res State) (s : State)
    (param : Z) (params : list Z) :
  command s = Command.GetTD ->
  param_fifo s = param :: params ->
  FIFO.GetSize (response_fifo s) + 3 <= RESPONSE_FIFO_SIZE ->
  let track := BCDToDecimal param in
  exists s',
    Dispatch.ExecuteCommand Synchronize s = Ok s'
    /\ command_state s' = Idle
    /\ irq_requests s' = S (irq_requests s)
    /\ match media s with
       | None =>
           interrupt_flag_register s' = INT5
           /\ response_fifo s' = response_fifo s ++ [Z.lor (secondary_status s) 1; 0x80]
       | Some m =>
           if track >? track_count m then
             interrupt_flag_register s' = INT5
             /\ response_fifo s' = response_fifo s ++ [Z.lor (secondary_status s) 1; 0x10]
           else
             let pos :=
               if track =? 0 then FromLBA (lba_count m) else track_start_msf m track in
             interrupt_flag_register s' = ACK
             /\ response_fifo s'
                = response_fifo s
                  ++ [secondary_status s;
                      DecimalToBCD (Truncate8 (minute pos));
                      DecimalToBCD (Truncate8 (second pos))]
       end.
Proof.
  intros Hc Hp Hsz track.
  destruct (media s) as [m|] eqn:Hm.
  - destruct (Z.gtb_spec track (track_count m)) as [Hgt|Hle].
    + destruct (GetTD_track_past_the_end Synchronize s param params Hc Hp m Hm
                  ltac:(fold track; lia) ltac:(lia)) as (s' & E & R & F & Q & C).
      exists s'. auto 10.
    + destruct (GetTD_position Synchronize s param params Hc Hp m Hm
                  ltac:(fold track; lia) Hsz) as (s' & E & R & F & Q & C).
      exists s'. auto 10.
  - destruct (GetTD_no_media Synchronize s param params Hc Hp Hm ltac:(lia))
      as (s' & E & R & F & Q & C).
    exists s'. auto 10.
Qed.

Lemma C8_witness :
  exists s',
    Dispatch.ExecuteCommand SynchronizeNested (after gettd_written) = Ok s'
    /\ command_state s' = Idle
    /\ interrupt_flag_register s' = ACK
    /\ response_fifo s' = [0x00; 0x00; 0x08].
Proof.
  set (s := after gettd_written).
  assert (Hc : command s = Command.GetTD) by (vm_compute; reflexivity).
  assert (Hp : param_fifo s = [0x02]) by (vm_compute; reflexivity).
  assert (Hsz : FIFO.GetSize (response_fifo s) + 3 <= RESPONSE_FIFO_SIZE)
    by (vm_compute; discriminate).
  assert (Hr : response_fifo s = []) by (vm_compute; reflexivity).
  assert (Hs : secondary_status s = 0) by (vm_compute; reflexivity).
  assert (Hw : match media s with
               | Some m =>
                   (BCDToDecimal 0x02 >? track_count m,
                    DecimalToBCD (Truncate8 (minute (track_start_msf m (BCDToDecimal 0x02)))),
                    DecimalToBCD (Truncate8 (second (track_start_msf m (BCDToDecimal 0x02)))))
               | None => (true, 0, 0)
               end = (false, 0x00, 0x08)) by (vm_compute; reflexivity).
  clearbody s.
  destruct (C8_GetTD SynchronizeNested s 0x02 [] Hc Hp Hsz) as (s' & E & C & _ & W).
  destruct (media s) as [m|]; [|discriminate].
  injection Hw as Hgt Hmin Hsec.
  cbv zeta in W. rewrite Hgt in W.
  change (BCDToDecimal 2 =? 0) with false in W. cbv iota in W.
  destruct W as [F R].
  exists s'. split; [exact E|]. split; [exact C|]. split; [exact F|].
  rewrite R, Hr, Hs, Hmin, Hsec. reflexivity.
Defined.

(** C9: when a sector read completes while an asynchronous interrupt is
    still held, the held interrupt is discarded before the sector is
    processed: the read is the read of the state whose pending code is 0
    and whose staged response is empty, so a data sector read with a flag
    outstanding leaves exactly its own INT1 and status byte held; and no
    sector read fails the assertion that guards against a second held
    interrupt. *)
Theorem C9_sector_read_drops_held_interrupt {xa : CDXA} (s : State) :
  pending_async_interrupt s <> 0 ->
  DoSectorRead s = DoSectorRead (CancelAsyncInterrupt s)
  /\ pending_async_interrupt (CancelAsyncInterrupt s) = 0
  /\ async_response_fifo (CancelAsyncInterrupt s) = []
  /\ DoSectorRead s <> Err double_pending
  /\ (forall t t', DoSectorRead s = Ok t -> DoSectorRead t = Ok t' ->
                   DoSectorRead t <> Err double_pending)
  /\ (forall m,
         media s = Some m ->
         mode_bit ModeBit.ignore_bit s = false ->
         mode_bit ModeBit.xa_enable s = false ->
         secondary SecondaryBit.reading s = true ->
         interrupt_flag_register s <> 0 ->
         exists s',
           DoSectorRead s = Ok s'
           /\ pending_async_interrupt s' = INT1
           /\ async_response_fifo s' = [secondary_status s]
           /\ interrupt_flag_register s' = interrupt_flag_register s
           /\ response_fifo s' = response_fifo s
           /\ irq_requests s' = irq_requests s
           /\ sector_buffer s' = resize RAW_SECTOR_SIZE (raw_sector m (position_on_disc m))).
Proof.
  intros Hp.
  split; [apply DoSectorRead_cancels_first; exact Hp|].
  split; [reflexivity|]. split; [reflexivity|].
  split; [apply DoSectorRead_not_double_pending|].
  split; [intros t t' _ _; apply DoSectorRead_not_double_pending|].
  intros m. apply DoSectorRead_replaces_held. exact Hp.
Qed.

Lemma C9_witness :
  exists s',
    DoSectorRead (xa := example_xa) (after read_unacknowledged) = Ok s'
    /\ pending_async_interrupt s' = INT1
    /\ async_response_fifo s' = [0x22].
Proof.
  set (s := after read_unacknowledged).
  assert (Hp : pending_async_interrupt s <> 0) by (vm_compute; discriminate).
  assert (Hm : HasMedia s = true) by (vm_compute; reflexivity).
  assert (Hi : mode_bit ModeBit.ignore_bit s = false) by (vm_compute; reflexivity).
  assert (Hx : mode_bit ModeBit.xa_enable s = false) by (vm_compute; reflexivity).
  assert (Hr : secondary SecondaryBit.reading s = true) by (vm_compute; reflexivity).
  assert (Hf : interrupt_flag_register s <> 0) by (vm_compute; discriminate).
  assert (Hs : secondary_status s = 0x22) by (vm_compute; reflexivity).
  clearbody s.
  destruct (C9_sector_read_drops_held_interrupt (xa := example_xa) s Hp)
    as (_ & _ & _ & _ & _ & W).
  unfold HasMedia in Hm. destruct (media s) as [m|] eqn:Em; [|discriminate].
  destruct (W m eq_refl Hi Hx Hr Hf) as (s' & E & P & A & _).
  exists s'. split; [exact E|]. split; [exact P|]. rewrite A, Hs. reflexivity.
Defined.

Lemma C10_witness :
  m11 (next_cd_audio_volume_matrix (after volume_writes)) = 0x80
  /\ m11 (cd_audio_volume_matrix (after volume_writes)) = 0x80
  /\ m10 (cd_audio_volume_matrix (after volume_writes)) = 0xFF.
Proof.
  set (s := after volume_writes).
  assert (Hr : reachable (xa := example_xa) s)
    by (apply after_reachable; vm_compute; reflexivity).
  assert (H10 : m10 (cd_audio_volume_matrix s) = 0xFF) by (vm_compute; reflexivity).
  clearbody s.
  destruct (C10_staged_m11_is_never_written (xa := example_xa)) as (_ & _ & R).
  destruct (R s Hr) as [A B]. auto.
Defined.
(** * Further properties of the controller *)

(** ** The register window *)

(** A property of bytes that holds for each of the 256 bytes. *)
Lemma byte_cases (P : Z -> bool) :
  forallb P (map Z.of_nat (seq 0 256)) = true ->
  forall x, 0 <= x < 256 -> P x = true.
Proof.
  intros H x Hx. rewrite forallb_forall in H. apply H.
  apply in_map_iff. exists (Z.to_nat x). split; [lia|].
  apply in_seq. lia.
Qed.

Lemma u8_range (x : Z) : 0 <= u8 x < 256.
Proof. unfold u8. apply Z.mod_pos_bound. lia. Qed.

Lemma read_empty_response (k : nat) :
  forall s, response_fifo s = [] -> read_registers 1 k s = Ok (repeat 0xFF k, s).
Proof.
  induction k as [|k IH]; intros s H; [reflexivity|].
  cbn [read_registers]. unfold ReadRegister. cbn [Z.eqb Pos.eqb]. rewrite H.
  cbn [bind snd fst]. rewrite (IH s H). reflexivity.
Qed.

Lemma RSLRRDY_UpdateStatusRegister (s : State) :
  Z.testbit (status (UpdateStatusRegister s)) StatusBit.RSLRRDY
  = negb (FIFO.IsEmpty (response_fifo s)).
Proof.
  unfold UpdateStatusRegister. cbn [status set_status set_dma_request].
  rewrite !bitfield_set_other by (vm_compute; discriminate).
  apply bitfield_set_same. vm_compute. discriminate.
Qed.

Lemma read_responses (k : nat) (q : list Z) :
  forall s, response_fifo s = q ->
  exists s',
    read_registers 1 (length q + k) s = Ok (q ++ repeat 0xFF k, s')
    /\ response_fifo s' = []
    /\ (q <> [] -> Z.testbit (status s') StatusBit.RSLRRDY = false).
Proof.
  induction q as [|v q IH]; intros s H.
  - exists s. cbn [length Nat.add app]. rewrite (read_empty_response k s H).
    split; [reflexivity|]. split; [exact H|]. intros N. exfalso. apply N. reflexivity.
  - cbn [length Nat.add read_registers]. unfold ReadRegister at 1. cbn [Z.eqb Pos.eqb].
    rewrite H. cbn [bind snd fst].
    set (s1 := UpdateStatusRegister (set_response_fifo q s)).
    assert (H1 : response_fifo s1 = q) by reflexivity.
    destruct (IH s1 H1) as (s' & E & R & B).
    exists s'. rewrite E. cbn [bind fst snd app].
    split; [reflexivity|]. split; [exact R|]. intros _.
    destruct q as [|w q'].
    + cbn [length Nat.add app] in E. rewrite (read_empty_response k s1 H1) in E.
      injection E as <-. subst s1. rewrite RSLRRDY_UpdateStatusRegister. reflexivity.
    + apply B. discriminate.
Qed.

(** X1: the response register.  Reading offset 1 returns the bytes of the
    response FIFO, oldest first, and then 0xFF for every further read; the
    FIFO is empty afterwards, and RSLRRDY is clear once its last byte has
    been read. *)
Theorem response_reads_drain_the_fifo (s : State) (k : nat) :
  exists s',
    read_registers 1 (length (response_fifo s) + k) s
    = Ok (response_fifo s ++ repeat 0xFF k, s')
    /\ response_fifo s' = []
    /\ (response_fifo s <> [] -> Z.testbit (status s') StatusBit.RSLRRDY = false).
Proof. apply read_responses. reflexivity. Qed.

Lemma index_after_write (st v : Z) :
  Z.land (Z.lor (Z.land st (u8 (Z.lnot 3))) (Z.land v 3)) 3 = Z.land v 3.
Proof.
  rewrite Z.land_lor_distr_l, <- !Z.land_assoc.
  change (Z.land (u8 (Z.lnot 3)) 3) with 0. change (Z.land 3 3) with 3.
  rewrite Z.land_0_r. reflexivity.
Qed.

(** X2: the index register.  A write to offset 0 sets the index to the low
    two bits of the value and changes nothing else: the six status flags
    keep their values whatever is written, and no other member of the
    controller changes. *)
Theorem status_write_changes_the_index_only (Synchronize : State -> res State)
    (value : Z) (s : State) :
  exists s',
    Dispatch.WriteRegister Synchronize 0 value s = Ok s'
    /\ status_index s' = Z.land (u8 value) 3
    /\ (forall n, 2 <= n <= 7 -> Z.testbit (status s') n = Z.testbit (status s) n)
    /\ s' = set_status (status s') s.
Proof.
  eexists. split; [reflexivity|].
  unfold status_index. cbn [status set_status].
  split; [apply index_after_write|].
  split; [|reflexivity].
  intros n Hn. apply status_index_write_keeps. exact Hn.
Qed.

Lemma masked_read (x : Z) :
  0 <= x < 256 ->
  u8 (Z.lor (Z.land x INTERRUPT_REGISTER_MASK) (Z.lnot INTERRUPT_REGISTER_MASK))
  = Z.lor (Z.land x 0x1F) 0xE0.
Proof.
  intros H. apply Z.eqb_eq.
  apply (byte_cases
           (fun x => u8 (Z.lor (Z.land x INTERRUPT_REGISTER_MASK)
                           (Z.lnot INTERRUPT_REGISTER_MASK))
                     =? Z.lor (Z.land x 0x1F) 0xE0)); [|exact H].
  vm_compute. reflexivity.
Qed.

(** X3: the interrupt-enable register.  A byte written to it (offset 2
    with index 1) is read back at offset 3 with index 0 or 2 as its low
    five bits with the three high bits set; the read changes nothing. *)
Theorem interrupt_enable_round_trip (Synchronize : State -> res State)
    (value index : Z) (s : State) :
  status_index s = 1 ->
  index = 0 \/ index = 2 ->
  exists s1 s2,
    Dispatch.WriteRegister Synchronize 2 value s = Ok s1
    /\ Dispatch.WriteRegister Synchronize 0 index s1 = Ok s2
    /\ ReadRegister 3 s2 = Ok (Z.lor (Z.land (u8 value) 0x1F) 0xE0, s2).
Proof.
  intros Hi Hx.
  set (s1 := set_interrupt_enable_register (Z.land (u8 value) INTERRUPT_REGISTER_MASK) s).
  set (s2 := set_status (Z.lor (Z.land (status s1) (u8 (Z.lnot 3))) (Z.land (u8 index) 3)) s1).
  exists s1, s2.
  split.
  { unfold Dispatch.WriteRegister. cbn [Z.eqb Pos.eqb]. rewrite Hi. reflexivity. }
  split; [reflexivity|].
  assert (I : status_index s2 = Z.land (u8 index) 3).
  { unfold status_index. subst s2. cbn [status set_status]. apply index_after_write. }
  unfold ReadRegister. cbn [Z.eqb Pos.eqb]. rewrite I.
  assert (C : ((Z.land (u8 index) 3 =? 0) || (Z.land (u8 index) 3 =? 2)) = true)
    by (destruct Hx as [-> | ->]; reflexivity).
  rewrite C.
  change (interrupt_enable_register s2) with (Z.land (u8 value) INTERRUPT_REGISTER_MASK).
  rewrite masked_read by apply u8_range.
  reflexivity.
Qed.

Lemma interrupt_enable_witness :
  exists s1 s2,
    Dispatch.WriteRegister SynchronizeNested 2 0x15 (after [select_index 1]) = Ok s1
    /\ Dispatch.WriteRegister SynchronizeNested 0 2 s1 = Ok s2
    /\ ReadRegister 3 s2 = Ok (Z.lor (Z.land (u8 0x15) 0x1F) 0xE0, s2).
Proof.
  set (s := after [select_index 1]).
  assert (Hi : status_index s = 1) by (vm_compute; reflexivity).
  clearbody s.
  apply (interrupt_enable_round_trip SynchronizeNested 0x15 2 s Hi).
  right. reflexivity.
Defined.
(** ** The parameter FIFO *)

Lemma newest_length (n : nat) (q : list Z) : (length (newest n q) <= n)%nat.
Proof. unfold newest. rewrite length_skipn. lia. Qed.

Lemma newest_all (n : nat) (q : list Z) : (length q <= n)%nat -> newest n q = q.
Proof.
  intros H. unfold newest. replace (length q - n)%nat with 0%nat by lia. reflexivity.
Qed.

Lemma newest_app (n : nat) (a b : list Z) : newest n (newest n a ++ b) = newest n (a ++ b).
Proof.
  destruct (Nat.le_gt_cases (length a) n) as [H|H].
  - rewrite (newest_all n a H). reflexivity.
  - assert (L : length (newest n a) = n) by (unfold newest; rewrite length_skipn; lia).
    unfold newest at 1 3. rewrite !length_app, L.
    replace (n + length b - n)%nat with (length b) by lia.
    replace (length a + length b - n)%nat with (length b + (length a - n))%nat by lia.
    rewrite <- skipn_skipn. f_equal. unfold newest. rewrite skipn_app.
    replace (length a - n - length a)%nat with 0%nat by lia. reflexivity.
Qed.

Lemma index_bitfield_set (n : Z) (b : bool) (x : Z) :
  2 <= n -> Z.land (bitfield_set n b x) 3 = Z.land x 3.
Proof.
  intros Hn. apply Z.bits_inj'. intros m Hm. rewrite !Z.land_spec.
  destruct (Z.eq_dec n m) as [<-|Hne].
  - rewrite (Z.bits_above_log2 3 n) by (cbn; lia). rewrite !andb_false_r. reflexivity.
  - rewrite bitfield_set_other by lia. reflexivity.
Qed.

Lemma index_UpdateStatusRegister (s : State) :
  status_index (UpdateStatusRegister s) = status_index s.
Proof.
  unfold status_index, UpdateStatusRegister. cbn [status set_status set_dma_request].
  rewrite !index_bitfield_set by (vm_compute; discriminate). reflexivity.
Qed.

Lemma PRM_UpdateStatusRegister (s : State) :
  Z.testbit (status (UpdateStatusRegister s)) StatusBit.PRMEMPTY
  = FIFO.IsEmpty (param_fifo s)
  /\ Z.testbit (status (UpdateStatusRegister s)) StatusBit.PRMWRDY
     = negb (FIFO.IsFull PARAM_FIFO_SIZE (param_fifo s)).
Proof.
  unfold UpdateStatusRegister. cbn [status set_status set_dma_request]. split.
  - rewrite !bitfield_set_other by (vm_compute; discriminate).
    apply bitfield_set_same. vm_compute. discriminate.
  - rewrite !bitfield_set_other by (vm_compute; discriminate).
    apply bitfield_set_same. vm_compute. discriminate.
Qed.

Lemma parameter_write (Synchronize : State -> res State) (value : Z) (s : State) :
  status_index s = 0 ->
  FIFO.GetSize (param_fifo s) <= PARAM_FIFO_SIZE ->
  Dispatch.WriteRegister Synchronize 2 value s
  = Ok (UpdateStatusRegister (set_param_fifo (newest 16 (param_fifo s ++ [u8 value])) s)).
Proof.
  intros Hi Hsz. unfold Dispatch.WriteRegister. cbn [Z.eqb Pos.eqb]. rewrite Hi.
  cbn [Z.eqb]. unfold FIFO.IsFull, FIFO.Push, FIFO.IsFull, FIFO.RemoveOne.
  unfold FIFO.GetSize, PARAM_FIFO_SIZE in *.
  destruct (Z.leb_spec 16 (Z.of_nat (length (param_fifo s)))) as [F|F].
  - destruct (param_fifo s) as [|p q] eqn:Eq; [cbn in F; lia|].
    cbn [bind]. cbn [length] in F, Hsz.
    destruct (Z.leb_spec 16 (Z.of_nat (length q))) as [F'|F']; [lia|].
    cbn [bind]. unfold newest. rewrite length_app. cbn [length].
    replace (S (length q) + 1 - 16)%nat with 1%nat by lia. reflexivity.
  - cbn [bind].
    destruct (Z.leb_spec 16 (Z.of_nat (length (param_fifo s)))) as [F'|F']; [lia|].
    cbn [bind]. rewrite newest_all; [reflexivity|].
    rewrite length_app. cbn [length]. lia.
Qed.

Section ParameterWrites.

Context {xa : CDXA}.

Lemma parameter_writes (values : list Z) :
  forall s,
    status_index s = 0 ->
    FIFO.GetSize (param_fifo s) <= PARAM_FIFO_SIZE ->
    exists s',
      run (map (OpWriteRegister 2) values) s = Ok s'
      /\ param_fifo s' = newest 16 (param_fifo s ++ map u8 values)
      /\ (values <> [] ->
          Z.testbit (status s') StatusBit.PRMEMPTY = FIFO.IsEmpty (param_fifo s')
          /\ Z.testbit (status s') StatusBit.PRMWRDY
             = negb (FIFO.IsFull PARAM_FIFO_SIZE (param_fifo s'))).
Proof.
  induction values as [|v vs IH]; intros s Hi Hsz.
  - exists s. split; [reflexivity|]. split.
    + cbn [map]. rewrite app_nil_r. symmetry. apply newest_all.
      unfold FIFO.GetSize, PARAM_FIFO_SIZE in Hsz. lia.
    + intros N. exfalso. apply N. reflexivity.
  - cbn [map run apply_op]. unfold WriteRegister.
    rewrite (parameter_write Synchronize v s Hi Hsz). cbn [bind].
    set (s1 := UpdateStatusRegister
                 (set_param_fifo (newest 16 (param_fifo s ++ [u8 v])) s)).
    assert (Hi1 : status_index s1 = 0).
    { subst s1. rewrite index_UpdateStatusRegister. exact Hi. }
    assert (P1 : param_fifo s1 = newest 16 (param_fifo s ++ [u8 v])) by reflexivity.
    assert (Hsz1 : FIFO.GetSize (param_fifo s1) <= PARAM_FIFO_SIZE).
    { rewrite P1. unfold FIFO.GetSize, PARAM_FIFO_SIZE.
      pose proof (newest_length 16 (param_fifo s ++ [u8 v])). lia. }
    destruct (IH s1 Hi1 Hsz1) as (s' & E & Q & B).
    exists s'. split; [exact E|]. split.
    + rewrite Q, P1, newest_app, <- app_assoc. reflexivity.
    + intros _. destruct vs as [|w vs'].
      * cbn [map run] in E. injection E as <-. subst s1.
        exact (PRM_UpdateStatusRegister
                 (set_param_fifo (newest 16 (param_fifo s ++ [u8 v])) s)).
      * apply B. discriminate.
Qed.

(** X4: the parameter register.  Parameter bytes written one after the
    other (offset 2 with index 0) are appended to the parameter FIFO;
    once it holds 16 bytes every further write drops the oldest byte, so
    that the FIFO holds the 16 newest bytes written.  No write fails, and
    after a write PRMEMPTY is clear and PRMWRDY tells whether there is
    room left. *)
Theorem parameter_writes_keep_the_newest_16 (values : list Z) (s : State) :
  status_index s = 0 ->
  FIFO.GetSize (param_fifo s) <= PARAM_FIFO_SIZE ->
  exists s',
    run (map (OpWriteRegister 2) values) s = Ok s'
    /\ param_fifo s' = newest 16 (param_fifo s ++ map u8 values)
    /\ (values <> [] ->
        Z.testbit (status s') StatusBit.PRMEMPTY = false
        /\ Z.testbit (status s') StatusBit.PRMWRDY
           = (FIFO.GetSize (param_fifo s') <? PARAM_FIFO_SIZE)).
Proof.
  intros Hi Hsz.
  destruct (parameter_writes values s Hi Hsz) as (s' & E & Q & B).
  exists s'. split; [exact E|]. split; [exact Q|].
  intros N. destruct (B N) as [B1 B2]. split.
  - rewrite B1, Q. unfold newest.
    destruct (skipn _ _) as [|x l] eqn:Es; [|reflexivity].
    exfalso. apply (f_equal (@length Z)) in Es.
    rewrite length_skipn, length_app, length_map in Es. cbn [length] in Es.
    destruct values; [apply N; reflexivity|]. cbn [length] in Es. lia.
  - rewrite B2. unfold FIFO.IsFull. rewrite Z.ltb_antisym. reflexivity.
Qed.

End ParameterWrites.

Lemma parameter_writes_witness :
  exists s',
    run (xa := example_xa) (map (OpWriteRegister 2) (map Z.of_nat (seq 0 20))) initial = Ok s'
    /\ param_fifo s' = map Z.of_nat (seq 4 16).
Proof.
  assert (Hi : status_index initial = 0) by (vm_compute; reflexivity).
  assert (Hsz : FIFO.GetSize (param_fifo initial) <= PARAM_FIFO_SIZE)
    by (vm_compute; discriminate).
  destruct (parameter_writes_keep_the_newest_16 (xa := example_xa)
              (map Z.of_nat (seq 0 20)) initial Hi Hsz) as (s' & E & Q & _).
  exists s'. split; [exact E|]. rewrite Q. vm_compute. reflexivity.
Defined.

(** ** The data FIFO *)

Lemma firstn_repeat_le (n m : nat) (x : Z) :
  (n <= m)%nat -> firstn n (repeat x m) = repeat x n.
Proof.
  revert m. induction n as [|n IH]; intros m H; [reflexivity|].
  destruct m as [|m]; [lia|]. cbn. rewrite IH by lia. reflexivity.
Qed.

(** X5: a DMA read always fills the words it is given: with the oldest
    bytes of the data FIFO, which it removes, followed by zero bytes when
    the FIFO holds fewer than it is asked for.  It never fails, on an empty
    FIFO either, and it changes nothing but the data FIFO. *)
Theorem DMARead_fills_the_words (word_count : Z) (s : State) :
  0 <= word_count ->
  word_count * 4 < 4294967296 ->
  DMARead word_count s
  = Ok (firstn (Z.to_nat (word_count * 4))
          (data_fifo s ++ repeat 0 (Z.to_nat (word_count * 4))),
        set_data_fifo (skipn (Z.to_nat (word_count * 4)) (data_fifo s)) s).
Proof.
  intros H0 H1. unfold DMARead. cbv zeta.
  rewrite u32_id by lia. unfold FIFO.PopRange, FIFO.GetSize.
  set (n := Z.of_nat (length (data_fifo s))).
  assert (Hn : 0 <= n) by (subst n; lia).
  destruct (Z.ltb_spec n (Z.min (word_count * 4) n)) as [C|C]; [lia|].
  cbn [bind fst snd].
  destruct (Z.ltb_spec (n / 4) word_count) as [D|D].
  - assert (n < word_count * 4).
    { destruct (Z.lt_ge_cases n (word_count * 4)) as [L|L]; [exact L|].
      exfalso. assert (word_count <= n / 4) by (apply Z.div_le_lower_bound; lia). lia. }
    rewrite Z.min_r by lia.
    assert (Ln : Z.to_nat n = length (data_fifo s)) by (subst n; lia).
    rewrite Ln, firstn_all, skipn_all.
    rewrite firstn_app, firstn_all2 by lia.
    rewrite skipn_all2 by lia.
    rewrite firstn_repeat_le by lia.
    replace (Z.to_nat (word_count * 4 - n))
      with (Z.to_nat (word_count * 4) - length (data_fifo s))%nat by lia.
    reflexivity.
  - assert (word_count * 4 <= n).
    { pose proof (Z.mul_div_le n 4 ltac:(lia)). lia. }
    rewrite Z.min_l by lia. rewrite app_nil_r.
    rewrite firstn_app.
    replace (Z.to_nat (word_count * 4) - length (data_fifo s))%nat with 0%nat by lia.
    cbn [firstn]. rewrite app_nil_r. reflexivity.
Qed.

Lemma DMARead_witness :
  exists r, DMARead 2 initial = Ok r /\ fst r = [0; 0; 0; 0; 0; 0; 0; 0].
Proof.
  eexists. split.
  - apply (DMARead_fills_the_words 2 initial); [lia|lia].
  - vm_compute. reflexivity.
Defined.

Lemma slice_length (from count : Z) (l : list Z) :
  0 <= from -> 0 <= count -> from + count <= Z.of_nat (length l) ->
  length (slice from count l) = Z.to_nat count.
Proof.
  intros Hf Hc H. unfold slice. rewrite length_firstn, length_skipn. lia.
Qed.

(** X6: loading the data FIFO.  With a whole raw sector in the sector
    buffer, LoadDataFIFO appends to the data FIFO the 2340 bytes after the
    sync field in raw mode and otherwise the 2048 data bytes that start at
    byte 24, and empties the sector buffer; a second load then does
    nothing, so a sector is never loaded twice. *)
Theorem LoadDataFIFO_loads_a_sector_once (s : State) :
  length (sector_buffer s) = Z.to_nat RAW_SECTOR_SIZE ->
  FIFO.GetSize (data_fifo s)
  + (if mode_bit ModeBit.read_raw_sector s then 2340 else 2048) <= DATA_FIFO_SIZE ->
  exists s',
    LoadDataFIFO s = Ok s'
    /\ data_fifo s'
       = data_fifo s
         ++ (if mode_bit ModeBit.read_raw_sector s
             then slice 12 2340 (sector_buffer s)
             else slice 24 2048 (sector_buffer s))
    /\ FIFO.GetSize (data_fifo s')
       = FIFO.GetSize (data_fifo s)
         + (if mode_bit ModeBit.read_raw_sector s then 2340 else 2048)
    /\ sector_buffer s' = []
    /\ LoadDataFIFO s' = Ok s'.
Proof.
  intros Hl Hsz. unfold LoadDataFIFO at 1.
  destruct (sector_buffer s) as [|b buf] eqn:Eb; [discriminate Hl|].
  cbn [FIFO.IsEmpty]. rewrite <- Eb in *. clear Eb b buf.
  change (SECTOR_SYNC_SIZE + 12) with 24.
  change (RAW_SECTOR_SIZE - SECTOR_SYNC_SIZE) with 2340.
  change SECTOR_SYNC_SIZE with 12. change DATA_SECTOR_SIZE with 2048.
  change (Z.to_nat RAW_SECTOR_SIZE) with 2352%nat in Hl.
  destruct (mode_bit ModeBit.read_raw_sector s).
  - assert (L : length (slice 12 2340 (sector_buffer s)) = 2340%nat).
    { rewrite slice_length by lia. reflexivity. }
    rewrite PushRange_ok by (rewrite L; exact Hsz). cbn [bind].
    eexists. split; [reflexivity|].
    cbn [data_fifo sector_buffer set_sector_buffer set_data_fifo].
    split; [reflexivity|]. split; [|split; reflexivity].
    rewrite GetSize_app, L. reflexivity.
  - assert (L : length (slice 24 2048 (sector_buffer s)) = 2048%nat).
    { rewrite slice_length by lia. reflexivity. }
    rewrite PushRange_ok by (rewrite L; exact Hsz). cbn [bind].
    eexists. split; [reflexivity|].
    cbn [data_fifo sector_buffer set_sector_buffer set_data_fifo].
    split; [reflexivity|]. split; [|split; reflexivity].
    rewrite GetSize_app, L. reflexivity.
Qed.

Lemma LoadDataFIFO_witness :
  exists s',
    LoadDataFIFO (after read_unacknowledged) = Ok s'
    /\ FIFO.GetSize (data_fifo s') = 2048
    /\ sector_buffer s' = [].
Proof.
  set (s := after read_unacknowledged).
  assert (Hl : length (sector_buffer s) = Z.to_nat RAW_SECTOR_SIZE) by (vm_compute; reflexivity).
  assert (Hm : mode_bit ModeBit.read_raw_sector s = false) by (vm_compute; reflexivity).
  assert (Hd : FIFO.GetSize (data_fifo s) = 0) by (vm_compute; reflexivity).
  clearbody s.
  assert (Hsz : FIFO.GetSize (data_fifo s)
                + (if mode_bit ModeBit.read_raw_sector s then 2340 else 2048)
                <= DATA_FIFO_SIZE) by (rewrite Hm, Hd; vm_compute; discriminate).
  destruct (LoadDataFIFO_loads_a_sector_once s Hl Hsz) as (s' & E & _ & G & B & _).
  exists s'. split; [exact E|]. split; [|exact B]. rewrite G, Hm, Hd. reflexivity.
Defined.
(** ** Audio sectors *)

Lemma s16_range (x : Z) : is_s16 (s16 x).
Proof.
  unfold is_s16, s16. pose proof (Z.mod_pos_bound (x + 32768) 65536 ltac:(lia)). lia.
Qed.

Lemma ApplyVolume_unity (x : Z) : is_s16 x -> ApplyVolume x 0x80 = x.
Proof.
  intros H. rewrite ApplyVolume_sat by (unfold is_u8; auto with zarith; lia).
  rewrite Z.div_mul by lia. unfold sat, clamp. unfold is_s16 in H.
  destruct (Z.ltb_spec x (-0x8000)); [lia|].
  destruct (Z.ltb_spec 0x7FFF x); [lia|reflexivity].
Qed.

Lemma ApplyVolume_zero (x : Z) : ApplyVolume x 0 = 0.
Proof. unfold ApplyVolume. rewrite Z.mul_0_r. reflexivity. Qed.

Lemma cdda_apply_volume_unity (l r : Z) :
  is_s16 l -> is_s16 r -> cdda_apply_volume unity_volume l r = (l, r).
Proof.
  intros Hl Hr. unfold cdda_apply_volume, unity_volume. cbn [m00 m01 m10 m11].
  rewrite !ApplyVolume_unity, !ApplyVolume_zero by assumption.
  rewrite Z.add_0_r, Z.add_0_l. unfold is_s16 in *. rewrite !s16_id by lia. reflexivity.
Qed.

(** X7: the matrix in force after a reset passes audio through unchanged.
    With it and the drive not muted, ProcessCDDASector reserves 588 slots
    and sends the 588 sample pairs of the sector to the mixer as they
    stand in the sector, each sample read low byte first; the same matrix
    leaves the interpolated pairs of the XA-ADPCM path unchanged. *)
Theorem unity_volume_passes_audio_through (s : State) :
  muted s = false ->
  cd_audio_volume_matrix s = unity_volume ->
  spu (ProcessCDDASector s)
  = spu s
    ++ EnsureCDAudioSpace 588
       :: map (fun i => AddCDAudioSample (sample_at (sector_buffer s) (4 * i))
                          (sample_at (sector_buffer s) (4 * i + 2)))
            (seq 0 588)
  /\ (forall l r, is_s16 l -> is_s16 r -> xa_apply_volume unity_volume l r = (l, r)).
Proof.
  intros Hm HM. split.
  - unfold ProcessCDDASector. rewrite Hm. cbn [negb].
    cbn [spu set_sector_buffer spu_calls spu_call set_spu sector_buffer
           cd_audio_volume_matrix].
    rewrite HM, <- app_assoc. cbn [app]. do 2 f_equal.
    apply map_ext. intros i.
    rewrite cdda_apply_volume_unity by apply s16_range. reflexivity.
  - intros l r Hl Hr. rewrite xa_apply_volume_transposed.
    apply cdda_apply_volume_unity; assumption.
Qed.

Lemma unity_volume_witness :
  spu (ProcessCDDASector initial)
  = spu initial
    ++ EnsureCDAudioSpace 588
       :: map (fun i => AddCDAudioSample (sample_at (sector_buffer initial) (4 * i))
                          (sample_at (sector_buffer initial) (4 * i + 2)))
            (seq 0 588).
Proof.
  apply (proj1 (unity_volume_passes_audio_through initial eq_refl eq_refl)).
Defined.

(** ** What a muted drive sends to the mixer *)

Lemma spu_DeliverAsyncInterrupt (s s' : State) :
  DeliverAsyncInterrupt s = Ok s' -> spu s' = spu s.
Proof. unfold DeliverAsyncInterrupt. intros H. repeat run_step. reflexivity. Qed.

Lemma spu_SetAsyncInterrupt (i : Z) (s s' : State) :
  SetAsyncInterrupt i s = Ok s' -> spu s' = spu s.
Proof.
  unfold SetAsyncInterrupt. intros H. repeat run_step.
  - apply spu_DeliverAsyncInterrupt in H. exact H.
  - reflexivity.
Qed.

Lemma spu_PushAsyncResponse (v : Z) (s s' : State) :
  PushAsyncResponse v s = Ok s' -> spu s' = spu s.
Proof. unfold PushAsyncResponse. intros H. repeat run_step. reflexivity. Qed.

Lemma spu_ProcessXAADPCMSector_muted {xa : CDXA} (s : State) :
  muted s || adpcm_muted s = true -> spu (ProcessXAADPCMSector s) = spu s.
Proof.
  intros H. unfold ProcessXAADPCMSector.
  cbn [muted adpcm_muted set_xa_last_samples]. rewrite H. reflexivity.
Qed.

Lemma spu_ProcessCDDASector_muted (s : State) :
  muted s = true -> spu (ProcessCDDASector s) = spu s.
Proof. intros H. unfold ProcessCDDASector. rewrite H. reflexivity. Qed.

Lemma spu_ProcessDataSector_muted {xa : CDXA} (s s' : State) :
  muted s || adpcm_muted s = true -> ProcessDataSector s = Ok s' -> spu s' = spu s.
Proof.
  intros Hm H. unfold ProcessDataSector in H. cbv zeta in H.
  match type of H with
  | context [set_last_sector_subheader ?h (set_last_sector_header ?g s)] =>
      set (s1 := set_last_sector_subheader h (set_last_sector_header g s)) in H
  end.
  assert (Hm1 : muted s1 || adpcm_muted s1 = true) by exact Hm.
  assert (S1 : spu s1 = spu s) by reflexivity.
  assert (X : spu (ProcessXAADPCMSector s1) = spu s)
    by (rewrite (spu_ProcessXAADPCMSector_muted s1 Hm1); reflexivity).
  destruct (mode_bit ModeBit.xa_enable s1 && (header_sector_mode s1 =? 2)).
  - destruct (Z.testbit (subheader_submode s1) SubmodeBit.realtime
              && Z.testbit (subheader_submode s1) SubmodeBit.audio); cbn [fst snd] in H.
    + injection H as <-.
      match goal with |- context [if ?c then _ else _] => destruct c end;
        [reflexivity|exact X].
    + repeat run_step.
      apply spu_SetAsyncInterrupt in E0. apply spu_PushAsyncResponse in E.
      cbn [spu UpdateStatusRegister set_dma_request set_status]. congruence.
  - cbn [fst snd] in H. repeat run_step.
    apply spu_SetAsyncInterrupt in E0. apply spu_PushAsyncResponse in E.
    cbn [spu UpdateStatusRegister set_dma_request set_status]. congruence.
Qed.

(** X8: a muted drive sends nothing to the mixer.  Whatever the sector is
    (data, XA-ADPCM audio or CDDA), a sector read made while the drive is
    muted makes no call on the mixer: no space is reserved and no sample is
    added. *)
Theorem muted_sector_read_makes_no_mixer_call {xa : CDXA} (s s' : State) :
  muted s = true ->
  DoSectorRead s = Ok s' ->
  spu s' = spu s.
Proof.
  intros Hm H. unfold DoSectorRead in H. cbv zeta in H.
  set (s0 := if HasPendingAsyncInterrupt s then CancelAsyncInterrupt s else s) in H.
  assert (M0 : muted s0 = true) by (subst s0; destruct (HasPendingAsyncInterrupt s); exact Hm).
  assert (S0 : spu s0 = spu s) by (subst s0; destruct (HasPendingAsyncInterrupt s); reflexivity).
  clearbody s0.
  unfold Assert in H. destruct (negb (mode_bit ModeBit.ignore_bit s0)); [|discriminate].
  change (media (set_sector_buffer (resize RAW_SECTOR_SIZE (sector_buffer s0)) s0))
    with (media s0) in H.
  destruct (media s0) as [m|]; [|discriminate].
  match type of H with
  | context [set_media ?a (set_sector_buffer ?b (set_sector_buffer ?c s0))] =>
      set (s1 := set_media a (set_sector_buffer b (set_sector_buffer c s0))) in H
  end.
  assert (M1 : muted s1 = true) by exact M0.
  assert (S1 : spu s1 = spu s) by exact S0.
  clearbody s1.
  destruct (secondary SecondaryBit.reading s1).
  - destruct (ProcessDataSector s1) as [s2|] eqn:E; cbn [bind] in H; [|discriminate].
    injection H as <-.
    apply spu_ProcessDataSector_muted in E; [|rewrite M1; reflexivity].
    cbn [spu SetDowncount set_downcount set_read_or_seek_remaining_ticks].
    rewrite E. exact S1.
  - destruct (secondary SecondaryBit.playing_cdda s1); [|discriminate].
    assert (S2 : spu (ProcessCDDASector s1) = spu s)
      by (rewrite (spu_ProcessCDDASector_muted s1 M1); exact S1).
    set (s2 := ProcessCDDASector s1) in *. clearbody s2.
    cbn [bind] in H. injection H as <-. exact S2.
Qed.

Lemma muted_sector_read_witness :
  exists s',
    DoSectorRead (xa := example_xa) (after muted_xa_reading) = Ok s'
    /\ spu s' = spu (after muted_xa_reading).
Proof.
  set (s := after muted_xa_reading).
  assert (Hm : muted s = true) by (vm_compute; reflexivity).
  assert (Hok : is_ok (DoSectorRead (xa := example_xa) s) = true) by (vm_compute; reflexivity).
  clearbody s.
  destruct (DoSectorRead (xa := example_xa) s) as [s'|] eqn:E; [|discriminate].
  exists s'. split; [reflexivity|].
  apply (muted_sector_read_makes_no_mixer_call (xa := example_xa) s s' Hm E).
Defined.

(** ** The XA filter *)

Lemma nth_slice (from count : Z) (i : nat) (l : list Z) :
  (i < Z.to_nat count)%nat -> nth i (slice from count l) 0 = nth (Z.to_nat from + i) l 0.
Proof.
  intros H. unfold slice. rewrite nth_firstn.
  destruct (Nat.ltb_spec i (Z.to_nat count)); [|lia].
  apply nth_skipn.
Qed.

(** The state in which ProcessDataSector has latched the header and the
    subheader of the sector in the buffer. *)
Lemma ProcessDataSector_filtered {xa : CDXA} (s : State) :
  mode_bit ModeBit.xa_enable s = true ->
  mode_bit ModeBit.xa_filter s = true ->
  nth 15 (sector_buffer s) 0 = 2 ->
  Z.testbit (nth 18 (sector_buffer s) 0) SubmodeBit.realtime = true ->
  Z.testbit (nth 18 (sector_buffer s) 0) SubmodeBit.audio = true ->
  nth 16 (sector_buffer s) 0 <> filter_file_number s
  \/ nth 17 (sector_buffer s) 0 <> filter_channel_number s ->
  ProcessDataSector s
  = Ok (set_sector_buffer []
          (set_last_sector_subheader (slice 16 8 (sector_buffer s))
             (set_last_sector_header (slice 12 4 (sector_buffer s)) s))).
Proof.
  intros He Hf Hmode Hr Ha Hx. unfold ProcessDataSector. cbv zeta.
  change (SECTOR_SYNC_SIZE + SECTOR_HEADER_SIZE) with 16.
  change SECTOR_SYNC_SIZE with 12. change SECTOR_HEADER_SIZE with 4.
  change SECTOR_SUBHEADER_SIZE with 8.
  change (sector_buffer (set_last_sector_header (slice 12 4 (sector_buffer s)) s))
    with (sector_buffer s).
  set (s1 := set_last_sector_subheader (slice 16 8 (sector_buffer s))
               (set_last_sector_header (slice 12 4 (sector_buffer s)) s)).
  assert (A1 : mode_bit ModeBit.xa_enable s1 = true) by exact He.
  assert (A2 : header_sector_mode s1 = 2).
  { unfold header_sector_mode, byte_at. subst s1.
    cbn [last_sector_header set_last_sector_subheader set_last_sector_header].
    rewrite nth_slice by (cbn; lia). exact Hmode. }
  assert (A3 : subheader_submode s1 = nth 18 (sector_buffer s) 0).
  { unfold subheader_submode, byte_at. subst s1.
    cbn [last_sector_subheader set_last_sector_subheader].
    rewrite nth_slice by (cbn; lia). reflexivity. }
  assert (A4 : mode_bit ModeBit.xa_filter s1 = true) by exact Hf.
  assert (A5 : subheader_file_number s1 = nth 16 (sector_buffer s) 0).
  { unfold subheader_file_number, byte_at. subst s1.
    cbn [last_sector_subheader set_last_sector_subheader].
    rewrite nth_slice by (cbn; lia). reflexivity. }
  assert (A6 : subheader_channel_number s1 = nth 17 (sector_buffer s) 0).
  { unfold subheader_channel_number, byte_at. subst s1.
    cbn [last_sector_subheader set_last_sector_subheader].
    rewrite nth_slice by (cbn; lia). reflexivity. }
  assert (A7 : filter_file_number s1 = filter_file_number s) by reflexivity.
  assert (A8 : filter_channel_number s1 = filter_channel_number s) by reflexivity.
  clearbody s1.
  rewrite A1, A2, A3, Hr, Ha, A4, A5, A6, A7, A8. cbn [andb Z.eqb Pos.eqb].
  assert (C : negb (nth 16 (sector_buffer s) 0 =? filter_file_number s)
              || negb (nth 17 (sector_buffer s) 0 =? filter_channel_number s) = true).
  { destruct Hx as [N|N]; apply Z.eqb_neq in N; rewrite N; cbn [negb orb];
      [reflexivity|apply orb_true_r]. }
  rewrite C. reflexivity.
Qed.

(** X9: the XA filter.  While the drive reads with xa_enable and xa_filter
    set, a realtime audio sector of mode 2 whose file or channel number
    differs from the filter's is skipped: it is not decoded (the ADPCM
    history and the mixer are left alone), it is not delivered to the host
    (no interrupt is raised or held, the response FIFO is untouched and the
    sector buffer is emptied), and the next sector is scheduled as after
    any other read. *)
Theorem filtered_xa_sector_is_skipped {xa : CDXA} (s : State) (m : CDImage) :
  media s = Some m ->
  secondary SecondaryBit.reading s = true ->
  mode_bit ModeBit.ignore_bit s = false ->
  mode_bit ModeBit.xa_enable s = true ->
  mode_bit ModeBit.xa_filter s = true ->
  nth 15 (fst (Image.Read m)) 0 = 2 ->
  Z.testbit (nth 18 (fst (Image.Read m)) 0) SubmodeBit.realtime = true ->
  Z.testbit (nth 18 (fst (Image.Read m)) 0) SubmodeBit.audio = true ->
  nth 16 (fst (Image.Read m)) 0 <> filter_file_number s
  \/ nth 17 (fst (Image.Read m)) 0 <> filter_channel_number s ->
  exists s',
    DoSectorRead s = Ok s'
    /\ spu s' = spu s
    /\ xa_last_samples s' = xa_last_samples s
    /\ sector_buffer s' = []
    /\ pending_async_interrupt s' = 0
    /\ interrupt_flag_register s' = interrupt_flag_register s
    /\ irq_requests s' = irq_requests s
    /\ response_fifo s' = response_fifo s
    /\ media s' = Some (snd (Image.Read m))
    /\ read_or_seek_remaining_ticks s'
       = s32 (read_or_seek_remaining_ticks s + GetTicksForRead s).
Proof.
  intros Hm Hr Hi He Hf Hmode Hrt Hau Hx.
  unfold DoSectorRead. cbv zeta.
  set (s0 := if HasPendingAsyncInterrupt s then CancelAsyncInterrupt s else s).
  assert (F0 : media s0 = Some m /\ secondary_status s0 = secondary_status s
               /\ mode s0 = mode s /\ filter_file_number s0 = filter_file_number s
               /\ filter_channel_number s0 = filter_channel_number s
               /\ spu s0 = spu s /\ xa_last_samples s0 = xa_last_samples s
               /\ interrupt_flag_register s0 = interrupt_flag_register s
               /\ irq_requests s0 = irq_requests s /\ response_fifo s0 = response_fifo s
               /\ read_or_seek_remaining_ticks s0 = read_or_seek_remaining_ticks s
               /\ pending_async_interrupt s0 = 0).
  { subst s0. unfold HasPendingAsyncInterrupt.
    destruct (Z.eqb_spec (pending_async_interrupt s) 0) as [P|P]; cbn [negb];
      repeat split; auto. }
  clearbody s0.
  destruct F0 as (M0 & St0 & Mo0 & Ff0 & Fc0 & Sp0 & Xl0 & If0 & Iq0 & Rf0 & Rt0 & Pa0).
  unfold Assert. unfold mode_bit in *. rewrite Mo0, Hi. cbn [negb].
  change (media (set_sector_buffer (resize RAW_SECTOR_SIZE (sector_buffer s0)) s0))
    with (media s0).
  rewrite M0.
  match goal with
  | |- context [set_media ?a (set_sector_buffer ?b (set_sector_buffer ?c s0))] =>
      set (s1 := set_media a (set_sector_buffer b (set_sector_buffer c s0)))
  end.
  assert (B1 : sector_buffer s1 = fst (Image.Read m)) by reflexivity.
  assert (R1 : secondary SecondaryBit.reading s1 = true).
  { unfold secondary in *. change (secondary_status s1) with (secondary_status s0).
    rewrite St0. exact Hr. }
  assert (P1 : ProcessDataSector s1
               = Ok (set_sector_buffer []
                       (set_last_sector_subheader (slice 16 8 (sector_buffer s1))
                          (set_last_sector_header (slice 12 4 (sector_buffer s1)) s1)))).
  { apply ProcessDataSector_filtered; unfold mode_bit; rewrite ?B1;
      change (mode s1) with (mode s0);
      change (filter_file_number s1) with (filter_file_number s0);
      change (filter_channel_number s1) with (filter_channel_number s0);
      rewrite ?Mo0, ?Ff0, ?Fc0; assumption. }
  rewrite R1, P1. cbn [bind].
  eexists. split; [reflexivity|].
  cbn [spu xa_last_samples sector_buffer pending_async_interrupt interrupt_flag_register
         irq_requests response_fifo media read_or_seek_remaining_ticks
         SetDowncount set_downcount set_read_or_seek_remaining_ticks set_sector_buffer
         set_last_sector_subheader set_last_sector_header].
  unfold GetTicksForRead, mode_bit.
  cbn [mode set_sector_buffer set_last_sector_subheader set_last_sector_header].
  change (mode s1) with (mode s0). change (spu s1) with (spu s0).
  change (xa_last_samples s1) with (xa_last_samples s0).
  change (pending_async_interrupt s1) with (pending_async_interrupt s0).
  change (interrupt_flag_register s1) with (interrupt_flag_register s0).
  change (irq_requests s1) with (irq_requests s0).
  change (response_fifo s1) with (response_fifo s0).
  change (read_or_seek_remaining_ticks s1) with (read_or_seek_remaining_ticks s0).
  change (media s1) with (Some (snd (Image.Read m))).
  rewrite Mo0, Rt0. repeat split; assumption.
Qed.

Lemma filtered_xa_sector_witness :
  exists s',
    DoSectorRead (xa := example_xa) (after filtered_xa_reading) = Ok s'
    /\ spu s' = spu (after filtered_xa_reading)
    /\ pending_async_interrupt s' = 0.
Proof.
  set (s := after filtered_xa_reading).
  assert (Hw : match media s with
               | Some m =>
                   (nth 15 (fst (Image.Read m)) 0 =? 2)
                   && Z.testbit (nth 18 (fst (Image.Read m)) 0) SubmodeBit.realtime
                   && Z.testbit (nth 18 (fst (Image.Read m)) 0) SubmodeBit.audio
                   && negb (nth 16 (fst (Image.Read m)) 0 =? filter_file_number s)
               | None => false
               end = true) by (vm_compute; reflexivity).
  assert (Hr : secondary SecondaryBit.reading s = true) by (vm_compute; reflexivity).
  assert (Hi : mode_bit ModeBit.ignore_bit s = false) by (vm_compute; reflexivity).
  assert (He : mode_bit ModeBit.xa_enable s = true) by (vm_compute; reflexivity).
  assert (Hf : mode_bit ModeBit.xa_filter s = true) by (vm_compute; reflexivity).
  clearbody s.
  destruct (media s) as [m|] eqn:Hm; [|discriminate].
  apply andb_prop in Hw. destruct Hw as [Hw H4].
  apply andb_prop in Hw. destruct Hw as [Hw H3].
  apply andb_prop in Hw. destruct Hw as [H1 H2].
  apply Z.eqb_eq in H1. apply negb_true_iff, Z.eqb_neq in H4.
  destruct (filtered_xa_sector_is_skipped (xa := example_xa) s m Hm Hr Hi He Hf H1 H2 H3
              (or_introl H4)) as (s' & E & S & _ & _ & P & _).
  exists s'. split; [exact E|]. split; [exact S|exact P].
Defined.
(** ** The command register *)

(** X10: the command register.  With index 0, a byte written to offset 1
    while a command is in progress is ignored, the state is left as it is;
    written to an idle controller it is never executed at once: the
    response FIFO is cleared, the byte is latched as the command at stage
    0, the controller becomes busy (WaitForExecute, BUSYSTS set) and the
    command is scheduled 60000 ticks ahead for Init and 4000 ticks ahead
    for every other byte. *)
Theorem command_write_is_scheduled_or_ignored (Synchronize : State -> res State)
    (value : Z) (s : State) :
  status_index s = 0 ->
  (command_state s <> Idle -> Dispatch.WriteRegister Synchronize 1 value s = Ok s)
  /\ (command_state s = Idle ->
      forall t, Synchronize (set_response_fifo [] s) = Ok t ->
      exists s',
        Dispatch.WriteRegister Synchronize 1 value s = Ok s'
        /\ command_state s' = WaitForExecute
        /\ command s' = u8 value
        /\ command_stage s' = 0
        /\ command_remaining_ticks s' = (if u8 value =? Command.Init then 60000 else 4000)
        /\ downcount s' = command_remaining_ticks s'
        /\ status_BUSYSTS s' = true
        /\ response_fifo s' = response_fifo t
        /\ interrupt_flag_register s' = interrupt_flag_register t
        /\ irq_requests s' = irq_requests t).
Proof.
  intros Hi. unfold Dispatch.WriteRegister. cbn [Z.eqb Pos.eqb]. rewrite Hi. cbn [Z.eqb].
  split.
  - intros Hn. destruct (command_state s); [exfalso; apply Hn; reflexivity| |]; reflexivity.
  - intros Hc t Ht. rewrite Hc. cbn [CommandState_eqb].
    unfold Dispatch.BeginCommand. rewrite Ht. cbn [bind]. cbv zeta.
    unfold GetAckDelayForCommand.
    cbn [command command_remaining_ticks set_command set_command_stage
           set_command_remaining_ticks].
    destruct (u8 value =? Command.Init); cbn [Z.eqb].
    + eexists. split; [reflexivity|].
      split; [reflexivity|]. split; [reflexivity|]. split; [reflexivity|].
      split; [reflexivity|]. split; [reflexivity|].
      split; [apply UpdateStatusRegister_T1|]. repeat split.
    + eexists. split; [reflexivity|].
      split; [reflexivity|]. split; [reflexivity|]. split; [reflexivity|].
      split; [reflexivity|]. split; [reflexivity|].
      split; [apply UpdateStatusRegister_T1|]. repeat split.
Qed.

Lemma command_write_witness :
  exists s',
    Dispatch.WriteRegister SynchronizeNested 1 Command.Init initial = Ok s'
    /\ command_state s' = WaitForExecute
    /\ command_remaining_ticks s' = 60000.
Proof.
  destruct (command_write_is_scheduled_or_ignored SynchronizeNested Command.Init initial
              eq_refl) as [_ H].
  destruct (H eq_refl (set_response_fifo [] initial) eq_refl)
    as (s' & E & C & _ & _ & R & _).
  exists s'. split; [exact E|]. split; [exact C|exact R].
Defined.

(** ** The Test command *)

(** One Execute with the Test command due and an unknown subcommand at
    the head of the parameter FIFO. *)
Lemma unknown_test_step {xa : CDXA} (ticks subcommand : Z) (rest : list Z) (s : State) :
  command_state s = WaitForExecute ->
  command s = Command.Test ->
  param_fifo s = subcommand :: rest ->
  subcommand <> 0x20 ->
  subcommand <> 0x22 ->
  IsActive s = false ->
  s32 (command_remaining_ticks s - ticks) <= 0 ->
  Execute ticks s
  = Ok (set_param_fifo rest
          (set_command_remaining_ticks (s32 (command_remaining_ticks s - ticks)) s)).
Proof.
  intros Hw Hc Hp H20 H22 Ha Hr.
  unfold Execute, Dispatch.Execute. rewrite Hw.
  set (s0 := set_command_remaining_ticks (s32 (command_remaining_ticks s - ticks)) s).
  assert (R0 : (command_remaining_ticks s0 <=? 0) = true) by (apply Z.leb_le; exact Hr).
  rewrite R0. unfold Dispatch.ExecuteCommand.
  change (command s0) with (command s). rewrite Hc.
  cbn [Z.eqb Command.Test Command.Getstat Pos.eqb].
  change (param_fifo s0) with (param_fifo s). rewrite Hp.
  cbn [FIFO.Pop bind fst snd]. unfold Dispatch.ExecuteTestCommand.
  rewrite (proj2 (Z.eqb_neq _ _) H20), (proj2 (Z.eqb_neq _ _) H22). cbn [bind].
  change (IsActive (set_param_fifo rest s0)) with (IsActive s). rewrite Ha.
  reflexivity.
Qed.

(** X11: unknown Test subcommands are consumed one per Execute.  With the
    drive inactive and a Test command due, an Execute takes the byte at the
    head of the parameter FIFO as the subcommand; when that byte is neither
    0x20 nor 0x22 it is dropped and nothing else changes but the command's
    countdown: no response is pushed, no interrupt is raised, the status
    register is untouched, and the command stays latched in WaitForExecute
    and due, so that the next Execute takes the next byte.  After as many
    Executes as there are unknown bytes at the head of the FIFO exactly
    those bytes are gone, and as long as the command waits a byte written
    to the command register is ignored. *)
Theorem unknown_test_subcommands_are_consumed {xa : CDXA} (unknown rest ticks : list Z) :
  forall s : State,
    command_state s = WaitForExecute ->
    command s = Command.Test ->
    param_fifo s = unknown ++ rest ->
    Forall (fun c => c <> 0x20 /\ c <> 0x22) unknown ->
    IsActive s = false ->
    length ticks = length unknown ->
    Forall (fun t => 0 <= t) ticks ->
    command_remaining_ticks s <= hd 0 ticks ->
    -0x80000000 <= command_remaining_ticks s - fold_right Z.add 0 ticks ->
    exists s',
      Executes ticks s = Ok s'
      /\ command_state s' = WaitForExecute
      /\ command s' = Command.Test
      /\ param_fifo s' = rest
      /\ (ticks <> [] ->
          command_remaining_ticks s' = command_remaining_ticks s - fold_right Z.add 0 ticks)
      /\ IsActive s' = false
      /\ response_fifo s' = response_fifo s
      /\ interrupt_flag_register s' = interrupt_flag_register s
      /\ irq_requests s' = irq_requests s
      /\ status s' = status s
      /\ (forall Synchronize value,
            status_index s = 0 -> Dispatch.WriteRegister Synchronize 1 value s' = Ok s').
Proof.
  revert ticks.
  induction unknown as [|c unknown IH]; intros ticks s Hw Hc Hp Hu Ha Hl Hn Hd Hlo.
  - destruct ticks as [|t ticks]; [|discriminate Hl].
    exists s. cbn [Executes].
    split; [reflexivity|]. split; [exact Hw|]. split; [exact Hc|]. split; [exact Hp|].
    split; [intros N; exfalso; apply N; reflexivity|]. split; [exact Ha|].
    split; [reflexivity|]. split; [reflexivity|]. split; [reflexivity|].
    split; [reflexivity|].
    intros Sy value Hi. unfold Dispatch.WriteRegister. cbn [Z.eqb Pos.eqb].
    rewrite Hi, Hw. reflexivity.
  - destruct ticks as [|t ticks]; [discriminate Hl|].
    cbn [length] in Hl. injection Hl as Hl.
    cbn [hd] in Hd. cbn [fold_right] in Hlo.
    inversion Hu as [|c' u' [H20 H22] Hu']. subst c' u'.
    inversion Hn as [|t' n' Ht Hn']. subst t' n'.
    assert (Hs : 0 <= fold_right Z.add 0 ticks).
    { clear -Hn'. induction Hn' as [|x l Hx _ IHl]; cbn [fold_right]; lia. }
    assert (Hid : s32 (command_remaining_ticks s - t) = command_remaining_ticks s - t)
      by (apply s32_id; lia).
    cbn [Executes].
    rewrite (unknown_test_step t c (unknown ++ rest) s Hw Hc Hp H20 H22 Ha)
      by (rewrite Hid; lia).
    cbn [bind]. rewrite Hid.
    set (s1 := set_param_fifo (unknown ++ rest)
                 (set_command_remaining_ticks (command_remaining_ticks s - t) s)).
    destruct (IH ticks s1) as (s' & E & W & C & P & R & A & F1 & F2 & F3 & F4 & I);
      try assumption; try reflexivity.
    { change (command_remaining_ticks s1) with (command_remaining_ticks s - t).
      destruct Hn' as [|x l Hx _]; cbn [hd]; lia. }
    { change (command_remaining_ticks s1) with (command_remaining_ticks s - t). lia. }
    exists s'. split; [exact E|]. split; [exact W|]. split; [exact C|]. split; [exact P|].
    split.
    { intros _. destruct ticks as [|t2 ticks2].
      - destruct unknown; [|discriminate Hl]. cbn [Executes] in E. injection E as <-.
        cbn [fold_right]. change (command_remaining_ticks s1)
          with (command_remaining_ticks s - t). lia.
      - rewrite R by discriminate.
        change (command_remaining_ticks s1) with (command_remaining_ticks s - t).
        cbn [fold_right]. lia. }
    split; [exact A|].
    split; [exact F1|]. split; [exact F2|]. split; [exact F3|]. split; [exact F4|].
    intros Sy value Hi. apply I. exact Hi.
Qed.

Lemma unknown_test_witness :
  exists s',
    Executes (xa := example_xa) [4000; 100] (after unknown_test_written) = Ok s'
    /\ command_state s' = WaitForExecute
    /\ param_fifo s' = [0x20].
Proof.
  set (s := after unknown_test_written).
  assert (Hw : command_state s = WaitForExecute) by (vm_compute; reflexivity).
  assert (Hc : command s = Command.Test) by (vm_compute; reflexivity).
  assert (Hp : param_fifo s = [0x55; 0x66] ++ [0x20]) by (vm_compute; reflexivity).
  assert (Ha : IsActive s = false) by (vm_compute; reflexivity).
  assert (Hr : command_remaining_ticks s = 4000) by (vm_compute; reflexivity).
  clearbody s.
  destruct (unknown_test_subcommands_are_consumed (xa := example_xa)
              [0x55; 0x66] [0x20] [4000; 100] s Hw Hc Hp)
    as (s' & E & C & _ & P & _).
  - repeat constructor; discriminate.
  - exact Ha.
  - reflexivity.
  - repeat constructor; discriminate.
  - rewrite Hr. cbn [hd]. lia.
  - rewrite Hr. cbn [fold_right]. lia.
  - exists s'. split; [exact E|]. split; [exact C|exact P].
Defined.

(** ** Pause and Init *)

Lemma secondary_StopReading (bit : Z) (s : State) :
  0 <= bit ->
  secondary bit (StopReading s)
  = if IsActive s && ((bit =? SecondaryBit.reading) || (bit =? SecondaryBit.seeking)
                      || (bit =? SecondaryBit.playing_cdda))
    then false else secondary bit s.
Proof.
  intros H. unfold StopReading. destruct (IsActive s); cbn [negb andb]; [|reflexivity].
  change (secondary ?b (set_read_or_seek_remaining_ticks 0 ?x)) with (secondary b x).
  destruct (Z.eqb_spec bit SecondaryBit.seeking) as [->|N6].
  { rewrite secondary_set_same by (vm_compute; discriminate). rewrite orb_true_r. reflexivity. }
  rewrite secondary_set_other by (try (vm_compute; discriminate); auto).
  destruct (Z.eqb_spec bit SecondaryBit.playing_cdda) as [->|N7].
  { rewrite secondary_set_same by (vm_compute; discriminate). rewrite orb_true_r. reflexivity. }
  rewrite secondary_set_other by (try (vm_compute; discriminate); auto).
  destruct (Z.eqb_spec bit SecondaryBit.reading) as [->|N5].
  { rewrite secondary_set_same by (vm_compute; discriminate). reflexivity. }
  rewrite secondary_set_other by (try (vm_compute; discriminate); auto).
  reflexivity.
Qed.

Lemma IsActive_StopReading (s : State) : IsActive (StopReading s) = false.
Proof.
  unfold IsActive at 1. rewrite !secondary_StopReading by (vm_compute; discriminate).
  cbn [Z.eqb SecondaryBit.reading SecondaryBit.seeking SecondaryBit.playing_cdda Pos.eqb
         orb].
  rewrite !andb_true_r.
  destruct (IsActive s) eqn:E; [reflexivity|exact E].
Qed.

(** X12: StopReading.  It leaves the drive inactive (neither seeking nor
    reading nor playing), it is idempotent, it changes no other bit of the
    secondary status, and it does nothing at all to a drive that is not
    active.  It does not clear the requests to read or play after a seek:
    read_after_seek and play_after_seek keep their values. *)
Theorem StopReading_stops_the_drive (s : State) :
  IsActive (StopReading s) = false
  /\ StopReading (StopReading s) = StopReading s
  /\ (forall bit,
        0 <= bit -> bit <> SecondaryBit.reading -> bit <> SecondaryBit.seeking ->
        bit <> SecondaryBit.playing_cdda ->
        secondary bit (StopReading s) = secondary bit s)
  /\ (IsActive s = false -> StopReading s = s)
  /\ (IsActive s = true -> read_or_seek_remaining_ticks (StopReading s) = 0)
  /\ read_after_seek (StopReading s) = read_after_seek s
  /\ play_after_seek (StopReading s) = play_after_seek s.
Proof.
  split; [apply IsActive_StopReading|].
  split.
  { unfold StopReading at 1. rewrite IsActive_StopReading. reflexivity. }
  split.
  { intros bit H0 H5 H6 H7. rewrite secondary_StopReading by exact H0.
    rewrite (proj2 (Z.eqb_neq _ _) H5), (proj2 (Z.eqb_neq _ _) H6),
      (proj2 (Z.eqb_neq _ _) H7).
    rewrite andb_false_r. reflexivity. }
  split.
  { intros E. unfold StopReading. rewrite E. reflexivity. }
  split.
  { intros E. unfold StopReading. rewrite E. reflexivity. }
  unfold StopReading. destruct (negb (IsActive s)); split; reflexivity.
Qed.

Lemma SendACKAndStat_ok (s : State) :
  FIFO.GetSize (response_fifo s) + 1 <= RESPONSE_FIFO_SIZE ->
  SendACKAndStat s
  = Ok (InterruptRequest
          (set_interrupt_flag_register ACK
             (set_response_fifo (response_fifo s ++ [secondary_status s]) s))).
Proof.
  intros H. unfold SendACKAndStat. rewrite PushResponse_ok by exact H. reflexivity.
Qed.

Lemma StopReading_frame (s : State) :
  response_fifo (StopReading s) = response_fifo s
  /\ interrupt_flag_register (StopReading s) = interrupt_flag_register s
  /\ irq_requests (StopReading s) = irq_requests s
  /\ command (StopReading s) = command s
  /\ command_stage (StopReading s) = command_stage s
  /\ mode (StopReading s) = mode s.
Proof. unfold StopReading. destruct (negb (IsActive s)); repeat split. Qed.

Section PauseAndInit.

Variable Synchronize : State -> res State.

(** X13: the Pause command.  Its first stage answers ACK with the
    secondary status as it is before the drive is stopped, then stops the
    drive and waits for the host; the second stage is scheduled 7000
    ticks ahead when the drive was neither reading nor playing, and
    otherwise 1000000 ticks ahead at single and 2000000 ticks ahead at
    double speed.  The second stage answers INT2 with the secondary
    status and ends the command. *)
Theorem Pause_stops_and_reports (s : State) :
  command s = Command.Pause ->
  FIFO.GetSize (response_fifo s) + 1 <= RESPONSE_FIFO_SIZE ->
  exists s',
    Dispatch.ExecuteCommand Synchronize s = Ok s'
    /\ response_fifo s' = response_fifo s ++ [secondary_status s]
    /\ irq_requests s' = S (irq_requests s)
    /\ (command_stage s = 0 ->
        interrupt_flag_register s' = ACK
        /\ IsActive s' = false
        /\ command_state s' = WaitForIRQClear
        /\ command s' = Command.Pause
        /\ command_stage s' = 1
        /\ command_remaining_ticks s'
           = (if IsReadingOrPlaying s
              then if mode_bit ModeBit.double_speed s then 2000000 else 1000000
              else 7000))
    /\ (command_stage s <> 0 ->
        interrupt_flag_register s' = INT2
        /\ secondary_status s' = secondary_status s
        /\ command_state s' = Idle).
Proof.
  intros Hc Hsz. unfold Dispatch.ExecuteCommand. rewrite Hc.
  cbn [Z.eqb Command.Pause Command.Getstat Command.Test Command.GetID Command.Setfilter
         Command.Setmode Command.Setloc Command.SeekL Command.SeekP Command.ReadN
         Command.ReadS Command.Play Pos.eqb orb].
  destruct (Z.eqb_spec (command_stage s) 0) as [H0|H0].
  - rewrite SendACKAndStat_ok by exact Hsz. cbn [bind]. cbv zeta.
    set (s1 := InterruptRequest _).
    destruct (StopReading_frame s1) as (F1 & F2 & F3 & F4 & F5 & F6).
    unfold Dispatch.NextCommandStage.
    eexists. split; [reflexivity|].
    cbn [response_fifo irq_requests interrupt_flag_register command_state command
           command_stage command_remaining_ticks UpdateStatusRegister set_dma_request
           set_status set_command_stage set_command_remaining_ticks set_command_state].
    rewrite F1, F2, F3, F4, F5.
    split; [reflexivity|]. split; [reflexivity|].
    split; [|intros N; exfalso; apply N; exact H0].
    intros _. split; [reflexivity|].
    split.
    { match goal with |- IsActive ?x = false =>
        change (IsActive x) with (IsActive (StopReading s1)) end.
      apply IsActive_StopReading. }
    split; [reflexivity|]. split; [exact Hc|].
    split; [subst s1; cbn [command_stage InterruptRequest set_irq_requests
                             set_interrupt_flag_register set_response_fifo];
            rewrite H0; reflexivity|].
    unfold mode_bit. rewrite F6.
    destruct (IsReadingOrPlaying s); [|reflexivity].
    subst s1. cbn [mode InterruptRequest set_irq_requests set_interrupt_flag_register
                     set_response_fifo].
    destruct (Z.testbit (mode s) ModeBit.double_speed); reflexivity.
  - rewrite PushResponse_ok by exact Hsz. cbn [bind].
    eexists. split; [reflexivity|].
    split; [reflexivity|]. split; [reflexivity|].
    split; [intros E; exfalso; apply H0; exact E|].
    intros _. repeat split.
Qed.

(** X14: the Init command.  Its first stage answers ACK with the
    secondary status, stops the drive and schedules the second stage
    8000 ticks ahead, waiting for the host.  The second stage clears the
    mode register, leaves motor_on as the only bit of the secondary
    status, answers INT2 with that status (0x02) and ends the command.
    It is no reset: the mute flag, the volume matrices and the latched
    setloc position are left as they are. *)
Theorem Init_restarts_the_drive (s : State) :
  command s = Command.Init ->
  FIFO.GetSize (response_fifo s) + 1 <= RESPONSE_FIFO_SIZE ->
  exists s',
    Dispatch.ExecuteCommand Synchronize s = Ok s'
    /\ irq_requests s' = S (irq_requests s)
    /\ (command_stage s = 0 ->
        response_fifo s' = response_fifo s ++ [secondary_status s]
        /\ interrupt_flag_register s' = ACK
        /\ IsActive s' = false
        /\ command_state s' = WaitForIRQClear
        /\ command s' = Command.Init
        /\ command_stage s' = 1
        /\ command_remaining_ticks s' = 8000)
    /\ (command_stage s <> 0 ->
        response_fifo s' = response_fifo s ++ [0x02]
        /\ interrupt_flag_register s' = INT2
        /\ mode s' = 0
        /\ secondary_status s' = 0x02
        /\ command_state s' = Idle
        /\ muted s' = muted s
        /\ volume_part s' = volume_part s
        /\ setloc_position s' = setloc_position s
        /\ setloc_pending s' = setloc_pending s).
Proof.
  intros Hc Hsz. unfold Dispatch.ExecuteCommand. rewrite Hc.
  cbn [Z.eqb Command.Init Command.Pause Command.Getstat Command.Test Command.GetID
         Command.Setfilter Command.Setmode Command.Setloc Command.SeekL Command.SeekP
         Command.ReadN Command.ReadS Command.Play Pos.eqb orb].
  destruct (Z.eqb_spec (command_stage s) 0) as [H0|H0].
  - rewrite SendACKAndStat_ok by exact Hsz. cbn [bind]. cbv zeta.
    set (s1 := InterruptRequest _).
    destruct (StopReading_frame s1) as (F1 & F2 & F3 & F4 & F5 & F6).
    unfold Dispatch.NextCommandStage.
    eexists. split; [reflexivity|].
    cbn [response_fifo irq_requests interrupt_flag_register command_state command
           command_stage command_remaining_ticks UpdateStatusRegister set_dma_request
           set_status set_command_stage set_command_remaining_ticks set_command_state].
    rewrite F1, F2, F3, F4, F5.
    split; [reflexivity|].
    split; [|intros N; exfalso; apply N; exact H0].
    intros _. split; [reflexivity|]. split; [reflexivity|].
    split.
    { match goal with |- IsActive ?x = false =>
        change (IsActive x) with (IsActive (StopReading s1)) end.
      apply IsActive_StopReading. }
    split; [reflexivity|]. split; [exact Hc|].
    split; [|reflexivity].
    subst s1. cbn [command_stage InterruptRequest set_irq_requests
                     set_interrupt_flag_register set_response_fifo].
    rewrite H0. reflexivity.
  - cbv zeta.
    rewrite PushResponse_ok by exact Hsz. cbn [bind].
    eexists. split; [reflexivity|].
    split; [reflexivity|].
    split; [intros E; exfalso; apply H0; exact E|].
    intros _. repeat split.
Qed.

End PauseAndInit.

Lemma Pause_witness :
  exists s',
    Dispatch.ExecuteCommand SynchronizeNested (after pause_written) = Ok s'
    /\ IsActive s' = false
    /\ command_remaining_ticks s' = 1000000.
Proof.
  set (s := after pause_written).
  assert (Hc : command s = Command.Pause) by (vm_compute; reflexivity).
  assert (Hsz : FIFO.GetSize (response_fifo s) + 1 <= RESPONSE_FIFO_SIZE)
    by (vm_compute; discriminate).
  assert (H0 : command_stage s = 0) by (vm_compute; reflexivity).
  assert (Hr : IsReadingOrPlaying s = true) by (vm_compute; reflexivity).
  assert (Hd : mode_bit ModeBit.double_speed s = false) by (vm_compute; reflexivity).
  clearbody s.
  destruct (Pause_stops_and_reports SynchronizeNested s Hc Hsz) as (s' & E & _ & _ & A & _).
  destruct (A H0) as (_ & I & _ & _ & _ & T).
  exists s'. split; [exact E|]. split; [exact I|]. rewrite T, Hr, Hd. reflexivity.
Defined.

Lemma Init_witness :
  exists s',
    Dispatch.ExecuteCommand SynchronizeNested (after [OpWriteRegister 1 Command.Init]) = Ok s'
    /\ command_state s' = WaitForIRQClear
    /\ command_remaining_ticks s' = 8000.
Proof.
  set (s := after [OpWriteRegister 1 Command.Init]).
  assert (Hc : command s = Command.Init) by (vm_compute; reflexivity).
  assert (Hsz : FIFO.GetSize (response_fifo s) + 1 <= RESPONSE_FIFO_SIZE)
    by (vm_compute; discriminate).
  assert (H0 : command_stage s = 0) by (vm_compute; reflexivity).
  clearbody s.
  destruct (Init_restarts_the_drive SynchronizeNested s Hc Hsz) as (s' & E & _ & A & _).
  destruct (A H0) as (_ & _ & _ & C & _ & _ & T).
  exists s'. split; [exact E|]. split; [exact C|exact T].
Defined.
(** ** The end of a seek *)

Lemma SetAsyncInterrupt_result (s : State) (interrupt : Z) :
  pending_async_interrupt s = 0 -> 0 < interrupt < 256 ->
  FIFO.GetSize (async_response_fifo s) <= RESPONSE_FIFO_SIZE ->
  SetAsyncInterrupt interrupt s
  = Ok (if interrupt_flag_register s =? 0
        then InterruptRequest
               (set_pending_async_interrupt 0
                  (set_interrupt_flag_register interrupt
                     (set_async_response_fifo []
                        (set_response_fifo (async_response_fifo s) s))))
        else set_pending_async_interrupt interrupt s).
Proof.
  intros Hp Hi Hsz.
  destruct (Z.eqb_spec (interrupt_flag_register s) 0) as [Hf|Hf].
  - unfold SetAsyncInterrupt, Assert. rewrite Hp. cbn [Z.eqb]. rewrite u8_id by lia.
    unfold HasPendingInterrupt at 1.
    cbn [interrupt_flag_register set_pending_async_interrupt]. rewrite Hf. cbn [Z.eqb negb].
    unfold DeliverAsyncInterrupt, Assert, HasPendingInterrupt.
    cbn [interrupt_flag_register pending_async_interrupt set_pending_async_interrupt].
    rewrite Hf. assert (N : (interrupt =? 0) = false) by (apply Z.eqb_neq; lia).
    rewrite N. cbn [negb andb Z.eqb]. cbv zeta.
    cbn [response_fifo async_response_fifo set_response_fifo set_pending_async_interrupt].
    rewrite PushFromQueue_fits by exact Hsz. cbn [fst snd].
    reflexivity.
  - apply SetAsyncInterrupt_holds; assumption.
Qed.

Lemma begin_reading_now_bits (cdda : bool) (s : State) :
  secondary SecondaryBit.motor_on (begin_reading_now cdda s) = true
  /\ secondary SecondaryBit.seeking (begin_reading_now cdda s) = false
  /\ secondary SecondaryBit.reading (begin_reading_now cdda s) = negb cdda
  /\ secondary SecondaryBit.playing_cdda (begin_reading_now cdda s) = cdda.
Proof.
  unfold begin_reading_now. cbv zeta. unfold SetDowncount.
  repeat match goal with
         | |- context [secondary ?b (set_downcount ?d ?x)] =>
             change (secondary b (set_downcount d x)) with (secondary b x)
         | |- context [secondary ?b (set_read_or_seek_remaining_ticks ?d ?x)] =>
             change (secondary b (set_read_or_seek_remaining_ticks d x)) with (secondary b x)
         end.
  repeat split.
  - rewrite !secondary_set_other by (vm_compute; discriminate).
    apply secondary_set_same. vm_compute. discriminate.
  - rewrite !secondary_set_other by (vm_compute; discriminate).
    apply secondary_set_same. vm_compute. discriminate.
  - rewrite !secondary_set_other by (vm_compute; discriminate).
    apply secondary_set_same. vm_compute. discriminate.
  - apply secondary_set_same. vm_compute. discriminate.
Qed.

(** The successful branch of DoSeekComplete, from the state [s3] in which
    BeginReading (or nothing, without a request) leaves the drive. *)
Lemma DoSeekComplete_success (s s3 : State) (m : CDImage) :
  secondary SecondaryBit.seeking s = true ->
  media s = Some m ->
  seekable m (ToLBA (seek_position s)) = true ->
  (if play_after_seek s || read_after_seek s
   then BeginReading (play_after_seek s)
          (set_media (Some (Image.set_position (ToLBA (seek_position s)) m))
             (set_secondary SecondaryBit.seeking false s))
   else Ok (set_media (Some (Image.set_position (ToLBA (seek_position s)) m))
              (set_secondary SecondaryBit.seeking false s))) = Ok s3 ->
  pending_async_interrupt s3 = 0 ->
  async_response_fifo s3 = [] ->
  exists s',
    DoSeekComplete s = Ok s'
    /\ media s' = media s3
    /\ secondary_status s' = secondary_status s3
    /\ read_or_seek_remaining_ticks s' = read_or_seek_remaining_ticks s3
    /\ seek_position s' = seek_position s3
    /\ read_after_seek s' = false
    /\ play_after_seek s' = false
    /\ setloc_pending s' = false
    /\ (interrupt_flag_register s3 = 0 ->
        interrupt_flag_register s' = INT2
        /\ response_fifo s' = [secondary_status s']
        /\ irq_requests s' = S (irq_requests s3)
        /\ pending_async_interrupt s' = 0)
    /\ (interrupt_flag_register s3 <> 0 ->
        interrupt_flag_register s' = interrupt_flag_register s3
        /\ pending_async_interrupt s' = INT2
        /\ async_response_fifo s' = [secondary_status s']
        /\ response_fifo s' = response_fifo s3
        /\ irq_requests s' = irq_requests s3).
Proof.
  intros Hs Hm Hk HB P3 A3.
  unfold DoSeekComplete, Assert. rewrite Hs. cbv zeta.
  set (s1 := set_secondary SecondaryBit.seeking false s) in *.
  change (media s1) with (media s). rewrite Hm.
  change (seek_position s1) with (seek_position s).
  unfold Image.SeekMSF, Image.Seek. rewrite Hk. cbn [fst snd].
  set (s2 := set_media (Some (Image.set_position (ToLBA (seek_position s)) m)) s1) in *.
  change (play_after_seek s2) with (play_after_seek s).
  change (read_after_seek s2) with (read_after_seek s).
  rewrite HB. clear HB. clearbody s2. clear s1.
  cbn [bind].
  rewrite PushAsyncResponse_ok by (rewrite A3; vm_compute; discriminate).
  cbn [bind]. rewrite A3. cbn [app].
  rewrite SetAsyncInterrupt_result;
    [|exact P3|vm_compute; split; reflexivity|vm_compute; discriminate].
  cbn [bind].
  cbn [interrupt_flag_register async_response_fifo set_async_response_fifo].
  destruct (Z.eqb_spec (interrupt_flag_register s3) 0) as [Hf|Hf].
  - eexists. split; [reflexivity|].
    split; [frame_simp media; reflexivity|].
    split; [frame_simp secondary_status; reflexivity|].
    split; [frame_simp read_or_seek_remaining_ticks; reflexivity|].
    split; [frame_simp seek_position; reflexivity|].
    split; [reflexivity|]. split; [reflexivity|]. split; [reflexivity|].
    split.
    + intros _.
      split; [frame_simp interrupt_flag_register; reflexivity|].
      split; [frame_simp response_fifo; frame_simp secondary_status; reflexivity|].
      split; [frame_simp irq_requests; cbn [irq_requests InterruptRequest set_irq_requests];
              frame_simp irq_requests; reflexivity|].
      frame_simp pending_async_interrupt. reflexivity.
    + intros N. exfalso. apply N. exact Hf.
  - eexists. split; [reflexivity|].
    split; [frame_simp media; reflexivity|].
    split; [frame_simp secondary_status; reflexivity|].
    split; [frame_simp read_or_seek_remaining_ticks; reflexivity|].
    split; [frame_simp seek_position; reflexivity|].
    split; [reflexivity|]. split; [reflexivity|]. split; [reflexivity|].
    split.
    + intros E. exfalso. apply Hf. exact E.
    + intros _.
      split; [frame_simp interrupt_flag_register; reflexivity|].
      split; [frame_simp pending_async_interrupt; reflexivity|].
      split; [frame_simp async_response_fifo; frame_simp secondary_status; reflexivity|].
      split; [frame_simp response_fifo; reflexivity|].
      frame_simp irq_requests. reflexivity.
Qed.

Lemma secondary_status_PushAsyncResponse (v : Z) (s s' : State) :
  PushAsyncResponse v s = Ok s' -> secondary_status s' = secondary_status s.
Proof. unfold PushAsyncResponse. intros H. repeat run_step. reflexivity. Qed.

Lemma secondary_status_SetAsyncInterrupt (i : Z) (s s' : State) :
  SetAsyncInterrupt i s = Ok s' -> secondary_status s' = secondary_status s.
Proof.
  unfold SetAsyncInterrupt. intros H. repeat run_step.
  - unfold DeliverAsyncInterrupt in H. repeat run_step. reflexivity.
  - reflexivity.
Qed.

Lemma BeginSeeking_frame (s s' : State) :
  BeginSeeking s = Ok s' ->
  async_response_fifo s' = async_response_fifo s
  /\ pending_async_interrupt s' = pending_async_interrupt s
  /\ interrupt_flag_register s' = interrupt_flag_register s
  /\ media s' = media s
  /\ response_fifo s' = response_fifo s
  /\ irq_requests s' = irq_requests s
  /\ IsReadingOrPlaying s' = IsReadingOrPlaying s.
Proof.
  unfold BeginSeeking. cbv zeta. intros H. repeat run_step.
  split; [reflexivity|]. split; [reflexivity|]. split; [reflexivity|].
  split; [reflexivity|]. split; [reflexivity|]. split; [reflexivity|].
  unfold SetDowncount, IsReadingOrPlaying.
  frame_simp (secondary SecondaryBit.reading).
  frame_simp (secondary SecondaryBit.playing_cdda).
  rewrite !secondary_set_other by (vm_compute; discriminate).
  reflexivity.
Qed.

(** A seek that completes with no request to read or play leaves the drive
    with the seeking bit cleared and the rest of its status as it was. *)
Lemma DoSeekComplete_without_request (s s' : State) :
  DoSeekComplete s = Ok s' ->
  play_after_seek s = false ->
  read_after_seek s = false ->
  secondary_status s' = Z.clearbit (secondary_status s) SecondaryBit.seeking.
Proof.
  intros H Hp Hr. unfold DoSeekComplete, Assert in H.
  destruct (secondary SecondaryBit.seeking s); [|discriminate]. cbv zeta in H.
  set (s1 := set_secondary SecondaryBit.seeking false s) in H.
  assert (X : exists s2,
             snd (match media s1 with
                  | Some m =>
                      (fst (Image.SeekMSF (seek_position s1) m),
                       set_media (Some (snd (Image.SeekMSF (seek_position s1) m))) s1)
                  | None => (false, s1)
                  end) = s2
             /\ secondary_status s2 = Z.clearbit (secondary_status s) SecondaryBit.seeking
             /\ play_after_seek s2 = false
             /\ read_after_seek s2 = false).
  { destruct (media s1) as [m|]; cbn [snd]; eexists; (split; [reflexivity|]);
      (split; [reflexivity|]); split; [exact Hp|exact Hr|exact Hp|exact Hr]. }
  destruct X as (s2 & E2 & S2 & P2 & R2). rewrite E2 in H. clear E2. clearbody s1.
  match type of H with
  | context [if ?c then _ else _] => destruct c
  end.
  - rewrite P2, R2 in H. cbn [orb bind] in H.
    destruct (PushAsyncResponse (secondary_status s2) s2) as [s4|] eqn:E4;
      cbn [bind] in H; [|discriminate].
    destruct (SetAsyncInterrupt INT2 s4) as [s5|] eqn:E5; cbn [bind] in H; [|discriminate].
    injection H as <-.
    apply secondary_status_PushAsyncResponse in E4.
    apply secondary_status_SetAsyncInterrupt in E5.
    frame_simp secondary_status. rewrite E5, E4. exact S2.
  - unfold SendAsyncErrorResponse in H.
    destruct (PushAsyncResponse (Z.lor (secondary_status s2) 1) s2) as [s3|] eqn:E3;
      cbn [bind] in H; [|discriminate].
    destruct (PushAsyncResponse 128 s3) as [s4|] eqn:E4; cbn [bind] in H; [|discriminate].
    destruct (SetAsyncInterrupt INT5 s4) as [s5|] eqn:E5; cbn [bind] in H; [|discriminate].
    injection H as <-.
    apply secondary_status_PushAsyncResponse in E3.
    apply secondary_status_PushAsyncResponse in E4.
    apply secondary_status_SetAsyncInterrupt in E5.
    frame_simp secondary_status. rewrite E5, E4, E3. exact S2.
Qed.

(** X15: the end of a seek that a read or play request began, the image
    accepting the target and no asynchronous interrupt being held.
    DoSeekComplete moves the head to the LBA of the seek position and
    asserts INT2 with the secondary status it leaves (delivered if no flag
    is outstanding, held otherwise), and it clears the requests to read or
    play after the seek.  What the drive does next depends on Setloc.
    With no Setloc pending, or with the pending one naming the sector the
    head has just reached, the requested activity starts at once: the
    drive is no longer seeking, it is reading (or playing, for a play
    request) with the motor on, and the first sector is scheduled one
    sector time ahead.  With a Setloc pending for another sector the drive
    (seeking, hence neither reading nor playing) seeks again, to that
    sector; the request is cleared all the same, so that the completion of
    the second seek leaves the drive inactive and the read or play asked
    for never starts. *)
Theorem seek_completion_starts_the_read_or_seeks_again (cdda : bool) (s : State)
    (m : CDImage) :
  secondary SecondaryBit.seeking s = true ->
  media s = Some m ->
  seekable m (ToLBA (seek_position s)) = true ->
  play_after_seek s = cdda ->
  read_after_seek s = negb cdda ->
  pending_async_interrupt s = 0 ->
  async_response_fifo s = [] ->
  (setloc_pending s = false
   \/ Position_eqb
        (Image.GetMSFPositionOnDisc (Image.set_position (ToLBA (seek_position s)) m))
        (setloc_position s) = true ->
   exists s',
     DoSeekComplete s = Ok s'
     /\ media s' = Some (Image.set_position (ToLBA (seek_position s)) m)
     /\ secondary SecondaryBit.seeking s' = false
     /\ secondary SecondaryBit.reading s' = negb cdda
     /\ secondary SecondaryBit.playing_cdda s' = cdda
     /\ secondary SecondaryBit.motor_on s' = true
     /\ read_or_seek_remaining_ticks s' = GetTicksForRead s
     /\ read_after_seek s' = false
     /\ play_after_seek s' = false
     /\ setloc_pending s' = false
     /\ (interrupt_flag_register s = 0 ->
         interrupt_flag_register s' = INT2
         /\ response_fifo s' = [secondary_status s']
         /\ irq_requests s' = S (irq_requests s)
         /\ pending_async_interrupt s' = 0)
     /\ (interrupt_flag_register s <> 0 ->
         interrupt_flag_register s' = interrupt_flag_register s
         /\ pending_async_interrupt s' = INT2
         /\ async_response_fifo s' = [secondary_status s']
         /\ response_fifo s' = response_fifo s
         /\ irq_requests s' = irq_requests s))
  /\ (setloc_pending s = true ->
      Position_eqb
        (Image.GetMSFPositionOnDisc (Image.set_position (ToLBA (seek_position s)) m))
        (setloc_position s) = false ->
      IsReadingOrPlaying s = false ->
      exists s',
        DoSeekComplete s = Ok s'
        /\ media s' = Some (Image.set_position (ToLBA (seek_position s)) m)
        /\ secondary SecondaryBit.seeking s' = true
        /\ IsReadingOrPlaying s' = false
        /\ seek_position s' = setloc_position s
        /\ read_or_seek_remaining_ticks s'
           = s32 (u32 (20000
                       + u32 (Z.abs (ToLBA (setloc_position s) - ToLBA (seek_position s)))
                         * 100))
        /\ read_after_seek s' = false
        /\ play_after_seek s' = false
        /\ setloc_pending s' = false
        /\ (interrupt_flag_register s = 0 ->
            interrupt_flag_register s' = INT2
            /\ response_fifo s' = [secondary_status s']
            /\ irq_requests s' = S (irq_requests s)
            /\ pending_async_interrupt s' = 0)
        /\ (interrupt_flag_register s <> 0 ->
            interrupt_flag_register s' = interrupt_flag_register s
            /\ pending_async_interrupt s' = INT2
            /\ async_response_fifo s' = [secondary_status s']
            /\ response_fifo s' = response_fifo s
            /\ irq_requests s' = irq_requests s)
        /\ (forall s'', DoSeekComplete s' = Ok s'' -> IsActive s'' = false)).
Proof.
  intros Hs Hm Hk Hp Hr Hpa Haf.
  set (s2 := set_media (Some (Image.set_position (ToLBA (seek_position s)) m))
               (set_secondary SecondaryBit.seeking false s)).
  split.
  - intros Hl.
    assert (X : exists s3,
               BeginReading cdda s2 = Ok s3
               /\ (s3 = begin_reading_now cdda s2
                   \/ s3 = begin_reading_now cdda (set_setloc_pending false s2))).
    { unfold BeginReading. change (setloc_pending s2) with (setloc_pending s).
      change (media s2) with (Some (Image.set_position (ToLBA (seek_position s)) m)).
      change (setloc_position s2) with (setloc_position s).
      destruct (setloc_pending s).
      - destruct Hl as [Hl|Hl]; [discriminate Hl|]. rewrite Hl. cbn [negb].
        eexists. split; [reflexivity|]. right. reflexivity.
      - eexists. split; [reflexivity|]. left. reflexivity. }
    destruct X as (s3 & EB & Hs3).
    assert (B : secondary SecondaryBit.motor_on s3 = true
                /\ secondary SecondaryBit.seeking s3 = false
                /\ secondary SecondaryBit.reading s3 = negb cdda
                /\ secondary SecondaryBit.playing_cdda s3 = cdda)
      by (destruct Hs3 as [-> | ->]; apply begin_reading_now_bits).
    destruct B as (B1 & B2 & B3 & B4).
    assert (K : async_response_fifo s3 = []
                /\ pending_async_interrupt s3 = 0
                /\ interrupt_flag_register s3 = interrupt_flag_register s
                /\ media s3 = Some (Image.set_position (ToLBA (seek_position s)) m)
                /\ read_or_seek_remaining_ticks s3 = GetTicksForRead s
                /\ response_fifo s3 = response_fifo s
                /\ irq_requests s3 = irq_requests s).
    { destruct Hs3 as [-> | ->];
        (split; [exact Haf|]); (split; [exact Hpa|]); repeat split. }
    destruct K as (A3 & P3 & F3 & M3 & T3 & R3 & I3).
    clear Hs3.
    destruct (DoSeekComplete_success s s3 m Hs Hm Hk) as
      (s' & E & M' & S' & T' & _ & RA & PA & SP & D & H); [|exact P3|exact A3|].
    { rewrite Hp, Hr, orb_negb_r. exact EB. }
    exists s'. split; [exact E|].
    split; [rewrite M'; exact M3|].
    split; [unfold secondary; rewrite S'; exact B2|].
    split; [unfold secondary; rewrite S'; exact B3|].
    split; [unfold secondary; rewrite S'; exact B4|].
    split; [unfold secondary; rewrite S'; exact B1|].
    split; [rewrite T'; exact T3|].
    split; [exact RA|]. split; [exact PA|]. split; [exact SP|].
    rewrite <- F3, <- R3, <- I3. split; [exact D|exact H].
  - intros Hl Hne Hrp.
    assert (Hrp2 : IsReadingOrPlaying s2 = false).
    { unfold IsReadingOrPlaying in *. subst s2.
      frame_simp (secondary SecondaryBit.reading).
      frame_simp (secondary SecondaryBit.playing_cdda).
      rewrite !secondary_set_other by (vm_compute; discriminate). exact Hrp. }
    destruct (BeginSeeking_programs s2 (Image.set_position (ToLBA (seek_position s)) m))
      as (s3 & EB & T3 & _ & Q3 & _ & S3); [reflexivity|exact Hrp2|].
    change (setloc_position s2) with (setloc_position s) in T3, Q3.
    change (position_on_disc (Image.set_position (ToLBA (seek_position s)) m))
      with (ToLBA (seek_position s)) in T3.
    assert (K : async_response_fifo s3 = []
                /\ pending_async_interrupt s3 = 0
                /\ interrupt_flag_register s3 = interrupt_flag_register s
                /\ media s3 = Some (Image.set_position (ToLBA (seek_position s)) m)
                /\ response_fifo s3 = response_fifo s
                /\ irq_requests s3 = irq_requests s
                /\ IsReadingOrPlaying s3 = false).
    { destruct (BeginSeeking_frame _ _ EB) as (K1 & K2 & K3 & K4 & K5 & K6 & K7).
      rewrite K1, K2, K3, K4, K5, K6, K7.
      split; [exact Haf|]. split; [exact Hpa|]. split; [reflexivity|].
      split; [reflexivity|]. split; [reflexivity|]. split; [reflexivity|].
      exact Hrp2. }
    destruct K as (A3 & P3 & F3 & M3 & R3 & I3 & RP3).
    destruct (DoSeekComplete_success s
                (set_play_after_seek cdda (set_read_after_seek (negb cdda) s3)) m Hs Hm Hk)
      as (s' & E & M' & S' & T' & Q' & RA & PA & SP & D & H); [|exact P3|exact A3|].
    { rewrite Hp, Hr, orb_negb_r. unfold BeginReading. fold s2.
      change (setloc_pending s2) with (setloc_pending s). rewrite Hl.
      change (media s2) with (Some (Image.set_position (ToLBA (seek_position s)) m)).
      change (setloc_position s2) with (setloc_position s). cbv iota beta.
      rewrite Hne. cbn [negb]. rewrite EB. reflexivity. }
    cbn [media secondary_status read_or_seek_remaining_ticks seek_position
           interrupt_flag_register response_fifo irq_requests
           set_play_after_seek set_read_after_seek] in M', S', T', Q', D, H.
    assert (RP' : IsReadingOrPlaying s' = false).
    { unfold IsReadingOrPlaying, secondary. rewrite S'. exact RP3. }
    exists s'. split; [exact E|].
    split; [rewrite M'; exact M3|].
    split; [unfold secondary; rewrite S'; exact S3|].
    split; [exact RP'|].
    split; [rewrite Q'; exact Q3|].
    split; [rewrite T'; exact T3|].
    split; [exact RA|]. split; [exact PA|]. split; [exact SP|].
    rewrite <- F3, <- R3, <- I3. split; [exact D|]. split; [exact H|].
    intros s'' E2.
    pose proof (DoSeekComplete_without_request s' s'' E2 PA RA) as S2.
    unfold IsReadingOrPlaying, secondary in RP'.
    unfold IsActive, secondary. rewrite S2.
    rewrite Z.clearbit_eq by (vm_compute; discriminate).
    rewrite !Z.clearbit_neq by (vm_compute; discriminate).
    cbn [orb]. exact RP'.
Qed.

Lemma seek_completion_witness :
  (exists s',
     DoSeekComplete (after read_with_seek) = Ok s'
     /\ secondary SecondaryBit.reading s' = true
     /\ interrupt_flag_register s' = INT2)
  /\ (exists s',
        DoSeekComplete (after setloc_during_seek) = Ok s'
        /\ secondary SecondaryBit.seeking s' = true
        /\ read_after_seek s' = false
        /\ (forall s'', DoSeekComplete s' = Ok s'' -> IsActive s'' = false)).
Proof.
  split.
  - set (s := after read_with_seek).
    assert (Hs : secondary SecondaryBit.seeking s = true) by (vm_compute; reflexivity).
    assert (Hw : match media s with
                 | Some m => seekable m (ToLBA (seek_position s))
                 | None => false
                 end = true) by (vm_compute; reflexivity).
    assert (Hl : setloc_pending s = false) by (vm_compute; reflexivity).
    assert (Hp : play_after_seek s = false) by (vm_compute; reflexivity).
    assert (Hr : read_after_seek s = negb false) by (vm_compute; reflexivity).
    assert (Hpa : pending_async_interrupt s = 0) by (vm_compute; reflexivity).
    assert (Haf : async_response_fifo s = []) by (vm_compute; reflexivity).
    assert (Hf : interrupt_flag_register s = 0) by (vm_compute; reflexivity).
    clearbody s.
    destruct (media s) as [m|] eqn:Hm; [|discriminate].
    destruct (seek_completion_starts_the_read_or_seeks_again false s m Hs Hm Hw Hp Hr Hpa Haf)
      as [A _].
    destruct (A (or_introl Hl)) as (s' & E & _ & _ & R & _ & _ & _ & _ & _ & _ & D & _).
    exists s'. split; [exact E|]. split; [exact R|]. apply (D Hf).
  - set (s := after setloc_during_seek).
    assert (Hs : secondary SecondaryBit.seeking s = true) by (vm_compute; reflexivity).
    assert (Hw : match media s with
                 | Some m =>
                     seekable m (ToLBA (seek_position s))
                     && negb (Position_eqb
                                (Image.GetMSFPositionOnDisc
                                   (Image.set_position (ToLBA (seek_position s)) m))
                                (setloc_position s))
                 | None => false
                 end = true) by (vm_compute; reflexivity).
    assert (Hl : setloc_pending s = true) by (vm_compute; reflexivity).
    assert (Hp : play_after_seek s = false) by (vm_compute; reflexivity).
    assert (Hr : read_after_seek s = negb false) by (vm_compute; reflexivity).
    assert (Hpa : pending_async_interrupt s = 0) by (vm_compute; reflexivity).
    assert (Haf : async_response_fifo s = []) by (vm_compute; reflexivity).
    assert (Hrp : IsReadingOrPlaying s = false) by (vm_compute; reflexivity).
    clearbody s.
    destruct (media s) as [m|] eqn:Hm; [|discriminate].
    apply andb_prop in Hw. destruct Hw as [Hw Hne]. apply negb_true_iff in Hne.
    destruct (seek_completion_starts_the_read_or_seeks_again false s m Hs Hm Hw Hp Hr Hpa Haf)
      as [_ B].
    destruct (B Hl Hne Hrp) as (s' & E & _ & S & _ & _ & _ & R & _ & _ & _ & _ & N).
    exists s'. split; [exact E|]. split; [exact S|]. split; [exact R|exact N].
Defined.

Lemma SendAsyncErrorResponse_result (reason : Z) (s : State) :
  pending_async_interrupt s = 0 ->
  async_response_fifo s = [] ->
  exists s',
    SendAsyncErrorResponse reason s = Ok s'
    /\ media s' = media s
    /\ secondary_status s' = secondary_status s
    /\ read_or_seek_remaining_ticks s' = read_or_seek_remaining_ticks s
    /\ status s' = status s
    /\ (interrupt_flag_register s = 0 ->
        interrupt_flag_register s' = INT5
        /\ response_fifo s' = [Z.lor (secondary_status s) 1; reason]
        /\ irq_requests s' = S (irq_requests s)
        /\ pending_async_interrupt s' = 0)
    /\ (interrupt_flag_register s <> 0 ->
        interrupt_flag_register s' = interrupt_flag_register s
        /\ pending_async_interrupt s' = INT5
        /\ async_response_fifo s' = [Z.lor (secondary_status s) 1; reason]
        /\ response_fifo s' = response_fifo s
        /\ irq_requests s' = irq_requests s).
Proof.
  intros Hpa Haf. unfold SendAsyncErrorResponse.
  rewrite PushAsyncResponse_ok by (rewrite Haf; vm_compute; discriminate).
  cbn [bind]. rewrite Haf. cbn [app].
  rewrite PushAsyncResponse_ok
    by (cbn [async_response_fifo set_async_response_fifo]; vm_compute; discriminate).
  cbn [bind].
  cbn [secondary_status async_response_fifo set_async_response_fifo]. cbn [app].
  rewrite SetAsyncInterrupt_result;
    [|exact Hpa|vm_compute; split; reflexivity|vm_compute; discriminate].
  cbn [interrupt_flag_register async_response_fifo set_async_response_fifo].
  destruct (Z.eqb_spec (interrupt_flag_register s) 0) as [Hf|Hf].
  - eexists. split; [reflexivity|].
    split; [reflexivity|]. split; [reflexivity|]. split; [reflexivity|].
    split; [reflexivity|].
    split; [intros _; repeat split|].
    intros N. exfalso. apply N. exact Hf.
  - eexists. split; [reflexivity|].
    split; [reflexivity|]. split; [reflexivity|]. split; [reflexivity|].
    split; [reflexivity|].
    split; [|intros _; repeat split].
    intros E. exfalso. apply Hf. exact E.
Qed.

(** X16: the end of a seek that fails.  When there is no disc any more or
    the image refuses the target, DoSeekComplete asserts INT5 with the two
    bytes (secondary status with the error bit, 0x80): delivered if no flag
    is outstanding, held otherwise.  The drive is left not seeking, it does
    not start the read or play that was requested, the requests are
    cleared, and the status register is not updated. *)
Theorem failed_seek_reports_an_error (s : State) :
  secondary SecondaryBit.seeking s = true ->
  match media s with
  | Some m => seekable m (ToLBA (seek_position s)) = false
  | None => True
  end ->
  pending_async_interrupt s = 0 ->
  async_response_fifo s = [] ->
  exists s',
    DoSeekComplete s = Ok s'
    /\ media s' = media s
    /\ secondary_status s' = Z.clearbit (secondary_status s) SecondaryBit.seeking
    /\ read_or_seek_remaining_ticks s' = read_or_seek_remaining_ticks s
    /\ read_after_seek s' = false
    /\ play_after_seek s' = false
    /\ setloc_pending s' = false
    /\ status s' = status s
    /\ (interrupt_flag_register s = 0 ->
        interrupt_flag_register s' = INT5
        /\ response_fifo s' = [Z.lor (secondary_status s') 1; 0x80]
        /\ irq_requests s' = S (irq_requests s)
        /\ pending_async_interrupt s' = 0)
    /\ (interrupt_flag_register s <> 0 ->
        interrupt_flag_register s' = interrupt_flag_register s
        /\ pending_async_interrupt s' = INT5
        /\ async_response_fifo s' = [Z.lor (secondary_status s') 1; 0x80]
        /\ response_fifo s' = response_fifo s
        /\ irq_requests s' = irq_requests s).
Proof.
  intros Hs Hm Hpa Haf.
  unfold DoSeekComplete, Assert. rewrite Hs. cbv zeta.
  set (s1 := set_secondary SecondaryBit.seeking false s).
  change (media s1) with (media s). change (seek_position s1) with (seek_position s).
  assert (X : exists s2,
             snd (match media s with
                  | Some m =>
                      (fst (Image.SeekMSF (seek_position s) m),
                       set_media (Some (snd (Image.SeekMSF (seek_position s) m))) s1)
                  | None => (false, s1)
                  end) = s2
             /\ fst (match media s with
                     | Some m =>
                         (fst (Image.SeekMSF (seek_position s) m),
                          set_media (Some (snd (Image.SeekMSF (seek_position s) m))) s1)
                     | None => (false, s1)
                     end) = false
             /\ media s2 = media s
             /\ secondary_status s2 = Z.clearbit (secondary_status s) SecondaryBit.seeking
             /\ read_or_seek_remaining_ticks s2 = read_or_seek_remaining_ticks s
             /\ status s2 = status s
             /\ interrupt_flag_register s2 = interrupt_flag_register s
             /\ response_fifo s2 = response_fifo s
             /\ irq_requests s2 = irq_requests s
             /\ pending_async_interrupt s2 = 0
             /\ async_response_fifo s2 = []).
  { destruct (media s) as [m|] eqn:Em.
    - unfold Image.SeekMSF, Image.Seek. rewrite Hm. cbn [fst snd].
      eexists. split; [reflexivity|].
      repeat split; first [exact Hpa|exact Haf].
    - cbn [fst snd]. eexists. split; [reflexivity|].
      repeat split; first [exact Em|exact Hpa|exact Haf]. }
  destruct X as (s2 & -> & -> & M2 & S2 & T2 & U2 & F2 & R2 & I2 & P2 & A2).
  clearbody s1.
  destruct (SendAsyncErrorResponse_result 0x80 s2 P2 A2)
    as (s3 & E & M3 & S3 & T3 & U3 & D3 & H3).
  rewrite E. cbn [bind].
  eexists. split; [reflexivity|].
  cbn [media secondary_status read_or_seek_remaining_ticks read_after_seek play_after_seek
         setloc_pending status interrupt_flag_register response_fifo irq_requests
         pending_async_interrupt async_response_fifo
         set_play_after_seek set_read_after_seek set_setloc_pending].
  rewrite M3, S3, T3, U3, M2, S2, T2, U2.
  repeat (split; [reflexivity|]).
  split.
  - intros Hf. rewrite <- F2 in Hf. destruct (D3 Hf) as (D1 & D2 & D4 & D5).
    rewrite D1, D2, D4, D5, S2, I2. repeat split.
  - intros Hf. rewrite <- F2 in Hf. destruct (H3 Hf) as (H1 & H2 & H4 & H5 & H6).
    rewrite H1, H2, H4, H5, H6, S2, F2, R2, I2. repeat split.
Qed.

Lemma failed_seek_witness :
  exists s',
    DoSeekComplete (after seek_past_the_end) = Ok s'
    /\ interrupt_flag_register s' = INT5
    /\ response_fifo s' = [0x03; 0x80].
Proof.
  set (s := after seek_past_the_end).
  assert (Hs : secondary SecondaryBit.seeking s = true) by (vm_compute; reflexivity).
  assert (Hw : match media s with
               | Some m => negb (seekable m (ToLBA (seek_position s)))
               | None => true
               end = true) by (vm_compute; reflexivity).
  assert (Hpa : pending_async_interrupt s = 0) by (vm_compute; reflexivity).
  assert (Haf : async_response_fifo s = []) by (vm_compute; reflexivity).
  assert (Hf : interrupt_flag_register s = 0) by (vm_compute; reflexivity).
  assert (Hst : Z.lor (Z.clearbit (secondary_status s) SecondaryBit.seeking) 1 = 0x03)
    by (vm_compute; reflexivity).
  clearbody s.
  assert (Hm : match media s with
               | Some m => seekable m (ToLBA (seek_position s)) = false
               | None => True
               end).
  { destruct (media s) as [m|]; [|exact I]. apply negb_true_iff. exact Hw. }
  destruct (failed_seek_reports_an_error s Hs Hm Hpa Haf)
    as (s' & E & _ & S & _ & _ & _ & _ & _ & D & _).
  destruct (D Hf) as (D1 & D2 & _).
  exists s'. split; [exact E|]. split; [exact D1|]. rewrite D2, S, Hst. reflexivity.
Defined.

(** X23: a seek that ends while an interrupt is held.  Unlike a sector
    read, which discards a held interrupt, DoSeekComplete pushes its status
    behind the held response and then fails the assertion that no
    asynchronous interrupt is held; this is so whether the seek succeeds
    or fails. *)
Theorem seek_completion_fails_on_a_held_interrupt (s : State) :
  secondary SecondaryBit.seeking s = true ->
  setloc_pending s = false ->
  pending_async_interrupt s <> 0 ->
  FIFO.GetSize (async_response_fifo s) + 2 <= RESPONSE_FIFO_SIZE ->
  DoSeekComplete s = Err double_pending.
Proof.
  intros Hs Hl Hp Hsz.
  unfold DoSeekComplete, Assert. rewrite Hs. cbv zeta.
  set (s1 := set_secondary SecondaryBit.seeking false s).
  assert (X : exists s2,
             snd (match media s1 with
                  | Some m =>
                      (fst (Image.SeekMSF (seek_position s1) m),
                       set_media (Some (snd (Image.SeekMSF (seek_position s1) m))) s1)
                  | None => (false, s1)
                  end) = s2
             /\ setloc_pending s2 = false
             /\ pending_async_interrupt s2 = pending_async_interrupt s
             /\ async_response_fifo s2 = async_response_fifo s).
  { destruct (media s1) as [m|]; cbn [snd]; eexists; (split; [reflexivity|]);
      repeat split; exact Hl. }
  destruct X as (s2 & -> & L2 & P2 & A2).
  clearbody s1.
  match goal with |- context [if ?c then _ else _] => destruct c end.
  - assert (Y : exists s3,
               (if play_after_seek s2 || read_after_seek s2
                then BeginReading (play_after_seek s2) s2 else Ok s2) = Ok s3
               /\ pending_async_interrupt s3 = pending_async_interrupt s
               /\ async_response_fifo s3 = async_response_fifo s).
    { destruct (play_after_seek s2 || read_after_seek s2).
      - unfold BeginReading. rewrite L2. eexists. split; [reflexivity|].
        split; [exact P2|exact A2].
      - exists s2. split; [reflexivity|]. split; [exact P2|exact A2]. }
    destruct Y as (s3 & -> & P3 & A3). cbn [bind].
    rewrite PushAsyncResponse_ok by (rewrite A3; lia). cbn [bind].
    unfold SetAsyncInterrupt, Assert.
    cbn [pending_async_interrupt set_async_response_fifo]. rewrite P3.
    rewrite (proj2 (Z.eqb_neq _ _) Hp). reflexivity.
  - unfold SendAsyncErrorResponse.
    rewrite PushAsyncResponse_ok by (rewrite A2; lia). cbn [bind].
    rewrite PushAsyncResponse_ok
      by (cbn [async_response_fifo set_async_response_fifo]; rewrite GetSize_app, A2;
          cbn [length]; lia).
    cbn [bind]. unfold SetAsyncInterrupt, Assert.
    cbn [pending_async_interrupt set_async_response_fifo]. rewrite P2.
    rewrite (proj2 (Z.eqb_neq _ _) Hp). reflexivity.
Qed.

Lemma held_interrupt_seek_witness :
  DoSeekComplete (after seek_with_held_interrupt) = Err double_pending.
Proof.
  set (s := after seek_with_held_interrupt).
  assert (Hs : secondary SecondaryBit.seeking s = true) by (vm_compute; reflexivity).
  assert (Hl : setloc_pending s = false) by (vm_compute; reflexivity).
  assert (Hp : pending_async_interrupt s <> 0) by (vm_compute; discriminate).
  assert (Hsz : FIFO.GetSize (async_response_fifo s) + 2 <= RESPONSE_FIFO_SIZE)
    by (vm_compute; discriminate).
  clearbody s.
  apply (seek_completion_fails_on_a_held_interrupt s Hs Hl Hp Hsz).
Defined.
(** ** Reset *)

(** X17: Reset.  Resetting twice is resetting once.  A reset leaves the
    status register at 0x18 (parameter FIFO empty and ready, nothing else),
    keeps the disc in the drive, and asks nothing of the interrupt
    controller or the mixer. *)
Theorem Reset_is_idempotent (s : State) :
  Reset (Reset s) = Reset s
  /\ status (Reset s) = 0x18
  /\ HasMedia (Reset s) = HasMedia s
  /\ irq_requests (Reset s) = irq_requests s
  /\ spu (Reset s) = spu s.
Proof.
  split.
  { unfold Reset. destruct (media s) as [m|] eqn:Em.
    - cbv zeta.
      change (media (SoftReset (set_media (Some (snd (Image.Seek 0 m))) s)))
        with (Some (snd (Image.Seek 0 m))).
      assert (K : snd (Image.Seek 0 (snd (Image.Seek 0 m))) = snd (Image.Seek 0 m)).
      { unfold Image.Seek. destruct (seekable m 0) eqn:K; cbn [snd].
        - change (seekable (Image.set_position 0 m) 0) with (seekable m 0).
          rewrite K. reflexivity.
        - rewrite K. reflexivity. }
      cbv beta iota. rewrite K. vm_compute. reflexivity.
    - cbv zeta. change (media (SoftReset s)) with (media s). rewrite Em.
      vm_compute. reflexivity. }
  split; [unfold Reset; destruct (media s); vm_compute; reflexivity|].
  split.
  { unfold HasMedia, Reset. destruct (media s) eqn:Em; [reflexivity|].
    change (media (SoftReset s)) with (media s). rewrite Em. reflexivity. }
  unfold Reset. destruct (media s); split; reflexivity.
Qed.

(** ** Time *)

Section Time.

Context {xa : CDXA}.

Lemma Execute_before_the_deadlines (t : Z) (s : State) :
  0 <= t ->
  (command_state s = WaitForExecute -> t < command_remaining_ticks s <= 0x7FFFFFFF) ->
  (IsActive s = true -> t < read_or_seek_remaining_ticks s <= 0x7FFFFFFF) ->
  Execute t s = Ok (elapse t s).
Proof.
  intros H0 Hc Ha. unfold Execute, Dispatch.Execute, elapse.
  destruct (command_state s) eqn:Ec.
  - cbn [bind]. destruct (IsActive s) eqn:Ea; [|reflexivity].
    specialize (Ha eq_refl).
    cbn [read_or_seek_remaining_ticks set_read_or_seek_remaining_ticks].
    rewrite s32_id by lia.
    destruct (Z.leb_spec (read_or_seek_remaining_ticks s - t) 0); [lia|]. reflexivity.
  - specialize (Hc eq_refl).
    cbn [command_remaining_ticks set_command_remaining_ticks].
    rewrite s32_id by lia.
    destruct (Z.leb_spec (command_remaining_ticks s - t) 0); [lia|].
    cbn [bind]. cbv zeta.
    change (IsActive (SetDowncount ?d (set_command_remaining_ticks ?r s)))
      with (IsActive s).
    destruct (IsActive s) eqn:Ea; [|reflexivity].
    specialize (Ha eq_refl).
    cbn [read_or_seek_remaining_ticks SetDowncount set_downcount
           set_command_remaining_ticks set_read_or_seek_remaining_ticks].
    rewrite s32_id by lia.
    destruct (Z.leb_spec (read_or_seek_remaining_ticks s - t) 0); [lia|]. reflexivity.
  - cbn [bind]. destruct (IsActive s) eqn:Ea; [|reflexivity].
    specialize (Ha eq_refl).
    cbn [read_or_seek_remaining_ticks set_read_or_seek_remaining_ticks].
    rewrite s32_id by lia.
    destruct (Z.leb_spec (read_or_seek_remaining_ticks s - t) 0); [lia|]. reflexivity.
Qed.

Lemma elapse_facts (t : Z) (s : State) :
  command_state (elapse t s) = command_state s
  /\ IsActive (elapse t s) = IsActive s
  /\ (command_state s = WaitForExecute ->
      command_remaining_ticks (elapse t s) = command_remaining_ticks s - t)
  /\ (IsActive s = true ->
      read_or_seek_remaining_ticks (elapse t s) = read_or_seek_remaining_ticks s - t).
Proof.
  unfold elapse. cbv zeta.
  destruct (command_state s) eqn:Ec.
  - destruct (IsActive s) eqn:Ea; repeat split; try assumption; try discriminate.
  - change (IsActive (SetDowncount ?d (set_command_remaining_ticks ?r s)))
      with (IsActive s).
    destruct (IsActive s) eqn:Ea; repeat split; try assumption; try discriminate.
  - destruct (IsActive s) eqn:Ea; repeat split; try assumption; try discriminate.
Qed.

Lemma elapse_elapse (t1 t2 : Z) (s : State) :
  elapse t2 (elapse t1 s) = elapse (t1 + t2) s.
Proof.
  unfold elapse at 1 3. cbv zeta.
  destruct (elapse_facts t1 s) as (Fc & Fa & Fr & Fs).
  rewrite Fc.
  assert (A : forall x, command_state x = command_state s -> IsActive x = IsActive s ->
              forall d r, IsActive (SetDowncount d (set_command_remaining_ticks r x))
                          = IsActive s) by (intros x _ E d r; exact E).
  destruct (command_state s) eqn:Ec.
  - rewrite Fa. destruct (IsActive s) eqn:Ea; [|unfold elapse; rewrite Ec, Ea; reflexivity].
    rewrite (Fs eq_refl). unfold elapse. rewrite Ec, Ea. cbv zeta.
    replace (read_or_seek_remaining_ticks s - (t1 + t2))
      with (read_or_seek_remaining_ticks s - t1 - t2) by lia.
    reflexivity.
  - rewrite (Fr eq_refl), (A _ Fc Fa).
    change (IsActive (SetDowncount ?d (set_command_remaining_ticks ?r s)))
      with (IsActive s).
    replace (command_remaining_ticks s - (t1 + t2))
      with (command_remaining_ticks s - t1 - t2) by lia.
    destruct (IsActive s) eqn:Ea.
    + change (read_or_seek_remaining_ticks
                (SetDowncount ?d (set_command_remaining_ticks ?r ?x)))
        with (read_or_seek_remaining_ticks x).
      rewrite (Fs eq_refl).
      replace (read_or_seek_remaining_ticks s - (t1 + t2))
        with (read_or_seek_remaining_ticks s - t1 - t2) by lia.
      unfold elapse. rewrite Ec. cbv zeta.
      change (IsActive (SetDowncount ?d (set_command_remaining_ticks ?r s)))
        with (IsActive s).
      rewrite Ea. reflexivity.
    + unfold elapse. rewrite Ec. cbv zeta.
      change (IsActive (SetDowncount ?d (set_command_remaining_ticks ?r s)))
        with (IsActive s).
      rewrite Ea. reflexivity.
  - rewrite Fa. destruct (IsActive s) eqn:Ea; [|unfold elapse; rewrite Ec, Ea; reflexivity].
    rewrite (Fs eq_refl). unfold elapse. rewrite Ec, Ea. cbv zeta.
    replace (read_or_seek_remaining_ticks s - (t1 + t2))
      with (read_or_seek_remaining_ticks s - t1 - t2) by lia.
    reflexivity.
Qed.

(** X18: before any deadline, time adds up.  While the latched command
    (if one waits to execute) and the drive (if it is active) are both
    due later than [t1 + t2] ticks from now, letting [t1] ticks pass and
    then [t2] ticks leaves the controller in the state in which letting
    [t1 + t2] ticks pass at once leaves it. *)
Theorem Execute_adds_up_before_the_deadlines (t1 t2 : Z) (s : State) :
  0 <= t1 -> 0 <= t2 ->
  (command_state s = WaitForExecute ->
   t1 + t2 < command_remaining_ticks s <= 0x7FFFFFFF) ->
  (IsActive s = true ->
   t1 + t2 < read_or_seek_remaining_ticks s <= 0x7FFFFFFF) ->
  exists s1,
    Execute t1 s = Ok s1
    /\ Execute t2 s1 = Execute (t1 + t2) s.
Proof.
  intros H1 H2 Hc Ha.
  exists (elapse t1 s).
  destruct (elapse_facts t1 s) as (Fc & Fa & Fr & Fs).
  split.
  - apply Execute_before_the_deadlines; [exact H1| |].
    + intros E. specialize (Hc E). lia.
    + intros E. specialize (Ha E). lia.
  - rewrite (Execute_before_the_deadlines (t1 + t2) s); [|lia|exact Hc|exact Ha].
    rewrite <- elapse_elapse.
    apply Execute_before_the_deadlines; [exact H2| |].
    + rewrite Fc. intros E. rewrite (Fr E). specialize (Hc E). lia.
    + rewrite Fa. intros E. rewrite (Fs E). specialize (Ha E). lia.
Qed.

End Time.

Lemma Execute_adds_up_witness :
  exists s1,
    Execute (xa := example_xa) 1000 (after [OpWriteRegister 1 Command.Getstat]) = Ok s1
    /\ Execute (xa := example_xa) 2000 s1
       = Execute (xa := example_xa) 3000 (after [OpWriteRegister 1 Command.Getstat]).
Proof.
  set (s := after [OpWriteRegister 1 Command.Getstat]).
  assert (Hr : command_remaining_ticks s = 4000) by (vm_compute; reflexivity).
  assert (Ha : IsActive s = false) by (vm_compute; reflexivity).
  clearbody s.
  apply (Execute_adds_up_before_the_deadlines (xa := example_xa) 1000 2000 s);
    [lia|lia| |].
  - intros _. rewrite Hr. lia.
  - intros E. rewrite Ha in E. discriminate E.
Defined.
(** ** The cadence of sector reads *)

(** What the timing of the drive depends on. *)
Lemma timing_DeliverAsyncInterrupt (s s' : State) :
  DeliverAsyncInterrupt s = Ok s' ->
  mode s' = mode s /\ read_or_seek_remaining_ticks s' = read_or_seek_remaining_ticks s
  /\ media s' = media s.
Proof. unfold DeliverAsyncInterrupt. intros H. repeat run_step. repeat split. Qed.

Lemma timing_SetAsyncInterrupt (i : Z) (s s' : State) :
  SetAsyncInterrupt i s = Ok s' ->
  mode s' = mode s /\ read_or_seek_remaining_ticks s' = read_or_seek_remaining_ticks s
  /\ media s' = media s.
Proof.
  unfold SetAsyncInterrupt. intros H. repeat run_step.
  - apply timing_DeliverAsyncInterrupt in H. exact H.
  - repeat split.
Qed.

Lemma timing_PushAsyncResponse (v : Z) (s s' : State) :
  PushAsyncResponse v s = Ok s' ->
  mode s' = mode s /\ read_or_seek_remaining_ticks s' = read_or_seek_remaining_ticks s
  /\ media s' = media s.
Proof. unfold PushAsyncResponse. intros H. repeat run_step. repeat split. Qed.

Lemma timing_ProcessXAADPCMSector {xa : CDXA} (s : State) :
  mode (ProcessXAADPCMSector s) = mode s
  /\ read_or_seek_remaining_ticks (ProcessXAADPCMSector s) = read_or_seek_remaining_ticks s
  /\ media (ProcessXAADPCMSector s) = media s.
Proof.
  unfold ProcessXAADPCMSector.
  destruct (_ || _); [repeat split|].
  destruct (IsStereo _); unfold ResampleXAADPCM;
    destruct (resample_loop _ _ _ _ _ _) as [[[ring p] six] out]; repeat split.
Qed.

Lemma timing_ProcessDataSector {xa : CDXA} (s s' : State) :
  ProcessDataSector s = Ok s' ->
  mode s' = mode s /\ read_or_seek_remaining_ticks s' = read_or_seek_remaining_ticks s
  /\ media s' = media s.
Proof.
  intros H. unfold ProcessDataSector in H. cbv zeta in H.
  match type of H with
  | context [set_last_sector_subheader ?h (set_last_sector_header ?g s)] =>
      set (s1 := set_last_sector_subheader h (set_last_sector_header g s)) in H
  end.
  assert (K1 : mode s1 = mode s
               /\ read_or_seek_remaining_ticks s1 = read_or_seek_remaining_ticks s
               /\ media s1 = media s) by (repeat split).
  destruct (timing_ProcessXAADPCMSector s1) as (X1 & X2 & X3).
  destruct K1 as (K1 & K2 & K3).
  clearbody s1.
  destruct (mode_bit ModeBit.xa_enable s1 && (header_sector_mode s1 =? 2)).
  - destruct (Z.testbit (subheader_submode s1) SubmodeBit.realtime
              && Z.testbit (subheader_submode s1) SubmodeBit.audio); cbn [fst snd] in H.
    + injection H as <-.
      match goal with |- context [if ?c then _ else _] => destruct c end.
      * repeat split; assumption.
      * cbn [mode read_or_seek_remaining_ticks media set_sector_buffer].
        rewrite X1, X2, X3. repeat split; assumption.
    + repeat run_step.
      apply timing_SetAsyncInterrupt in E0. apply timing_PushAsyncResponse in E.
      destruct E0 as (A1 & A2 & A3). destruct E as (B1 & B2 & B3).
      cbn [mode read_or_seek_remaining_ticks media UpdateStatusRegister
             set_dma_request set_status].
      rewrite A1, A2, A3, B1, B2, B3. repeat split; assumption.
  - cbn [fst snd] in H. repeat run_step.
    apply timing_SetAsyncInterrupt in E0. apply timing_PushAsyncResponse in E.
    destruct E0 as (A1 & A2 & A3). destruct E as (B1 & B2 & B3).
    cbn [mode read_or_seek_remaining_ticks media UpdateStatusRegister
           set_dma_request set_status].
    rewrite A1, A2, A3, B1, B2, B3. repeat split; assumption.
Qed.

Lemma timing_ProcessCDDASector (s : State) :
  mode (ProcessCDDASector s) = mode s
  /\ read_or_seek_remaining_ticks (ProcessCDDASector s) = read_or_seek_remaining_ticks s
  /\ media (ProcessCDDASector s) = media s.
Proof. unfold ProcessCDDASector. destruct (negb (muted s)); repeat split. Qed.

Lemma DoSectorRead_cadence {xa : CDXA} (s s' : State) :
  DoSectorRead s = Ok s' ->
  exists m,
    media s = Some m
    /\ media s' = Some (snd (Image.Read m))
    /\ read_or_seek_remaining_ticks s'
       = s32 (read_or_seek_remaining_ticks s + GetTicksForRead s)
    /\ downcount s' = read_or_seek_remaining_ticks s'.
Proof.
  intros H. unfold DoSectorRead in H. cbv zeta in H.
  set (s0 := if HasPendingAsyncInterrupt s then CancelAsyncInterrupt s else s) in H.
  assert (K0 : mode s0 = mode s
               /\ read_or_seek_remaining_ticks s0 = read_or_seek_remaining_ticks s
               /\ media s0 = media s)
    by (subst s0; destruct (HasPendingAsyncInterrupt s); repeat split).
  destruct K0 as (K1 & K2 & K3). clearbody s0.
  unfold Assert in H. destruct (negb (mode_bit ModeBit.ignore_bit s0)); [|discriminate].
  change (media (set_sector_buffer (resize RAW_SECTOR_SIZE (sector_buffer s0)) s0))
    with (media s0) in H.
  rewrite K3 in H.
  destruct (media s) as [m|]; [|discriminate].
  exists m. split; [reflexivity|].
  match type of H with
  | context [set_media ?a (set_sector_buffer ?b (set_sector_buffer ?c s0))] =>
      set (s1 := set_media a (set_sector_buffer b (set_sector_buffer c s0))) in H
  end.
  assert (L1 : mode s1 = mode s) by exact K1.
  assert (L2 : read_or_seek_remaining_ticks s1 = read_or_seek_remaining_ticks s) by exact K2.
  assert (L3 : media s1 = Some (snd (Image.Read m))) by reflexivity.
  clearbody s1.
  assert (X : exists s2,
             (if secondary SecondaryBit.reading s1 then ProcessDataSector s1
              else if secondary SecondaryBit.playing_cdda s1 then Ok (ProcessCDDASector s1)
                   else Err (Panicked "Not reading or playing")) = Ok s2
             /\ mode s2 = mode s1
             /\ read_or_seek_remaining_ticks s2 = read_or_seek_remaining_ticks s1
             /\ media s2 = media s1).
  { destruct (secondary SecondaryBit.reading s1).
    - destruct (ProcessDataSector s1) as [s2|] eqn:E; [|discriminate].
      exists s2. split; [reflexivity|]. apply timing_ProcessDataSector. exact E.
    - destruct (secondary SecondaryBit.playing_cdda s1); [|discriminate].
      eexists. split; [reflexivity|]. apply timing_ProcessCDDASector. }
  destruct X as (s2 & E & M1 & M2 & M3). rewrite E in H. cbn [bind] in H.
  injection H as <-.
  unfold GetTicksForRead, mode_bit.
  cbn [media read_or_seek_remaining_ticks downcount mode SetDowncount set_downcount
         set_read_or_seek_remaining_ticks].
  rewrite M1, M2, M3, L1, L2, L3. repeat split.
Qed.

(** X19: sector reads keep their cadence.  When Execute finds an active
    drive, not seeking, at or past its deadline (no command being due), it
    reads one sector: the image moves on by one sector, and the next read
    is scheduled one sector time after the deadline that has just passed,
    not after the moment Execute ran, so that a late scheduler does not
    slow the drive down.  This holds for every kind of sector (data,
    XA-ADPCM, CDDA) and whether the sector's interrupt is delivered, held
    or absent. *)
Theorem sector_reads_keep_their_cadence {xa : CDXA} (ticks : Z) (s s' : State) :
  command_state s <> WaitForExecute ->
  IsActive s = true ->
  secondary SecondaryBit.seeking s = false ->
  s32 (read_or_seek_remaining_ticks s - ticks) <= 0 ->
  Execute ticks s = Ok s' ->
  exists m,
    media s = Some m
    /\ media s' = Some (Image.set_position (position_on_disc m + 1) m)
    /\ read_or_seek_remaining_ticks s'
       = s32 (s32 (read_or_seek_remaining_ticks s - ticks) + GetTicksForRead s)
    /\ downcount s' = read_or_seek_remaining_ticks s'.
Proof.
  intros Hc Ha Hs Hr H. unfold Execute, Dispatch.Execute in H.
  assert (E0 : match command_state s with
               | WaitForExecute =>
                   (let s0 :=
                      set_command_remaining_ticks (s32 (command_remaining_ticks s - ticks)) s in
                    if command_remaining_ticks s0 <=? 0
                    then Dispatch.ExecuteCommand SynchronizeNested s0
                    else Ok (SetDowncount (command_remaining_ticks s0) s0))
               | _ => Ok s
               end = Ok s).
  { destruct (command_state s); [reflexivity| |reflexivity].
    exfalso. apply Hc. reflexivity. }
  cbv zeta in E0. rewrite E0 in H. cbn [bind] in H. rewrite Ha in H. cbv zeta in H.
  cbn [read_or_seek_remaining_ticks set_read_or_seek_remaining_ticks] in H.
  rewrite (proj2 (Z.leb_le _ _) Hr) in H.
  change (secondary SecondaryBit.seeking (set_read_or_seek_remaining_ticks ?r s))
    with (secondary SecondaryBit.seeking s) in H.
  rewrite Hs in H.
  destruct (DoSectorRead_cadence _ _ H) as (m & M & M' & R & D).
  exists m. split; [exact M|]. split; [exact M'|]. split; [exact R|exact D].
Qed.

Lemma sector_cadence_witness :
  exists s',
    Execute (xa := example_xa) (MASTER_CLOCK / 75) (after read_one_sector) = Ok s'
    /\ read_or_seek_remaining_ticks s' = 447584.
Proof.
  set (s := after read_one_sector).
  assert (Hc : command_state s <> WaitForExecute) by (vm_compute; discriminate).
  assert (Ha : IsActive s = true) by (vm_compute; reflexivity).
  assert (Hs : secondary SecondaryBit.seeking s = false) by (vm_compute; reflexivity).
  assert (Hr : s32 (read_or_seek_remaining_ticks s - MASTER_CLOCK / 75) <= 0)
    by (vm_compute; discriminate).
  assert (Hv : s32 (s32 (read_or_seek_remaining_ticks s - MASTER_CLOCK / 75)
                    + GetTicksForRead s) = 447584) by (vm_compute; reflexivity).
  assert (Hok : is_ok (Execute (xa := example_xa) (MASTER_CLOCK / 75) s) = true)
    by (vm_compute; reflexivity).
  clearbody s.
  destruct (Execute (xa := example_xa) (MASTER_CLOCK / 75) s) as [s'|] eqn:E;
    [|discriminate].
  destruct (sector_reads_keep_their_cadence (xa := example_xa) (MASTER_CLOCK / 75) s s'
              Hc Ha Hs Hr E) as (m & _ & _ & R & _).
  exists s'. split; [reflexivity|]. rewrite R. exact Hv.
Defined.
(** ** The header of the last data sector *)

Lemma head_DeliverAsyncInterrupt (s s' : State) :
  DeliverAsyncInterrupt s = Ok s' ->
  last_sector_header s' = last_sector_header s
  /\ last_sector_subheader s' = last_sector_subheader s.
Proof. unfold DeliverAsyncInterrupt. intros H. repeat run_step. repeat split. Qed.

Lemma head_SetAsyncInterrupt (i : Z) (s s' : State) :
  SetAsyncInterrupt i s = Ok s' ->
  last_sector_header s' = last_sector_header s
  /\ last_sector_subheader s' = last_sector_subheader s.
Proof.
  unfold SetAsyncInterrupt. intros H. repeat run_step.
  - apply head_DeliverAsyncInterrupt in H. exact H.
  - repeat split.
Qed.

Lemma head_PushAsyncResponse (v : Z) (s s' : State) :
  PushAsyncResponse v s = Ok s' ->
  last_sector_header s' = last_sector_header s
  /\ last_sector_subheader s' = last_sector_subheader s.
Proof. unfold PushAsyncResponse. intros H. repeat run_step. repeat split. Qed.

Lemma head_ProcessXAADPCMSector {xa : CDXA} (s : State) :
  last_sector_header (ProcessXAADPCMSector s) = last_sector_header s
  /\ last_sector_subheader (ProcessXAADPCMSector s) = last_sector_subheader s.
Proof.
  unfold ProcessXAADPCMSector.
  destruct (_ || _); [repeat split|].
  destruct (IsStereo _); unfold ResampleXAADPCM;
    destruct (resample_loop _ _ _ _ _ _) as [[[ring p] six] out]; repeat split.
Qed.

Lemma head_ProcessDataSector {xa : CDXA} (s s' : State) :
  ProcessDataSector s = Ok s' ->
  last_sector_header s' = slice 12 4 (sector_buffer s)
  /\ last_sector_subheader s' = slice 16 8 (sector_buffer s).
Proof.
  intros H. unfold ProcessDataSector in H. cbv zeta in H.
  match type of H with
  | context [set_last_sector_subheader ?h (set_last_sector_header ?g s)] =>
      set (s1 := set_last_sector_subheader h (set_last_sector_header g s)) in H
  end.
  assert (K1 : last_sector_header s1 = slice 12 4 (sector_buffer s)
               /\ last_sector_subheader s1 = slice 16 8 (sector_buffer s)) by (repeat split).
  destruct (head_ProcessXAADPCMSector s1) as (X1 & X2).
  destruct K1 as (K1 & K2).
  clearbody s1.
  destruct (mode_bit ModeBit.xa_enable s1 && (header_sector_mode s1 =? 2)).
  - destruct (Z.testbit (subheader_submode s1) SubmodeBit.realtime
              && Z.testbit (subheader_submode s1) SubmodeBit.audio); cbn [fst snd] in H.
    + injection H as <-.
      match goal with |- context [if ?c then _ else _] => destruct c end.
      * split; assumption.
      * cbn [last_sector_header last_sector_subheader set_sector_buffer].
        rewrite X1, X2. split; assumption.
    + repeat run_step.
      apply head_SetAsyncInterrupt in E0. apply head_PushAsyncResponse in E.
      destruct E0 as (A1 & A2). destruct E as (B1 & B2).
      cbn [last_sector_header last_sector_subheader UpdateStatusRegister
             set_dma_request set_status].
      rewrite A1, A2, B1, B2. split; assumption.
  - cbn [fst snd] in H. repeat run_step.
    apply head_SetAsyncInterrupt in E0. apply head_PushAsyncResponse in E.
    destruct E0 as (A1 & A2). destruct E as (B1 & B2).
    cbn [last_sector_header last_sector_subheader UpdateStatusRegister
           set_dma_request set_status].
    rewrite A1, A2, B1, B2. split; assumption.
Qed.

Lemma resize_length (n : Z) (l : list Z) : 0 <= n -> length (resize n l) = Z.to_nat n.
Proof.
  intros H. unfold resize. rewrite length_firstn, length_app, repeat_length. lia.
Qed.

(** X20: what a sector read latches.  A sector read by a drive that is
    reading latches the four header bytes (bytes 12 to 15 of the raw
    sector: minute, second, frame, mode) and the eight subheader bytes
    (bytes 16 to 23), whatever becomes of the sector afterwards; a sector
    read by a drive that is playing CDDA leaves the latched header and
    subheader as they were. *)
Theorem sector_read_latches_the_header {xa : CDXA} (s s' : State) (m : CDImage) :
  media s = Some m ->
  DoSectorRead s = Ok s' ->
  if secondary SecondaryBit.reading s
  then last_sector_header s' = slice 12 4 (fst (Image.Read m))
       /\ last_sector_subheader s' = slice 16 8 (fst (Image.Read m))
       /\ length (last_sector_header s') = 4%nat
       /\ length (last_sector_subheader s') = 8%nat
  else last_sector_header s' = last_sector_header s
       /\ last_sector_subheader s' = last_sector_subheader s.
Proof.
  intros Hm H. unfold DoSectorRead in H. cbv zeta in H.
  set (s0 := if HasPendingAsyncInterrupt s then CancelAsyncInterrupt s else s) in H.
  assert (K0 : last_sector_header s0 = last_sector_header s
               /\ last_sector_subheader s0 = last_sector_subheader s
               /\ media s0 = media s
               /\ secondary_status s0 = secondary_status s)
    by (subst s0; destruct (HasPendingAsyncInterrupt s); repeat split).
  destruct K0 as (K1 & K2 & K3 & K4). clearbody s0.
  unfold Assert in H. destruct (negb (mode_bit ModeBit.ignore_bit s0)); [|discriminate].
  change (media (set_sector_buffer (resize RAW_SECTOR_SIZE (sector_buffer s0)) s0))
    with (media s0) in H.
  rewrite K3, Hm in H.
  match type of H with
  | context [set_media ?a (set_sector_buffer ?b (set_sector_buffer ?c s0))] =>
      set (s1 := set_media a (set_sector_buffer b (set_sector_buffer c s0))) in H
  end.
  assert (L1 : last_sector_header s1 = last_sector_header s) by exact K1.
  assert (L2 : last_sector_subheader s1 = last_sector_subheader s) by exact K2.
  assert (L3 : sector_buffer s1 = fst (Image.Read m)) by reflexivity.
  assert (L4 : secondary SecondaryBit.reading s1 = secondary SecondaryBit.reading s).
  { unfold secondary. change (secondary_status s1) with (secondary_status s0).
    rewrite K4. reflexivity. }
  clearbody s1. rewrite L4 in H.
  destruct (secondary SecondaryBit.reading s).
  - destruct (ProcessDataSector s1) as [s2|] eqn:E; cbn [bind] in H; [|discriminate].
    injection H as <-.
    destruct (head_ProcessDataSector _ _ E) as (A1 & A2).
    cbn [last_sector_header last_sector_subheader SetDowncount set_downcount
           set_read_or_seek_remaining_ticks].
    rewrite A1, A2, L3.
    assert (Ll : length (fst (Image.Read m)) = 2352%nat).
    { unfold Image.Read. cbn [fst]. rewrite resize_length by (vm_compute; discriminate).
      reflexivity. }
    split; [reflexivity|]. split; [reflexivity|].
    rewrite !slice_length by (rewrite ?Ll; lia). split; reflexivity.
  - destruct (secondary SecondaryBit.playing_cdda s1); [|discriminate].
    assert (C : last_sector_header (ProcessCDDASector s1) = last_sector_header s
                /\ last_sector_subheader (ProcessCDDASector s1) = last_sector_subheader s).
    { unfold ProcessCDDASector. destruct (negb (muted s1)); split; assumption. }
    set (s2 := ProcessCDDASector s1) in *. clearbody s2.
    cbn [bind] in H. injection H as <-. exact C.
Qed.

Lemma sector_latch_witness :
  exists s',
    DoSectorRead (xa := example_xa) (after read_unacknowledged) = Ok s'
    /\ nth 0 (last_sector_header s') 0 = 13
    /\ length (last_sector_header s') = 4%nat.
Proof.
  set (s := after read_unacknowledged).
  assert (Hw : match media s with
               | Some m => nth 0 (slice 12 4 (fst (Image.Read m))) 0 =? 13
               | None => false
               end = true) by (vm_compute; reflexivity).
  assert (Hr : secondary SecondaryBit.reading s = true) by (vm_compute; reflexivity).
  assert (Hok : is_ok (DoSectorRead (xa := example_xa) s) = true) by (vm_compute; reflexivity).
  clearbody s.
  destruct (media s) as [m|] eqn:Hm; [|discriminate].
  destruct (DoSectorRead (xa := example_xa) s) as [s'|] eqn:E; [|discriminate].
  pose proof (sector_read_latches_the_header (xa := example_xa) s s' m Hm E) as L.
  rewrite Hr in L. destruct L as (L1 & _ & L3 & _).
  exists s'. split; [reflexivity|]. split; [|exact L3].
  rewrite L1. apply Z.eqb_eq. exact Hw.
Defined.

(** X21: the Getloc commands.  GetlocL answers ACK with the latched header
    followed by the latched subheader, twelve bytes in all.  GetlocP
    answers ACK with eight bytes: track 1 and index 1, whatever the track
    under the head, then the minute, second and frame of the latched
    header twice over, as the position within the track and as the position
    on the disc.  Both commands end at once. *)
Theorem Getloc_reports_the_latched_header (Synchronize : State -> res State) (s : State) :
  command s = Command.GetlocL \/ command s = Command.GetlocP ->
  length (last_sector_header s) = 4%nat ->
  length (last_sector_subheader s) = 8%nat ->
  FIFO.GetSize (response_fifo s) + 12 <= RESPONSE_FIFO_SIZE ->
  exists s',
    Dispatch.ExecuteCommand Synchronize s = Ok s'
    /\ response_fifo s'
       = response_fifo s
         ++ (if command s =? Command.GetlocL
             then last_sector_header s ++ last_sector_subheader s
             else [1; 1; header_minute s; header_second s; header_frame s;
                   header_minute s; header_second s; header_frame s])
    /\ interrupt_flag_register s' = ACK
    /\ irq_requests s' = S (irq_requests s)
    /\ command_state s' = Idle.
Proof.
  intros Hc Hh Hs Hsz. unfold Dispatch.ExecuteCommand.
  destruct Hc as [Hc|Hc]; rewrite Hc;
    cbn [Z.eqb Pos.eqb orb Command.GetlocL Command.GetlocP Command.Getstat Command.Test
           Command.GetID Command.Setfilter Command.Setmode Command.Setloc Command.SeekL
           Command.SeekP Command.ReadN Command.ReadS Command.Play Command.Pause
           Command.Init Command.Mute Command.Demute].
  - rewrite PushResponseRange_ok by (rewrite Hh; lia). cbn [bind].
    rewrite PushResponseRange_ok
      by (cbn [response_fifo last_sector_subheader set_response_fifo];
          rewrite GetSize_app, Hh, Hs; lia).
    cbn [bind]. eexists. split; [reflexivity|].
    cbn [response_fifo last_sector_subheader set_response_fifo].
    rewrite <- app_assoc. repeat split.
  - unfold header_minute, header_second, header_frame.
    rewrite PushResponse_ok by lia. cbn [bind].
    repeat (rewrite PushResponse_ok
              by (cbn [response_fifo set_response_fifo]; rewrite ?GetSize_app;
                  cbn [length]; lia);
            cbn [bind]; cbn [response_fifo last_sector_header set_response_fifo]).
    eexists. split; [reflexivity|].
    cbn [response_fifo set_response_fifo Dispatch.EndCommand].
    split; [|repeat split].
    rewrite <- !app_assoc. reflexivity.
Qed.

Lemma Getloc_witness :
  exists s',
    Dispatch.ExecuteCommand SynchronizeNested
      (after (read_unacknowledged ++ [OpWriteRegister 1 Command.GetlocL])) = Ok s'
    /\ response_fifo s' = [12; 13; 14; 15; 16; 17; 18; 19; 20; 21; 22; 23].
Proof.
  set (s := after (read_unacknowledged ++ [OpWriteRegister 1 Command.GetlocL])).
  assert (Hc : command s = Command.GetlocL) by (vm_compute; reflexivity).
  assert (Hh : length (last_sector_header s) = 4%nat) by (vm_compute; reflexivity).
  assert (Hs : length (last_sector_subheader s) = 8%nat) by (vm_compute; reflexivity).
  assert (Hsz : FIFO.GetSize (response_fifo s) + 12 <= RESPONSE_FIFO_SIZE)
    by (vm_compute; discriminate).
  assert (Hv : response_fifo s ++ last_sector_header s ++ last_sector_subheader s
               = [12; 13; 14; 15; 16; 17; 18; 19; 20; 21; 22; 23])
    by (vm_compute; reflexivity).
  clearbody s.
  destruct (Getloc_reports_the_latched_header SynchronizeNested s (or_introl Hc) Hh Hs Hsz)
    as (s' & E & R & _).
  exists s'. split; [exact E|]. rewrite R, Hc. exact Hv.
Defined.
(** ** The status invariants along runs *)

Section StatusAlongRuns.

Context {xa : CDXA}.

Lemma T2_run (ops : list Op) :
  forall s s',
    forallb (fun o => negb (is_dma_read o)) ops = true ->
    T2 s -> run ops s = Ok s' -> T2 s'.
Proof.
  induction ops as [|o ops IH]; intros s s' Hn P H; cbn [run] in H.
  - injection H as <-. exact P.
  - cbn [forallb] in Hn. apply andb_prop in Hn. destruct Hn as [Ho Hn].
    destruct (apply_op o s) as [s1|] eqn:E; cbn [bind] in H; [|discriminate].
    apply (IH s1 s' Hn); [|exact H].
    apply (T2_kept_by_all_but_DMARead o s s1 P E).
    intros word_count ->. discriminate Ho.
Qed.

(** X22: (T2) without DMA reads.  In every state that the controller
    reaches from a reset by register reads and writes, media changes,
    resets and the passing of time, DMA reads apart, the DRQSTS bit of
    the status register tells whether the data FIFO holds data, and the
    request line to the DMA engine has the value of DRQSTS. *)
Theorem T2_holds_without_DMA_reads (ops : list Op) (s0 s' : State) :
  forallb (fun o => negb (is_dma_read o)) ops = true ->
  run ops (Reset s0) = Ok s' ->
  T2 s'.
Proof.
  intros Hn H. apply (T2_run ops (Reset s0) s' Hn); [|exact H]. apply Reset_T2.
Qed.

End StatusAlongRuns.

Lemma T2_witness : T2 (after read_one_sector).
Proof.
  unfold after.
  assert (Hok : is_ok (run (xa := example_xa) read_one_sector initial) = true)
    by (vm_compute; reflexivity).
  destruct (run (xa := example_xa) read_one_sector initial) as [s'|] eqn:E; [|discriminate].
  apply (T2_holds_without_DMA_reads (xa := example_xa) read_one_sector power_on s');
    [vm_compute; reflexivity|exact E].
Defined.
(** ** The resampler stays inside its rings *)

Lemma ring_set_length (i v : Z) (ringbuf : list Z) :
  length (ring_set i v ringbuf) = length ringbuf.
Proof.
  unfold ring_set.
  destruct ((0 <=? i) && (i <? Z.of_nat (length ringbuf))) eqn:E; [|reflexivity].
  apply andb_prop in E. destruct E as [E1 E2].
  apply Z.leb_le in E1. apply Z.ltb_lt in E2.
  rewrite length_app. cbn [length]. rewrite length_firstn, length_skipn. lia.
Qed.

Lemma resample_dup_ok (STEREO : bool) (M : VolumeMatrix) (l r : Z)
    (ring : RingBuffers) (p sixstep : Z) :
  0 <= p < 32 -> 1 <= sixstep <= 6 ->
  length (left_ringbuf ring) = 32%nat -> length (right_ringbuf ring) = 32%nat ->
  let '(ring', p', sixstep') := fst (resample_dup STEREO M l r (ring, p, sixstep)) in
  p' = (p + 1) mod 32
  /\ 1 <= sixstep' <= 6
  /\ length (left_ringbuf ring') = 32%nat
  /\ length (right_ringbuf ring') = 32%nat.
Proof.
  intros Hp H6 Hl Hr. unfold resample_dup.
  assert (Hu : u8 (sixstep - 1) = sixstep - 1) by (apply u8_id; lia).
  assert (Hq : u8 ((p + 1) mod 32) = (p + 1) mod 32).
  { apply u8_id. pose proof (Z.mod_pos_bound (p + 1) 32 ltac:(lia)). lia. }
  rewrite Hu, Hq.
  destruct (Z.eqb_spec (sixstep - 1) 0) as [E|E]; cbn [fst snd left_ringbuf right_ringbuf].
  - split; [reflexivity|]. split; [lia|].
    split; [rewrite ring_set_length; exact Hl|].
    destruct STEREO; [rewrite ring_set_length|]; exact Hr.
  - split; [reflexivity|]. split; [lia|].
    split; [rewrite ring_set_length; exact Hl|].
    destruct STEREO; [rewrite ring_set_length|]; exact Hr.
Qed.

Lemma resample_loop_ok (STEREO SAMPLE_RATE : bool) (M : VolumeMatrix) (count : nat) :
  forall (samples_in : list Z) (ring : RingBuffers) (p sixstep : Z),
  0 <= p < 32 -> 1 <= sixstep <= 6 ->
  length (left_ringbuf ring) = 32%nat -> length (right_ringbuf ring) = 32%nat ->
  let '(ring', p', sixstep') :=
    fst (resample_loop STEREO SAMPLE_RATE M count samples_in (ring, p, sixstep)) in
  p' = (p + dup_passes SAMPLE_RATE * Z.of_nat count) mod 32
  /\ 1 <= sixstep' <= 6
  /\ length (left_ringbuf ring') = 32%nat
  /\ length (right_ringbuf ring') = 32%nat.
Proof.
  induction count as [|count IH]; intros samples_in ring p sixstep Hp H6 Hl Hr.
  - cbn [resample_loop fst]. rewrite Z.mul_0_r, Z.add_0_r, Z.mod_small by lia.
    repeat split; assumption || lia.
  - cbn [resample_loop].
    set (left := hd 0 samples_in).
    set (rest1 := tl samples_in).
    set (right := if STEREO then hd 0 rest1 else left).
    set (rest2 := if STEREO then tl rest1 else rest1).
    pose proof (resample_dup_ok STEREO M left right ring p sixstep Hp H6 Hl Hr) as D1.
    destruct (resample_dup STEREO M left right (ring, p, sixstep))
      as [[[ring1 p1] six1] out1] eqn:E1.
    cbn [fst snd] in D1 |- *. destruct D1 as (P1 & S1 & L1 & R1).
    assert (B1 : 0 <= p1 < 32) by (rewrite P1; apply Z.mod_pos_bound; lia).
    destruct SAMPLE_RATE.
    + pose proof (resample_dup_ok STEREO M left right ring1 p1 six1 B1 S1 L1 R1) as D2.
      destruct (resample_dup STEREO M left right (ring1, p1, six1))
        as [[[ring2 p2] six2] out2] eqn:E2.
      cbn [fst snd] in D2 |- *. destruct D2 as (P2 & S2 & L2 & R2).
      assert (B2 : 0 <= p2 < 32) by (rewrite P2; apply Z.mod_pos_bound; lia).
      specialize (IH rest2 ring2 p2 six2 B2 S2 L2 R2).
      destruct (fst (resample_loop STEREO true M count rest2 (ring2, p2, six2)))
        as [[ring3 p3] six3].
      destruct IH as (P3 & S3 & L3 & R3).
      split; [|split; [exact S3|split; [exact L3|exact R3]]].
      rewrite P3, P2, P1. unfold dup_passes.
      rewrite Z.add_mod_idemp_l by lia. rewrite <- Z.add_assoc.
      rewrite Z.add_mod_idemp_l by lia. f_equal. lia.
    + cbn [fst snd].
      specialize (IH rest2 ring1 p1 six1 B1 S1 L1 R1).
      destruct (fst (resample_loop STEREO false M count rest2 (ring1, p1, six1)))
        as [[ring3 p3] six3].
      destruct IH as (P3 & S3 & L3 & R3).
      split; [|split; [exact S3|split; [exact L3|exact R3]]].
      rewrite P3, P1. unfold dup_passes.
      rewrite Z.add_mod_idemp_l by lia. f_equal. lia.
Qed.

Lemma RS_ResampleXAADPCM (a b : bool) (l : list Z) (n : Z) (M : VolumeMatrix) (s : State) :
  resampler_ok s -> resampler_ok (ResampleXAADPCM a b l n M s).
Proof.
  intros (Hp & H6 & Hl & Hr). unfold ResampleXAADPCM.
  pose proof (resample_loop_ok a b M (Z.to_nat (u32 n)) l (xa_resample_ring_buffer s)
                (xa_resample_p s) (xa_resample_sixstep s) Hp H6 Hl Hr) as K.
  destruct (resample_loop a b M (Z.to_nat (u32 n)) l
              (xa_resample_ring_buffer s, xa_resample_p s, xa_resample_sixstep s))
    as [[[ring p] six] out].
  cbn [fst] in K. destruct K as (P & S6 & L & R).
  unfold resampler_ok.
  cbn [xa_resample_p xa_resample_sixstep xa_resample_ring_buffer set_xa_resample_sixstep
         set_xa_resample_p set_xa_resample_ring_buffer spu_calls set_spu].
  split; [rewrite P; apply Z.mod_pos_bound; lia|].
  split; [exact S6|]. split; [exact L|exact R].
Qed.

Lemma RS_ProcessXAADPCMSector {xa : CDXA} (s : State) :
  resampler_ok s -> resampler_ok (ProcessXAADPCMSector s).
Proof.
  intros P. unfold ProcessXAADPCMSector.
  destruct (_ || _); [exact P|].
  destruct (IsStereo _); apply RS_ResampleXAADPCM; exact P.
Qed.

Ltac RS_est :=
  idtac;
  match goal with
  | |- resampler_ok (ProcessXAADPCMSector _) => apply RS_ProcessXAADPCMSector
  end.

Lemma RS_SetInterrupt (i : Z) (s : State) : resampler_ok (SetInterrupt i s) = resampler_ok s.
Proof. unfold SetInterrupt. destruct (HasPendingInterrupt _); reflexivity. Qed.

Lemma RS_StopReading (s : State) : resampler_ok (StopReading s) = resampler_ok s.
Proof. unfold StopReading. destruct (negb _); reflexivity. Qed.

Lemma RS_ProcessCDDASector (s : State) : resampler_ok (ProcessCDDASector s) = resampler_ok s.
Proof. unfold ProcessCDDASector. destruct (negb _); reflexivity. Qed.

Lemma RS_RemoveMedia (s : State) : resampler_ok (RemoveMedia s) = resampler_ok s.
Proof. unfold RemoveMedia. destruct (media s); reflexivity. Qed.

#[local] Hint Rewrite RS_SetInterrupt RS_StopReading RS_ProcessCDDASector RS_RemoveMedia
  : inv_rw.

Lemma RS_DeliverAsyncInterrupt (s s' : State) :
  DeliverAsyncInterrupt s = Ok s' -> resampler_ok s -> resampler_ok s'.
Proof. unfold DeliverAsyncInterrupt. intros H P. inv resampler_ok RS_est. Qed.
#[local] Hint Resolve RS_DeliverAsyncInterrupt : inv.

Lemma RS_SetAsyncInterrupt (i : Z) (s s' : State) :
  SetAsyncInterrupt i s = Ok s' -> resampler_ok s -> resampler_ok s'.
Proof. unfold SetAsyncInterrupt. intros H P. inv resampler_ok RS_est. Qed.
#[local] Hint Resolve RS_SetAsyncInterrupt : inv.

Lemma RS_PushResponse (v : Z) (s s' : State) : PushResponse v s = Ok s' -> resampler_ok s -> resampler_ok s'.
Proof. unfold PushResponse. intros H P. inv resampler_ok RS_est. Qed.
#[local] Hint Resolve RS_PushResponse : inv.

Lemma RS_PushResponseRange (vs : list Z) (s s' : State) :
  PushResponseRange vs s = Ok s' -> resampler_ok s -> resampler_ok s'.
Proof. unfold PushResponseRange. intros H P. inv resampler_ok RS_est. Qed.
#[local] Hint Resolve RS_PushResponseRange : inv.

Lemma RS_PushAsyncResponse (v : Z) (s s' : State) :
  PushAsyncResponse v s = Ok s' -> resampler_ok s -> resampler_ok s'.
Proof. unfold PushAsyncResponse. intros H P. inv resampler_ok RS_est. Qed.
#[local] Hint Resolve RS_PushAsyncResponse : inv.

Lemma RS_SendACKAndStat (s s' : State) : SendACKAndStat s = Ok s' -> resampler_ok s -> resampler_ok s'.
Proof. unfold SendACKAndStat. intros H P. inv resampler_ok RS_est. Qed.
#[local] Hint Resolve RS_SendACKAndStat : inv.

Lemma RS_SendErrorResponse (r : Z) (s s' : State) :
  SendErrorResponse r s = Ok s' -> resampler_ok s -> resampler_ok s'.
Proof. unfold SendErrorResponse. intros H P. inv resampler_ok RS_est. Qed.
#[local] Hint Resolve RS_SendErrorResponse : inv.

Lemma RS_SendAsyncErrorResponse (r : Z) (s s' : State) :
  SendAsyncErrorResponse r s = Ok s' -> resampler_ok s -> resampler_ok s'.
Proof. unfold SendAsyncErrorResponse. intros H P. inv resampler_ok RS_est. Qed.
#[local] Hint Resolve RS_SendAsyncErrorResponse : inv.

Lemma RS_BeginSeeking (s s' : State) : BeginSeeking s = Ok s' -> resampler_ok s -> resampler_ok s'.
Proof. unfold BeginSeeking. intros H P. cbv zeta in H. inv resampler_ok RS_est. Qed.
#[local] Hint Resolve RS_BeginSeeking : inv.

Lemma RS_BeginReading (cdda : bool) (s s' : State) :
  BeginReading cdda s = Ok s' -> resampler_ok s -> resampler_ok s'.
Proof. unfold BeginReading. intros H P. inv resampler_ok RS_est. Qed.
#[local] Hint Resolve RS_BeginReading : inv.

Lemma RS_DoSeekComplete (s s' : State) : DoSeekComplete s = Ok s' -> resampler_ok s -> resampler_ok s'.
Proof.
  unfold DoSeekComplete. intros H P. cbv zeta in H.
  change (media (set_secondary SecondaryBit.seeking false s)) with (media s) in H.
  destruct (media s); cbn [fst snd] in H; inv resampler_ok RS_est.
Qed.
#[local] Hint Resolve RS_DoSeekComplete : inv.

Lemma RS_ProcessDataSector {xa : CDXA} (s s' : State) :
  ProcessDataSector s = Ok s' -> resampler_ok s -> resampler_ok s'.
Proof.
  unfold ProcessDataSector. intros H P. cbv zeta in H.
  repeat match type of H with
         | context [snd (if ?c then _ else _)] => destruct c; cbn [fst snd] in H
         end.
  all: inv resampler_ok RS_est.
Qed.
#[local] Hint Resolve RS_ProcessDataSector : inv.

Lemma RS_DoSectorRead {xa : CDXA} (s s' : State) : DoSectorRead s = Ok s' -> resampler_ok s -> resampler_ok s'.
Proof. unfold DoSectorRead. intros H P. cbv zeta in H. inv resampler_ok RS_est. Qed.
#[local] Hint Resolve RS_DoSectorRead : inv.

Lemma RS_LoadDataFIFO (s s' : State) : LoadDataFIFO s = Ok s' -> resampler_ok s -> resampler_ok s'.
Proof. unfold LoadDataFIFO. intros H P. inv resampler_ok RS_est. Qed.
#[local] Hint Resolve RS_LoadDataFIFO : inv.

Section RSDispatch.

Context {xa : CDXA}.
Variable Synchronize : State -> res State.
Hypothesis RS_Synchronize : forall s s', Synchronize s = Ok s' -> resampler_ok s -> resampler_ok s'.
Hint Resolve RS_Synchronize : inv.

Lemma RS_NextCommandStage (w : bool) (t : Z) (s s' : State) :
  Dispatch.NextCommandStage Synchronize w t s = Ok s' -> resampler_ok s -> resampler_ok s'.
Proof. unfold Dispatch.NextCommandStage. intros H P. cbv zeta in H. inv resampler_ok RS_est. Qed.
Hint Resolve RS_NextCommandStage : inv.

Lemma RS_ExecuteTestCommand (c : Z) (s s' : State) :
  Dispatch.ExecuteTestCommand c s = Ok s' -> resampler_ok s -> resampler_ok s'.
Proof. unfold Dispatch.ExecuteTestCommand. intros H P. inv resampler_ok RS_est. Qed.
Hint Resolve RS_ExecuteTestCommand : inv.

Lemma RS_ExecuteCommand (s s' : State) :
  Dispatch.ExecuteCommand Synchronize s = Ok s' -> resampler_ok s -> resampler_ok s'.
Proof. unfold Dispatch.ExecuteCommand. intros H P. cbv zeta in H. inv resampler_ok RS_est. Qed.
Hint Resolve RS_ExecuteCommand : inv.

Lemma RS_Execute (ticks : Z) (s s' : State) :
  Dispatch.Execute Synchronize ticks s = Ok s' -> resampler_ok s -> resampler_ok s'.
Proof. unfold Dispatch.Execute. intros H P. cbv zeta in H. inv resampler_ok RS_est. Qed.

Lemma RS_BeginCommand (c : Z) (s s' : State) :
  Dispatch.BeginCommand Synchronize c s = Ok s' -> resampler_ok s -> resampler_ok s'.
Proof. unfold Dispatch.BeginCommand. intros H P. cbv zeta in H. inv resampler_ok RS_est. Qed.
Hint Resolve RS_BeginCommand : inv.

Lemma RS_WriteRegister (offset value : Z) (s s' : State) :
  Dispatch.WriteRegister Synchronize offset value s = Ok s' ->
  resampler_ok s -> resampler_ok s'.
Proof.
  unfold Dispatch.WriteRegister. intros H P. cbv zeta in H.
  destruct (offset =? 0); [inv resampler_ok RS_est|].
  destruct (offset =? 1); [inv resampler_ok RS_est|].
  destruct (offset =? 2); [inv resampler_ok RS_est|].
  destruct (offset =? 3); [|inv resampler_ok RS_est].
  destruct (status_index s =? 0); [inv resampler_ok RS_est|].
  destruct (status_index s =? 1); [|inv resampler_ok RS_est].
  pose proof RS_DeliverAsyncInterrupt. inv resampler_ok RS_est.
Qed.

End RSDispatch.

Section RSScheduler.

Context {xa : CDXA}.

Lemma RS_Execute_top (ticks : Z) (s s' : State) :
  Execute ticks s = Ok s' -> resampler_ok s -> resampler_ok s'.
Proof.
  unfold Execute. apply RS_Execute.
  all: intros s1 s2 E Q; unfold SynchronizeNested in E; injection E as <-; exact Q.
Qed.

Lemma RS_Synchronize_top (s s' : State) :
  Synchronize s = Ok s' -> resampler_ok s -> resampler_ok s'.
Proof.
  unfold Synchronize. destruct (pending_ticks s =? 0).
  - intros H P. injection H as <-. exact P.
  - intros H P. apply (RS_Execute_top _ _ _ H). exact P.
Qed.

Lemma RS_Reset (s : State) : resampler_ok (Reset s).
Proof.
  unfold Reset. destruct (media s); unfold resampler_ok; repeat split;
    vm_compute; congruence.
Qed.

Lemma RS_step (o : Op) (s s' : State) :
  resampler_ok s -> apply_op o s = Ok s' -> resampler_ok s'.
Proof.
  intros P H.
  destruct o as [ | opened | | offset | offset value | word_count | ticks | ];
    cbn [apply_op] in H.
  - injection H as <-. apply RS_Reset.
  - injection H as <-. unfold InsertMedia. destruct opened; cbn [snd]; [|exact P].
    destruct (HasMedia s); inv_back resampler_ok RS_est.
  - injection H as <-. inv_back resampler_ok RS_est.
  - unfold ReadRegister in H. repeat run_step; cbn [snd]; inv_back resampler_ok RS_est.
  - apply (RS_WriteRegister Synchronize RS_Synchronize_top _ _ _ _ H P).
  - unfold DMARead in H. cbv zeta in H.
    repeat run_step; cbn [snd]; inv_back resampler_ok RS_est.
  - destruct (0 <=? ticks); [|discriminate]. injection H as <-. exact P.
  - apply (RS_Synchronize_top _ _ H P).
Qed.

(** X24: the resampler never leaves its rings.  In every state reached
    from a reset the write pointer of the XA-ADPCM resampler is below 32,
    its phase counter is between 1 and 6 and both rings have their 32
    entries: no sector, whatever the decoder makes of it, makes the
    resampler write outside a ring or lets the phase counter wrap. *)
Theorem resampler_stays_inside_its_rings (s : State) :
  reachable s -> resampler_ok s.
Proof.
  induction 1 as [s0|s o s' Hr IH Hstep].
  - apply RS_Reset.
  - apply (RS_step o s s' IH Hstep).
Qed.

End RSScheduler.

Lemma resampler_witness : resampler_ok (after xa_playback).
Proof.
  apply (resampler_stays_inside_its_rings (xa := example_xa) (after xa_playback)).
  apply after_reachable. vm_compute. reflexivity.
Defined.
(** ** The drive does one thing at a time *)

Lemma DR_StopReading (s : State) : drive_ok s -> drive_ok (StopReading s).
Proof.
  intros P. destruct (IsActive s) eqn:E.
  - unfold drive_ok. rewrite IsActive_StopReading.
    rewrite !secondary_StopReading by (vm_compute; discriminate).
    rewrite E. cbn. split; [reflexivity|discriminate].
  - unfold StopReading. rewrite E. exact P.
Qed.

Lemma DR_begin_reading_now (cdda : bool) (s : State) : drive_ok (begin_reading_now cdda s).
Proof.
  destruct (begin_reading_now_bits cdda s) as (B1 & B2 & B3 & B4).
  unfold drive_ok. rewrite B1, B2, B3, B4.
  split; [destruct cdda; reflexivity|reflexivity].
Qed.

Lemma DR_clear_seeking (s : State) :
  drive_ok s -> drive_ok (set_secondary SecondaryBit.seeking false s).
Proof.
  intros (P1 & P2). unfold drive_ok, IsActive in *.
  rewrite secondary_set_same by (vm_compute; discriminate).
  rewrite !secondary_set_other by (vm_compute; discriminate).
  destruct (secondary SecondaryBit.seeking s), (secondary SecondaryBit.reading s),
    (secondary SecondaryBit.playing_cdda s); cbn in *; split; auto; discriminate.
Qed.

Lemma DR_motor_only (s : State) :
  drive_ok (set_secondary SecondaryBit.motor_on true (set_secondary_status 0 s)).
Proof. unfold drive_ok. split; [reflexivity|]. intros _. reflexivity. Qed.

Ltac DR_est :=
  idtac;
  match goal with
  | |- drive_ok (StopReading _) => apply DR_StopReading
  | |- drive_ok (begin_reading_now _ _) => apply DR_begin_reading_now
  | |- drive_ok (set_secondary SecondaryBit.seeking false _) => apply DR_clear_seeking
  | |- drive_ok (set_secondary SecondaryBit.motor_on true (set_secondary_status 0 _)) =>
      apply DR_motor_only
  end.

Lemma DR_SetInterrupt (i : Z) (s : State) : drive_ok (SetInterrupt i s) = drive_ok s.
Proof. unfold SetInterrupt. destruct (HasPendingInterrupt _); reflexivity. Qed.

Lemma DR_ResampleXAADPCM (a b : bool) (l : list Z) (n : Z) (M : VolumeMatrix) (s : State) :
  drive_ok (ResampleXAADPCM a b l n M s) = drive_ok s.
Proof.
  unfold ResampleXAADPCM.
  destruct (resample_loop _ _ _ _ _ _) as [[[ring p] six] out]. reflexivity.
Qed.

Lemma DR_ProcessXAADPCMSector {xa : CDXA} (s : State) : drive_ok (ProcessXAADPCMSector s) = drive_ok s.
Proof.
  unfold ProcessXAADPCMSector.
  destruct (_ || _); [reflexivity|].
  destruct (IsStereo _); rewrite DR_ResampleXAADPCM; reflexivity.
Qed.

Lemma DR_ProcessCDDASector (s : State) : drive_ok (ProcessCDDASector s) = drive_ok s.
Proof. unfold ProcessCDDASector. destruct (negb _); reflexivity. Qed.

Lemma DR_RemoveMedia (s : State) : drive_ok (RemoveMedia s) = drive_ok s.
Proof. unfold RemoveMedia. destruct (media s); reflexivity. Qed.

#[local] Hint Rewrite DR_SetInterrupt DR_ResampleXAADPCM @DR_ProcessXAADPCMSector
  DR_ProcessCDDASector DR_RemoveMedia : inv_rw.

Lemma DR_DeliverAsyncInterrupt (s s' : State) :
  DeliverAsyncInterrupt s = Ok s' -> drive_ok s -> drive_ok s'.
Proof. unfold DeliverAsyncInterrupt. intros H P. inv drive_ok DR_est. Qed.
#[local] Hint Resolve DR_DeliverAsyncInterrupt : inv.

Lemma DR_SetAsyncInterrupt (i : Z) (s s' : State) :
  SetAsyncInterrupt i s = Ok s' -> drive_ok s -> drive_ok s'.
Proof. unfold SetAsyncInterrupt. intros H P. inv drive_ok DR_est. Qed.
#[local] Hint Resolve DR_SetAsyncInterrupt : inv.

Lemma DR_PushResponse (v : Z) (s s' : State) : PushResponse v s = Ok s' -> drive_ok s -> drive_ok s'.
Proof. unfold PushResponse. intros H P. inv drive_ok DR_est. Qed.
#[local] Hint Resolve DR_PushResponse : inv.

Lemma DR_PushResponseRange (vs : list Z) (s s' : State) :
  PushResponseRange vs s = Ok s' -> drive_ok s -> drive_ok s'.
Proof. unfold PushResponseRange. intros H P. inv drive_ok DR_est. Qed.
#[local] Hint Resolve DR_PushResponseRange : inv.

Lemma DR_PushAsyncResponse (v : Z) (s s' : State) :
  PushAsyncResponse v s = Ok s' -> drive_ok s -> drive_ok s'.
Proof. unfold PushAsyncResponse. intros H P. inv drive_ok DR_est. Qed.
#[local] Hint Resolve DR_PushAsyncResponse : inv.

Lemma DR_SendACKAndStat (s s' : State) : SendACKAndStat s = Ok s' -> drive_ok s -> drive_ok s'.
Proof. unfold SendACKAndStat. intros H P. inv drive_ok DR_est. Qed.
#[local] Hint Resolve DR_SendACKAndStat : inv.

Lemma DR_SendErrorResponse (r : Z) (s s' : State) :
  SendErrorResponse r s = Ok s' -> drive_ok s -> drive_ok s'.
Proof. unfold SendErrorResponse. intros H P. inv drive_ok DR_est. Qed.
#[local] Hint Resolve DR_SendErrorResponse : inv.

Lemma DR_SendAsyncErrorResponse (r : Z) (s s' : State) :
  SendAsyncErrorResponse r s = Ok s' -> drive_ok s -> drive_ok s'.
Proof. unfold SendAsyncErrorResponse. intros H P. inv drive_ok DR_est. Qed.
#[local] Hint Resolve DR_SendAsyncErrorResponse : inv.

Lemma DR_BeginSeeking (s s' : State) : BeginSeeking s = Ok s' -> drive_ok s -> drive_ok s'.
Proof.
  unfold BeginSeeking, Assert. intros H _. cbv zeta in H.
  match type of H with
  | context [IsReadingOrPlaying ?x] =>
      change (IsReadingOrPlaying x) with (IsReadingOrPlaying s) in H
  end.
  destruct (IsReadingOrPlaying s) eqn:Er; cbn [negb] in H; [discriminate|].
  repeat run_step. unfold SetDowncount.
  unfold drive_ok, IsActive.
  repeat match goal with
         | |- context [secondary ?b (set_downcount ?d ?x)] =>
             change (secondary b (set_downcount d x)) with (secondary b x)
         | |- context [secondary ?b (set_read_or_seek_remaining_ticks ?d ?x)] =>
             change (secondary b (set_read_or_seek_remaining_ticks d x)) with (secondary b x)
         end.
  rewrite !secondary_set_same by (vm_compute; discriminate).
  rewrite !(secondary_set_other SecondaryBit.seeking) by (vm_compute; discriminate).
  rewrite !secondary_set_same by (vm_compute; discriminate).
  rewrite !(secondary_set_other SecondaryBit.motor_on) by (vm_compute; discriminate).
  unfold IsReadingOrPlaying in Er.
  change (secondary ?b (set_setloc_pending false (set_seek_position ?p s)))
    with (secondary b s).
  rewrite Er. split; reflexivity.
Qed.
#[local] Hint Resolve DR_BeginSeeking : inv.

Lemma DR_BeginReading (cdda : bool) (s s' : State) :
  BeginReading cdda s = Ok s' -> drive_ok s -> drive_ok s'.
Proof. unfold BeginReading. intros H P. inv drive_ok DR_est. Qed.
#[local] Hint Resolve DR_BeginReading : inv.

Lemma DR_DoSeekComplete (s s' : State) : DoSeekComplete s = Ok s' -> drive_ok s -> drive_ok s'.
Proof.
  unfold DoSeekComplete. intros H P. cbv zeta in H.
  change (media (set_secondary SecondaryBit.seeking false s)) with (media s) in H.
  destruct (media s); cbn [fst snd] in H; inv drive_ok DR_est.
Qed.
#[local] Hint Resolve DR_DoSeekComplete : inv.

Lemma DR_ProcessDataSector {xa : CDXA} (s s' : State) :
  ProcessDataSector s = Ok s' -> drive_ok s -> drive_ok s'.
Proof.
  unfold ProcessDataSector. intros H P. cbv zeta in H.
  repeat match type of H with
         | context [snd (if ?c then _ else _)] => destruct c; cbn [fst snd] in H
         end.
  all: inv drive_ok DR_est.
Qed.
#[local] Hint Resolve DR_ProcessDataSector : inv.

Lemma DR_DoSectorRead {xa : CDXA} (s s' : State) : DoSectorRead s = Ok s' -> drive_ok s -> drive_ok s'.
Proof. unfold DoSectorRead. intros H P. cbv zeta in H. inv drive_ok DR_est. Qed.
#[local] Hint Resolve DR_DoSectorRead : inv.

Lemma DR_LoadDataFIFO (s s' : State) : LoadDataFIFO s = Ok s' -> drive_ok s -> drive_ok s'.
Proof. unfold LoadDataFIFO. intros H P. inv drive_ok DR_est. Qed.
#[local] Hint Resolve DR_LoadDataFIFO : inv.

Section DRDispatch.

Context {xa : CDXA}.
Variable Synchronize : State -> res State.
Hypothesis DR_Synchronize : forall s s', Synchronize s = Ok s' -> drive_ok s -> drive_ok s'.
Hint Resolve DR_Synchronize : inv.

Lemma DR_NextCommandStage (w : bool) (t : Z) (s s' : State) :
  Dispatch.NextCommandStage Synchronize w t s = Ok s' -> drive_ok s -> drive_ok s'.
Proof. unfold Dispatch.NextCommandStage. intros H P. cbv zeta in H. inv drive_ok DR_est. Qed.
Hint Resolve DR_NextCommandStage : inv.

Lemma DR_ExecuteTestCommand (c : Z) (s s' : State) :
  Dispatch.ExecuteTestCommand c s = Ok s' -> drive_ok s -> drive_ok s'.
Proof. unfold Dispatch.ExecuteTestCommand. intros H P. inv drive_ok DR_est. Qed.
Hint Resolve DR_ExecuteTestCommand : inv.

Lemma DR_ExecuteCommand (s s' : State) :
  Dispatch.ExecuteCommand Synchronize s = Ok s' -> drive_ok s -> drive_ok s'.
Proof. unfold Dispatch.ExecuteCommand. intros H P. cbv zeta in H. inv drive_ok DR_est. Qed.
Hint Resolve DR_ExecuteCommand : inv.

Lemma DR_Execute (ticks : Z) (s s' : State) :
  Dispatch.Execute Synchronize ticks s = Ok s' -> drive_ok s -> drive_ok s'.
Proof. unfold Dispatch.Execute. intros H P. cbv zeta in H. inv drive_ok DR_est. Qed.

Lemma DR_BeginCommand (c : Z) (s s' : State) :
  Dispatch.BeginCommand Synchronize c s = Ok s' -> drive_ok s -> drive_ok s'.
Proof. unfold Dispatch.BeginCommand. intros H P. cbv zeta in H. inv drive_ok DR_est. Qed.
Hint Resolve DR_BeginCommand : inv.

Lemma DR_WriteRegister (offset value : Z) (s s' : State) :
  Dispatch.WriteRegister Synchronize offset value s = Ok s' ->
  drive_ok s -> drive_ok s'.
Proof.
  unfold Dispatch.WriteRegister. intros H P. cbv zeta in H.
  destruct (offset =? 0); [inv drive_ok DR_est|].
  destruct (offset =? 1); [inv drive_ok DR_est|].
  destruct (offset =? 2); [inv drive_ok DR_est|].
  destruct (offset =? 3); [|inv drive_ok DR_est].
  destruct (status_index s =? 0); [inv drive_ok DR_est|].
  destruct (status_index s =? 1); [|inv drive_ok DR_est].
  pose proof DR_DeliverAsyncInterrupt. inv drive_ok DR_est.
Qed.

End DRDispatch.

Section DRScheduler.

Context {xa : CDXA}.

Lemma DR_Execute_top (ticks : Z) (s s' : State) :
  Execute ticks s = Ok s' -> drive_ok s -> drive_ok s'.
Proof.
  unfold Execute. apply DR_Execute.
  all: intros s1 s2 E Q; unfold SynchronizeNested in E; injection E as <-; exact Q.
Qed.

Lemma DR_Synchronize_top (s s' : State) :
  Synchronize s = Ok s' -> drive_ok s -> drive_ok s'.
Proof.
  unfold Synchronize. destruct (pending_ticks s =? 0).
  - intros H P. injection H as <-. exact P.
  - intros H P. apply (DR_Execute_top _ _ _ H). exact P.
Qed.

Lemma DR_Reset (s : State) : drive_ok (Reset s).
Proof.
  unfold Reset. destruct (media s); unfold drive_ok; (split; [reflexivity|]);
    intros E; vm_compute in E; discriminate E.
Qed.

Lemma DR_step (o : Op) (s s' : State) :
  drive_ok s -> apply_op o s = Ok s' -> drive_ok s'.
Proof.
  intros P H.
  destruct o as [ | opened | | offset | offset value | word_count | ticks | ];
    cbn [apply_op] in H.
  - injection H as <-. apply DR_Reset.
  - injection H as <-. unfold InsertMedia. destruct opened; cbn [snd]; [|exact P].
    destruct (HasMedia s); inv_back drive_ok DR_est.
  - injection H as <-. inv_back drive_ok DR_est.
  - unfold ReadRegister in H. repeat run_step; cbn [snd]; inv_back drive_ok DR_est.
  - apply (DR_WriteRegister Synchronize DR_Synchronize_top _ _ _ _ H P).
  - unfold DMARead in H. cbv zeta in H.
    repeat run_step; cbn [snd]; inv_back drive_ok DR_est.
  - destruct (0 <=? ticks); [|discriminate]. injection H as <-. exact P.
  - apply (DR_Synchronize_top _ _ H P).
Qed.

(** X25: the drive does one thing at a time.  In every state reached from
    a reset at most one of the seeking, reading and playing bits of the
    secondary status is set, and whenever one of them is set the motor_on
    bit is set as well. *)
Theorem drive_does_one_thing_at_a_time (s : State) :
  reachable s -> drive_ok s.
Proof.
  induction 1 as [s0|s o s' Hr IH Hstep].
  - apply DR_Reset.
  - apply (DR_step o s s' IH Hstep).
Qed.

End DRScheduler.

Lemma drive_witness : drive_ok (after read_one_sector).
Proof.
  apply (drive_does_one_thing_at_a_time (xa := example_xa) (after read_one_sector)).
  apply after_reachable. vm_compute. reflexivity.
Defined.
(** ** One staged response at a time *)

Ltac HD_est := fail.

Lemma HD_SetInterrupt (i : Z) (s : State) : held_ok (SetInterrupt i s) = held_ok s.
Proof. unfold SetInterrupt. destruct (HasPendingInterrupt _); reflexivity. Qed.

Lemma HD_StopReading (s : State) : held_ok (StopReading s) = held_ok s.
Proof. unfold StopReading. destruct (negb _); reflexivity. Qed.

Lemma HD_ResampleXAADPCM (a b : bool) (l : list Z) (n : Z) (M : VolumeMatrix) (s : State) :
  held_ok (ResampleXAADPCM a b l n M s) = held_ok s.
Proof.
  unfold ResampleXAADPCM.
  destruct (resample_loop _ _ _ _ _ _) as [[[ring p] six] out]. reflexivity.
Qed.

Lemma HD_ProcessXAADPCMSector {xa : CDXA} (s : State) : held_ok (ProcessXAADPCMSector s) = held_ok s.
Proof.
  unfold ProcessXAADPCMSector.
  destruct (_ || _); [reflexivity|].
  destruct (IsStereo _); rewrite HD_ResampleXAADPCM; reflexivity.
Qed.

Lemma HD_ProcessCDDASector (s : State) : held_ok (ProcessCDDASector s) = held_ok s.
Proof. unfold ProcessCDDASector. destruct (negb _); reflexivity. Qed.

Lemma HD_RemoveMedia (s : State) : held_ok (RemoveMedia s) = held_ok s.
Proof. unfold RemoveMedia. destruct (media s); reflexivity. Qed.

#[local] Hint Rewrite HD_SetInterrupt HD_StopReading HD_ResampleXAADPCM
  @HD_ProcessXAADPCMSector HD_ProcessCDDASector HD_RemoveMedia : inv_rw.

Lemma HD_PushResponse (v : Z) (s s' : State) : PushResponse v s = Ok s' -> held_ok s -> held_ok s'.
Proof. unfold PushResponse. intros H P. inv held_ok HD_est. Qed.
#[local] Hint Resolve HD_PushResponse : inv.

Lemma HD_PushResponseRange (vs : list Z) (s s' : State) :
  PushResponseRange vs s = Ok s' -> held_ok s -> held_ok s'.
Proof. unfold PushResponseRange. intros H P. inv held_ok HD_est. Qed.
#[local] Hint Resolve HD_PushResponseRange : inv.

Lemma HD_SendACKAndStat (s s' : State) : SendACKAndStat s = Ok s' -> held_ok s -> held_ok s'.
Proof. unfold SendACKAndStat. intros H P. inv held_ok HD_est. Qed.
#[local] Hint Resolve HD_SendACKAndStat : inv.

Lemma HD_SendErrorResponse (r : Z) (s s' : State) :
  SendErrorResponse r s = Ok s' -> held_ok s -> held_ok s'.
Proof. unfold SendErrorResponse. intros H P. inv held_ok HD_est. Qed.
#[local] Hint Resolve HD_SendErrorResponse : inv.

Lemma HD_BeginSeeking (s s' : State) : BeginSeeking s = Ok s' -> held_ok s -> held_ok s'.
Proof. unfold BeginSeeking. intros H P. cbv zeta in H. inv held_ok HD_est. Qed.
#[local] Hint Resolve HD_BeginSeeking : inv.

Lemma HD_BeginReading (cdda : bool) (s s' : State) :
  BeginReading cdda s = Ok s' -> held_ok s -> held_ok s'.
Proof. unfold BeginReading. intros H P. inv held_ok HD_est. Qed.
#[local] Hint Resolve HD_BeginReading : inv.

Lemma SetAsyncInterrupt_needs_none (i : Z) (s s' : State) :
  SetAsyncInterrupt i s = Ok s' -> pending_async_interrupt s = 0.
Proof.
  unfold SetAsyncInterrupt, Assert.
  destruct (Z.eqb_spec (pending_async_interrupt s) 0) as [E|E]; [auto|discriminate].
Qed.

Lemma HD_DeliverAsyncInterrupt (s s' : State) :
  DeliverAsyncInterrupt s = Ok s' -> held_ok s -> held_ok s'.
Proof.
  unfold DeliverAsyncInterrupt, Assert. intros H (P1 & P2).
  destruct (_ && _); [|discriminate]. cbv zeta in H. injection H as <-.
  unfold held_ok, FIFO.PushFromQueue.
  cbn [pending_async_interrupt async_response_fifo response_fifo InterruptRequest
         set_irq_requests set_pending_async_interrupt set_interrupt_flag_register
         set_async_response_fifo set_response_fifo fst snd].
  change (Z.to_nat (RESPONSE_FIFO_SIZE - FIFO.GetSize [])) with 16%nat.
  destruct (async_response_fifo s) as [|a [|b [|c l]]].
  - split; [reflexivity|]. vm_compute. discriminate.
  - split; [reflexivity|]. vm_compute. discriminate.
  - split; [reflexivity|]. vm_compute. discriminate.
  - exfalso. unfold FIFO.GetSize in P2. cbn [length] in P2. lia.
Qed.
#[local] Hint Resolve HD_DeliverAsyncInterrupt : inv.

Lemma SetAsyncInterrupt_staged (i : Z) (s s' : State) :
  SetAsyncInterrupt i s = Ok s' -> u8 i <> 0 ->
  FIFO.GetSize (async_response_fifo s) <= 2 ->
  held_ok s'.
Proof.
  unfold SetAsyncInterrupt, Assert. intros H Hi Hsz.
  destruct (pending_async_interrupt s =? 0); [|discriminate]. cbv zeta in H.
  destruct (negb (HasPendingInterrupt (set_pending_async_interrupt (u8 i) s))).
  - apply (HD_DeliverAsyncInterrupt _ _ H).
    split; [|exact Hsz].
    cbn [pending_async_interrupt set_pending_async_interrupt]. intros E.
    exfalso. apply Hi. exact E.
  - injection H as <-. split; [|exact Hsz].
    cbn [pending_async_interrupt set_pending_async_interrupt]. intros E.
    exfalso. apply Hi. exact E.
Qed.

Lemma PushAsyncResponse_inv (v : Z) (s s' : State) :
  PushAsyncResponse v s = Ok s' ->
  s' = set_async_response_fifo (async_response_fifo s ++ [v]) s.
Proof.
  unfold PushAsyncResponse, FIFO.Push. intros H.
  destruct (FIFO.IsFull RESPONSE_FIFO_SIZE (async_response_fifo s)); cbn [bind] in H;
    [discriminate|].
  injection H as <-. reflexivity.
Qed.

(** One status byte staged and the interrupt asserted. *)
Lemma HD_stage_one (v i : Z) (s s1 s' : State) :
  PushAsyncResponse v s = Ok s1 -> SetAsyncInterrupt i s1 = Ok s' -> u8 i <> 0 ->
  held_ok s -> held_ok s'.
Proof.
  intros E1 E2 Hi (P1 & P2).
  pose proof (SetAsyncInterrupt_needs_none _ _ _ E2) as N.
  apply PushAsyncResponse_inv in E1. subst s1.
  cbn [pending_async_interrupt set_async_response_fifo] in N.
  apply (SetAsyncInterrupt_staged _ _ _ E2 Hi).
  cbn [async_response_fifo set_async_response_fifo].
  rewrite (P1 N). vm_compute. discriminate.
Qed.

Lemma HD_SendAsyncErrorResponse (r : Z) (s s' : State) :
  SendAsyncErrorResponse r s = Ok s' -> held_ok s -> held_ok s'.
Proof.
  unfold SendAsyncErrorResponse. intros H (P1 & P2).
  destruct (PushAsyncResponse (Z.lor (secondary_status s) 1) s) as [s1|] eqn:E1;
    cbn [bind] in H; [|discriminate].
  destruct (PushAsyncResponse r s1) as [s2|] eqn:E2; cbn [bind] in H; [|discriminate].
  pose proof (SetAsyncInterrupt_needs_none _ _ _ H) as N.
  apply PushAsyncResponse_inv in E1. apply PushAsyncResponse_inv in E2. subst s2 s1.
  cbn [pending_async_interrupt set_async_response_fifo] in N.
  apply (SetAsyncInterrupt_staged _ _ _ H); [vm_compute; discriminate|].
  cbn [async_response_fifo set_async_response_fifo].
  rewrite (P1 N). vm_compute. discriminate.
Qed.
#[local] Hint Resolve HD_SendAsyncErrorResponse : inv.

Lemma HD_DoSeekComplete (s s' : State) : DoSeekComplete s = Ok s' -> held_ok s -> held_ok s'.
Proof.
  unfold DoSeekComplete, Assert. intros H P.
  destruct (secondary SecondaryBit.seeking s); [|discriminate]. cbv zeta in H.
  set (s1 := set_secondary SecondaryBit.seeking false s) in H.
  assert (P1 : held_ok s1) by exact P.
  clearbody s1.
  assert (X : exists s2,
             snd (match media s1 with
                  | Some m =>
                      (fst (Image.SeekMSF (seek_position s1) m),
                       set_media (Some (snd (Image.SeekMSF (seek_position s1) m))) s1)
                  | None => (false, s1)
                  end) = s2
             /\ held_ok s2).
  { destruct (media s1) as [m|]; cbn [snd]; eexists; (split; [reflexivity|]); exact P1. }
  destruct X as (s2 & E2 & P2). rewrite E2 in H. clear E2.
  match type of H with
  | context [if ?c then _ else _] => destruct c
  end.
  - destruct (if play_after_seek s2 || read_after_seek s2
              then BeginReading (play_after_seek s2) s2 else Ok s2) as [s3|] eqn:E3;
      cbn [bind] in H; [|discriminate].
    assert (P3 : held_ok s3).
    { destruct (play_after_seek s2 || read_after_seek s2).
      - apply (HD_BeginReading _ _ _ E3 P2).
      - injection E3 as <-. exact P2. }
    destruct (PushAsyncResponse (secondary_status s3) s3) as [s4|] eqn:E4;
      cbn [bind] in H; [|discriminate].
    destruct (SetAsyncInterrupt INT2 s4) as [s5|] eqn:E5; cbn [bind] in H; [|discriminate].
    injection H as <-.
    assert (P5 : held_ok s5)
      by (apply (HD_stage_one _ _ _ _ _ E4 E5); [vm_compute; discriminate|exact P3]).
    exact P5.
  - destruct (SendAsyncErrorResponse 128 s2) as [s3|] eqn:E3; cbn [bind] in H;
      [|discriminate].
    injection H as <-.
    apply (HD_SendAsyncErrorResponse _ _ _ E3 P2).
Qed.
#[local] Hint Resolve HD_DoSeekComplete : inv.

Lemma HD_ProcessDataSector {xa : CDXA} (s s' : State) :
  ProcessDataSector s = Ok s' -> held_ok s -> held_ok s'.
Proof.
  intros H P. unfold ProcessDataSector in H. cbv zeta in H.
  match type of H with
  | context [set_last_sector_subheader ?h (set_last_sector_header ?g s)] =>
      set (s1 := set_last_sector_subheader h (set_last_sector_header g s)) in H
  end.
  assert (P1 : held_ok s1) by exact P.
  assert (X1 : held_ok (ProcessXAADPCMSector s1)) by (rewrite HD_ProcessXAADPCMSector; exact P1).
  clearbody s1.
  destruct (mode_bit ModeBit.xa_enable s1 && (header_sector_mode s1 =? 2)).
  - destruct (Z.testbit (subheader_submode s1) SubmodeBit.realtime
              && Z.testbit (subheader_submode s1) SubmodeBit.audio); cbn [fst snd] in H.
    + injection H as <-.
      match goal with |- context [if ?c then _ else _] => destruct c end;
        [exact P1|exact X1].
    + repeat run_step.
      apply (HD_stage_one _ _ _ _ _ E E0); [vm_compute; discriminate|exact P1].
  - cbn [fst snd] in H. repeat run_step.
    apply (HD_stage_one _ _ _ _ _ E E0); [vm_compute; discriminate|exact P1].
Qed.
#[local] Hint Resolve HD_ProcessDataSector : inv.

Lemma HD_CancelAsyncInterrupt (s : State) : held_ok (CancelAsyncInterrupt s).
Proof. split; [reflexivity|]. vm_compute. discriminate. Qed.

Lemma HD_DoSectorRead {xa : CDXA} (s s' : State) :
  DoSectorRead s = Ok s' -> held_ok s -> held_ok s'.
Proof.
  intros H P. unfold DoSectorRead in H. cbv zeta in H.
  set (s0 := if HasPendingAsyncInterrupt s then CancelAsyncInterrupt s else s) in H.
  assert (P0 : held_ok s0).
  { subst s0. destruct (HasPendingAsyncInterrupt s); [apply HD_CancelAsyncInterrupt|exact P]. }
  clearbody s0.
  unfold Assert in H. destruct (negb (mode_bit ModeBit.ignore_bit s0)); [|discriminate].
  change (media (set_sector_buffer (resize RAW_SECTOR_SIZE (sector_buffer s0)) s0))
    with (media s0) in H.
  destruct (media s0) as [m|]; [|discriminate].
  match type of H with
  | context [set_media ?a (set_sector_buffer ?b (set_sector_buffer ?c s0))] =>
      set (s1 := set_media a (set_sector_buffer b (set_sector_buffer c s0))) in H
  end.
  assert (P1 : held_ok s1) by exact P0.
  clearbody s1.
  destruct (secondary SecondaryBit.reading s1).
  - destruct (ProcessDataSector s1) as [s2|] eqn:E; cbn [bind] in H; [|discriminate].
    injection H as <-. apply (HD_ProcessDataSector _ _ E P1).
  - destruct (secondary SecondaryBit.playing_cdda s1); [|discriminate].
    assert (P2 : held_ok (ProcessCDDASector s1)) by (rewrite HD_ProcessCDDASector; exact P1).
    set (s2 := ProcessCDDASector s1) in *. clearbody s2.
    cbn [bind] in H. injection H as <-. exact P2.
Qed.
#[local] Hint Resolve HD_DoSectorRead : inv.

Lemma HD_LoadDataFIFO (s s' : State) : LoadDataFIFO s = Ok s' -> held_ok s -> held_ok s'.
Proof. unfold LoadDataFIFO. intros H P. inv held_ok HD_est. Qed.
#[local] Hint Resolve HD_LoadDataFIFO : inv.

Section HDDispatch.

Context {xa : CDXA}.
Variable Synchronize : State -> res State.
Hypothesis HD_Synchronize : forall s s', Synchronize s = Ok s' -> held_ok s -> held_ok s'.
Hint Resolve HD_Synchronize : inv.

Lemma HD_NextCommandStage (w : bool) (t : Z) (s s' : State) :
  Dispatch.NextCommandStage Synchronize w t s = Ok s' -> held_ok s -> held_ok s'.
Proof. unfold Dispatch.NextCommandStage. intros H P. cbv zeta in H. inv held_ok HD_est. Qed.
Hint Resolve HD_NextCommandStage : inv.

Lemma HD_ExecuteTestCommand (c : Z) (s s' : State) :
  Dispatch.ExecuteTestCommand c s = Ok s' -> held_ok s -> held_ok s'.
Proof. unfold Dispatch.ExecuteTestCommand. intros H P. inv held_ok HD_est. Qed.
Hint Resolve HD_ExecuteTestCommand : inv.

Lemma HD_ExecuteCommand (s s' : State) :
  Dispatch.ExecuteCommand Synchronize s = Ok s' -> held_ok s -> held_ok s'.
Proof. unfold Dispatch.ExecuteCommand. intros H P. cbv zeta in H. inv held_ok HD_est. Qed.
Hint Resolve HD_ExecuteCommand : inv.

Lemma HD_Execute (ticks : Z) (s s' : State) :
  Dispatch.Execute Synchronize ticks s = Ok s' -> held_ok s -> held_ok s'.
Proof. unfold Dispatch.Execute. intros H P. cbv zeta in H. inv held_ok HD_est. Qed.

Lemma HD_BeginCommand (c : Z) (s s' : State) :
  Dispatch.BeginCommand Synchronize c s = Ok s' -> held_ok s -> held_ok s'.
Proof. unfold Dispatch.BeginCommand. intros H P. cbv zeta in H. inv held_ok HD_est. Qed.
Hint Resolve HD_BeginCommand : inv.

Lemma HD_WriteRegister (offset value : Z) (s s' : State) :
  Dispatch.WriteRegister Synchronize offset value s = Ok s' ->
  held_ok s -> held_ok s'.
Proof.
  unfold Dispatch.WriteRegister. intros H P. cbv zeta in H.
  destruct (offset =? 0); [inv held_ok HD_est|].
  destruct (offset =? 1); [inv held_ok HD_est|].
  destruct (offset =? 2); [inv held_ok HD_est|].
  destruct (offset =? 3); [|inv held_ok HD_est].
  destruct (status_index s =? 0); [inv held_ok HD_est|].
  destruct (status_index s =? 1); [|inv held_ok HD_est].
  pose proof HD_DeliverAsyncInterrupt. inv held_ok HD_est.
Qed.

End HDDispatch.

Section HDScheduler.

Context {xa : CDXA}.

Lemma HD_Execute_top (ticks : Z) (s s' : State) :
  Execute ticks s = Ok s' -> held_ok s -> held_ok s'.
Proof.
  unfold Execute. apply HD_Execute.
  all: intros s1 s2 E Q; unfold SynchronizeNested in E; injection E as <-; exact Q.
Qed.

Lemma HD_Synchronize_top (s s' : State) :
  Synchronize s = Ok s' -> held_ok s -> held_ok s'.
Proof.
  unfold Synchronize. destruct (pending_ticks s =? 0).
  - intros H P. injection H as <-. exact P.
  - intros H P. apply (HD_Execute_top _ _ _ H). exact P.
Qed.

Lemma HD_Reset (s : State) : held_ok (Reset s).
Proof.
  unfold Reset. destruct (media s); (split; [reflexivity|]); vm_compute; discriminate.
Qed.

Lemma HD_step (o : Op) (s s' : State) :
  held_ok s -> apply_op o s = Ok s' -> held_ok s'.
Proof.
  intros P H.
  destruct o as [ | opened | | offset | offset value | word_count | ticks | ];
    cbn [apply_op] in H.
  - injection H as <-. apply HD_Reset.
  - injection H as <-. unfold InsertMedia. destruct opened; cbn [snd]; [|exact P].
    destruct (HasMedia s); inv_back held_ok HD_est.
  - injection H as <-. inv_back held_ok HD_est.
  - unfold ReadRegister in H. repeat run_step; cbn [snd]; inv_back held_ok HD_est.
  - apply (HD_WriteRegister Synchronize HD_Synchronize_top _ _ _ _ H P).
  - unfold DMARead in H. cbv zeta in H.
    repeat run_step; cbn [snd]; inv_back held_ok HD_est.
  - destruct (0 <=? ticks); [|discriminate]. injection H as <-. exact P.
  - apply (HD_Synchronize_top _ _ H P).
Qed.

(** X26: one staged response at a time.  In every state reached from a
    reset the staged asynchronous response is empty unless an interrupt is
    held, and it never holds more than two bytes: the response delivered
    with an asynchronous interrupt consists of the bytes pushed for that
    interrupt and of nothing left over from an earlier one. *)
Theorem one_staged_response_at_a_time (s : State) :
  reachable s -> held_ok s.
Proof.
  induction 1 as [s0|s o s' Hr IH Hstep].
  - apply HD_Reset.
  - apply (HD_step o s s' IH Hstep).
Qed.

End HDScheduler.

Lemma staged_response_witness : held_ok (after read_unacknowledged).
Proof.
  apply (one_staged_response_at_a_time (xa := example_xa) (after read_unacknowledged)).
  apply after_reachable. vm_compute. reflexivity.
Defined.
